(** * The address-acquisition core of the CycloneTCP stack

    A shallow embedding of the three client engines of the repository
    (cyclone_tcp 1.6.4): the DHCPv4 client (dhcp/dhcp_client.c), the
    DHCPv6 client (dhcpv6/dhcpv6_client.c) and the SLAAC engine
    (ipv6/slaac.c), and the properties their specification states.

    The C functions become computations in a small state monad over a
    [World]: the engine context, the network interface it is bound to,
    the environment it reads (millisecond clock, random source, buffer
    allocator) and the trace of the calls it makes to its collaborators
    (mutex, UDP, NDP, user callbacks).

    Part I holds the definitions, Part II the theorems. *)

From Stdlib Require Import ZArith List Bool Lia.
From Stdlib Require Import Strings.Byte.
Import ListNotations.
Open Scope Z_scope.

(* ================================================================== *)
(** * Part I: definitions                                              *)
(* ================================================================== *)

(** ** Machine integers and byte order

    The target is a 32-bit Cortex-M3: [uint32_t], [systime_t], [uint_t]
    and [size_t] are 32 bits wide and unsigned arithmetic wraps. *)

Definition wrap32 (z : Z) : Z := z mod 2 ^ 32.
Definition wrap16 (z : Z) : Z := z mod 2 ^ 16.

(** The conversion to [int32_t] of a 32-bit pattern. *)
Definition int32 (z : Z) : Z :=
  let u := wrap32 z in if u <? 2 ^ 31 then u else u - 2 ^ 32.

(** Modelled from the spec: the timeCompare macro of os_port.h is not
    under src; the spec gives it as the wrap-safe signed difference
    [signed(a - b)], compared with zero by the callers. *)
Definition timeCompare (t1 t2 : Z) : Z := int32 (t1 - t2).

Definition MIN (a b : Z) : Z := if a <? b then a else b.

Definition u8 (b : byte) : Z := Z.of_N (Byte.to_N b).

Definition b8 (z : Z) : byte :=
  match Byte.of_N (Z.to_N (z mod 256)) with
  | Some b => b
  | None => x00
  end.

(** A read of the [i]-th byte behind a pointer. *)
Definition byteAt (p : list byte) (i : nat) : Z := u8 (nth i p x00).

Definition LOAD16BE (p : list byte) : Z :=
  byteAt p 0 * 2 ^ 8 + byteAt p 1.

Definition LOAD24BE (p : list byte) : Z :=
  byteAt p 0 * 2 ^ 16 + byteAt p 1 * 2 ^ 8 + byteAt p 2.

Definition LOAD32BE (p : list byte) : Z :=
  byteAt p 0 * 2 ^ 24 + byteAt p 1 * 2 ^ 16 + byteAt p 2 * 2 ^ 8 + byteAt p 3.

Definition STORE16BE (v : Z) : list byte :=
  [b8 (v / 2 ^ 8); b8 v].

Definition STORE24BE (v : Z) : list byte :=
  [b8 (v / 2 ^ 16); b8 (v / 2 ^ 8); b8 v].

Definition STORE32BE (v : Z) : list byte :=
  [b8 (v / 2 ^ 24); b8 (v / 2 ^ 16); b8 (v / 2 ^ 8); b8 v].

(** A struct field kept in network byte order is modelled by its bytes
    in memory: [htons]/[htonl] give the bytes of a host value and
    [ntohs]/[ntohl] read them back, whatever the byte order of the host. *)
Definition htons (v : Z) : list byte := STORE16BE (wrap16 v).
Definition htonl (v : Z) : list byte := STORE32BE (wrap32 v).
Definition ntohs (p : list byte) : Z := LOAD16BE p.
Definition ntohl (p : list byte) : Z := LOAD32BE p.

(** [memcmp(a, b, n) == 0] *)
Fixpoint memeq (a b : list byte) (n : nat) : bool :=
  match n with
  | O => true
  | S n' =>
      Byte.eqb (nth 0 a x00) (nth 0 b x00) && memeq (tl a) (tl b) n'
  end.

Definition len (p : list byte) : Z := Z.of_nat (length p).

(** ** Error codes (error.h) *)

Inductive error_t :=
| NO_ERROR
| ERROR_FAILURE
| ERROR_INVALID_PARAMETER
| ERROR_OUT_OF_MEMORY
| ERROR_OUT_OF_RESOURCES
| ERROR_INVALID_OPTION
| ERROR_INVALID_MESSAGE.

Definition is_error (e : error_t) : bool :=
  match e with NO_ERROR => false | _ => true end.

(** ** Pointers

    Each world holds one object of each kind; a pointer is either NULL
    or the address of that object. *)

Inductive pointer (T : Type) := NULL | Ref.
Arguments NULL {T}.
Arguments Ref {T}.

Definition isNull {T} (p : pointer T) : bool :=
  match p with NULL => true | Ref => false end.

(** The outcome of a function with no error return that reads through
    its argument: a value, or a dereference of NULL (undefined in C). *)
Inductive access (A : Type) :=
| Value (a : A)
| NullDereference.
Arguments Value {A} a.
Arguments NullDereference {A}.

(** ** Addresses *)

Definition MacAddr := list byte.
Definition Eui64 := list byte.
Definition Ipv4Addr := Z.
Definition Ipv6Addr := list byte.

Definition IPV4_UNSPECIFIED_ADDR : Ipv4Addr := 0.
Definition IPV4_BROADCAST_ADDR : Ipv4Addr := 0xFFFFFFFF.
Definition IPV6_UNSPECIFIED_ADDR : Ipv6Addr := repeat x00 16.
Definition IPV6_LINK_LOCAL_ADDR_PREFIX : Ipv6Addr :=
  [xfe; x80] ++ repeat x00 14.
Definition DHCPV6_ALL_RELAY_AGENTS_AND_SERVERS_ADDR : Ipv6Addr :=
  [xff; x02] ++ repeat x00 11 ++ [x01; x00; x02].

Inductive IpAddr :=
| IpAddr4 (a : Ipv4Addr)
| IpAddr6 (a : Ipv6Addr).

(** Address states of an interface slot (spec, section 3). *)
Inductive AddrState :=
| ADDR_STATE_INVALID
| ADDR_STATE_TENTATIVE
| ADDR_STATE_PREFERRED
| ADDR_STATE_VALID.

(** The 16-bit word [w[i]] of an address or identifier, as its two bytes. *)
Definition wordAt (a : list byte) (i : nat) : list byte :=
  [nth (2 * i) a x00; nth (2 * i + 1) a x00].

Definition macCompAddr (a b : MacAddr) : bool := memeq a b 6.
Definition ipv4CompAddr (a b : Ipv4Addr) : bool := a =? b.

(** Modelled from the spec: ipv6CompPrefix (ipv6.h) is not under src;
    it compares the leading [n] bits of two addresses, used here with
    whole bytes ([n] = 64). *)
Definition ipv6CompPrefix (a b : Ipv6Addr) (n : Z) : bool :=
  memeq a b (Z.to_nat (n / 8)).

(** ** The network interface (net.h is not under src)

    Modelled from the spec: the interface exposes its MAC address, link
    state, the IPv4 and IPv6 configuration and an interface id
    (section 3, "Interface binding"); the back-references to the
    engines are the fields the init functions assign. *)

Record Ipv4Config := mkIpv4Config {
  ipv4_addr : Ipv4Addr;
  ipv4_addrState : AddrState;
  ipv4_subnetMask : Ipv4Addr;
  ipv4_defaultGateway : Ipv4Addr;
  ipv4_dnsServer : list Ipv4Addr;
  ipv4_mtu : Z
}.

Record Ipv6Config := mkIpv6Config {
  linkLocalAddr : Ipv6Addr;
  linkLocalAddrState : AddrState;
  linkLocalAddrDup : bool;
  globalAddr : Ipv6Addr;
  globalAddrState : AddrState;
  globalAddrDup : bool;
  prefix : Ipv6Addr;
  prefixLength : Z;
  ipv6_dnsServer : list Ipv6Addr;
  retransTimer : Z
}.

Record NetInterface := mkNetInterface {
  if_id : Z;
  if_hostname : list byte;
  macAddr : MacAddr;
  linkState : bool;
  ipv4Config : Ipv4Config;
  ipv6Config : Ipv6Config;
  dhcpClientContext : bool;
  dhcpv6ClientContext : bool;
  slaacContext : bool
}.

Definition set_ipv4Config (v : Ipv4Config) (i : NetInterface) : NetInterface :=
  mkNetInterface (if_id i) (if_hostname i) (macAddr i) (linkState i) v
    (ipv6Config i) (dhcpClientContext i) (dhcpv6ClientContext i)
    (slaacContext i).

Definition set_ipv6Config (v : Ipv6Config) (i : NetInterface) : NetInterface :=
  mkNetInterface (if_id i) (if_hostname i) (macAddr i) (linkState i)
    (ipv4Config i) v (dhcpClientContext i) (dhcpv6ClientContext i)
    (slaacContext i).

Definition set_dhcpClientContext (v : bool) (i : NetInterface) : NetInterface :=
  mkNetInterface (if_id i) (if_hostname i) (macAddr i) (linkState i)
    (ipv4Config i) (ipv6Config i) v (dhcpv6ClientContext i) (slaacContext i).

Definition set_dhcpv6ClientContext (v : bool) (i : NetInterface) : NetInterface :=
  mkNetInterface (if_id i) (if_hostname i) (macAddr i) (linkState i)
    (ipv4Config i) (ipv6Config i) (dhcpClientContext i) v (slaacContext i).

Definition set_slaacContext (v : bool) (i : NetInterface) : NetInterface :=
  mkNetInterface (if_id i) (if_hostname i) (macAddr i) (linkState i)
    (ipv4Config i) (ipv6Config i) (dhcpClientContext i)
    (dhcpv6ClientContext i) v.

(** Writes [v] at index [i] of an array held as a list; an index past
    the end of the array leaves it as it is. *)
Fixpoint setNth {A} (i : nat) (v : A) (l : list A) : list A :=
  match l, i with
  | [], _ => []
  | _ :: t, O => v :: t
  | h :: t, S i' => h :: setNth i' v t
  end.

(** Direct writes to fields of [interface->ipv4Config] and
    [interface->ipv6Config]. *)
Definition set_ipv4_subnetMask (m : Ipv4Addr) (i : NetInterface) :=
  let c := ipv4Config i in
  set_ipv4Config
    (mkIpv4Config (ipv4_addr c) (ipv4_addrState c) m (ipv4_defaultGateway c)
       (ipv4_dnsServer c) (ipv4_mtu c)) i.

Definition set_ipv4_defaultGateway (g : Ipv4Addr) (i : NetInterface) :=
  let c := ipv4Config i in
  set_ipv4Config
    (mkIpv4Config (ipv4_addr c) (ipv4_addrState c) (ipv4_subnetMask c) g
       (ipv4_dnsServer c) (ipv4_mtu c)) i.

Definition set_ipv4_dnsServer (n : nat) (a : Ipv4Addr) (i : NetInterface) :=
  let c := ipv4Config i in
  set_ipv4Config
    (mkIpv4Config (ipv4_addr c) (ipv4_addrState c) (ipv4_subnetMask c)
       (ipv4_defaultGateway c) (setNth n a (ipv4_dnsServer c)) (ipv4_mtu c)) i.

Definition set_ipv6_dnsServer (n : nat) (a : Ipv6Addr) (i : NetInterface) :=
  let c := ipv6Config i in
  set_ipv6Config
    (mkIpv6Config (linkLocalAddr c) (linkLocalAddrState c) (linkLocalAddrDup c)
       (globalAddr c) (globalAddrState c) (globalAddrDup c) (prefix c)
       (prefixLength c) (setNth n a (ipv6_dnsServer c)) (retransTimer c)) i.

(** Modelled from the spec: the interface config mutators of ipv4.c and
    ipv6.c (section 6) are not under src; each one stores its arguments
    in the configuration of the interface. *)
Definition ipv4SetHostAddrEx (a : Ipv4Addr) (s : AddrState) (i : NetInterface) :=
  let c := ipv4Config i in
  set_ipv4Config
    (mkIpv4Config a s (ipv4_subnetMask c) (ipv4_defaultGateway c)
       (ipv4_dnsServer c) (ipv4_mtu c)) i.

Definition ipv4SetSubnetMask (m : Ipv4Addr) (i : NetInterface) :=
  set_ipv4_subnetMask m i.

Definition ipv4SetMtu (m : Z) (i : NetInterface) :=
  let c := ipv4Config i in
  set_ipv4Config
    (mkIpv4Config (ipv4_addr c) (ipv4_addrState c) (ipv4_subnetMask c)
       (ipv4_defaultGateway c) (ipv4_dnsServer c) m) i.

Definition ipv6SetLinkLocalAddrEx (a : Ipv6Addr) (s : AddrState) (i : NetInterface) :=
  let c := ipv6Config i in
  set_ipv6Config
    (mkIpv6Config a s (linkLocalAddrDup c) (globalAddr c) (globalAddrState c)
       (globalAddrDup c) (prefix c) (prefixLength c) (ipv6_dnsServer c)
       (retransTimer c)) i.

Definition set_linkLocalAddrState (s : AddrState) (i : NetInterface) :=
  let c := ipv6Config i in
  set_ipv6Config
    (mkIpv6Config (linkLocalAddr c) s (linkLocalAddrDup c) (globalAddr c)
       (globalAddrState c) (globalAddrDup c) (prefix c) (prefixLength c)
       (ipv6_dnsServer c) (retransTimer c)) i.

Definition ipv6SetGlobalAddrEx (a : Ipv6Addr) (s : AddrState) (i : NetInterface) :=
  let c := ipv6Config i in
  set_ipv6Config
    (mkIpv6Config (linkLocalAddr c) (linkLocalAddrState c) (linkLocalAddrDup c)
       a s (globalAddrDup c) (prefix c) (prefixLength c) (ipv6_dnsServer c)
       (retransTimer c)) i.

Definition set_globalAddrState (s : AddrState) (i : NetInterface) :=
  let c := ipv6Config i in
  set_ipv6Config
    (mkIpv6Config (linkLocalAddr c) (linkLocalAddrState c) (linkLocalAddrDup c)
       (globalAddr c) s (globalAddrDup c) (prefix c) (prefixLength c)
       (ipv6_dnsServer c) (retransTimer c)) i.

Definition ipv6SetPrefix (p : Ipv6Addr) (n : Z) (i : NetInterface) :=
  let c := ipv6Config i in
  set_ipv6Config
    (mkIpv6Config (linkLocalAddr c) (linkLocalAddrState c) (linkLocalAddrDup c)
       (globalAddr c) (globalAddrState c) (globalAddrDup c) p n
       (ipv6_dnsServer c) (retransTimer c)) i.

Definition ipv6SetDnsServer (n : nat) (a : Ipv6Addr) (i : NetInterface) :=
  set_ipv6_dnsServer n a i.

(** ** Messages on the wire *)

(** The BOOTP/DHCP message of dhcp_common.h (RFC 2131, section 2): the
    fixed header, the magic cookie and the options field.  Multi-byte
    integer fields are held in network byte order. *)
Record DhcpMessage := mkDhcpMessage {
  op : Z;
  htype : Z;
  hlen : Z;
  hops : Z;
  xid : list byte;
  secs : list byte;
  flags : list byte;
  ciaddr : Ipv4Addr;
  yiaddr : Ipv4Addr;
  siaddr : Ipv4Addr;
  giaddr : Ipv4Addr;
  chaddr : MacAddr;
  magicCookie : list byte;
  dhcp_options : list byte
}.

(** A DHCPv4 option as [dhcpGetOption] points to it. *)
Record DhcpOption := mkDhcpOption {
  opt_code : Z;
  opt_length : Z;
  opt_value : list byte
}.

(** The DHCPv6 message: 1-byte type, 3-byte transaction id, options. *)
Record Dhcpv6Message := mkDhcpv6Message {
  msgType : Z;
  transactionId6 : list byte;
  dhcpv6_options : list byte
}.

(** A DHCPv6 option as [dhcpv6GetOption] points to it: code and length
    in network byte order, then the value. *)
Record Dhcpv6Option := mkDhcpv6Option {
  opt6_code : list byte;
  opt6_length : list byte;
  opt6_value : list byte
}.

(** The Router Advertisement message: fixed header, then options. *)
Record NdpRouterAdvMessage := mkNdpRouterAdvMessage {
  ra_header : list byte;
  ra_options : list byte
}.

(** The Prefix Information option as the code reads it through
    [NdpPrefixInfoOption]. *)
Record NdpPrefixInfoOption := mkNdpPrefixInfoOption {
  pio_type : Z;
  pio_length : Z;
  pio_prefixLength : Z;
  pio_l : bool;
  pio_a : bool;
  pio_validLifetime : list byte;
  pio_preferredLifetime : list byte;
  pio_prefix : Ipv6Addr
}.

(** The Recursive DNS Server option, read through [NdpRdnssOption]. *)
Record NdpRdnssOption := mkNdpRdnssOption {
  rdnss_type : Z;
  rdnss_length : Z;
  rdnss_lifetime : list byte;
  rdnss_address : list Ipv6Addr
}.

(** ** The calls an engine makes to its collaborators *)

Inductive Payload :=
| PayloadDhcp (m : DhcpMessage)
| PayloadDhcpv6 (m : Dhcpv6Message).

Inductive Event :=
| EvCreateMutex
| EvDeleteMutex
| EvAcquireMutex
| EvReleaseMutex
| EvUdpAttachRxCallback (port : Z)
| EvUdpSendDatagram (srcPort : Z) (dest : IpAddr) (destPort : Z)
    (payload : Payload) (ttl : Z)
| EvNdpSendRouterSol
| EvNdpSendNeighborSol (target : Ipv6Addr) (multicast : bool)
| EvTimeoutEvent
| EvLinkChangeEvent (link : bool)
| EvStateChangeEvent (newState : Z)
| EvParseRouterAdvCallback (message : NdpRouterAdvMessage) (length : Z).

(** The outgoing datagrams: UDP sends and NDP solicitations. *)
Definition is_send (e : Event) : bool :=
  match e with
  | EvUdpSendDatagram _ _ _ _ _ => true
  | EvNdpSendRouterSol => true
  | EvNdpSendNeighborSol _ _ => true
  | _ => false
  end.

(** ** The world of an engine

    What a call reads from its surroundings: the millisecond tick
    counter (all readings within one call return the same value, the
    counter advances between calls), the stream of values of the random
    source, and whether the allocator, the mutex creation and the UDP
    callback registration succeed. *)
Record Env := mkEnv {
  env_time : Z;
  env_rand : nat -> Z;
  env_alloc : bool;
  env_createMutex : bool;
  env_attach : error_t
}.

Record World (C : Type) := mkWorld {
  ctx : C;
  netif : NetInterface;
  env : Env;
  randPos : nat;
  out : list Event
}.
Arguments mkWorld {C}.
Arguments ctx {C}.
Arguments netif {C}.
Arguments env {C}.
Arguments randPos {C}.
Arguments out {C}.

(** ** The state monad of the engines *)

Definition M (C A : Type) : Type := World C -> A * World C.

Definition ret {C A} (a : A) : M C A := fun w => (a, w).

Definition bind {C A B} (m : M C A) (k : A -> M C B) : M C B :=
  fun w => let '(a, w1) := m w in k a w1.

Declare Scope monad_scope.
Delimit Scope monad_scope with monad.
Notation "x <- m ;; k" := (bind m (fun x => k))
  (at level 61, m at next level, right associativity) : monad_scope.
Notation "m ;; k" := (bind m (fun _ => k))
  (at level 61, right associativity) : monad_scope.
Open Scope monad_scope.

Definition exec {C A} (m : M C A) (w : World C) : World C := snd (m w).
Definition eval {C A} (m : M C A) (w : World C) : A := fst (m w).

Definition getCtx {C} : M C C := fun w => (ctx w, w).
Definition getIf {C} : M C NetInterface := fun w => (netif w, w).

Definition modifyCtx {C} (f : C -> C) : M C unit :=
  fun w => (tt, mkWorld (f (ctx w)) (netif w) (env w) (randPos w) (out w)).

Definition modifyIf {C} (f : NetInterface -> NetInterface) : M C unit :=
  fun w => (tt, mkWorld (ctx w) (f (netif w)) (env w) (randPos w) (out w)).

Definition emit {C} (e : Event) : M C unit :=
  fun w => (tt, mkWorld (ctx w) (netif w) (env w) (randPos w) (out w ++ [e])).

Definition when {C} (b : bool) (m : M C unit) : M C unit :=
  if b then m else ret tt.

(** The for loop [for(i = 0; i < n; i++) body(i)]. *)
Fixpoint forUpTo {C} (n : nat) (body : nat -> M C unit) : M C unit :=
  match n with
  | O => ret tt
  | S n' => forUpTo n' body ;; body n'
  end.

Definition osGetSystemTime {C} : M C Z :=
  fun w => (wrap32 (env_time (env w)), w).

Definition osAcquireMutex {C} : M C unit := emit EvAcquireMutex.
Definition osReleaseMutex {C} : M C unit := emit EvReleaseMutex.

(** [netGetRand] yields the next 32-bit value of the random source. *)
Definition netGetRand {C} : M C Z :=
  fun w => (wrap32 (env_rand (env w) (randPos w)),
            mkWorld (ctx w) (netif w) (env w) (S (randPos w)) (out w)).

(** Modelled from the spec: netGetRandRange (net.c) is not under src;
    it yields a bounded integer of [lo, hi], taken here from the random
    source the way dhcpv6RandRange does. *)
Definition netGetRandRange {C} (lo hi : Z) : M C Z :=
  r <- netGetRand ;;
  ret (lo + r mod (hi - lo + 1)).

(** [udpAllocBuffer] followed by the test of its result. *)
Definition udpAllocBuffer {C} : M C bool :=
  fun w => (env_alloc (env w), w).

Definition udpSendDatagramEx {C} (srcPort : Z) (dest : IpAddr) (destPort : Z)
    (payload : Payload) (ttl : Z) : M C error_t :=
  emit (EvUdpSendDatagram srcPort dest destPort payload ttl) ;;
  ret NO_ERROR.

Definition ndpSendRouterSol {C} : M C unit := emit EvNdpSendRouterSol.

Definition ndpSendNeighborSol {C} (target : Ipv6Addr) (multicast : bool)
  : M C unit := emit (EvNdpSendNeighborSol target multicast).

(* ------------------------------------------------------------------ *)
(** ** The SLAAC engine (ipv6/slaac.c)                                 *)
(* ------------------------------------------------------------------ *)

Module Slaac.

(** The states of the engine.  slaac.h is not under src: the values
    follow the order in which the spec lists the states. *)
Definition SLAAC_STATE_INIT : Z := 0.
Definition SLAAC_STATE_LINK_LOCAL_ADDR_DAD : Z := 1.
Definition SLAAC_STATE_ROUTER_SOLICIT : Z := 2.
Definition SLAAC_STATE_GLOBAL_ADDR_DAD : Z := 3.
Definition SLAAC_STATE_CONFIGURED : Z := 4.
Definition SLAAC_STATE_NO_ROUTER : Z := 5.
Definition SLAAC_STATE_DAD_FAILURE : Z := 6.

(** The declared set of states. *)
Definition validState (s : Z) : Prop := 0 <= s <= 6.

(** NDP option types (RFC 4861, RFC 6106) and the Universal/Local bit
    of the first byte of a MAC address (ethernet.h). *)
Definition NDP_OPT_PREFIX_INFORMATION : Z := 3.
Definition NDP_OPT_RECURSIVE_DNS_SERVER : Z := 25.
Definition MAC_ADDR_FLAG_LOCAL : Z := 0x02.

Record SlaacSettings := mkSlaacSettings {
  interface : pointer NetInterface;
  minRtrSolicitationDelay : Z;
  maxRtrSolicitationDelay : Z;
  rtrSolicitationInterval : Z;
  maxRtrSolicitations : Z;
  dupAddrDetectTransmits : Z;
  manualDnsConfig : bool;
  parseRouterAdvCallback : bool
}.

(** The context; its mutex is seen through the acquire and release
    calls of the trace. *)
Record SlaacContext := mkSlaacContext {
  settings : SlaacSettings;
  running : bool;
  state : Z;
  timestamp : Z;
  timeout : Z;
  retransmitCount : Z
}.

Definition set_running (v : bool) (c : SlaacContext) : SlaacContext :=
  mkSlaacContext (settings c) v (state c) (timestamp c) (timeout c)
    (retransmitCount c).

Definition set_state (v : Z) (c : SlaacContext) : SlaacContext :=
  mkSlaacContext (settings c) (running c) v (timestamp c) (timeout c)
    (retransmitCount c).

Definition set_timestamp (v : Z) (c : SlaacContext) : SlaacContext :=
  mkSlaacContext (settings c) (running c) (state c) v (timeout c)
    (retransmitCount c).

Definition set_timeout (v : Z) (c : SlaacContext) : SlaacContext :=
  mkSlaacContext (settings c) (running c) (state c) (timestamp c) v
    (retransmitCount c).

Definition set_retransmitCount (v : Z) (c : SlaacContext) : SlaacContext :=
  mkSlaacContext (settings c) (running c) (state c) (timestamp c) (timeout c)
    v.

(** [memset(context, 0, sizeof(SlaacContext))] then
    [context->settings = *settings]. *)
Definition clearedContext (s : SlaacSettings) : SlaacContext :=
  mkSlaacContext s false 0 0 0 0.

(** What ndp.c and ndp.h supply, neither under src: the search for the
    first option of a type in an Options field (a pointer to the
    option, or NULL), the layouts through which the engine reads the
    option found, and the size of the Router Advertisement header. *)
Record Ndp := mkNdp {
  ndpGetOption : list byte -> Z -> Z -> option (list byte);
  asPrefixInfoOption : list byte -> NdpPrefixInfoOption;
  asRdnssOption : list byte -> NdpRdnssOption;
  sizeofNdpRouterAdvMessage : Z
}.

Definition osCreateMutex : M SlaacContext bool :=
  emit EvCreateMutex ;;
  fun w => (env_createMutex (env w), w).

(** macAddrToEui64 *)
Definition macAddrToEui64 (mac : MacAddr) : Eui64 :=
  let b i := nth i mac x00 in
  [ b8 (Z.lxor (u8 (b 0%nat)) MAC_ADDR_FLAG_LOCAL); b 1%nat; b 2%nat;
    xff; xfe;
    b 3%nat; b 4%nat; b 5%nat ].

(** slaacInit *)
Definition slaacInit (context : pointer SlaacContext)
    (settings : option SlaacSettings) : M SlaacContext error_t :=
  match context, settings with
  | NULL, _ | _, None => ret ERROR_INVALID_PARAMETER
  | Ref, Some s =>
      if isNull (interface s) then ret ERROR_INVALID_PARAMETER
      else
        modifyCtx (fun _ => clearedContext s) ;;
        ok <- osCreateMutex ;;
        if negb ok then ret ERROR_OUT_OF_RESOURCES
        else
          modifyCtx (set_running false) ;;
          modifyCtx (set_state SLAAC_STATE_INIT) ;;
          modifyIf (set_slaacContext true) ;;
          ret NO_ERROR
  end.

(** slaacStart *)
Definition slaacStart (context : pointer SlaacContext)
  : M SlaacContext error_t :=
  match context with
  | NULL => ret ERROR_INVALID_PARAMETER
  | Ref =>
      osAcquireMutex ;;
      modifyCtx (set_running true) ;;
      modifyCtx (set_state SLAAC_STATE_INIT) ;;
      osReleaseMutex ;;
      ret NO_ERROR
  end.

(** slaacStop *)
Definition slaacStop (context : pointer SlaacContext)
  : M SlaacContext error_t :=
  match context with
  | NULL => ret ERROR_INVALID_PARAMETER
  | Ref =>
      osAcquireMutex ;;
      modifyCtx (set_running false) ;;
      modifyCtx (set_state SLAAC_STATE_INIT) ;;
      osReleaseMutex ;;
      ret NO_ERROR
  end.

(** slaacGetState: no test of the pointer, and no error code in the
    return type. *)
Definition slaacGetState (context : pointer SlaacContext)
  : M SlaacContext (access Z) :=
  match context with
  | NULL => ret NullDereference
  | Ref =>
      osAcquireMutex ;;
      c <- getCtx ;;
      let st := state c in
      osReleaseMutex ;;
      ret (Value st)
  end.

(** The link-local address [fe80::/64 | interface id] formed in the
    INIT state. *)
Definition formLinkLocalAddr (interfaceId : Eui64) : Ipv6Addr :=
  htons 0xFE80 ++ htons 0x0000 ++ htons 0x0000 ++ htons 0x0000 ++
  wordAt interfaceId 0 ++ wordAt interfaceId 1 ++
  wordAt interfaceId 2 ++ wordAt interfaceId 3.

(** The global address [prefix | interface id]. *)
Definition formGlobalAddr (pfx : Ipv6Addr) (interfaceId : Eui64) : Ipv6Addr :=
  wordAt pfx 0 ++ wordAt pfx 1 ++ wordAt pfx 2 ++ wordAt pfx 3 ++
  wordAt interfaceId 0 ++ wordAt interfaceId 1 ++
  wordAt interfaceId 2 ++ wordAt interfaceId 3.

(** slaacTick.  slaacDumpConfig only prints and is left out. *)
Definition slaacTick : M SlaacContext unit :=
  time <- osGetSystemTime ;;
  osAcquireMutex ;;
  c <- getCtx ;;
  i <- getIf ;;
  (if state c =? SLAAC_STATE_INIT then
     if running c && linkState i then
       let interfaceId := macAddrToEui64 (macAddr i) in
       let linkLocal := formLinkLocalAddr interfaceId in
       modifyIf (ipv6SetLinkLocalAddrEx linkLocal ADDR_STATE_TENTATIVE) ;;
       modifyCtx (set_timestamp time) ;;
       modifyCtx (set_timeout 0) ;;
       modifyCtx (set_retransmitCount 0) ;;
       modifyCtx (set_state SLAAC_STATE_LINK_LOCAL_ADDR_DAD)
     else ret tt
   else if state c =? SLAAC_STATE_LINK_LOCAL_ADDR_DAD then
     if timeCompare time (wrap32 (timestamp c + timeout c)) >=? 0 then
       if linkLocalAddrDup (ipv6Config i) then
         modifyIf (ipv6SetLinkLocalAddrEx IPV6_UNSPECIFIED_ADDR
                     ADDR_STATE_INVALID) ;;
         modifyCtx (set_state SLAAC_STATE_DAD_FAILURE)
       else if retransmitCount c <? dupAddrDetectTransmits (settings c) then
         ndpSendNeighborSol (linkLocalAddr (ipv6Config i)) true ;;
         modifyCtx (set_timestamp time) ;;
         modifyCtx (set_timeout (retransTimer (ipv6Config i))) ;;
         modifyCtx (set_retransmitCount (wrap32 (retransmitCount c + 1)))
       else
         modifyIf (set_linkLocalAddrState ADDR_STATE_PREFERRED) ;;
         modifyCtx (set_timestamp time) ;;
         delay <- netGetRandRange (minRtrSolicitationDelay (settings c))
                    (maxRtrSolicitationDelay (settings c)) ;;
         modifyCtx (set_timeout (wrap32 delay)) ;;
         modifyCtx (set_retransmitCount 0) ;;
         modifyCtx (set_state SLAAC_STATE_ROUTER_SOLICIT)
     else ret tt
   else if state c =? SLAAC_STATE_ROUTER_SOLICIT then
     if timeCompare time (wrap32 (timestamp c + timeout c)) >=? 0 then
       if retransmitCount c <? maxRtrSolicitations (settings c) then
         ndpSendRouterSol ;;
         modifyCtx (set_timestamp time) ;;
         modifyCtx (set_timeout (rtrSolicitationInterval (settings c))) ;;
         modifyCtx (set_retransmitCount (wrap32 (retransmitCount c + 1)))
       else
         modifyCtx (set_state SLAAC_STATE_NO_ROUTER)
     else ret tt
   else if state c =? SLAAC_STATE_GLOBAL_ADDR_DAD then
     if timeCompare time (wrap32 (timestamp c + timeout c)) >=? 0 then
       if globalAddrDup (ipv6Config i) then
         modifyIf (ipv6SetGlobalAddrEx IPV6_UNSPECIFIED_ADDR
                     ADDR_STATE_INVALID) ;;
         modifyCtx (set_state SLAAC_STATE_DAD_FAILURE)
       else if retransmitCount c <? dupAddrDetectTransmits (settings c) then
         ndpSendNeighborSol (globalAddr (ipv6Config i)) true ;;
         modifyCtx (set_timestamp time) ;;
         modifyCtx (set_timeout (retransTimer (ipv6Config i))) ;;
         modifyCtx (set_retransmitCount (wrap32 (retransmitCount c + 1)))
       else
         modifyIf (set_globalAddrState ADDR_STATE_PREFERRED) ;;
         modifyCtx (set_state SLAAC_STATE_CONFIGURED)
     else ret tt
   else ret tt) ;;
  osReleaseMutex.

(** slaacLinkChangeEvent *)
Definition slaacLinkChangeEvent : M SlaacContext unit :=
  osAcquireMutex ;;
  c <- getCtx ;;
  when (running c)
    (modifyIf (ipv6SetLinkLocalAddrEx IPV6_UNSPECIFIED_ADDR
                 ADDR_STATE_INVALID) ;;
     modifyIf (ipv6SetGlobalAddrEx IPV6_UNSPECIFIED_ADDR ADDR_STATE_INVALID) ;;
     modifyIf (ipv6SetPrefix IPV6_UNSPECIFIED_ADDR 0)) ;;
  modifyCtx (set_state SLAAC_STATE_INIT) ;;
  osReleaseMutex.

Section RouterAdv.

Variable ndp : Ndp.

(** slaacProcessRouterAdv *)
Definition slaacProcessRouterAdv (message : NdpRouterAdvMessage)
    (length : Z) : M SlaacContext unit :=
  c0 <- getCtx ;;
  when (parseRouterAdvCallback (settings c0))
    (emit (EvParseRouterAdvCallback message length)) ;;
  c <- getCtx ;;
  if negb (state c =? SLAAC_STATE_ROUTER_SOLICIT) &&
     negb (state c =? SLAAC_STATE_NO_ROUTER) then ret tt
  else
    i <- getIf ;;
    let length := wrap32 (length - sizeofNdpRouterAdvMessage ndp) in
    match ndpGetOption ndp (ra_options message) length
            NDP_OPT_PREFIX_INFORMATION with
    | None => ret tt
    | Some p =>
        let prefixInfoOption := asPrefixInfoOption ndp p in
        if negb (pio_length prefixInfoOption =? 4) then ret tt
        else if negb (pio_a prefixInfoOption) then ret tt
        else if ipv6CompPrefix (pio_prefix prefixInfoOption)
                  IPV6_LINK_LOCAL_ADDR_PREFIX 64 then ret tt
        else if ntohl (pio_validLifetime prefixInfoOption) =? 0 then ret tt
        else if ntohl (pio_preferredLifetime prefixInfoOption) >?
                ntohl (pio_validLifetime prefixInfoOption) then ret tt
        else if negb (pio_prefixLength prefixInfoOption =? 64) then ret tt
        else
          modifyIf (ipv6SetPrefix (pio_prefix prefixInfoOption)
                      (pio_prefixLength prefixInfoOption)) ;;
          let interfaceId := macAddrToEui64 (macAddr i) in
          let global := formGlobalAddr (pio_prefix prefixInfoOption)
                          interfaceId in
          modifyIf (ipv6SetGlobalAddrEx global ADDR_STATE_TENTATIVE) ;;
          when (negb (manualDnsConfig (settings c)))
            (match ndpGetOption ndp (ra_options message) length
                     NDP_OPT_RECURSIVE_DNS_SERVER with
             | None => ret tt
             | Some r =>
                 let rdnssOption := asRdnssOption ndp r in
                 when (rdnss_length rdnssOption >=? 1)
                   (let n := (rdnss_length rdnssOption - 1) / 2 in
                    forUpTo (Z.to_nat n)
                      (fun k =>
                         modifyIf
                           (ipv6SetDnsServer k
                              (nth k (rdnss_address rdnssOption)
                                 IPV6_UNSPECIFIED_ADDR))))
             end) ;;
          t <- osGetSystemTime ;;
          modifyCtx (set_timestamp t) ;;
          modifyCtx (set_timeout 0) ;;
          modifyCtx (set_retransmitCount 0) ;;
          modifyCtx (set_state SLAAC_STATE_GLOBAL_ADDR_DAD)
    end.

End RouterAdv.

End Slaac.

(* ------------------------------------------------------------------ *)
(** ** The DHCPv4 client (dhcp/dhcp_client.c)                          *)
(* ------------------------------------------------------------------ *)

Module Dhcp.

(** DhcpState.  dhcp_client.h is not under src: the values are the
    indices of the state labels of dhcpChangeState. *)
Definition DHCP_STATE_INIT : Z := 0.
Definition DHCP_STATE_SELECTING : Z := 1.
Definition DHCP_STATE_REQUESTING : Z := 2.
Definition DHCP_STATE_INIT_REBOOT : Z := 3.
Definition DHCP_STATE_REBOOTING : Z := 4.
Definition DHCP_STATE_BOUND : Z := 5.
Definition DHCP_STATE_RENEWING : Z := 6.
Definition DHCP_STATE_REBINDING : Z := 7.

(** The declared set of states. *)
Definition validState (s : Z) : Prop := 0 <= s <= 7.

(** Protocol constants of RFC 2131 and RFC 2132 (dhcp_common.h). *)
Definition DHCP_CLIENT_PORT : Z := 68.
Definition DHCP_SERVER_PORT : Z := 67.
Definition DHCP_OPCODE_BOOTREQUEST : Z := 1.
Definition DHCP_OPCODE_BOOTREPLY : Z := 2.
Definition DHCP_HARDWARE_TYPE_ETH : Z := 1.
Definition DHCP_FLAG_BROADCAST : Z := 0x8000.
Definition DHCP_MAGIC_COOKIE : Z := 0x63825363.
Definition DHCP_INFINITE_TIME : Z := 0xFFFFFFFF.
Definition sizeofMacAddr : Z := 6.
Definition sizeofIpv4Addr : Z := 4.

Definition DHCP_MESSAGE_TYPE_DISCOVER : Z := 1.
Definition DHCP_MESSAGE_TYPE_OFFER : Z := 2.
Definition DHCP_MESSAGE_TYPE_REQUEST : Z := 3.
Definition DHCP_MESSAGE_TYPE_DECLINE : Z := 4.
Definition DHCP_MESSAGE_TYPE_ACK : Z := 5.
Definition DHCP_MESSAGE_TYPE_NAK : Z := 6.

Definition DHCP_OPT_SUBNET_MASK : Z := 1.
Definition DHCP_OPT_ROUTER : Z := 3.
Definition DHCP_OPT_DNS_SERVER : Z := 6.
Definition DHCP_OPT_HOST_NAME : Z := 12.
Definition DHCP_OPT_INTERFACE_MTU : Z := 26.
Definition DHCP_OPT_REQUESTED_IP_ADDRESS : Z := 50.
Definition DHCP_OPT_IP_ADDRESS_LEASE_TIME : Z := 51.
Definition DHCP_OPT_DHCP_MESSAGE_TYPE : Z := 53.
Definition DHCP_OPT_SERVER_IDENTIFIER : Z := 54.
Definition DHCP_OPT_PARAM_REQUEST_LIST : Z := 55.
Definition DHCP_OPT_RENEWAL_TIME_VALUE : Z := 58.
Definition DHCP_OPT_REBINDING_TIME_VALUE : Z := 59.
Definition DHCP_OPT_RAPID_COMMIT : Z := 80.
Definition DHCP_OPT_END : Z := 255.

(** What dhcp_client.h, dhcp_common.h and dhcp_common.c supply, none
    of them under src: the configuration macros of the client, the
    sizes of the message, and the two functions that search and append
    an option in the options field of a message. *)
Record Common := mkCommon {
  DHCP_CLIENT_MAX_HOSTNAME_LEN : Z;
  DHCP_CLIENT_INIT_DELAY : Z;
  DHCP_CLIENT_DISCOVER_INIT_RT : Z;
  DHCP_CLIENT_DISCOVER_MAX_RT : Z;
  DHCP_CLIENT_REQUEST_INIT_RT : Z;
  DHCP_CLIENT_REQUEST_MAX_RT : Z;
  DHCP_CLIENT_REQUEST_MAX_RC : Z;
  DHCP_CLIENT_REQUEST_MIN_DELAY : Z;
  DHCP_CLIENT_RAND_FACTOR : Z;
  sizeofDhcpMessage : Z;
  DHCP_MIN_MSG_SIZE : Z;
  DHCP_MAX_MSG_SIZE : Z;
  IPV4_MAX_DNS_SERVERS : Z;
  IPV4_DEFAULT_TTL : Z;
  dhcpGetOption : DhcpMessage -> Z -> Z -> option DhcpOption;
  dhcpAddOption : DhcpMessage -> Z -> list byte -> DhcpMessage
}.

Record DhcpClientSettings := mkDhcpClientSettings {
  interface : pointer NetInterface;
  hostname : list byte;
  rapidCommit : bool;
  manualDnsConfig : bool;
  settings_timeout : Z;
  timeoutEvent : bool;
  linkChangeEvent : bool;
  stateChangeEvent : bool
}.

(** The context; its mutex is seen through the acquire and release
    calls of the trace. *)
Record DhcpClientCtx := mkDhcpClientCtx {
  settings : DhcpClientSettings;
  running : bool;
  state : Z;
  timeoutEventDone : bool;
  timestamp : Z;
  timeout : Z;
  retransmitTimeout : Z;
  retransmitCount : Z;
  serverIpAddr : Ipv4Addr;
  requestedIpAddr : Ipv4Addr;
  transactionId : Z;
  configStartTime : Z;
  leaseStartTime : Z;
  leaseTime : Z;
  t1 : Z;
  t2 : Z
}.

Definition set_running (v : bool) (c : DhcpClientCtx) : DhcpClientCtx :=
  mkDhcpClientCtx (settings c) v (state c) (timeoutEventDone c) (timestamp c)
    (timeout c) (retransmitTimeout c) (retransmitCount c) (serverIpAddr c)
    (requestedIpAddr c) (transactionId c) (configStartTime c)
    (leaseStartTime c) (leaseTime c) (t1 c) (t2 c).

Definition set_state (v : Z) (c : DhcpClientCtx) : DhcpClientCtx :=
  mkDhcpClientCtx (settings c) (running c) v (timeoutEventDone c)
    (timestamp c) (timeout c) (retransmitTimeout c) (retransmitCount c)
    (serverIpAddr c) (requestedIpAddr c) (transactionId c) (configStartTime c)
    (leaseStartTime c) (leaseTime c) (t1 c) (t2 c).

Definition set_timeoutEventDone (v : bool) (c : DhcpClientCtx) : DhcpClientCtx :=
  mkDhcpClientCtx (settings c) (running c) (state c) v (timestamp c)
    (timeout c) (retransmitTimeout c) (retransmitCount c) (serverIpAddr c)
    (requestedIpAddr c) (transactionId c) (configStartTime c)
    (leaseStartTime c) (leaseTime c) (t1 c) (t2 c).

Definition set_timestamp (v : Z) (c : DhcpClientCtx) : DhcpClientCtx :=
  mkDhcpClientCtx (settings c) (running c) (state c) (timeoutEventDone c) v
    (timeout c) (retransmitTimeout c) (retransmitCount c) (serverIpAddr c)
    (requestedIpAddr c) (transactionId c) (configStartTime c)
    (leaseStartTime c) (leaseTime c) (t1 c) (t2 c).

Definition set_timeout (v : Z) (c : DhcpClientCtx) : DhcpClientCtx :=
  mkDhcpClientCtx (settings c) (running c) (state c) (timeoutEventDone c)
    (timestamp c) v (retransmitTimeout c) (retransmitCount c) (serverIpAddr c)
    (requestedIpAddr c) (transactionId c) (configStartTime c)
    (leaseStartTime c) (leaseTime c) (t1 c) (t2 c).

Definition set_retransmitTimeout (v : Z) (c : DhcpClientCtx) : DhcpClientCtx :=
  mkDhcpClientCtx (settings c) (running c) (state c) (timeoutEventDone c)
    (timestamp c) (timeout c) v (retransmitCount c) (serverIpAddr c)
    (requestedIpAddr c) (transactionId c) (configStartTime c)
    (leaseStartTime c) (leaseTime c) (t1 c) (t2 c).

Definition set_retransmitCount (v : Z) (c : DhcpClientCtx) : DhcpClientCtx :=
  mkDhcpClientCtx (settings c) (running c) (state c) (timeoutEventDone c)
    (timestamp c) (timeout c) (retransmitTimeout c) v (serverIpAddr c)
    (requestedIpAddr c) (transactionId c) (configStartTime c)
    (leaseStartTime c) (leaseTime c) (t1 c) (t2 c).

Definition set_serverIpAddr (v : Ipv4Addr) (c : DhcpClientCtx) : DhcpClientCtx :=
  mkDhcpClientCtx (settings c) (running c) (state c) (timeoutEventDone c)
    (timestamp c) (timeout c) (retransmitTimeout c) (retransmitCount c) v
    (requestedIpAddr c) (transactionId c) (configStartTime c)
    (leaseStartTime c) (leaseTime c) (t1 c) (t2 c).

Definition set_requestedIpAddr (v : Ipv4Addr) (c : DhcpClientCtx) : DhcpClientCtx :=
  mkDhcpClientCtx (settings c) (running c) (state c) (timeoutEventDone c)
    (timestamp c) (timeout c) (retransmitTimeout c) (retransmitCount c)
    (serverIpAddr c) v (transactionId c) (configStartTime c)
    (leaseStartTime c) (leaseTime c) (t1 c) (t2 c).

Definition set_transactionId (v : Z) (c : DhcpClientCtx) : DhcpClientCtx :=
  mkDhcpClientCtx (settings c) (running c) (state c) (timeoutEventDone c)
    (timestamp c) (timeout c) (retransmitTimeout c) (retransmitCount c)
    (serverIpAddr c) (requestedIpAddr c) v (configStartTime c)
    (leaseStartTime c) (leaseTime c) (t1 c) (t2 c).

Definition set_configStartTime (v : Z) (c : DhcpClientCtx) : DhcpClientCtx :=
  mkDhcpClientCtx (settings c) (running c) (state c) (timeoutEventDone c)
    (timestamp c) (timeout c) (retransmitTimeout c) (retransmitCount c)
    (serverIpAddr c) (requestedIpAddr c) (transactionId c) v
    (leaseStartTime c) (leaseTime c) (t1 c) (t2 c).

Definition set_leaseStartTime (v : Z) (c : DhcpClientCtx) : DhcpClientCtx :=
  mkDhcpClientCtx (settings c) (running c) (state c) (timeoutEventDone c)
    (timestamp c) (timeout c) (retransmitTimeout c) (retransmitCount c)
    (serverIpAddr c) (requestedIpAddr c) (transactionId c) (configStartTime c)
    v (leaseTime c) (t1 c) (t2 c).

Definition set_leaseTime (v : Z) (c : DhcpClientCtx) : DhcpClientCtx :=
  mkDhcpClientCtx (settings c) (running c) (state c) (timeoutEventDone c)
    (timestamp c) (timeout c) (retransmitTimeout c) (retransmitCount c)
    (serverIpAddr c) (requestedIpAddr c) (transactionId c) (configStartTime c)
    (leaseStartTime c) v (t1 c) (t2 c).

Definition set_t1 (v : Z) (c : DhcpClientCtx) : DhcpClientCtx :=
  mkDhcpClientCtx (settings c) (running c) (state c) (timeoutEventDone c)
    (timestamp c) (timeout c) (retransmitTimeout c) (retransmitCount c)
    (serverIpAddr c) (requestedIpAddr c) (transactionId c) (configStartTime c)
    (leaseStartTime c) (leaseTime c) v (t2 c).

Definition set_t2 (v : Z) (c : DhcpClientCtx) : DhcpClientCtx :=
  mkDhcpClientCtx (settings c) (running c) (state c) (timeoutEventDone c)
    (timestamp c) (timeout c) (retransmitTimeout c) (retransmitCount c)
    (serverIpAddr c) (requestedIpAddr c) (transactionId c) (configStartTime c)
    (leaseStartTime c) (leaseTime c) (t1 c) v.

(** [memset(context, 0, sizeof(DhcpClientCtx))] then
    [context->settings = *settings]. *)
Definition clearedContext (s : DhcpClientSettings) : DhcpClientCtx :=
  mkDhcpClientCtx s false 0 false 0 0 0 0 0 0 0 0 0 0 0 0.

Definition set_hostname (h : list byte) (c : DhcpClientCtx) : DhcpClientCtx :=
  let s := settings c in
  mkDhcpClientCtx
    (mkDhcpClientSettings (interface s) h (rapidCommit s) (manualDnsConfig s)
       (settings_timeout s) (timeoutEvent s) (linkChangeEvent s)
       (stateChangeEvent s))
    (running c) (state c) (timeoutEventDone c) (timestamp c) (timeout c)
    (retransmitTimeout c) (retransmitCount c) (serverIpAddr c)
    (requestedIpAddr c) (transactionId c) (configStartTime c)
    (leaseStartTime c) (leaseTime c) (t1 c) (t2 c).

(** dhcpClientGetDefaultSettings *)
Definition dhcpClientGetDefaultSettings : DhcpClientSettings :=
  mkDhcpClientSettings NULL [] false false 0 false false false.

Definition osCreateMutex : M DhcpClientCtx bool :=
  emit EvCreateMutex ;;
  fun w => (env_createMutex (env w), w).

Definition osDeleteMutex : M DhcpClientCtx unit := emit EvDeleteMutex.

Definition udpAttachRxCallback (port : Z) : M DhcpClientCtx error_t :=
  emit (EvUdpAttachRxCallback port) ;;
  fun w => (env_attach (env w), w).

Section Client.

Variable lib : Common.

(** dhcpClientInit *)
Definition dhcpClientInit (context : pointer DhcpClientCtx)
    (settings : option DhcpClientSettings) : M DhcpClientCtx error_t :=
  match context, settings with
  | NULL, _ | _, None => ret ERROR_INVALID_PARAMETER
  | Ref, Some s =>
      if isNull (interface s) then ret ERROR_INVALID_PARAMETER
      else
        i <- getIf ;;
        modifyCtx (fun _ => clearedContext s) ;;
        when (len (hostname s) =? 0)
          (let n := MIN (len (if_hostname i))
                      (DHCP_CLIENT_MAX_HOSTNAME_LEN lib) in
           modifyCtx (set_hostname (firstn (Z.to_nat n) (if_hostname i)))) ;;
        ok <- osCreateMutex ;;
        if negb ok then ret ERROR_OUT_OF_RESOURCES
        else
          error <- udpAttachRxCallback DHCP_CLIENT_PORT ;;
          if is_error error then
            osDeleteMutex ;;
            ret error
          else
            modifyCtx (set_running false) ;;
            modifyCtx (set_state DHCP_STATE_INIT) ;;
            modifyIf (set_dhcpClientContext true) ;;
            ret NO_ERROR
  end.

(** dhcpClientStart *)
Definition dhcpClientStart (context : pointer DhcpClientCtx)
  : M DhcpClientCtx error_t :=
  match context with
  | NULL => ret ERROR_INVALID_PARAMETER
  | Ref =>
      osAcquireMutex ;;
      modifyCtx (set_running true) ;;
      modifyCtx (set_state DHCP_STATE_INIT) ;;
      osReleaseMutex ;;
      ret NO_ERROR
  end.

(** dhcpClientStop *)
Definition dhcpClientStop (context : pointer DhcpClientCtx)
  : M DhcpClientCtx error_t :=
  match context with
  | NULL => ret ERROR_INVALID_PARAMETER
  | Ref =>
      osAcquireMutex ;;
      modifyCtx (set_running false) ;;
      modifyCtx (set_state DHCP_STATE_INIT) ;;
      osReleaseMutex ;;
      ret NO_ERROR
  end.

(** dhcpClientGetState: no test of the pointer, and no error code in
    the return type. *)
Definition dhcpClientGetState (context : pointer DhcpClientCtx)
  : M DhcpClientCtx (access Z) :=
  match context with
  | NULL => ret NullDereference
  | Ref =>
      osAcquireMutex ;;
      c <- getCtx ;;
      let st := state c in
      osReleaseMutex ;;
      ret (Value st)
  end.

(** dhcpChangeState.  The user callback runs with the mutex released. *)
Definition dhcpChangeState (newState : Z) (delay : Z) : M DhcpClientCtx unit :=
  time <- osGetSystemTime ;;
  modifyCtx (set_timestamp time) ;;
  modifyCtx (set_timeout (wrap32 delay)) ;;
  modifyCtx (set_retransmitCount 0) ;;
  modifyCtx (set_state newState) ;;
  c <- getCtx ;;
  when (stateChangeEvent (settings c))
    (osReleaseMutex ;;
     emit (EvStateChangeEvent newState) ;;
     osAcquireMutex).

(** dhcpCheckTimeout *)
Definition dhcpCheckTimeout : M DhcpClientCtx unit :=
  time <- osGetSystemTime ;;
  c <- getCtx ;;
  when (timeoutEvent (settings c))
    (when (timeCompare time
             (wrap32 (configStartTime c + settings_timeout (settings c)))
           >=? 0)
       (when (negb (timeoutEventDone c))
          (osReleaseMutex ;;
           emit EvTimeoutEvent ;;
           osAcquireMutex ;;
           modifyCtx (set_timeoutEventDone true)))).

(** dhcpComputeElapsedTime *)
Definition dhcpComputeElapsedTime : M DhcpClientCtx (list byte) :=
  now <- osGetSystemTime ;;
  c <- getCtx ;;
  let time := wrap32 (now - configStartTime c) / 1000 in
  let time := if time >? 0xFFFF then 0xFFFF else time in
  ret (htons time).

(** The buffer after [memset(message, 0, DHCP_MIN_MSG_SIZE)], the
    header fields assigned and [options[0] = DHCP_OPT_END]. *)
Definition formatMessage (xid secs flags : list byte) (ciaddr : Ipv4Addr)
    (chaddr : MacAddr) : DhcpMessage :=
  mkDhcpMessage DHCP_OPCODE_BOOTREQUEST DHCP_HARDWARE_TYPE_ETH sizeofMacAddr 0
    xid secs flags ciaddr 0 0 0 chaddr (htonl DHCP_MAGIC_COOKIE)
    (b8 DHCP_OPT_END ::
     repeat x00 (Z.to_nat (DHCP_MIN_MSG_SIZE lib - sizeofDhcpMessage lib) - 1)).

Definition addOptionIf (b : bool) (code : Z) (value : list byte)
    (m : DhcpMessage) : DhcpMessage :=
  if b then dhcpAddOption lib m code value else m.

(** dhcpSendDiscover *)
Definition dhcpSendDiscover : M DhcpClientCtx error_t :=
  buffer <- udpAllocBuffer ;;
  if negb buffer then ret ERROR_OUT_OF_MEMORY
  else
    c <- getCtx ;;
    i <- getIf ;;
    secs <- dhcpComputeElapsedTime ;;
    let message :=
      formatMessage (htonl (transactionId c)) secs (htons DHCP_FLAG_BROADCAST)
        IPV4_UNSPECIFIED_ADDR (macAddr i) in
    let message :=
      dhcpAddOption lib message DHCP_OPT_DHCP_MESSAGE_TYPE
        [b8 DHCP_MESSAGE_TYPE_DISCOVER] in
    let message :=
      addOptionIf (len (hostname (settings c)) >? 0) DHCP_OPT_HOST_NAME
        (hostname (settings c)) message in
    let message :=
      addOptionIf (rapidCommit (settings c)) DHCP_OPT_RAPID_COMMIT []
        message in
    udpSendDatagramEx DHCP_CLIENT_PORT (IpAddr4 IPV4_BROADCAST_ADDR)
      DHCP_SERVER_PORT (PayloadDhcp message) (IPV4_DEFAULT_TTL lib).

(** The Parameter Request List of dhcpSendRequest. *)
Definition optionList : list byte :=
  map b8 [DHCP_OPT_SUBNET_MASK; DHCP_OPT_ROUTER; DHCP_OPT_DNS_SERVER;
          DHCP_OPT_INTERFACE_MTU; DHCP_OPT_IP_ADDRESS_LEASE_TIME;
          DHCP_OPT_RENEWAL_TIME_VALUE; DHCP_OPT_REBINDING_TIME_VALUE].

(** dhcpSendRequest *)
Definition dhcpSendRequest : M DhcpClientCtx error_t :=
  buffer <- udpAllocBuffer ;;
  if negb buffer then ret ERROR_OUT_OF_MEMORY
  else
    c <- getCtx ;;
    i <- getIf ;;
    secs <- dhcpComputeElapsedTime ;;
    let renewing :=
      (state c =? DHCP_STATE_RENEWING) || (state c =? DHCP_STATE_REBINDING) in
    let message :=
      formatMessage (htonl (transactionId c)) secs
        (if renewing then htons 0 else htons DHCP_FLAG_BROADCAST)
        (if renewing then ipv4_addr (ipv4Config i) else IPV4_UNSPECIFIED_ADDR)
        (macAddr i) in
    let message :=
      dhcpAddOption lib message DHCP_OPT_DHCP_MESSAGE_TYPE
        [b8 DHCP_MESSAGE_TYPE_REQUEST] in
    let message :=
      addOptionIf (len (hostname (settings c)) >? 0) DHCP_OPT_HOST_NAME
        (hostname (settings c)) message in
    let message :=
      addOptionIf (state c =? DHCP_STATE_REQUESTING) DHCP_OPT_SERVER_IDENTIFIER
        (STORE32BE (serverIpAddr c)) message in
    let message :=
      addOptionIf
        ((state c =? DHCP_STATE_REQUESTING) || (state c =? DHCP_STATE_REBOOTING))
        DHCP_OPT_REQUESTED_IP_ADDRESS (STORE32BE (requestedIpAddr c))
        message in
    let message :=
      dhcpAddOption lib message DHCP_OPT_PARAM_REQUEST_LIST optionList in
    let destIpAddr :=
      if state c =? DHCP_STATE_RENEWING then serverIpAddr c
      else IPV4_BROADCAST_ADDR in
    udpSendDatagramEx DHCP_CLIENT_PORT (IpAddr4 destIpAddr)
      DHCP_SERVER_PORT (PayloadDhcp message) (IPV4_DEFAULT_TTL lib).

(** dhcpSendDecline *)
Definition dhcpSendDecline : M DhcpClientCtx error_t :=
  buffer <- udpAllocBuffer ;;
  if negb buffer then ret ERROR_OUT_OF_MEMORY
  else
    c <- getCtx ;;
    i <- getIf ;;
    let message :=
      formatMessage (htonl (transactionId c)) (htons 0) (htons 0)
        IPV4_UNSPECIFIED_ADDR (macAddr i) in
    let message :=
      dhcpAddOption lib message DHCP_OPT_DHCP_MESSAGE_TYPE
        [b8 DHCP_MESSAGE_TYPE_DECLINE] in
    let message :=
      dhcpAddOption lib message DHCP_OPT_SERVER_IDENTIFIER
        (STORE32BE (serverIpAddr c)) in
    let message :=
      dhcpAddOption lib message DHCP_OPT_REQUESTED_IP_ADDRESS
        (STORE32BE (requestedIpAddr c)) in
    udpSendDatagramEx DHCP_CLIENT_PORT (IpAddr4 IPV4_BROADCAST_ADDR)
      DHCP_SERVER_PORT (PayloadDhcp message) (IPV4_DEFAULT_TTL lib).

(** dhcpStateInit *)
Definition dhcpStateInit : M DhcpClientCtx unit :=
  c <- getCtx ;;
  i <- getIf ;;
  when (running c)
    (when (linkState i)
       (delay <- netGetRandRange 0 (DHCP_CLIENT_INIT_DELAY lib) ;;
        t <- osGetSystemTime ;;
        modifyCtx (set_configStartTime t) ;;
        modifyCtx (set_timeoutEventDone false) ;;
        dhcpChangeState DHCP_STATE_SELECTING delay)).

(** The randomized timeout
    [retransmitTimeout + netGetRandRange(-RAND_FACTOR, RAND_FACTOR)],
    followed by the increment of the retransmission counter. *)
Definition armRetransmission (time : Z) : M DhcpClientCtx unit :=
  modifyCtx (set_timestamp time) ;;
  r <- netGetRandRange (- DHCP_CLIENT_RAND_FACTOR lib)
         (DHCP_CLIENT_RAND_FACTOR lib) ;;
  modifyCtx (fun c => set_timeout (wrap32 (retransmitTimeout c + r)) c) ;;
  modifyCtx (fun c => set_retransmitCount (wrap32 (retransmitCount c + 1)) c).

(** [retransmitTimeout *= 2], limited to [maxRt]. *)
Definition doubleRetransmitTimeout (maxRt : Z) : M DhcpClientCtx unit :=
  modifyCtx (fun c => set_retransmitTimeout (wrap32 (retransmitTimeout c * 2)) c) ;;
  modifyCtx (fun c => if retransmitTimeout c >? maxRt
                      then set_retransmitTimeout maxRt c else c).

(** dhcpStateSelecting *)
Definition dhcpStateSelecting : M DhcpClientCtx unit :=
  time <- osGetSystemTime ;;
  c <- getCtx ;;
  when (timeCompare time (wrap32 (timestamp c + timeout c)) >=? 0)
    ((if retransmitCount c =? 0 then
        r <- netGetRand ;;
        modifyCtx (set_transactionId r) ;;
        dhcpSendDiscover ;;
        modifyCtx (set_retransmitTimeout (DHCP_CLIENT_DISCOVER_INIT_RT lib))
      else
        dhcpSendDiscover ;;
        doubleRetransmitTimeout (DHCP_CLIENT_DISCOVER_MAX_RT lib)) ;;
     armRetransmission time) ;;
  dhcpCheckTimeout.

(** The body shared, line for line, by dhcpStateRequesting and
    dhcpStateRebooting. *)
Definition requestOrGiveUp : M DhcpClientCtx unit :=
  time <- osGetSystemTime ;;
  c <- getCtx ;;
  when (timeCompare time (wrap32 (timestamp c + timeout c)) >=? 0)
    (if retransmitCount c =? 0 then
       r <- netGetRand ;;
       modifyCtx (set_transactionId r) ;;
       dhcpSendRequest ;;
       modifyCtx (set_retransmitTimeout (DHCP_CLIENT_REQUEST_INIT_RT lib)) ;;
       armRetransmission time
     else if retransmitCount c <? DHCP_CLIENT_REQUEST_MAX_RC lib then
       dhcpSendRequest ;;
       doubleRetransmitTimeout (DHCP_CLIENT_REQUEST_MAX_RT lib) ;;
       armRetransmission time
     else
       dhcpChangeState DHCP_STATE_INIT 0) ;;
  dhcpCheckTimeout.

(** dhcpStateRequesting *)
Definition dhcpStateRequesting : M DhcpClientCtx unit := requestOrGiveUp.

(** dhcpStateInitReboot *)
Definition dhcpStateInitReboot : M DhcpClientCtx unit :=
  c <- getCtx ;;
  i <- getIf ;;
  when (running c)
    (when (linkState i)
       (delay <- netGetRandRange 0 (DHCP_CLIENT_INIT_DELAY lib) ;;
        t <- osGetSystemTime ;;
        modifyCtx (set_configStartTime t) ;;
        modifyCtx (set_timeoutEventDone false) ;;
        dhcpChangeState DHCP_STATE_REBOOTING delay)).

(** dhcpStateRebooting *)
Definition dhcpStateRebooting : M DhcpClientCtx unit := requestOrGiveUp.

(** dhcpStateBound *)
Definition dhcpStateBound : M DhcpClientCtx unit :=
  time <- osGetSystemTime ;;
  c <- getCtx ;;
  when (negb (t1 c =? DHCP_INFINITE_TIME))
    (let t1ms := wrap32 (t1 c * 1000) in
     when (timeCompare time (wrap32 (leaseStartTime c + t1ms)) >=? 0)
       (modifyCtx (set_configStartTime time) ;;
        dhcpChangeState DHCP_STATE_RENEWING 0)).

(** The send of dhcpStateRenewing and dhcpStateRebinding: a request,
    then a wait of half of the time that remains until [limit]. *)
Definition renewRequest (time limit : Z) : M DhcpClientCtx unit :=
  c <- getCtx ;;
  when (retransmitCount c =? 0)
    (r <- netGetRand ;;
     modifyCtx (set_transactionId r)) ;;
  dhcpSendRequest ;;
  modifyCtx (set_timestamp time) ;;
  modifyCtx (fun c => set_timeout (wrap32 (leaseStartTime c + limit - time)) c) ;;
  modifyCtx (fun c => if timeout c >? 2 * DHCP_CLIENT_REQUEST_MIN_DELAY lib
                      then set_timeout (timeout c / 2) c else c) ;;
  modifyCtx (fun c => set_retransmitCount (wrap32 (retransmitCount c + 1)) c).

(** dhcpStateRenewing *)
Definition dhcpStateRenewing : M DhcpClientCtx unit :=
  time <- osGetSystemTime ;;
  c <- getCtx ;;
  when (timeCompare time (wrap32 (timestamp c + timeout c)) >=? 0)
    (let t2ms := wrap32 (t2 c * 1000) in
     if timeCompare time (wrap32 (leaseStartTime c + t2ms)) <? 0 then
       renewRequest time t2ms
     else
       dhcpChangeState DHCP_STATE_REBINDING 0).

(** dhcpStateRebinding *)
Definition dhcpStateRebinding : M DhcpClientCtx unit :=
  time <- osGetSystemTime ;;
  c <- getCtx ;;
  when (timeCompare time (wrap32 (timestamp c + timeout c)) >=? 0)
    (let leaseMs := wrap32 (leaseTime c * 1000) in
     if timeCompare time (wrap32 (leaseStartTime c + leaseMs)) <? 0 then
       renewRequest time leaseMs
     else
       modifyIf (ipv4SetHostAddrEx IPV4_UNSPECIFIED_ADDR ADDR_STATE_INVALID) ;;
       modifyIf (ipv4SetSubnetMask IPV4_UNSPECIFIED_ADDR) ;;
       dhcpChangeState DHCP_STATE_INIT 0).

(** dhcpClientTick *)
Definition dhcpClientTick : M DhcpClientCtx unit :=
  osAcquireMutex ;;
  c <- getCtx ;;
  (if state c =? DHCP_STATE_INIT then dhcpStateInit
   else if state c =? DHCP_STATE_SELECTING then dhcpStateSelecting
   else if state c =? DHCP_STATE_REQUESTING then dhcpStateRequesting
   else if state c =? DHCP_STATE_INIT_REBOOT then dhcpStateInitReboot
   else if state c =? DHCP_STATE_REBOOTING then dhcpStateRebooting
   else if state c =? DHCP_STATE_BOUND then dhcpStateBound
   else if state c =? DHCP_STATE_RENEWING then dhcpStateRenewing
   else if state c =? DHCP_STATE_REBINDING then dhcpStateRebinding
   else modifyCtx (set_state DHCP_STATE_INIT)) ;;
  osReleaseMutex.

(** dhcpClientLinkChangeEvent *)
Definition dhcpClientLinkChangeEvent : M DhcpClientCtx unit :=
  osAcquireMutex ;;
  c <- getCtx ;;
  when (running c)
    (modifyIf (ipv4SetHostAddrEx IPV4_UNSPECIFIED_ADDR ADDR_STATE_INVALID) ;;
     modifyIf (ipv4SetSubnetMask IPV4_UNSPECIFIED_ADDR)) ;;
  (if state c >=? DHCP_STATE_INIT_REBOOT
   then modifyCtx (set_state DHCP_STATE_INIT_REBOOT)
   else modifyCtx (set_state DHCP_STATE_INIT)) ;;
  osReleaseMutex ;;
  i <- getIf ;;
  when (linkChangeEvent (settings c))
    (emit (EvLinkChangeEvent (linkState i))).

(** The tests on the fixed header shared by dhcpParseOffer and
    dhcpParseAckNak; [true] when the message is to be dropped. *)
Definition headerMismatch (c : DhcpClientCtx) (message : DhcpMessage)
  : bool :=
  negb (op message =? DHCP_OPCODE_BOOTREPLY)
  || negb (htype message =? DHCP_HARDWARE_TYPE_ETH)
  || negb (hlen message =? sizeofMacAddr)
  || negb (ntohl (xid message) =? transactionId c).

(** dhcpParseOffer *)
Definition dhcpParseOffer (message : DhcpMessage) (length : Z)
  : M DhcpClientCtx unit :=
  c <- getCtx ;;
  i <- getIf ;;
  if headerMismatch c message then ret tt
  else if yiaddr message =? IPV4_UNSPECIFIED_ADDR then ret tt
  else if negb (macCompAddr (chaddr message) (macAddr i)) then ret tt
  else if negb (memeq (magicCookie message) (htonl DHCP_MAGIC_COOKIE) 4)
  then ret tt
  else
    match dhcpGetOption lib message length DHCP_OPT_DHCP_MESSAGE_TYPE with
    | None => ret tt
    | Some option =>
        if negb (opt_length option =? 1) then ret tt
        else if negb (byteAt (opt_value option) 0 =? DHCP_MESSAGE_TYPE_OFFER)
        then ret tt
        else
          match dhcpGetOption lib message length DHCP_OPT_SERVER_IDENTIFIER with
          | None => ret tt
          | Some option =>
              if negb (opt_length option =? 4) then ret tt
              else
                modifyCtx (set_serverIpAddr (LOAD32BE (opt_value option))) ;;
                modifyCtx (set_requestedIpAddr (yiaddr message)) ;;
                dhcpChangeState DHCP_STATE_REQUESTING 0
          end
    end.

(** The value of a 4-byte time option, when the option is there. *)
Definition timeOption (message : DhcpMessage) (length code : Z) : option Z :=
  match dhcpGetOption lib message length code with
  | Some option =>
      if opt_length option =? 4 then Some (LOAD32BE (opt_value option))
      else None
  | None => None
  end.

(** The part of dhcpParseAckNak that commits a DHCPACK whose Server
    Identifier and Lease Time options have passed their tests. *)
Definition commitAck (message : DhcpMessage) (length : Z) (lease : Z)
  : M DhcpClientCtx unit :=
  modifyCtx (set_leaseTime lease) ;;
  match timeOption message length DHCP_OPT_RENEWAL_TIME_VALUE with
  | Some v => modifyCtx (set_t1 v)
  | None =>
      modifyCtx (fun c => if negb (leaseTime c =? DHCP_INFINITE_TIME)
                          then set_t1 (leaseTime c / 2) c
                          else set_t1 DHCP_INFINITE_TIME c)
  end ;;
  match timeOption message length DHCP_OPT_REBINDING_TIME_VALUE with
  | Some v => modifyCtx (set_t2 v)
  | None =>
      modifyCtx (fun c => if negb (leaseTime c =? DHCP_INFINITE_TIME)
                          then set_t2 (wrap32 (leaseTime c * 7) / 8) c
                          else set_t2 DHCP_INFINITE_TIME c)
  end ;;
  match dhcpGetOption lib message length DHCP_OPT_SUBNET_MASK with
  | Some option =>
      when (opt_length option =? sizeofIpv4Addr)
        (modifyIf (set_ipv4_subnetMask (LOAD32BE (opt_value option))))
  | None => ret tt
  end ;;
  match dhcpGetOption lib message length DHCP_OPT_ROUTER with
  | Some option =>
      when (opt_length option mod sizeofIpv4Addr =? 0)
        (when (opt_length option >=? sizeofIpv4Addr)
           (modifyIf (set_ipv4_defaultGateway (LOAD32BE (opt_value option)))))
  | None => ret tt
  end ;;
  c <- getCtx ;;
  when (negb (manualDnsConfig (settings c)))
    (match dhcpGetOption lib message length DHCP_OPT_DNS_SERVER with
     | Some option =>
         when (opt_length option mod sizeofIpv4Addr =? 0)
           (let n := opt_length option / sizeofIpv4Addr in
            let n := MIN n (IPV4_MAX_DNS_SERVERS lib) in
            forUpTo (Z.to_nat n)
              (fun k =>
                 modifyIf
                   (set_ipv4_dnsServer k
                      (LOAD32BE (skipn (k * 4) (opt_value option))))))
     | None => ret tt
     end) ;;
  match dhcpGetOption lib message length DHCP_OPT_INTERFACE_MTU with
  | Some option =>
      when (opt_length option =? 2)
        (modifyIf (ipv4SetMtu (LOAD16BE (opt_value option))))
  | None => ret tt
  end ;;
  modifyIf (ipv4SetHostAddrEx (yiaddr message) ADDR_STATE_VALID) ;;
  t <- osGetSystemTime ;;
  modifyCtx (set_leaseStartTime t) ;;
  dhcpChangeState DHCP_STATE_BOUND 0.

(** dhcpParseAckNak.  dhcpDumpConfig only prints and is left out. *)
Definition dhcpParseAckNak (message : DhcpMessage) (length : Z)
  : M DhcpClientCtx unit :=
  c <- getCtx ;;
  i <- getIf ;;
  if headerMismatch c message then ret tt
  else if negb (macCompAddr (chaddr message) (macAddr i)) then ret tt
  else if negb (memeq (magicCookie message) (htonl DHCP_MAGIC_COOKIE) 4)
  then ret tt
  else
    match dhcpGetOption lib message length DHCP_OPT_DHCP_MESSAGE_TYPE with
    | None => ret tt
    | Some option =>
        if negb (opt_length option =? 1) then ret tt
        else if byteAt (opt_value option) 0 =? DHCP_MESSAGE_TYPE_NAK then
          modifyIf (ipv4SetHostAddrEx IPV4_UNSPECIFIED_ADDR
                      ADDR_STATE_INVALID) ;;
          modifyIf (ipv4SetSubnetMask IPV4_UNSPECIFIED_ADDR) ;;
          dhcpChangeState DHCP_STATE_INIT 0
        else if byteAt (opt_value option) 0 =? DHCP_MESSAGE_TYPE_ACK then
          match dhcpGetOption lib message length DHCP_OPT_SERVER_IDENTIFIER with
          | None => ret tt
          | Some option =>
              if negb (opt_length option =? 4) then ret tt
              else if negb (ipv4CompAddr (LOAD32BE (opt_value option))
                              (serverIpAddr c)) then ret tt
              else
                match dhcpGetOption lib message length
                        DHCP_OPT_IP_ADDRESS_LEASE_TIME with
                | None => ret tt
                | Some option =>
                    if negb (opt_length option =? 4) then ret tt
                    else commitAck message length (LOAD32BE (opt_value option))
                end
          end
        else ret tt
    end.

(** dhcpClientProcessMessage.  [length] is the length of the buffer
    past the offset and [message] what netBufferAt returns there. *)
Definition dhcpClientProcessMessage (message : option DhcpMessage)
    (length : Z) : M DhcpClientCtx unit :=
  if length <? sizeofDhcpMessage lib then ret tt
  else if length >? DHCP_MAX_MSG_SIZE lib then ret tt
  else
    match message with
    | None => ret tt
    | Some message =>
        osAcquireMutex ;;
        c <- getCtx ;;
        (if state c =? DHCP_STATE_SELECTING then
           dhcpParseOffer message length
         else if (state c =? DHCP_STATE_REQUESTING)
                 || (state c =? DHCP_STATE_REBOOTING)
                 || (state c =? DHCP_STATE_RENEWING)
                 || (state c =? DHCP_STATE_REBINDING) then
           dhcpParseAckNak message length
         else ret tt) ;;
        osReleaseMutex
    end.

End Client.

End Dhcp.

(* ------------------------------------------------------------------ *)
(** ** The DHCPv6 client (dhcpv6/dhcpv6_client.c, dhcpv6_client.h)     *)
(* ------------------------------------------------------------------ *)

Module Dhcpv6.

(** Dhcpv6State *)
Definition DHCPV6_STATE_INIT : Z := 0.
Definition DHCPV6_STATE_SOLICIT : Z := 1.
Definition DHCPV6_STATE_REQUEST : Z := 2.
Definition DHCPV6_STATE_INIT_CONFIRM : Z := 3.
Definition DHCPV6_STATE_CONFIRM : Z := 4.
Definition DHCPV6_STATE_BOUND : Z := 5.
Definition DHCPV6_STATE_RENEW : Z := 6.
Definition DHCPV6_STATE_REBIND : Z := 7.
Definition DHCPV6_STATE_DECLINE : Z := 8.

(** The declared set of states. *)
Definition validState (s : Z) : Prop := 0 <= s <= 8.

(** The configuration macros of dhcpv6_client.h, at their defaults. *)
Definition DHCPV6_CLIENT_MAX_FQDN_SIZE : Z := 16.
Definition DHCPV6_CLIENT_SOL_MAX_DELAY : Z := 1000.
Definition DHCPV6_CLIENT_SOL_TIMEOUT : Z := 1000.
Definition DHCPV6_CLIENT_SOL_MAX_RT : Z := 120000.
Definition DHCPV6_CLIENT_REQ_TIMEOUT : Z := 1000.
Definition DHCPV6_CLIENT_REQ_MAX_RT : Z := 30000.
Definition DHCPV6_CLIENT_REQ_MAX_RC : Z := 10.
Definition DHCPV6_CLIENT_CNF_MAX_DELAY : Z := 1000.
Definition DHCPV6_CLIENT_CNF_TIMEOUT : Z := 1000.
Definition DHCPV6_CLIENT_CNF_MAX_RT : Z := 4000.
Definition DHCPV6_CLIENT_CNF_MAX_RD : Z := 10000.
Definition DHCPV6_CLIENT_REN_TIMEOUT : Z := 10000.
Definition DHCPV6_CLIENT_REN_MAX_RT : Z := 600000.
Definition DHCPV6_CLIENT_REB_TIMEOUT : Z := 10000.
Definition DHCPV6_CLIENT_REB_MAX_RT : Z := 600000.
Definition DHCPV6_CLIENT_DEC_TIMEOUT : Z := 1000.
Definition DHCPV6_CLIENT_DEC_MAX_RC : Z := 5.

(** Protocol constants of RFC 3315 (dhcpv6_common.h). *)
Definition DHCPV6_CLIENT_PORT : Z := 546.
Definition DHCPV6_SERVER_PORT : Z := 547.
Definition DHCPV6_INFINITE_TIME : Z := 0xFFFFFFFF.
Definition DHCPV6_MAX_SERVER_PREFERENCE : Z := 255.
Definition DHCPV6_DUID_LL : Z := 3.
Definition DHCPV6_HARDWARE_TYPE_ETH : Z := 1.

Definition DHCPV6_MSG_TYPE_SOLICIT : Z := 1.
Definition DHCPV6_MSG_TYPE_ADVERTISE : Z := 2.
Definition DHCPV6_MSG_TYPE_REQUEST : Z := 3.
Definition DHCPV6_MSG_TYPE_CONFIRM : Z := 4.
Definition DHCPV6_MSG_TYPE_RENEW : Z := 5.
Definition DHCPV6_MSG_TYPE_REBIND : Z := 6.
Definition DHCPV6_MSG_TYPE_REPLY : Z := 7.
Definition DHCPV6_MSG_TYPE_DECLINE : Z := 9.

Definition DHCPV6_OPTION_CLIENTID : Z := 1.
Definition DHCPV6_OPTION_SERVERID : Z := 2.
Definition DHCPV6_OPTION_IA_NA : Z := 3.
Definition DHCPV6_OPTION_IAADDR : Z := 5.
Definition DHCPV6_OPTION_ORO : Z := 6.
Definition DHCPV6_OPTION_PREFERENCE : Z := 7.
Definition DHCPV6_OPTION_ELAPSED_TIME : Z := 8.
Definition DHCPV6_OPTION_STATUS_CODE : Z := 13.
Definition DHCPV6_OPTION_RAPID_COMMIT : Z := 14.
Definition DHCPV6_OPTION_DNS_SERVERS : Z := 23.
Definition DHCPV6_OPTION_DOMAIN_LIST : Z := 24.
Definition DHCPV6_OPTION_FQDN : Z := 39.
Definition DHCPV6_STATUS_NO_ADDRS_AVAILABLE : Z := 2.

(** Modelled from the spec: the sizes of the wire structures of
    dhcpv6_common.h, which is not under src.  The spec gives the
    message header as 4 bytes, the option header as a 2-byte code and a
    2-byte length, IA_NA as IAID, T1 and T2 of 4 bytes each, IA Address
    as a 128-bit address and two 4-byte lifetimes, Preference as one
    byte and Elapsed Time as 16 bits; DUID-LL is a 2-byte type, a 2-byte
    hardware type and the 6-byte link-layer address; the FQDN option
    starts with one byte of flags. *)
Definition sizeofDhcpv6Message : Z := 4.
Definition sizeofDhcpv6Option : Z := 4.
Definition sizeofDhcpv6IaNaOption : Z := 12.
Definition sizeofDhcpv6IaAddrOption : Z := 24.
Definition sizeofDhcpv6PreferenceOption : Z := 1.
Definition sizeofDhcpv6ElapsedTimeOption : Z := 2.
Definition sizeofDhcpv6FqdnOption : Z := 1.
Definition sizeofDhcpv6DuidLl : Z := 10.
Definition sizeofIpv6Addr : Z := 16.

(** The fields of an IA_NA option value (Dhcpv6IaNaOption). *)
Definition iaNa_iaId (v : list byte) : list byte := firstn 4 v.
Definition iaNa_t1 (v : list byte) : list byte := firstn 4 (skipn 4 v).
Definition iaNa_t2 (v : list byte) : list byte := firstn 4 (skipn 8 v).
Definition iaNa_options (v : list byte) : list byte := skipn 12 v.

(** The fields of an IA Address option value (Dhcpv6IaAddrOption). *)
Definition iaAddr_address (v : list byte) : Ipv6Addr := firstn 16 v.
Definition iaAddr_preferredLifetime (v : list byte) : list byte :=
  firstn 4 (skipn 16 v).
Definition iaAddr_validLifetime (v : list byte) : list byte :=
  firstn 4 (skipn 20 v).

(** What dhcpv6_common.h, dhcpv6_common.c and dns_common.c supply,
    none of them under src: three size limits, the search of an option
    in an Options field, the two functions that append an option to a
    message and a sub-option to the option at a given offset, the
    reading of the Status Code option, and the encoding of a host name. *)
Record Common := mkCommon {
  DHCPV6_MAX_DUID_SIZE : Z;
  DHCPV6_MAX_MSG_SIZE : Z;
  IPV6_MAX_DNS_SERVERS : Z;
  dhcpv6GetOption : list byte -> Z -> Z -> option Dhcpv6Option;
  dhcpv6AddOption : Dhcpv6Message -> Z -> list byte -> Dhcpv6Message;
  dhcpv6AddSubOption : Dhcpv6Message -> Z -> Z -> list byte -> Dhcpv6Message;
  dhcpv6ParseStatusCodeOption : list byte -> Z -> error_t;
  dnsEncodeName : list byte -> list byte
}.

Record Dhcpv6ClientSettings := mkDhcpv6ClientSettings {
  interface : pointer NetInterface;
  rapidCommit : bool;
  manualDnsConfig : bool;
  settings_timeout : Z;
  timeoutEvent : bool;
  linkChangeEvent : bool;
  stateChangeEvent : bool
}.

(** struct _Dhcpv6ClientCtx; its mutex is seen through the acquire and
    release calls of the trace. *)
Record Dhcpv6ClientCtx := mkDhcpv6ClientCtx {
  settings : Dhcpv6ClientSettings;
  running : bool;
  state : Z;
  timeoutEventDone : bool;
  timestamp : Z;
  timeout : Z;
  retransmitCount : Z;
  clientId : list byte;
  clientIdLength : Z;
  clientFqdn : list byte;
  clientFqdnLength : Z;
  clientAddr : Ipv6Addr;
  serverId : list byte;
  serverIdLength : Z;
  serverPreference : Z;
  transactionId : Z;
  configStartTime : Z;
  exchangeStartTime : Z;
  leaseStartTime : Z;
  t1 : Z;
  t2 : Z;
  preferredLifetime : Z;
  validLifetime : Z
}.

Definition set_running (v : bool) (c : Dhcpv6ClientCtx) : Dhcpv6ClientCtx :=
  mkDhcpv6ClientCtx (settings c) v (state c) (timeoutEventDone c)
    (timestamp c) (timeout c) (retransmitCount c) (clientId c)
    (clientIdLength c) (clientFqdn c) (clientFqdnLength c) (clientAddr c)
    (serverId c) (serverIdLength c) (serverPreference c) (transactionId c)
    (configStartTime c) (exchangeStartTime c) (leaseStartTime c) (t1 c) (t2 c)
    (preferredLifetime c) (validLifetime c).

Definition set_state (v : Z) (c : Dhcpv6ClientCtx) : Dhcpv6ClientCtx :=
  mkDhcpv6ClientCtx (settings c) (running c) v (timeoutEventDone c)
    (timestamp c) (timeout c) (retransmitCount c) (clientId c)
    (clientIdLength c) (clientFqdn c) (clientFqdnLength c) (clientAddr c)
    (serverId c) (serverIdLength c) (serverPreference c) (transactionId c)
    (configStartTime c) (exchangeStartTime c) (leaseStartTime c) (t1 c) (t2 c)
    (preferredLifetime c) (validLifetime c).

Definition set_timeoutEventDone (v : bool) (c : Dhcpv6ClientCtx) : Dhcpv6ClientCtx :=
  mkDhcpv6ClientCtx (settings c) (running c) (state c) v (timestamp c)
    (timeout c) (retransmitCount c) (clientId c) (clientIdLength c)
    (clientFqdn c) (clientFqdnLength c) (clientAddr c) (serverId c)
    (serverIdLength c) (serverPreference c) (transactionId c)
    (configStartTime c) (exchangeStartTime c) (leaseStartTime c) (t1 c) (t2 c)
    (preferredLifetime c) (validLifetime c).

Definition set_timestamp (v : Z) (c : Dhcpv6ClientCtx) : Dhcpv6ClientCtx :=
  mkDhcpv6ClientCtx (settings c) (running c) (state c) (timeoutEventDone c) v
    (timeout c) (retransmitCount c) (clientId c) (clientIdLength c)
    (clientFqdn c) (clientFqdnLength c) (clientAddr c) (serverId c)
    (serverIdLength c) (serverPreference c) (transactionId c)
    (configStartTime c) (exchangeStartTime c) (leaseStartTime c) (t1 c) (t2 c)
    (preferredLifetime c) (validLifetime c).

Definition set_timeout (v : Z) (c : Dhcpv6ClientCtx) : Dhcpv6ClientCtx :=
  mkDhcpv6ClientCtx (settings c) (running c) (state c) (timeoutEventDone c)
    (timestamp c) v (retransmitCount c) (clientId c) (clientIdLength c)
    (clientFqdn c) (clientFqdnLength c) (clientAddr c) (serverId c)
    (serverIdLength c) (serverPreference c) (transactionId c)
    (configStartTime c) (exchangeStartTime c) (leaseStartTime c) (t1 c) (t2 c)
    (preferredLifetime c) (validLifetime c).

Definition set_retransmitCount (v : Z) (c : Dhcpv6ClientCtx) : Dhcpv6ClientCtx :=
  mkDhcpv6ClientCtx (settings c) (running c) (state c) (timeoutEventDone c)
    (timestamp c) (timeout c) v (clientId c) (clientIdLength c) (clientFqdn c)
    (clientFqdnLength c) (clientAddr c) (serverId c) (serverIdLength c)
    (serverPreference c) (transactionId c) (configStartTime c)
    (exchangeStartTime c) (leaseStartTime c) (t1 c) (t2 c)
    (preferredLifetime c) (validLifetime c).

Definition set_clientId (v : list byte) (c : Dhcpv6ClientCtx) : Dhcpv6ClientCtx :=
  mkDhcpv6ClientCtx (settings c) (running c) (state c) (timeoutEventDone c)
    (timestamp c) (timeout c) (retransmitCount c) v (clientIdLength c)
    (clientFqdn c) (clientFqdnLength c) (clientAddr c) (serverId c)
    (serverIdLength c) (serverPreference c) (transactionId c)
    (configStartTime c) (exchangeStartTime c) (leaseStartTime c) (t1 c) (t2 c)
    (preferredLifetime c) (validLifetime c).

Definition set_clientIdLength (v : Z) (c : Dhcpv6ClientCtx) : Dhcpv6ClientCtx :=
  mkDhcpv6ClientCtx (settings c) (running c) (state c) (timeoutEventDone c)
    (timestamp c) (timeout c) (retransmitCount c) (clientId c) v
    (clientFqdn c) (clientFqdnLength c) (clientAddr c) (serverId c)
    (serverIdLength c) (serverPreference c) (transactionId c)
    (configStartTime c) (exchangeStartTime c) (leaseStartTime c) (t1 c) (t2 c)
    (preferredLifetime c) (validLifetime c).

Definition set_clientFqdn (v : list byte) (c : Dhcpv6ClientCtx) : Dhcpv6ClientCtx :=
  mkDhcpv6ClientCtx (settings c) (running c) (state c) (timeoutEventDone c)
    (timestamp c) (timeout c) (retransmitCount c) (clientId c)
    (clientIdLength c) v (clientFqdnLength c) (clientAddr c) (serverId c)
    (serverIdLength c) (serverPreference c) (transactionId c)
    (configStartTime c) (exchangeStartTime c) (leaseStartTime c) (t1 c) (t2 c)
    (preferredLifetime c) (validLifetime c).

Definition set_clientFqdnLength (v : Z) (c : Dhcpv6ClientCtx) : Dhcpv6ClientCtx :=
  mkDhcpv6ClientCtx (settings c) (running c) (state c) (timeoutEventDone c)
    (timestamp c) (timeout c) (retransmitCount c) (clientId c)
    (clientIdLength c) (clientFqdn c) v (clientAddr c) (serverId c)
    (serverIdLength c) (serverPreference c) (transactionId c)
    (configStartTime c) (exchangeStartTime c) (leaseStartTime c) (t1 c) (t2 c)
    (preferredLifetime c) (validLifetime c).

Definition set_clientAddr (v : Ipv6Addr) (c : Dhcpv6ClientCtx) : Dhcpv6ClientCtx :=
  mkDhcpv6ClientCtx (settings c) (running c) (state c) (timeoutEventDone c)
    (timestamp c) (timeout c) (retransmitCount c) (clientId c)
    (clientIdLength c) (clientFqdn c) (clientFqdnLength c) v (serverId c)
    (serverIdLength c) (serverPreference c) (transactionId c)
    (configStartTime c) (exchangeStartTime c) (leaseStartTime c) (t1 c) (t2 c)
    (preferredLifetime c) (validLifetime c).

Definition set_serverId (v : list byte) (c : Dhcpv6ClientCtx) : Dhcpv6ClientCtx :=
  mkDhcpv6ClientCtx (settings c) (running c) (state c) (timeoutEventDone c)
    (timestamp c) (timeout c) (retransmitCount c) (clientId c)
    (clientIdLength c) (clientFqdn c) (clientFqdnLength c) (clientAddr c) v
    (serverIdLength c) (serverPreference c) (transactionId c)
    (configStartTime c) (exchangeStartTime c) (leaseStartTime c) (t1 c) (t2 c)
    (preferredLifetime c) (validLifetime c).

Definition set_serverIdLength (v : Z) (c : Dhcpv6ClientCtx) : Dhcpv6ClientCtx :=
  mkDhcpv6ClientCtx (settings c) (running c) (state c) (timeoutEventDone c)
    (timestamp c) (timeout c) (retransmitCount c) (clientId c)
    (clientIdLength c) (clientFqdn c) (clientFqdnLength c) (clientAddr c)
    (serverId c) v (serverPreference c) (transactionId c) (configStartTime c)
    (exchangeStartTime c) (leaseStartTime c) (t1 c) (t2 c)
    (preferredLifetime c) (validLifetime c).

Definition set_serverPreference (v : Z) (c : Dhcpv6ClientCtx) : Dhcpv6ClientCtx :=
  mkDhcpv6ClientCtx (settings c) (running c) (state c) (timeoutEventDone c)
    (timestamp c) (timeout c) (retransmitCount c) (clientId c)
    (clientIdLength c) (clientFqdn c) (clientFqdnLength c) (clientAddr c)
    (serverId c) (serverIdLength c) v (transactionId c) (configStartTime c)
    (exchangeStartTime c) (leaseStartTime c) (t1 c) (t2 c)
    (preferredLifetime c) (validLifetime c).

Definition set_transactionId (v : Z) (c : Dhcpv6ClientCtx) : Dhcpv6ClientCtx :=
  mkDhcpv6ClientCtx (settings c) (running c) (state c) (timeoutEventDone c)
    (timestamp c) (timeout c) (retransmitCount c) (clientId c)
    (clientIdLength c) (clientFqdn c) (clientFqdnLength c) (clientAddr c)
    (serverId c) (serverIdLength c) (serverPreference c) v (configStartTime c)
    (exchangeStartTime c) (leaseStartTime c) (t1 c) (t2 c)
    (preferredLifetime c) (validLifetime c).

Definition set_configStartTime (v : Z) (c : Dhcpv6ClientCtx) : Dhcpv6ClientCtx :=
  mkDhcpv6ClientCtx (settings c) (running c) (state c) (timeoutEventDone c)
    (timestamp c) (timeout c) (retransmitCount c) (clientId c)
    (clientIdLength c) (clientFqdn c) (clientFqdnLength c) (clientAddr c)
    (serverId c) (serverIdLength c) (serverPreference c) (transactionId c) v
    (exchangeStartTime c) (leaseStartTime c) (t1 c) (t2 c)
    (preferredLifetime c) (validLifetime c).

Definition set_exchangeStartTime (v : Z) (c : Dhcpv6ClientCtx) : Dhcpv6ClientCtx :=
  mkDhcpv6ClientCtx (settings c) (running c) (state c) (timeoutEventDone c)
    (timestamp c) (timeout c) (retransmitCount c) (clientId c)
    (clientIdLength c) (clientFqdn c) (clientFqdnLength c) (clientAddr c)
    (serverId c) (serverIdLength c) (serverPreference c) (transactionId c)
    (configStartTime c) v (leaseStartTime c) (t1 c) (t2 c)
    (preferredLifetime c) (validLifetime c).

Definition set_leaseStartTime (v : Z) (c : Dhcpv6ClientCtx) : Dhcpv6ClientCtx :=
  mkDhcpv6ClientCtx (settings c) (running c) (state c) (timeoutEventDone c)
    (timestamp c) (timeout c) (retransmitCount c) (clientId c)
    (clientIdLength c) (clientFqdn c) (clientFqdnLength c) (clientAddr c)
    (serverId c) (serverIdLength c) (serverPreference c) (transactionId c)
    (configStartTime c) (exchangeStartTime c) v (t1 c) (t2 c)
    (preferredLifetime c) (validLifetime c).

Definition set_t1 (v : Z) (c : Dhcpv6ClientCtx) : Dhcpv6ClientCtx :=
  mkDhcpv6ClientCtx (settings c) (running c) (state c) (timeoutEventDone c)
    (timestamp c) (timeout c) (retransmitCount c) (clientId c)
    (clientIdLength c) (clientFqdn c) (clientFqdnLength c) (clientAddr c)
    (serverId c) (serverIdLength c) (serverPreference c) (transactionId c)
    (configStartTime c) (exchangeStartTime c) (leaseStartTime c) v (t2 c)
    (preferredLifetime c) (validLifetime c).

Definition set_t2 (v : Z) (c : Dhcpv6ClientCtx) : Dhcpv6ClientCtx :=
  mkDhcpv6ClientCtx (settings c) (running c) (state c) (timeoutEventDone c)
    (timestamp c) (timeout c) (retransmitCount c) (clientId c)
    (clientIdLength c) (clientFqdn c) (clientFqdnLength c) (clientAddr c)
    (serverId c) (serverIdLength c) (serverPreference c) (transactionId c)
    (configStartTime c) (exchangeStartTime c) (leaseStartTime c) (t1 c) v
    (preferredLifetime c) (validLifetime c).

Definition set_preferredLifetime (v : Z) (c : Dhcpv6ClientCtx) : Dhcpv6ClientCtx :=
  mkDhcpv6ClientCtx (settings c) (running c) (state c) (timeoutEventDone c)
    (timestamp c) (timeout c) (retransmitCount c) (clientId c)
    (clientIdLength c) (clientFqdn c) (clientFqdnLength c) (clientAddr c)
    (serverId c) (serverIdLength c) (serverPreference c) (transactionId c)
    (configStartTime c) (exchangeStartTime c) (leaseStartTime c) (t1 c) (t2 c)
    v (validLifetime c).

Definition set_validLifetime (v : Z) (c : Dhcpv6ClientCtx) : Dhcpv6ClientCtx :=
  mkDhcpv6ClientCtx (settings c) (running c) (state c) (timeoutEventDone c)
    (timestamp c) (timeout c) (retransmitCount c) (clientId c)
    (clientIdLength c) (clientFqdn c) (clientFqdnLength c) (clientAddr c)
    (serverId c) (serverIdLength c) (serverPreference c) (transactionId c)
    (configStartTime c) (exchangeStartTime c) (leaseStartTime c) (t1 c) (t2 c)
    (preferredLifetime c) v.

(** [memcpy(dst, src, n)] into an array held as a list. *)
Definition memcpy (dst src : list byte) (n : Z) : list byte :=
  firstn (Z.to_nat n) src ++ skipn (Z.to_nat n) dst.

(** dhcpv6ClientGetDefaultSettings *)
Definition dhcpv6ClientGetDefaultSettings : Dhcpv6ClientSettings :=
  mkDhcpv6ClientSettings NULL false false 0 false false false.

Definition osCreateMutex : M Dhcpv6ClientCtx bool :=
  emit EvCreateMutex ;;
  fun w => (env_createMutex (env w), w).

Definition osDeleteMutex : M Dhcpv6ClientCtx unit := emit EvDeleteMutex.

Definition udpAttachRxCallback (port : Z) : M Dhcpv6ClientCtx error_t :=
  emit (EvUdpAttachRxCallback port) ;;
  fun w => (env_attach (env w), w).

(** dhcpv6RandRange: [min + netGetRand() % (max - min + 1)], computed
    on 32 bits and returned as an [int32_t]. *)
Definition dhcpv6RandRange (min max : Z) : M Dhcpv6ClientCtx Z :=
  r <- netGetRand ;;
  ret (int32 (min + r mod wrap32 (max - min + 1))).

(** dhcpv6Rand: [value * dhcpv6RandRange(-100, 100) / 1000], the
    division of C truncating towards zero. *)
Definition dhcpv6Rand (value : Z) : M Dhcpv6ClientCtx Z :=
  r <- dhcpv6RandRange (-100) 100 ;;
  ret (Z.quot (int32 (value * r)) 1000).

(** [context->timeout += dhcpv6Rand(context->timeout)] *)
Definition randomizeTimeout : M Dhcpv6ClientCtx unit :=
  c <- getCtx ;;
  r <- dhcpv6Rand (int32 (timeout c)) ;;
  modifyCtx (fun c => set_timeout (wrap32 (timeout c + r)) c).

Section Client.

Variable lib : Common.

(** [memset(context, 0, sizeof(Dhcpv6ClientCtx))] then
    [context->settings = *settings]. *)
Definition clearedContext (s : Dhcpv6ClientSettings) : Dhcpv6ClientCtx :=
  mkDhcpv6ClientCtx s false 0 false 0 0 0
    (repeat x00 (Z.to_nat (DHCPV6_MAX_DUID_SIZE lib))) 0
    (repeat x00 (Z.to_nat DHCPV6_CLIENT_MAX_FQDN_SIZE)) 0
    (repeat x00 16)
    (repeat x00 (Z.to_nat (DHCPV6_MAX_DUID_SIZE lib))) 0
    0 0 0 0 0 0 0 0 0.

(** dhcpv6ClientInit *)
Definition dhcpv6ClientInit (context : pointer Dhcpv6ClientCtx)
    (settings : option Dhcpv6ClientSettings) : M Dhcpv6ClientCtx error_t :=
  match context, settings with
  | NULL, _ | _, None => ret ERROR_INVALID_PARAMETER
  | Ref, Some s =>
      if isNull (interface s) then ret ERROR_INVALID_PARAMETER
      else
        i <- getIf ;;
        modifyCtx (fun _ => clearedContext s) ;;
        let duid :=
          htons DHCPV6_DUID_LL ++ htons DHCPV6_HARDWARE_TYPE_ETH ++
          firstn 6 (macAddr i) in
        modifyCtx (fun c => set_clientId (memcpy (clientId c) duid
                                            sizeofDhcpv6DuidLl) c) ;;
        modifyCtx (set_clientIdLength sizeofDhcpv6DuidLl) ;;
        let name := dnsEncodeName lib (if_hostname i) in
        modifyCtx (fun c => set_clientFqdn
                              (memcpy (clientFqdn c) (x00 :: name)
                                 (sizeofDhcpv6FqdnOption + len name)) c) ;;
        modifyCtx (set_clientFqdnLength (len name)) ;;
        ok <- osCreateMutex ;;
        if negb ok then ret ERROR_OUT_OF_RESOURCES
        else
          error <- udpAttachRxCallback DHCPV6_CLIENT_PORT ;;
          if is_error error then
            osDeleteMutex ;;
            ret error
          else
            modifyCtx (set_running false) ;;
            modifyCtx (set_state DHCPV6_STATE_INIT) ;;
            modifyIf (set_dhcpv6ClientContext true) ;;
            ret NO_ERROR
  end.

(** dhcpv6ClientStart *)
Definition dhcpv6ClientStart (context : pointer Dhcpv6ClientCtx)
  : M Dhcpv6ClientCtx error_t :=
  match context with
  | NULL => ret ERROR_INVALID_PARAMETER
  | Ref =>
      osAcquireMutex ;;
      modifyCtx (set_running true) ;;
      modifyCtx (set_state DHCPV6_STATE_INIT) ;;
      osReleaseMutex ;;
      ret NO_ERROR
  end.

(** dhcpv6ClientStop *)
Definition dhcpv6ClientStop (context : pointer Dhcpv6ClientCtx)
  : M Dhcpv6ClientCtx error_t :=
  match context with
  | NULL => ret ERROR_INVALID_PARAMETER
  | Ref =>
      osAcquireMutex ;;
      modifyCtx (set_running false) ;;
      modifyCtx (set_state DHCPV6_STATE_INIT) ;;
      osReleaseMutex ;;
      ret NO_ERROR
  end.

(** dhcpv6ClientGetState: no test of the pointer, and no error code in
    the return type. *)
Definition dhcpv6ClientGetState (context : pointer Dhcpv6ClientCtx)
  : M Dhcpv6ClientCtx (access Z) :=
  match context with
  | NULL => ret NullDereference
  | Ref =>
      osAcquireMutex ;;
      c <- getCtx ;;
      let st := state c in
      osReleaseMutex ;;
      ret (Value st)
  end.

(** dhcpv6ChangeState.  The user callback runs with the mutex released. *)
Definition dhcpv6ChangeState (newState : Z) (delay : Z)
  : M Dhcpv6ClientCtx unit :=
  time <- osGetSystemTime ;;
  modifyCtx (set_timestamp time) ;;
  modifyCtx (set_timeout (wrap32 delay)) ;;
  modifyCtx (set_retransmitCount 0) ;;
  modifyCtx (set_state newState) ;;
  c <- getCtx ;;
  when (stateChangeEvent (settings c))
    (osReleaseMutex ;;
     emit (EvStateChangeEvent newState) ;;
     osAcquireMutex).

(** dhcpv6CheckTimeout *)
Definition dhcpv6CheckTimeout : M Dhcpv6ClientCtx unit :=
  time <- osGetSystemTime ;;
  c <- getCtx ;;
  when (timeoutEvent (settings c))
    (when (timeCompare time
             (wrap32 (configStartTime c + settings_timeout (settings c)))
           >=? 0)
       (when (negb (timeoutEventDone c))
          (osReleaseMutex ;;
           emit EvTimeoutEvent ;;
           osAcquireMutex ;;
           modifyCtx (set_timeoutEventDone true)))).

(** dhcpv6ComputeElapsedTime *)
Definition dhcpv6ComputeElapsedTime : M Dhcpv6ClientCtx (list byte) :=
  c <- getCtx ;;
  if retransmitCount c >? 0 then
    now <- osGetSystemTime ;;
    let time := wrap32 (now - exchangeStartTime c) / 10 in
    let time := if time >? 0xFFFF then 0xFFFF else time in
    ret (htons time)
  else ret (htons 0).

(** The Option Request Option payload, dhcpv6OptionList. *)
Definition dhcpv6OptionList : list byte :=
  htons DHCPV6_OPTION_DNS_SERVERS ++ htons DHCPV6_OPTION_DOMAIN_LIST ++
  htons DHCPV6_OPTION_FQDN.

(** The message after its header is formatted: no option yet, and a
    length of [sizeof(Dhcpv6Message)]. *)
Definition formatMessage (type : Z) (c : Dhcpv6ClientCtx) : Dhcpv6Message :=
  mkDhcpv6Message type (STORE24BE (transactionId c)) [].

(** The IA_NA option value the client sends: its interface id as IAID,
    T1 and T2 zero. *)
Definition iaNaOption (i : NetInterface) : list byte :=
  htonl (if_id i) ++ htonl 0 ++ htonl 0.

(** The IA Address option value the client sends: the address, both
    lifetimes zero. *)
Definition iaAddrOption (a : Ipv6Addr) : list byte :=
  firstn 16 a ++ htonl 0 ++ htonl 0.

Definition addClientId (c : Dhcpv6ClientCtx) (m : Dhcpv6Message) :=
  dhcpv6AddOption lib m DHCPV6_OPTION_CLIENTID
    (firstn (Z.to_nat (clientIdLength c)) (clientId c)).

Definition addServerId (c : Dhcpv6ClientCtx) (m : Dhcpv6Message) :=
  dhcpv6AddOption lib m DHCPV6_OPTION_SERVERID
    (firstn (Z.to_nat (serverIdLength c)) (serverId c)).

Definition addIaNa (i : NetInterface) (m : Dhcpv6Message) :=
  dhcpv6AddOption lib m DHCPV6_OPTION_IA_NA (iaNaOption i).

(** The IA_NA option, then the IA Address sub-option appended to it;
    the option added sits at the end of the options written so far. *)
Definition addIaNaWithAddr (i : NetInterface) (a : Ipv6Addr)
    (m : Dhcpv6Message) :=
  let offset := len (dhcpv6_options m) in
  dhcpv6AddSubOption lib (addIaNa i m) offset DHCPV6_OPTION_IAADDR
    (iaAddrOption a).

Definition addOro (m : Dhcpv6Message) :=
  dhcpv6AddOption lib m DHCPV6_OPTION_ORO dhcpv6OptionList.

Definition addElapsedTime (value : list byte) (m : Dhcpv6Message) :=
  dhcpv6AddOption lib m DHCPV6_OPTION_ELAPSED_TIME value.

Definition addFqdn (c : Dhcpv6ClientCtx) (m : Dhcpv6Message) :=
  dhcpv6AddOption lib m DHCPV6_OPTION_FQDN
    (firstn (Z.to_nat (sizeofDhcpv6FqdnOption + clientFqdnLength c))
       (clientFqdn c)).

(** The end of every send function: the datagram goes to the
    All_DHCP_Relay_Agents_and_Servers address. *)
Definition sendMessage (m : Dhcpv6Message) : M Dhcpv6ClientCtx error_t :=
  udpSendDatagramEx DHCPV6_CLIENT_PORT
    (IpAddr6 DHCPV6_ALL_RELAY_AGENTS_AND_SERVERS_ADDR) DHCPV6_SERVER_PORT
    (PayloadDhcpv6 m) 0.

(** dhcpv6SendSolicit *)
Definition dhcpv6SendSolicit : M Dhcpv6ClientCtx error_t :=
  buffer <- udpAllocBuffer ;;
  if negb buffer then ret ERROR_OUT_OF_MEMORY
  else
    c <- getCtx ;;
    i <- getIf ;;
    let m := formatMessage DHCPV6_MSG_TYPE_SOLICIT c in
    let m := addClientId c m in
    let m := addIaNa i m in
    let m := addOro m in
    elapsed <- dhcpv6ComputeElapsedTime ;;
    let m := addElapsedTime elapsed m in
    let m := if rapidCommit (settings c)
             then dhcpv6AddOption lib m DHCPV6_OPTION_RAPID_COMMIT []
             else m in
    let m := addFqdn c m in
    sendMessage m.

(** dhcpv6SendRequest *)
Definition dhcpv6SendRequest : M Dhcpv6ClientCtx error_t :=
  buffer <- udpAllocBuffer ;;
  if negb buffer then ret ERROR_OUT_OF_MEMORY
  else
    c <- getCtx ;;
    i <- getIf ;;
    let m := formatMessage DHCPV6_MSG_TYPE_REQUEST c in
    let m := addClientId c m in
    let m := addServerId c m in
    let m := addIaNa i m in
    let m := addOro m in
    elapsed <- dhcpv6ComputeElapsedTime ;;
    let m := addElapsedTime elapsed m in
    let m := addFqdn c m in
    sendMessage m.

(** dhcpv6SendConfirm *)
Definition dhcpv6SendConfirm : M Dhcpv6ClientCtx error_t :=
  buffer <- udpAllocBuffer ;;
  if negb buffer then ret ERROR_OUT_OF_MEMORY
  else
    c <- getCtx ;;
    i <- getIf ;;
    let m := formatMessage DHCPV6_MSG_TYPE_CONFIRM c in
    let m := addClientId c m in
    let m := addIaNaWithAddr i (clientAddr c) m in
    let m := addOro m in
    elapsed <- dhcpv6ComputeElapsedTime ;;
    let m := addElapsedTime elapsed m in
    let m := addFqdn c m in
    sendMessage m.

(** dhcpv6SendRenew *)
Definition dhcpv6SendRenew : M Dhcpv6ClientCtx error_t :=
  buffer <- udpAllocBuffer ;;
  if negb buffer then ret ERROR_OUT_OF_MEMORY
  else
    c <- getCtx ;;
    i <- getIf ;;
    let m := formatMessage DHCPV6_MSG_TYPE_RENEW c in
    let m := addClientId c m in
    let m := addServerId c m in
    let m := addIaNaWithAddr i (globalAddr (ipv6Config i)) m in
    let m := addOro m in
    elapsed <- dhcpv6ComputeElapsedTime ;;
    let m := addElapsedTime elapsed m in
    let m := addFqdn c m in
    sendMessage m.

(** dhcpv6SendRebind *)
Definition dhcpv6SendRebind : M Dhcpv6ClientCtx error_t :=
  buffer <- udpAllocBuffer ;;
  if negb buffer then ret ERROR_OUT_OF_MEMORY
  else
    c <- getCtx ;;
    i <- getIf ;;
    let m := formatMessage DHCPV6_MSG_TYPE_REBIND c in
    let m := addClientId c m in
    let m := addIaNaWithAddr i (globalAddr (ipv6Config i)) m in
    let m := addOro m in
    elapsed <- dhcpv6ComputeElapsedTime ;;
    let m := addElapsedTime elapsed m in
    let m := addFqdn c m in
    sendMessage m.

(** dhcpv6SendDecline *)
Definition dhcpv6SendDecline : M Dhcpv6ClientCtx error_t :=
  buffer <- udpAllocBuffer ;;
  if negb buffer then ret ERROR_OUT_OF_MEMORY
  else
    c <- getCtx ;;
    i <- getIf ;;
    let m := formatMessage DHCPV6_MSG_TYPE_DECLINE c in
    let m := addClientId c m in
    let m := addServerId c m in
    let m := addIaNaWithAddr i (globalAddr (ipv6Config i)) m in
    elapsed <- dhcpv6ComputeElapsedTime ;;
    let m := addElapsedTime elapsed m in
    sendMessage m.

(** dhcpv6StateInit *)
Definition dhcpv6StateInit : M Dhcpv6ClientCtx unit :=
  c <- getCtx ;;
  i <- getIf ;;
  when (running c)
    (when (linkState i)
       (delay <- dhcpv6RandRange 0 DHCPV6_CLIENT_SOL_MAX_DELAY ;;
        t <- osGetSystemTime ;;
        modifyCtx (set_configStartTime t) ;;
        modifyCtx (set_timeoutEventDone false) ;;
        dhcpv6ChangeState DHCPV6_STATE_SOLICIT delay)).

(** [context->retransmitCount++] *)
Definition incRetransmitCount : M Dhcpv6ClientCtx unit :=
  modifyCtx (fun c => set_retransmitCount (wrap32 (retransmitCount c + 1)) c).

(** [timeout *= 2; timeout = MIN(timeout, maxRt)] *)
Definition doubleTimeout (maxRt : Z) : M Dhcpv6ClientCtx unit :=
  modifyCtx (fun c => set_timeout (wrap32 (timeout c * 2)) c) ;;
  modifyCtx (fun c => set_timeout (MIN (timeout c) maxRt) c).

(** [context->transactionId = netGetRand() & 0x00FFFFFF] *)
Definition newTransactionId : M Dhcpv6ClientCtx unit :=
  r <- netGetRand ;;
  modifyCtx (set_transactionId (Z.land r 0x00FFFFFF)).

(** dhcpv6StateSolicit *)
Definition dhcpv6StateSolicit : M Dhcpv6ClientCtx unit :=
  time <- osGetSystemTime ;;
  c <- getCtx ;;
  when (timeCompare time (wrap32 (timestamp c + timeout c)) >=? 0)
    (if retransmitCount c =? 0 then
       ndpSendRouterSol ;;
       modifyCtx (set_serverPreference (-1)) ;;
       newTransactionId ;;
       dhcpv6SendSolicit ;;
       modifyCtx (set_timestamp time) ;;
       modifyCtx (set_timeout DHCPV6_CLIENT_SOL_TIMEOUT) ;;
       randomizeTimeout ;;
       incRetransmitCount
     else if serverPreference c >=? 0 then
       dhcpv6ChangeState DHCPV6_STATE_REQUEST 0
     else
       dhcpv6SendSolicit ;;
       modifyCtx (set_timestamp time) ;;
       doubleTimeout DHCPV6_CLIENT_SOL_MAX_RT ;;
       randomizeTimeout ;;
       incRetransmitCount) ;;
  dhcpv6CheckTimeout.

(** dhcpv6StateRequest *)
Definition dhcpv6StateRequest : M Dhcpv6ClientCtx unit :=
  time <- osGetSystemTime ;;
  c <- getCtx ;;
  when (timeCompare time (wrap32 (timestamp c + timeout c)) >=? 0)
    (if retransmitCount c =? 0 then
       newTransactionId ;;
       dhcpv6SendRequest ;;
       modifyCtx (set_timestamp time) ;;
       modifyCtx (set_timeout DHCPV6_CLIENT_REQ_TIMEOUT) ;;
       randomizeTimeout ;;
       incRetransmitCount
     else if retransmitCount c <? DHCPV6_CLIENT_REQ_MAX_RC then
       dhcpv6SendRequest ;;
       modifyCtx (set_timestamp time) ;;
       doubleTimeout DHCPV6_CLIENT_REQ_MAX_RT ;;
       randomizeTimeout ;;
       incRetransmitCount
     else
       dhcpv6ChangeState DHCPV6_STATE_INIT 0) ;;
  dhcpv6CheckTimeout.

(** dhcpv6StateInitConfirm *)
Definition dhcpv6StateInitConfirm : M Dhcpv6ClientCtx unit :=
  c <- getCtx ;;
  i <- getIf ;;
  when (running c)
    (when (linkState i)
       (delay <- dhcpv6RandRange 0 DHCPV6_CLIENT_CNF_MAX_DELAY ;;
        t <- osGetSystemTime ;;
        modifyCtx (set_configStartTime t) ;;
        modifyCtx (set_timeoutEventDone false) ;;
        dhcpv6ChangeState DHCPV6_STATE_CONFIRM delay)).

(** dhcpv6StateConfirm *)
Definition dhcpv6StateConfirm : M Dhcpv6ClientCtx unit :=
  time <- osGetSystemTime ;;
  c <- getCtx ;;
  (if timeCompare time (wrap32 (timestamp c + timeout c)) >=? 0 then
     if retransmitCount c =? 0 then
       ndpSendRouterSol ;;
       newTransactionId ;;
       dhcpv6SendConfirm ;;
       modifyCtx (set_exchangeStartTime time) ;;
       modifyCtx (set_timestamp time) ;;
       modifyCtx (set_timeout DHCPV6_CLIENT_CNF_TIMEOUT) ;;
       randomizeTimeout ;;
       incRetransmitCount
     else
       dhcpv6SendConfirm ;;
       modifyCtx (set_timestamp time) ;;
       doubleTimeout DHCPV6_CLIENT_CNF_MAX_RT ;;
       randomizeTimeout ;;
       incRetransmitCount
   else
     when (retransmitCount c >? 0)
       (when (timeCompare time
                (wrap32 (exchangeStartTime c + DHCPV6_CLIENT_CNF_MAX_RD))
              >=? 0)
          (dhcpv6ChangeState DHCPV6_STATE_INIT 0))) ;;
  dhcpv6CheckTimeout.

(** dhcpv6StateBound *)
Definition dhcpv6StateBound : M Dhcpv6ClientCtx unit :=
  time <- osGetSystemTime ;;
  c <- getCtx ;;
  when (negb (t1 c =? DHCPV6_INFINITE_TIME))
    (let t1ms := wrap32 (t1 c * 1000) in
     when (timeCompare time (wrap32 (leaseStartTime c + t1ms)) >=? 0)
       (modifyCtx (set_configStartTime time) ;;
        dhcpv6ChangeState DHCPV6_STATE_RENEW 0)).

(** dhcpv6StateRenew *)
Definition dhcpv6StateRenew : M Dhcpv6ClientCtx unit :=
  time <- osGetSystemTime ;;
  c <- getCtx ;;
  if timeCompare time (wrap32 (timestamp c + timeout c)) >=? 0 then
    (if retransmitCount c =? 0 then
       newTransactionId ;;
       dhcpv6SendRenew ;;
       modifyCtx (set_timeout DHCPV6_CLIENT_REN_TIMEOUT)
     else
       dhcpv6SendRenew ;;
       doubleTimeout DHCPV6_CLIENT_REN_MAX_RT) ;;
    modifyCtx (set_timestamp time) ;;
    randomizeTimeout ;;
    incRetransmitCount
  else
    when (negb (t2 c =? DHCPV6_INFINITE_TIME))
      (let t2ms := wrap32 (t2 c * 1000) in
       when (timeCompare time (wrap32 (leaseStartTime c + t2ms)) >=? 0)
         (dhcpv6ChangeState DHCPV6_STATE_REBIND 0)).

(** dhcpv6StateRebind *)
Definition dhcpv6StateRebind : M Dhcpv6ClientCtx unit :=
  time <- osGetSystemTime ;;
  c <- getCtx ;;
  if timeCompare time (wrap32 (timestamp c + timeout c)) >=? 0 then
    (if retransmitCount c =? 0 then
       newTransactionId ;;
       dhcpv6SendRebind ;;
       modifyCtx (set_timeout DHCPV6_CLIENT_REB_TIMEOUT)
     else
       dhcpv6SendRebind ;;
       doubleTimeout DHCPV6_CLIENT_REB_MAX_RT) ;;
    modifyCtx (set_timestamp time) ;;
    randomizeTimeout ;;
    incRetransmitCount
  else
    when (negb (validLifetime c =? DHCPV6_INFINITE_TIME))
      (let validMs := wrap32 (validLifetime c * 1000) in
       when (timeCompare time (wrap32 (leaseStartTime c + validMs)) >=? 0)
         (modifyIf (ipv6SetGlobalAddrEx IPV6_UNSPECIFIED_ADDR
                      ADDR_STATE_INVALID) ;;
          dhcpv6ChangeState DHCPV6_STATE_INIT 0)).

(** dhcpv6StateDecline *)
Definition dhcpv6StateDecline : M Dhcpv6ClientCtx unit :=
  time <- osGetSystemTime ;;
  c <- getCtx ;;
  when (timeCompare time (wrap32 (timestamp c + timeout c)) >=? 0)
    (if retransmitCount c =? 0 then
       newTransactionId ;;
       dhcpv6SendDecline ;;
       modifyCtx (set_timestamp time) ;;
       modifyCtx (set_timeout DHCPV6_CLIENT_DEC_TIMEOUT) ;;
       randomizeTimeout ;;
       incRetransmitCount
     else if retransmitCount c <? DHCPV6_CLIENT_DEC_MAX_RC then
       dhcpv6SendDecline ;;
       modifyCtx (set_timestamp time) ;;
       modifyCtx (fun c => set_timeout (wrap32 (timeout c * 2)) c) ;;
       randomizeTimeout ;;
       incRetransmitCount
     else
       dhcpv6ChangeState DHCPV6_STATE_INIT 0).

(** dhcpv6ClientTick.  The switch has no case for the DECLINE state,
    which takes the default branch. *)
Definition dhcpv6ClientTick : M Dhcpv6ClientCtx unit :=
  osAcquireMutex ;;
  c <- getCtx ;;
  (if state c =? DHCPV6_STATE_INIT then dhcpv6StateInit
   else if state c =? DHCPV6_STATE_SOLICIT then dhcpv6StateSolicit
   else if state c =? DHCPV6_STATE_REQUEST then dhcpv6StateRequest
   else if state c =? DHCPV6_STATE_INIT_CONFIRM then dhcpv6StateInitConfirm
   else if state c =? DHCPV6_STATE_CONFIRM then dhcpv6StateConfirm
   else if state c =? DHCPV6_STATE_BOUND then dhcpv6StateBound
   else if state c =? DHCPV6_STATE_RENEW then dhcpv6StateRenew
   else if state c =? DHCPV6_STATE_REBIND then dhcpv6StateRebind
   else modifyCtx (set_state DHCPV6_STATE_INIT)) ;;
  osReleaseMutex.

(** dhcpv6ClientLinkChangeEvent *)
Definition dhcpv6ClientLinkChangeEvent : M Dhcpv6ClientCtx unit :=
  osAcquireMutex ;;
  c <- getCtx ;;
  when (running c)
    (modifyIf (ipv6SetGlobalAddrEx IPV6_UNSPECIFIED_ADDR ADDR_STATE_INVALID)) ;;
  (if state c >=? DHCPV6_STATE_INIT_CONFIRM
   then modifyCtx (set_state DHCPV6_STATE_INIT_CONFIRM)
   else modifyCtx (set_state DHCPV6_STATE_INIT)) ;;
  osReleaseMutex ;;
  i <- getIf ;;
  when (linkChangeEvent (settings c))
    (emit (EvLinkChangeEvent (linkState i))).

(** dhcpv6ParseIaNaOption *)
Definition dhcpv6ParseIaNaOption (option : Dhcpv6Option)
  : M Dhcpv6ClientCtx error_t :=
  i <- getIf ;;
  if ntohs (opt6_length option) <? sizeofDhcpv6IaNaOption
  then ret ERROR_INVALID_OPTION
  else
    let iaNa := opt6_value option in
    let length := ntohs (opt6_length option) - sizeofDhcpv6IaNaOption in
    if negb (ntohl (iaNa_iaId iaNa) =? if_id i) then ret ERROR_INVALID_OPTION
    else if (ntohl (iaNa_t1 iaNa) >? ntohl (iaNa_t2 iaNa))
            && (ntohl (iaNa_t2 iaNa) >? 0) then ret ERROR_INVALID_OPTION
    else if is_error (dhcpv6ParseStatusCodeOption lib (iaNa_options iaNa)
                        length) then ret ERROR_INVALID_OPTION
    else
      match dhcpv6GetOption lib (iaNa_options iaNa) length
              DHCPV6_OPTION_IAADDR with
      | None => ret ERROR_INVALID_OPTION
      | Some subOption =>
          if ntohs (opt6_length subOption) <? sizeofDhcpv6IaAddrOption
          then ret ERROR_INVALID_OPTION
          else
            let iaAddr := opt6_value subOption in
            if ntohl (iaAddr_preferredLifetime iaAddr) >?
               ntohl (iaAddr_validLifetime iaAddr)
            then ret ERROR_INVALID_OPTION
            else
              modifyCtx (set_clientAddr (iaAddr_address iaAddr)) ;;
              modifyCtx (set_t1 (ntohl (iaNa_t1 iaNa))) ;;
              modifyCtx (set_t2 (ntohl (iaNa_t2 iaNa))) ;;
              modifyCtx (set_preferredLifetime
                           (ntohl (iaAddr_preferredLifetime iaAddr))) ;;
              modifyCtx (set_validLifetime
                           (ntohl (iaAddr_validLifetime iaAddr))) ;;
              modifyCtx (fun c => if t1 c =? 0
                                  then set_t1 (preferredLifetime c / 2) c
                                  else c) ;;
              modifyCtx (fun c => if t2 c =? 0
                                  then set_t2 (wrap32 (t1 c + t1 c / 2)) c
                                  else c) ;;
              ret NO_ERROR
      end.

(** [serverIdLength = ntohs(serverIdOption->length)] and the copy of
    the server DUID. *)
Definition recordServerId (serverIdOption : Dhcpv6Option)
  : M Dhcpv6ClientCtx unit :=
  modifyCtx (set_serverIdLength (ntohs (opt6_length serverIdOption))) ;;
  modifyCtx (fun c => set_serverId
                        (memcpy (serverId c) (opt6_value serverIdOption)
                           (serverIdLength c)) c).

(** The commit of dhcpv6ParseReply once an IA_NA option has been
    parsed.  dhcpv6DumpConfig only prints and is left out. *)
Definition commitReply (message : Dhcpv6Message) (length : Z)
    (serverIdOption : Dhcpv6Option) : M Dhcpv6ClientCtx unit :=
  recordServerId serverIdOption ;;
  match dhcpv6GetOption lib (dhcpv6_options message) length
          DHCPV6_OPTION_DNS_SERVERS with
  | Some option =>
      when (ntohs (opt6_length option) mod sizeofIpv6Addr =? 0)
        (let n := ntohs (opt6_length option) / sizeofIpv6Addr in
         let n := MIN n (IPV6_MAX_DNS_SERVERS lib) in
         forUpTo (Z.to_nat n)
           (fun j =>
              modifyIf
                (set_ipv6_dnsServer j
                   (firstn 16 (skipn (j * 16) (opt6_value option))))))
  | None => ret tt
  end ;;
  c <- getCtx ;;
  modifyIf (ipv6SetGlobalAddrEx (clientAddr c) ADDR_STATE_VALID) ;;
  t <- osGetSystemTime ;;
  modifyCtx (set_leaseStartTime t) ;;
  dhcpv6ChangeState DHCPV6_STATE_BOUND 0.

(** The loop of dhcpv6ParseReply over the IA_NA options, from index
    [i].  Each round moves the index forward by at least the size of an
    option header, so [length] rounds are enough; lengths are those of
    UDP payloads, far from the wrap of the 32-bit index. *)
Fixpoint iaNaLoop (fuel : nat) (message : Dhcpv6Message) (length : Z)
    (serverIdOption : Dhcpv6Option) (i : Z) : M Dhcpv6ClientCtx error_t :=
  match fuel with
  | O => ret ERROR_INVALID_MESSAGE
  | S fuel' =>
      if i <? length then
        match dhcpv6GetOption lib (skipn (Z.to_nat i) (dhcpv6_options message))
                (length - i) DHCPV6_OPTION_IA_NA with
        | None => ret ERROR_INVALID_MESSAGE
        | Some option =>
            error <- dhcpv6ParseIaNaOption option ;;
            if is_error error then
              iaNaLoop fuel' message length serverIdOption
                (i + (sizeofDhcpv6Option + ntohs (opt6_length option)))
            else
              commitReply message length serverIdOption ;;
              ret NO_ERROR
        end
      else ret ERROR_INVALID_MESSAGE
  end.

(** dhcpv6ParseReply *)
Definition dhcpv6ParseReply (message : Dhcpv6Message) (length : Z)
  : M Dhcpv6ClientCtx error_t :=
  c <- getCtx ;;
  if length <? sizeofDhcpv6Message then ret ERROR_INVALID_MESSAGE
  else if negb (msgType message =? DHCPV6_MSG_TYPE_REPLY)
  then ret ERROR_INVALID_MESSAGE
  else if negb (LOAD24BE (transactionId6 message) =? transactionId c)
  then ret ERROR_INVALID_MESSAGE
  else
    let length := wrap32 (length - sizeofDhcpv6Message) in
    match dhcpv6GetOption lib (dhcpv6_options message) length
            DHCPV6_OPTION_CLIENTID with
    | None => ret ERROR_INVALID_MESSAGE
    | Some option =>
        if negb (ntohs (opt6_length option) =? clientIdLength c)
        then ret ERROR_INVALID_MESSAGE
        else if negb (memeq (opt6_value option) (clientId c)
                        (Z.to_nat (clientIdLength c)))
        then ret ERROR_INVALID_MESSAGE
        else
          match dhcpv6GetOption lib (dhcpv6_options message) length
                  DHCPV6_OPTION_SERVERID with
          | None => ret ERROR_INVALID_MESSAGE
          | Some serverIdOption =>
              if ntohs (opt6_length serverIdOption) =? 0
              then ret ERROR_INVALID_MESSAGE
              else if ntohs (opt6_length serverIdOption) >=?
                      DHCPV6_MAX_DUID_SIZE lib
              then ret ERROR_INVALID_MESSAGE
              else
                let continue : M Dhcpv6ClientCtx error_t :=
                  let error :=
                    dhcpv6ParseStatusCodeOption lib (dhcpv6_options message)
                      length in
                  if is_error error then ret error
                  else iaNaLoop (Z.to_nat length) message length
                         serverIdOption 0 in
                if state c =? DHCPV6_STATE_SOLICIT then
                  if negb (rapidCommit (settings c))
                  then ret ERROR_INVALID_MESSAGE
                  else
                    match dhcpv6GetOption lib (dhcpv6_options message) length
                            DHCPV6_OPTION_RAPID_COMMIT with
                    | None => ret ERROR_INVALID_MESSAGE
                    | Some option =>
                        if negb (ntohs (opt6_length option) =? 0)
                        then ret ERROR_INVALID_MESSAGE
                        else
                          recordServerId serverIdOption ;;
                          continue
                    end
                else if (state c =? DHCPV6_STATE_REQUEST)
                        || (state c =? DHCPV6_STATE_RENEW) then
                  if negb (ntohs (opt6_length serverIdOption) =?
                           serverIdLength c)
                  then ret ERROR_INVALID_MESSAGE
                  else if negb (memeq (opt6_value serverIdOption) (serverId c)
                                  (Z.to_nat (serverIdLength c)))
                  then ret ERROR_INVALID_MESSAGE
                  else continue
                else continue
          end
    end.

(** dhcpv6ParseAdvertise *)
Definition dhcpv6ParseAdvertise (message : Dhcpv6Message) (length : Z)
  : M Dhcpv6ClientCtx error_t :=
  c0 <- getCtx ;;
  replied <-
    (if rapidCommit (settings c0) then
       error <- dhcpv6ParseReply message length ;;
       ret (negb (is_error error))
     else ret false) ;;
  if replied then ret NO_ERROR
  else
    c <- getCtx ;;
    if length <? sizeofDhcpv6Message then ret ERROR_INVALID_MESSAGE
    else if negb (msgType message =? DHCPV6_MSG_TYPE_ADVERTISE)
    then ret ERROR_INVALID_MESSAGE
    else if negb (LOAD24BE (transactionId6 message) =? transactionId c)
    then ret ERROR_INVALID_MESSAGE
    else
      let length := wrap32 (length - sizeofDhcpv6Message) in
      match dhcpv6GetOption lib (dhcpv6_options message) length
              DHCPV6_OPTION_CLIENTID with
      | None => ret ERROR_INVALID_MESSAGE
      | Some option =>
          if negb (ntohs (opt6_length option) =? clientIdLength c)
          then ret ERROR_INVALID_MESSAGE
          else if negb (memeq (opt6_value option) (clientId c)
                          (Z.to_nat (clientIdLength c)))
          then ret ERROR_INVALID_MESSAGE
          else
            match dhcpv6GetOption lib (dhcpv6_options message) length
                    DHCPV6_OPTION_SERVERID with
            | None => ret ERROR_INVALID_MESSAGE
            | Some serverIdOption =>
                if ntohs (opt6_length serverIdOption) =? 0
                then ret ERROR_INVALID_MESSAGE
                else if ntohs (opt6_length serverIdOption) >=?
                        DHCPV6_MAX_DUID_SIZE lib
                then ret ERROR_INVALID_MESSAGE
                else if is_error (dhcpv6ParseStatusCodeOption lib
                                    (dhcpv6_options message) length)
                then ret ERROR_INVALID_MESSAGE
                else
                  let serverPreference :=
                    match dhcpv6GetOption lib (dhcpv6_options message) length
                            DHCPV6_OPTION_PREFERENCE with
                    | Some option =>
                        if ntohs (opt6_length option) =?
                           sizeofDhcpv6PreferenceOption
                        then byteAt (opt6_value option) 0
                        else 0
                    | None => 0
                    end in
                  when (serverPreference >? Dhcpv6.serverPreference c)
                    (modifyCtx (set_serverPreference serverPreference) ;;
                     recordServerId serverIdOption) ;;
                  (if serverPreference =? DHCPV6_MAX_SERVER_PREFERENCE then
                     dhcpv6ChangeState DHCPV6_STATE_REQUEST 0
                   else
                     when (retransmitCount c >? 1)
                       (dhcpv6ChangeState DHCPV6_STATE_REQUEST 0)) ;;
                  ret NO_ERROR
            end
      end.

(** dhcpv6ClientProcessMessage.  [length] is the length of the buffer
    past the offset and [message] what netBufferAt returns there. *)
Definition dhcpv6ClientProcessMessage (message : option Dhcpv6Message)
    (length : Z) : M Dhcpv6ClientCtx unit :=
  if length <? sizeofDhcpv6Message then ret tt
  else
    match message with
    | None => ret tt
    | Some message =>
        osAcquireMutex ;;
        c <- getCtx ;;
        (if state c =? DHCPV6_STATE_SOLICIT then
           dhcpv6ParseAdvertise message length ;; ret tt
         else if (state c =? DHCPV6_STATE_REQUEST)
                 || (state c =? DHCPV6_STATE_CONFIRM)
                 || (state c =? DHCPV6_STATE_RENEW)
                 || (state c =? DHCPV6_STATE_REBIND)
                 || (state c =? DHCPV6_STATE_DECLINE) then
           dhcpv6ParseReply message length ;; ret tt
         else ret tt) ;;
        osReleaseMutex
    end.

End Client.

End Dhcpv6.

(* ------------------------------------------------------------------ *)
(** ** Stock option codecs and concrete scenarios

    The theorems of Part II hold for every [Common] and every [Ndp].
    To run the engines on concrete messages, the records are filled
    here with the stock configuration and with option codecs for the
    wire formats. *)
(* ------------------------------------------------------------------ *)

Module Stock.

(** *** DHCPv4 options *)

(** The walk of dhcpGetOption over the options field: Pad (0) is
    skipped, End (255) stops the search, any other option is a code, a
    length and that many bytes of value. *)
Fixpoint dhcpFindOption (fuel : nat) (opts : list byte) (code : Z)
  : option DhcpOption :=
  match fuel, opts with
  | S fuel', c :: rest =>
      if u8 c =? 0 then dhcpFindOption fuel' rest code
      else if u8 c =? 255 then None
      else
        match rest with
        | [] => None
        | l :: body =>
            if len body <? u8 l then None
            else if u8 c =? code
            then Some (mkDhcpOption (u8 c) (u8 l) (firstn (Z.to_nat (u8 l)) body))
            else dhcpFindOption fuel' (skipn (Z.to_nat (u8 l)) body) code
        end
  | _, _ => None
  end.

(** Modelled from the spec: dhcpGetOption (dhcp_common.c) is not under
    src.  The options follow the 236-byte header and the magic cookie,
    as type-length-value triples terminated by End (255); the search
    covers the [length - sizeof(DhcpMessage)] bytes of the field. *)
Definition dhcpGetOption (sizeofDhcpMessage : Z) (message : DhcpMessage)
    (length : Z) (optionCode : Z) : option DhcpOption :=
  if length <? sizeofDhcpMessage then None
  else
    let opts := firstn (Z.to_nat (length - sizeofDhcpMessage))
                  (dhcp_options message) in
    dhcpFindOption (List.length opts) opts optionCode.

(** The offset of the End option in an options field. *)
Fixpoint dhcpEndOffset (fuel : nat) (opts : list byte) : nat :=
  match fuel, opts with
  | S fuel', c :: rest =>
      if u8 c =? 0 then S (dhcpEndOffset fuel' rest)
      else if u8 c =? 255 then O
      else
        match rest with
        | [] => 1%nat
        | l :: body =>
            (2 + Z.to_nat (u8 l) +
             dhcpEndOffset fuel' (skipn (Z.to_nat (u8 l)) body))%nat
        end
  | _, _ => O
  end.

(** Modelled from the spec: dhcpAddOption (dhcp_common.c) is not under
    src.  The option is written over the End option, and End is written
    again after it; the size of the field does not change. *)
Definition dhcpAddOption (message : DhcpMessage) (optionCode : Z)
    (optionValue : list byte) : DhcpMessage :=
  let opts := dhcp_options message in
  let n := dhcpEndOffset (List.length opts) opts in
  let tlv := b8 optionCode :: b8 (len optionValue) :: optionValue
             ++ [b8 255] in
  mkDhcpMessage (op message) (htype message) (hlen message) (hops message)
    (xid message) (secs message) (flags message) (ciaddr message)
    (yiaddr message) (siaddr message) (giaddr message) (chaddr message)
    (magicCookie message)
    (firstn n opts ++ tlv ++ skipn (n + List.length tlv) opts).

(** The stock configuration of the DHCPv4 client: the header with the
    magic cookie is 240 bytes long, a message sent is padded to 300. *)
Definition dhcpLib : Dhcp.Common :=
  Dhcp.mkCommon 15 2000 4000 16000 4000 64000 4 60000 1000
    240 300 548 2 64
    (dhcpGetOption 240) dhcpAddOption.

(** *** DHCPv6 options *)

(** The walk of dhcpv6GetOption: each option is a 2-byte code, a
    2-byte length and that many bytes of value. *)
Fixpoint dhcpv6FindOption (fuel : nat) (opts : list byte) (code : Z)
  : option Dhcpv6Option :=
  match fuel with
  | O => None
  | S fuel' =>
      if len opts <? 4 then None
      else
        let l := LOAD16BE (skipn 2 opts) in
        if len opts <? 4 + l then None
        else if LOAD16BE opts =? code
        then Some (mkDhcpv6Option (firstn 2 opts) (firstn 2 (skipn 2 opts))
                     (firstn (Z.to_nat l) (skipn 4 opts)))
        else dhcpv6FindOption fuel' (skipn (4 + Z.to_nat l) opts) code
  end.

(** Modelled from the spec: dhcpv6GetOption (dhcpv6_common.c) is not
    under src.  Options are type-length-value with a 2-byte code and a
    2-byte length, both big-endian; the search returns the first option
    of the code within the [optionsLength] bytes. *)
Definition dhcpv6GetOption (options : list byte) (optionsLength : Z)
    (optionCode : Z) : option Dhcpv6Option :=
  let opts := firstn (Z.to_nat optionsLength) options in
  dhcpv6FindOption (List.length opts) opts optionCode.

(** Modelled from the spec: dhcpv6AddOption (dhcpv6_common.c) is not
    under src.  The option is appended to the options of the message. *)
Definition dhcpv6AddOption (message : Dhcpv6Message) (optionCode : Z)
    (optionValue : list byte) : Dhcpv6Message :=
  mkDhcpv6Message (msgType message) (transactionId6 message)
    (dhcpv6_options message ++ htons optionCode ++ htons (len optionValue)
       ++ optionValue).

(** Modelled from the spec: dhcpv6AddSubOption (dhcpv6_common.c) is not
    under src.  The sub-option is appended to the message, and the
    length of the option at [offset], the last one, grows by its size. *)
Definition dhcpv6AddSubOption (message : Dhcpv6Message) (offset : Z)
    (optionCode : Z) (optionValue : list byte) : Dhcpv6Message :=
  let opts := dhcpv6_options message in
  let o := Z.to_nat offset in
  let oldLength := LOAD16BE (skipn (o + 2) opts) in
  mkDhcpv6Message (msgType message) (transactionId6 message)
    (firstn (o + 2) opts ++ htons (oldLength + 4 + len optionValue)
       ++ skipn (o + 4) opts
       ++ htons optionCode ++ htons (len optionValue) ++ optionValue).

(** Modelled from the spec: dhcpv6ParseStatusCodeOption
    (dhcpv6_common.c) is not under src.  A Status Code option, when
    there is one, must not carry NoAddrsAvail. *)
Definition dhcpv6ParseStatusCodeOption (options : list byte) (length : Z)
  : error_t :=
  match dhcpv6GetOption options length Dhcpv6.DHCPV6_OPTION_STATUS_CODE with
  | Some option =>
      if (ntohs (opt6_length option) >=? 2)
         && (LOAD16BE (opt6_value option) =?
             Dhcpv6.DHCPV6_STATUS_NO_ADDRS_AVAILABLE)
      then ERROR_FAILURE
      else NO_ERROR
  | None => NO_ERROR
  end.

(** Modelled from the spec: dnsEncodeName (dns_common.c) is not under
    src, and the spec says of it only that the FQDN sent is the host
    name of the interface.  A host name without dots is encoded here as
    one label: its length, its bytes, then the root label. *)
Definition dnsEncodeName (name : list byte) : list byte :=
  match name with
  | [] => [x00]
  | _ => b8 (len name) :: name ++ [x00]
  end.

(** The stock configuration of the DHCPv6 client. *)
Definition dhcpv6Lib : Dhcpv6.Common :=
  Dhcpv6.mkCommon 130 512 2
    dhcpv6GetOption dhcpv6AddOption dhcpv6AddSubOption
    dhcpv6ParseStatusCodeOption dnsEncodeName.

(** *** NDP options *)

(** The walk of ndpGetOption: each option is a type, a length in units
    of 8 bytes, and the rest of those bytes; a length of zero stops the
    search. *)
Fixpoint ndpFindOption (fuel : nat) (opts : list byte) (type : Z)
  : option (list byte) :=
  match fuel with
  | O => None
  | S fuel' =>
      if len opts <? 2 then None
      else
        let l := byteAt opts 1 in
        if l =? 0 then None
        else if len opts <? l * 8 then None
        else if byteAt opts 0 =? type then Some opts
        else ndpFindOption fuel' (skipn (Z.to_nat (l * 8)) opts) type
  end.

(** Modelled from the spec: ndpGetOption (ndp.c) is not under src.  It
    returns the first option of the type asked for within the [length]
    bytes of the options field; the option format is that of RFC 4861,
    section 4.6. *)
Definition ndpGetOption (options : list byte) (length : Z) (type : Z)
  : option (list byte) :=
  let opts := firstn (Z.to_nat length) options in
  ndpFindOption (List.length opts) opts type.

(** Modelled from the spec: NdpPrefixInfoOption (ndp.h) is not under
    src.  The layout is that of RFC 4861, section 4.6.2: type, length, prefix length, the L and A
    flags in the two top bits of the next byte, the valid and preferred
    lifetimes, four reserved bytes and the prefix. *)
Definition asPrefixInfoOption (p : list byte) : NdpPrefixInfoOption :=
  mkNdpPrefixInfoOption (byteAt p 0) (byteAt p 1) (byteAt p 2)
    (Z.testbit (byteAt p 3) 7) (Z.testbit (byteAt p 3) 6)
    (firstn 4 (skipn 4 p)) (firstn 4 (skipn 8 p))
    (firstn 16 (skipn 16 p)).

(** The addresses of an RDNSS option, 16 bytes each. *)
Fixpoint addressesOf (n : nat) (p : list byte) : list Ipv6Addr :=
  match n with
  | O => []
  | S n' => firstn 16 p :: addressesOf n' (skipn 16 p)
  end.

(** Modelled from the spec: NdpRdnssOption (ndp.h) is not under src.
    The layout is that of RFC 6106, section 5.1: type, length, two reserved bytes, the
    lifetime and the addresses. *)
Definition asRdnssOption (p : list byte) : NdpRdnssOption :=
  mkNdpRdnssOption (byteAt p 0) (byteAt p 1) (firstn 4 (skipn 4 p))
    (addressesOf (Z.to_nat ((byteAt p 1 - 1) / 2)) (skipn 8 p)).

(** The Router Advertisement header is 16 bytes long (RFC 4861,
    section 4.2). *)
Definition ndpLib : Slaac.Ndp :=
  Slaac.mkNdp ndpGetOption asPrefixInfoOption asRdnssOption 16.

(** *** A host and its surroundings *)

Definition mac0 : MacAddr := [x00; x11; x22; x33; x44; x55].

Definition ipv4Config0 : Ipv4Config :=
  mkIpv4Config 0 ADDR_STATE_INVALID 0 0 [0; 0] 1500.

Definition ipv6Config0 : Ipv6Config :=
  mkIpv6Config IPV6_UNSPECIFIED_ADDR ADDR_STATE_INVALID false
    IPV6_UNSPECIFIED_ADDR ADDR_STATE_INVALID false
    IPV6_UNSPECIFIED_ADDR 0 [IPV6_UNSPECIFIED_ADDR; IPV6_UNSPECIFIED_ADDR]
    1000.

(** An interface with the link up and no address yet. *)
Definition netif0 : NetInterface :=
  mkNetInterface 1 [] mac0 true ipv4Config0 ipv6Config0 false false false.

(** Surroundings in which every allocation succeeds; the clock reads
    [time] and the random source yields zeros. *)
Definition envAt (time : Z) : Env :=
  mkEnv time (fun _ => 0) true true NO_ERROR.

Definition atTime {C} (time : Z) (w : World C) : World C :=
  mkWorld (ctx w) (netif w) (envAt time) (randPos w) (out w).

End Stock.

(* ------------------------------------------------------------------ *)
(** ** Specifications of computations                                  *)
(* ------------------------------------------------------------------ *)

(** [hoare P m Q]: run from a world that satisfies [P], the computation
    [m] returns a value and a world that satisfy [Q]. *)
Definition hoare {C A} (P : World C -> Prop) (m : M C A)
    (Q : A -> World C -> Prop) : Prop :=
  forall w, P w -> Q (fst (m w)) (snd (m w)).

(** [stable J m]: [m] keeps the property [J] of the world. *)
Definition stable {C A} (J : World C -> Prop) (m : M C A) : Prop :=
  hoare J m (fun _ => J).

(** [keeps I m]: [m] keeps the property [I] of the context. *)
Definition keeps {C A} (I : C -> Prop) (m : M C A) : Prop :=
  stable (fun w => I (ctx w)) m.

(** The trace [o'] extends the trace [o] by calls none of which sends a
    datagram. *)
Definition extendsQuietly (o o' : list Event) : Prop :=
  exists evs, o' = o ++ evs /\ Forall (fun e => is_send e = false) evs.

(** What the surroundings of an engine may change between two calls:
    the interface, which the rest of the stack configures, the clock,
    the random source and the outcome of allocations. *)
Definition surroundings {C} (i : NetInterface) (e : Env) (w : World C)
  : World C :=
  mkWorld (ctx w) i e (randPos w) (out w).

(** ** Runs of the engines

    The calls the stack and the user make on an engine once it is
    initialized, and the worlds they lead to. *)

Module Runs.

Section Dhcp.

Variable lib : Dhcp.Common.

Inductive DhcpCall :=
| DhcpStart
| DhcpStop
| DhcpGetState
| DhcpTick
| DhcpLinkChange
| DhcpReceive (message : option DhcpMessage) (length : Z).

Definition dhcpCall (c : DhcpCall) : M Dhcp.DhcpClientCtx unit :=
  match c with
  | DhcpStart => Dhcp.dhcpClientStart Ref ;; ret tt
  | DhcpStop => Dhcp.dhcpClientStop Ref ;; ret tt
  | DhcpGetState => Dhcp.dhcpClientGetState Ref ;; ret tt
  | DhcpTick => Dhcp.dhcpClientTick lib
  | DhcpLinkChange => Dhcp.dhcpClientLinkChangeEvent
  | DhcpReceive message length =>
      Dhcp.dhcpClientProcessMessage lib message length
  end.

Inductive dhcpReachable : World Dhcp.DhcpClientCtx -> Prop :=
| dhcpReachInit w s :
    eval (Dhcp.dhcpClientInit lib Ref (Some s)) w = NO_ERROR ->
    dhcpReachable (exec (Dhcp.dhcpClientInit lib Ref (Some s)) w)
| dhcpReachCall w c :
    dhcpReachable w -> dhcpReachable (exec (dhcpCall c) w)
| dhcpReachSurroundings w i e :
    dhcpReachable w -> dhcpReachable (surroundings i e w).

(** A sequence of ticks, the surroundings changing before each one. *)
Fixpoint dhcpTicks (steps : list (NetInterface * Env))
    (w : World Dhcp.DhcpClientCtx) : World Dhcp.DhcpClientCtx :=
  match steps with
  | [] => w
  | (i, e) :: rest =>
      dhcpTicks rest (exec (Dhcp.dhcpClientTick lib) (surroundings i e w))
  end.

End Dhcp.

Section Dhcpv6.

Variable lib : Dhcpv6.Common.

Inductive Dhcpv6Call :=
| Dhcpv6Start
| Dhcpv6Stop
| Dhcpv6GetState
| Dhcpv6Tick
| Dhcpv6LinkChange
| Dhcpv6Receive (message : option Dhcpv6Message) (length : Z).

Definition dhcpv6Call (c : Dhcpv6Call) : M Dhcpv6.Dhcpv6ClientCtx unit :=
  match c with
  | Dhcpv6Start => Dhcpv6.dhcpv6ClientStart Ref ;; ret tt
  | Dhcpv6Stop => Dhcpv6.dhcpv6ClientStop Ref ;; ret tt
  | Dhcpv6GetState => Dhcpv6.dhcpv6ClientGetState Ref ;; ret tt
  | Dhcpv6Tick => Dhcpv6.dhcpv6ClientTick lib
  | Dhcpv6LinkChange => Dhcpv6.dhcpv6ClientLinkChangeEvent
  | Dhcpv6Receive message length =>
      Dhcpv6.dhcpv6ClientProcessMessage lib message length
  end.

Inductive dhcpv6Reachable : World Dhcpv6.Dhcpv6ClientCtx -> Prop :=
| dhcpv6ReachInit w s :
    eval (Dhcpv6.dhcpv6ClientInit lib Ref (Some s)) w = NO_ERROR ->
    dhcpv6Reachable (exec (Dhcpv6.dhcpv6ClientInit lib Ref (Some s)) w)
| dhcpv6ReachCall w c :
    dhcpv6Reachable w -> dhcpv6Reachable (exec (dhcpv6Call c) w)
| dhcpv6ReachSurroundings w i e :
    dhcpv6Reachable w -> dhcpv6Reachable (surroundings i e w).

Fixpoint dhcpv6Ticks (steps : list (NetInterface * Env))
    (w : World Dhcpv6.Dhcpv6ClientCtx) : World Dhcpv6.Dhcpv6ClientCtx :=
  match steps with
  | [] => w
  | (i, e) :: rest =>
      dhcpv6Ticks rest (exec (Dhcpv6.dhcpv6ClientTick lib) (surroundings i e w))
  end.

End Dhcpv6.

Section Slaac.

Variable ndp : Slaac.Ndp.

Inductive SlaacCall :=
| SlaacStart
| SlaacStop
| SlaacGetState
| SlaacTick
| SlaacLinkChange
| SlaacRouterAdv (message : NdpRouterAdvMessage) (length : Z).

Definition slaacCall (c : SlaacCall) : M Slaac.SlaacContext unit :=
  match c with
  | SlaacStart => Slaac.slaacStart Ref ;; ret tt
  | SlaacStop => Slaac.slaacStop Ref ;; ret tt
  | SlaacGetState => Slaac.slaacGetState Ref ;; ret tt
  | SlaacTick => Slaac.slaacTick
  | SlaacLinkChange => Slaac.slaacLinkChangeEvent
  | SlaacRouterAdv message length =>
      Slaac.slaacProcessRouterAdv ndp message length
  end.

Inductive slaacReachable : World Slaac.SlaacContext -> Prop :=
| slaacReachInit w s :
    eval (Slaac.slaacInit Ref (Some s)) w = NO_ERROR ->
    slaacReachable (exec (Slaac.slaacInit Ref (Some s)) w)
| slaacReachCall w c :
    slaacReachable w -> slaacReachable (exec (slaacCall c) w)
| slaacReachSurroundings w i e :
    slaacReachable w -> slaacReachable (surroundings i e w).

Fixpoint slaacTicks (steps : list (NetInterface * Env))
    (w : World Slaac.SlaacContext) : World Slaac.SlaacContext :=
  match steps with
  | [] => w
  | (i, e) :: rest =>
      slaacTicks rest (exec Slaac.slaacTick (surroundings i e w))
  end.

End Slaac.

End Runs.

(** ** Concrete scenarios *)

Module Scenario.

Import Stock.

(** *** DHCPv4: a client waiting for the answer to its request *)

Definition dhcpSettings : Dhcp.DhcpClientSettings :=
  Dhcp.mkDhcpClientSettings Ref [] false false 0 false false false.

(** A world before dhcpClientInit. *)
Definition dhcpBlank : World Dhcp.DhcpClientCtx :=
  mkWorld (Dhcp.clearedContext Dhcp.dhcpClientGetDefaultSettings) netif0
    (envAt 0) 0 [].

(** The client after init and start. *)
Definition dhcpStarted : World Dhcp.DhcpClientCtx :=
  exec (Dhcp.dhcpClientStart Ref)
    (exec (Dhcp.dhcpClientInit dhcpLib Ref (Some dhcpSettings)) dhcpBlank).

(** 192.0.2.1, the server, and 192.0.2.10, the address it offers. *)
Definition serverAddr : Ipv4Addr := 0xC0000201.
Definition offeredAddr : Ipv4Addr := 0xC000020A.

(** The client in the REQUESTING state, transaction 0x12345678. *)
Definition dhcpRequesting : World Dhcp.DhcpClientCtx :=
  mkWorld
    (Dhcp.set_state Dhcp.DHCP_STATE_REQUESTING
       (Dhcp.set_transactionId 0x12345678
          (Dhcp.set_serverIpAddr serverAddr
             (Dhcp.set_requestedIpAddr offeredAddr
                (Dhcp.set_retransmitCount 1 (ctx dhcpStarted))))))
    netif0 (envAt 5000) 0 [].

(** A reply of the server to that transaction, with the given options. *)
Definition dhcpReply (options : list byte) : DhcpMessage :=
  mkDhcpMessage Dhcp.DHCP_OPCODE_BOOTREPLY Dhcp.DHCP_HARDWARE_TYPE_ETH 6 0
    (htonl 0x12345678) (htons 0) (htons 0) 0 offeredAddr 0 0 mac0
    (htonl Dhcp.DHCP_MAGIC_COOKIE) options.

Definition dhcpOption (code : Z) (value : list byte) : list byte :=
  b8 code :: b8 (len value) :: value.

(** The options of a DHCPACK: message type, server identifier and a
    lease time, then the options given, then End. *)
Definition ackOptions (lease : Z) (more : list byte) : list byte :=
  dhcpOption Dhcp.DHCP_OPT_DHCP_MESSAGE_TYPE [b8 Dhcp.DHCP_MESSAGE_TYPE_ACK]
  ++ dhcpOption Dhcp.DHCP_OPT_SERVER_IDENTIFIER (STORE32BE serverAddr)
  ++ dhcpOption Dhcp.DHCP_OPT_IP_ADDRESS_LEASE_TIME (STORE32BE lease)
  ++ more ++ [b8 Dhcp.DHCP_OPT_END].

(** A DHCPACK with a lease of 600 s and neither T1 nor T2. *)
Definition ackPlain : DhcpMessage := dhcpReply (ackOptions 600 []).

(** A DHCPACK with a lease of 100 s, T1 = 500 s and T2 = 50 s. *)
Definition ackUnordered : DhcpMessage :=
  dhcpReply
    (ackOptions 100
       (dhcpOption Dhcp.DHCP_OPT_RENEWAL_TIME_VALUE (STORE32BE 500)
        ++ dhcpOption Dhcp.DHCP_OPT_REBINDING_TIME_VALUE (STORE32BE 50))).

(** The length of a message: the header, the cookie and the options. *)
Definition dhcpLength (m : DhcpMessage) : Z := 240 + len (dhcp_options m).

(** A context whose state field holds a value out of the enumeration. *)
Definition dhcpStray : World Dhcp.DhcpClientCtx :=
  mkWorld (Dhcp.set_state 99 (ctx dhcpStarted)) netif0 (envAt 5000) 0 [].

(** *** DHCPv6: a client soliciting *)

Definition dhcpv6Settings : Dhcpv6.Dhcpv6ClientSettings :=
  Dhcpv6.mkDhcpv6ClientSettings Ref false false 0 false false false.

Definition dhcpv6Blank : World Dhcpv6.Dhcpv6ClientCtx :=
  mkWorld (Dhcpv6.clearedContext dhcpv6Lib Dhcpv6.dhcpv6ClientGetDefaultSettings)
    netif0 (envAt 0) 0 [].

Definition dhcpv6Started : World Dhcpv6.Dhcpv6ClientCtx :=
  exec (Dhcpv6.dhcpv6ClientStart Ref)
    (exec (Dhcpv6.dhcpv6ClientInit dhcpv6Lib Ref (Some dhcpv6Settings))
       dhcpv6Blank).

Definition dhcpv6TickAt (time : Z) (w : World Dhcpv6.Dhcpv6ClientCtx)
  : World Dhcpv6.Dhcpv6ClientCtx :=
  exec (Dhcpv6.dhcpv6ClientTick dhcpv6Lib) (atTime time w).

(** The client one tick after the start, 100 s after boot: it has left
    INIT for SOLICIT. *)
Definition dhcpv6Soliciting : World Dhcpv6.Dhcpv6ClientCtx :=
  dhcpv6TickAt 100000 dhcpv6Started.

(** One second later the first Solicit leaves. *)
Definition dhcpv6FirstSolicit : World Dhcpv6.Dhcpv6ClientCtx :=
  dhcpv6TickAt 101000 dhcpv6Soliciting.

(** One more second later, no Advertise having come, the Solicit is
    sent again. *)
Definition dhcpv6SecondSolicit : World Dhcpv6.Dhcpv6ClientCtx :=
  dhcpv6TickAt 102000 dhcpv6FirstSolicit.

(** The value of the Elapsed Time option of each DHCPv6 message of a
    trace, in hundredths of a second. *)
Fixpoint elapsedTimes (trace : list Event) : list (option Z) :=
  match trace with
  | [] => []
  | EvUdpSendDatagram _ _ _ (PayloadDhcpv6 m) _ :: rest =>
      option_map (fun o => ntohs (opt6_value o))
        (dhcpv6GetOption (dhcpv6_options m) (len (dhcpv6_options m))
           Dhcpv6.DHCPV6_OPTION_ELAPSED_TIME)
      :: elapsedTimes rest
  | _ :: rest => elapsedTimes rest
  end.

Definition dhcpv6OptionBytes (code : Z) (value : list byte) : list byte :=
  htons code ++ htons (len value) ++ value.

(** The DUID-LL of the client, as dhcpv6ClientInit forms it. *)
Definition clientDuid : list byte :=
  htons Dhcpv6.DHCPV6_DUID_LL ++ htons Dhcpv6.DHCPV6_HARDWARE_TYPE_ETH ++ mac0.

(** An Advertise for the transaction of the first Solicit, from a
    server whose DUID is [serverDuid]. *)
Definition advertise (serverDuid : list byte) : Dhcpv6Message :=
  mkDhcpv6Message Dhcpv6.DHCPV6_MSG_TYPE_ADVERTISE
    (STORE24BE (Dhcpv6.transactionId (ctx dhcpv6FirstSolicit)))
    (dhcpv6OptionBytes Dhcpv6.DHCPV6_OPTION_CLIENTID clientDuid
     ++ dhcpv6OptionBytes Dhcpv6.DHCPV6_OPTION_SERVERID serverDuid).

Definition dhcpv6Length (m : Dhcpv6Message) : Z := 4 + len (dhcpv6_options m).

(** A server DUID of [n] bytes. *)
Definition duidOfSize (n : nat) : list byte := repeat x01 n.

(** An IA_NA option for the interface of the client with the given
    timers and one address, 2001:db8::1, with the given lifetimes. *)
Definition iaNa (t1 t2 preferred valid : Z) : Dhcpv6Option :=
  let addr := [x20; x01; x0d; xb8] ++ repeat x00 11 ++ [x01] in
  let iaAddr := addr ++ htonl preferred ++ htonl valid in
  let value := htonl (if_id netif0) ++ htonl t1 ++ htonl t2
               ++ dhcpv6OptionBytes Dhcpv6.DHCPV6_OPTION_IAADDR iaAddr in
  mkDhcpv6Option (htons Dhcpv6.DHCPV6_OPTION_IA_NA) (htons (len value)) value.

Definition dhcpv6Stray : World Dhcpv6.Dhcpv6ClientCtx :=
  mkWorld (Dhcpv6.set_state 99 (ctx dhcpv6Started)) netif0 (envAt 5000) 0 [].

(** *** SLAAC: a host soliciting routers *)

Definition slaacSettings : Slaac.SlaacSettings :=
  Slaac.mkSlaacSettings Ref 0 1000 4000 3 1 false true.

Definition slaacBlank : World Slaac.SlaacContext :=
  mkWorld (Slaac.clearedContext slaacSettings) netif0 (envAt 0) 0 [].

Definition slaacInitialized : World Slaac.SlaacContext :=
  exec (Slaac.slaacInit Ref (Some slaacSettings)) slaacBlank.

Definition slaacStarted : World Slaac.SlaacContext :=
  exec (Slaac.slaacStart Ref) slaacInitialized.

(** The engine in the ROUTER-SOLICIT state. *)
Definition slaacSoliciting : World Slaac.SlaacContext :=
  mkWorld (Slaac.set_state Slaac.SLAAC_STATE_ROUTER_SOLICIT (ctx slaacStarted))
    netif0 (envAt 5000) 0 [].

(** The engine in the CONFIGURED state. *)
Definition slaacConfigured : World Slaac.SlaacContext :=
  mkWorld (Slaac.set_state Slaac.SLAAC_STATE_CONFIGURED (ctx slaacStarted))
    netif0 (envAt 5000) 0 [].

Definition slaacStray : World Slaac.SlaacContext :=
  mkWorld (Slaac.set_state 99 (ctx slaacStarted)) netif0 (envAt 5000) 0 [].

(** The prefix 2001:db8::/64. *)
Definition prefix2001 : Ipv6Addr := [x20; x01; x0d; xb8] ++ repeat x00 12.

(** A Prefix Information option for 2001:db8::/64 with the L and A
    flags, a valid lifetime of 2592000 s and a preferred lifetime of
    604800 s. *)
Definition prefixInfo : list byte :=
  [b8 3; b8 4; b8 64; xc0] ++ htonl 2592000 ++ htonl 604800
  ++ repeat x00 4 ++ prefix2001.

(** A Router Advertisement with that option alone. *)
Definition routerAdv : NdpRouterAdvMessage :=
  mkNdpRouterAdvMessage (repeat x00 16) prefixInfo.

Definition routerAdvLength : Z := 16 + len prefixInfo.

(** The same option with the A flag clear. *)
Definition prefixInfoManaged : list byte :=
  [b8 3; b8 4; b8 64; x80] ++ htonl 2592000 ++ htonl 604800
  ++ repeat x00 4 ++ prefix2001.

(** A Router Advertisement with both: the option without the A flag
    comes first. *)
Definition routerAdvTwoPrefixes : NdpRouterAdvMessage :=
  mkNdpRouterAdvMessage (repeat x00 16) (prefixInfoManaged ++ prefixInfo).

Definition routerAdvTwoPrefixesLength : Z :=
  16 + len (prefixInfoManaged ++ prefixInfo).

End Scenario.

(* ------------------------------------------------------------------ *)
(** ** Vocabulary of the statements                                     *)
(* ------------------------------------------------------------------ *)

(** The states in which dhcpParseAckNak is called. *)
Definition ackStates : list Z :=
  [Dhcp.DHCP_STATE_REQUESTING; Dhcp.DHCP_STATE_REBOOTING;
   Dhcp.DHCP_STATE_RENEWING; Dhcp.DHCP_STATE_REBINDING].

(** The state in which a stopped engine rests. *)
Definition dhcpAtRest (c : Dhcp.DhcpClientCtx) : Prop :=
  Dhcp.running c = false -> Dhcp.state c = Dhcp.DHCP_STATE_INIT.

Definition dhcpv6AtRest (c : Dhcpv6.Dhcpv6ClientCtx) : Prop :=
  Dhcpv6.running c = false -> Dhcpv6.state c = Dhcpv6.DHCPV6_STATE_INIT.

Definition slaacAtRest (c : Slaac.SlaacContext) : Prop :=
  Slaac.running c = false -> Slaac.state c = Slaac.SLAAC_STATE_INIT.

(** The context dhcpv6ParseIaNaOption leaves when it accepts an option
    whose IA Address holds [addr] with lifetimes [P] and [V]. *)
Definition iaNaCommitted (c : Dhcpv6.Dhcpv6ClientCtx) (addr : Ipv6Addr)
    (T1 T2 P V : Z) : Dhcpv6.Dhcpv6ClientCtx :=
  let t1 := if T1 =? 0 then P / 2 else T1 in
  let t2 := if T2 =? 0 then wrap32 (t1 + t1 / 2) else T2 in
  Dhcpv6.set_t2 t2
    (Dhcpv6.set_t1 t1
       (Dhcpv6.set_validLifetime V
          (Dhcpv6.set_preferredLifetime P
             (Dhcpv6.set_t2 T2
                (Dhcpv6.set_t1 T1 (Dhcpv6.set_clientAddr addr c)))))).

(** The interface after the loop [for(k = 0; k < n; k++)] of writes
    [f k]. *)
Fixpoint writesUpTo (n : nat) (f : nat -> NetInterface -> NetInterface)
    (i : NetInterface) : NetInterface :=
  match n with
  | O => i
  | S n' => f n' (writesUpTo n' f i)
  end.

(** The trace after the callback of slaacProcessRouterAdv. *)
Definition afterCallback (w : World Slaac.SlaacContext)
    (message : NdpRouterAdvMessage) (length : Z) : list Event :=
  if Slaac.parseRouterAdvCallback (Slaac.settings (ctx w))
  then out w ++ [EvParseRouterAdvCallback message length]
  else out w.

(** The tests slaacProcessRouterAdv makes on the Prefix Information
    option it found. *)
Definition adoptable (o : NdpPrefixInfoOption) : bool :=
  (pio_length o =? 4) && pio_a o &&
  negb (ipv6CompPrefix (pio_prefix o) IPV6_LINK_LOCAL_ADDR_PREFIX 64) &&
  negb (ntohl (pio_validLifetime o) =? 0) &&
  (ntohl (pio_preferredLifetime o) <=? ntohl (pio_validLifetime o)) &&
  (pio_prefixLength o =? 64).

(** The interface after the DNS servers of the RDNSS option of a
    Router Advertisement are recorded. *)
Definition withRdnss (ndp : Slaac.Ndp) (c : Slaac.SlaacContext)
    (message : NdpRouterAdvMessage) (n : Z) (i : NetInterface)
  : NetInterface :=
  if Slaac.manualDnsConfig (Slaac.settings c) then i
  else
    match Slaac.ndpGetOption ndp (ra_options message) n
            Slaac.NDP_OPT_RECURSIVE_DNS_SERVER with
    | None => i
    | Some r =>
        let o := Slaac.asRdnssOption ndp r in
        if rdnss_length o >=? 1 then
          writesUpTo (Z.to_nat ((rdnss_length o - 1) / 2))
            (fun k => ipv6SetDnsServer k
                        (nth k (rdnss_address o) IPV6_UNSPECIFIED_ADDR)) i
        else i
    end.

(* ------------------------------------------------------------------ *)
(** ** Vocabulary of the statements on the rest of the code             *)
(* ------------------------------------------------------------------ *)

(** The world after a call that only takes and releases the mutex. *)
Definition afterMutex {C} (w : World C) : World C :=
  mkWorld (ctx w) (netif w) (env w) (randPos w)
    (out w ++ [EvAcquireMutex; EvReleaseMutex]).

(** The number of Router Solicitations in a trace. *)
Fixpoint routerSols (trace : list Event) : nat :=
  match trace with
  | [] => O
  | EvNdpSendRouterSol :: rest => S (routerSols rest)
  | _ :: rest => routerSols rest
  end.

(** The calls of dhcpChangeState and dhcpv6ChangeState to the
    state-change callback of the user: the mutex is released around
    it. *)
Definition stateChangeCalls (configured : bool) (newState : Z) : list Event :=
  if configured
  then [EvReleaseMutex; EvStateChangeEvent newState; EvAcquireMutex]
  else [].

(** The tests on the fixed part of a reply that dhcpParseOffer and
    dhcpParseAckNak share: [true] when one of them fails. *)
Definition foreignReply (c : Dhcp.DhcpClientCtx) (i : NetInterface)
    (message : DhcpMessage) : bool :=
  Dhcp.headerMismatch c message
  || negb (macCompAddr (chaddr message) (macAddr i))
  || negb (memeq (magicCookie message) (htonl Dhcp.DHCP_MAGIC_COOKIE) 4).

(** What the DHCPv4 client may put on the wire: DHCP messages from the
    client port to the server port, to an IPv4 address. *)
Definition dhcpTraffic (e : Event) : Prop :=
  match e with
  | EvUdpSendDatagram src (IpAddr4 _) dst (PayloadDhcp _) _ =>
      src = Dhcp.DHCP_CLIENT_PORT /\ dst = Dhcp.DHCP_SERVER_PORT
  | EvUdpSendDatagram _ _ _ _ _ => False
  | EvNdpSendRouterSol => False
  | EvNdpSendNeighborSol _ _ => False
  | _ => True
  end.

(** What the DHCPv6 client may put on the wire: Router Solicitations,
    and DHCPv6 messages from the client port to the server port of the
    All_DHCP_Relay_Agents_and_Servers address. *)
Definition dhcpv6Traffic (e : Event) : Prop :=
  match e with
  | EvUdpSendDatagram src (IpAddr6 a) dst (PayloadDhcpv6 _) _ =>
      src = Dhcpv6.DHCPV6_CLIENT_PORT /\ dst = Dhcpv6.DHCPV6_SERVER_PORT /\
      a = DHCPV6_ALL_RELAY_AGENTS_AND_SERVERS_ADDR
  | EvUdpSendDatagram _ _ _ _ _ => False
  | EvNdpSendNeighborSol _ _ => False
  | _ => True
  end.

(** The preference dhcpv6ParseAdvertise reads in an Advertise: the
    byte of the Preference option, 0 when the option is missing or is
    not one byte long. *)
Definition advertisedPreference (lib : Dhcpv6.Common)
    (message : Dhcpv6Message) (length : Z) : Z :=
  match Dhcpv6.dhcpv6GetOption lib (dhcpv6_options message)
          (wrap32 (length - Dhcpv6.sizeofDhcpv6Message))
          Dhcpv6.DHCPV6_OPTION_PREFERENCE with
  | Some option =>
      if ntohs (opt6_length option) =? Dhcpv6.sizeofDhcpv6PreferenceOption
      then byteAt (opt6_value option) 0
      else 0
  | None => 0
  end.

(** The world [w'] that a Reply accepted in the world [w] leaves, [s]
    being the Server Identifier option of the Reply: the client is
    BOUND to the address of the IA Address option, which is the global
    address of the interface, in the VALID state; the lease starts at
    the time of the call. *)
Definition boundBy (s : Dhcpv6Option) (w w' : World Dhcpv6.Dhcpv6ClientCtx)
  : Prop :=
  let c' := ctx w' in
  Dhcpv6.state c' = Dhcpv6.DHCPV6_STATE_BOUND /\
  Dhcpv6.retransmitCount c' = 0 /\
  Dhcpv6.leaseStartTime c' = wrap32 (env_time (env w)) /\
  Dhcpv6.serverIdLength c' = ntohs (opt6_length s) /\
  Dhcpv6.preferredLifetime c' <= Dhcpv6.validLifetime c' /\
  globalAddr (ipv6Config (netif w')) = Dhcpv6.clientAddr c' /\
  globalAddrState (ipv6Config (netif w')) = ADDR_STATE_VALID /\
  linkLocalAddr (ipv6Config (netif w')) = linkLocalAddr (ipv6Config (netif w)) /\
  extendsQuietly (out w) (out w').

(** The number of datagrams in a trace. *)
Definition sends (trace : list Event) : nat := length (filter is_send trace).

(* ------------------------------------------------------------------ *)
(** ** More scenarios                                                   *)
(* ------------------------------------------------------------------ *)

Module Cases.

Import Stock Scenario.

(** *** SLAAC: the first ticks of a started engine *)

(** The started engine, 5 s after boot. *)
Definition slaacFresh : World Slaac.SlaacContext := atTime 5000 slaacStarted.

(** One tick later the link-local address is tentative. *)
Definition slaacProbing : World Slaac.SlaacContext :=
  exec Slaac.slaacTick slaacFresh.

(** The same engine when the stack has found another node with the
    tentative address. *)
Definition slaacDuplicate : World Slaac.SlaacContext :=
  let i := netif slaacProbing in
  let c := ipv6Config i in
  mkWorld (ctx slaacProbing)
    (set_ipv6Config
       (mkIpv6Config (linkLocalAddr c) (linkLocalAddrState c) true
          (globalAddr c) (globalAddrState c) (globalAddrDup c) (prefix c)
          (prefixLength c) (ipv6_dnsServer c) (retransTimer c)) i)
    (envAt 5000) 0 [].

(** Five ticks, 4 s apart, for an engine that solicits routers. *)
Definition solicitSteps : list (NetInterface * Env) :=
  [(netif0, envAt 5000); (netif0, envAt 9000); (netif0, envAt 13000);
   (netif0, envAt 17000); (netif0, envAt 21000)].

(** *** DHCPv4: the life of a lease *)

Definition dhcpTickAt (time : Z) (w : World Dhcp.DhcpClientCtx)
  : World Dhcp.DhcpClientCtx :=
  exec (Dhcp.dhcpClientTick dhcpLib) (atTime time w).

Definition dhcpReceive (m : DhcpMessage) (w : World Dhcp.DhcpClientCtx)
  : World Dhcp.DhcpClientCtx :=
  exec (Dhcp.dhcpClientProcessMessage dhcpLib (Some m) (dhcpLength m)) w.

(** The started client one second after boot: its first tick has left
    INIT for SELECTING. *)
Definition dhcpDiscovering : World Dhcp.DhcpClientCtx :=
  dhcpTickAt 1000 dhcpStarted.

(** A DHCPNAK of the server. *)
Definition nak : DhcpMessage :=
  dhcpReply
    (dhcpOption Dhcp.DHCP_OPT_DHCP_MESSAGE_TYPE [b8 Dhcp.DHCP_MESSAGE_TYPE_NAK]
     ++ [b8 Dhcp.DHCP_OPT_END]).

(** A DHCPOFFER of the server. *)
Definition offer : DhcpMessage :=
  dhcpReply
    (dhcpOption Dhcp.DHCP_OPT_DHCP_MESSAGE_TYPE
       [b8 Dhcp.DHCP_MESSAGE_TYPE_OFFER]
     ++ dhcpOption Dhcp.DHCP_OPT_SERVER_IDENTIFIER (STORE32BE serverAddr)
     ++ [b8 Dhcp.DHCP_OPT_END]).

(** The same DHCPOFFER, for another transaction. *)
Definition offerToAnother : DhcpMessage :=
  mkDhcpMessage Dhcp.DHCP_OPCODE_BOOTREPLY Dhcp.DHCP_HARDWARE_TYPE_ETH 6 0
    (htonl 0x0BADCAFE) (htons 0) (htons 0) 0 offeredAddr 0 0 mac0
    (htonl Dhcp.DHCP_MAGIC_COOKIE) (dhcp_options offer).

(** The client waiting for offers to the transaction 0x12345678. *)
Definition dhcpSelecting : World Dhcp.DhcpClientCtx :=
  mkWorld
    (Dhcp.set_state Dhcp.DHCP_STATE_SELECTING
       (Dhcp.set_transactionId 0x12345678
          (Dhcp.set_retransmitCount 1 (ctx dhcpStarted))))
    netif0 (envAt 5000) 0 [].

(** The client after the plain DHCPACK (a lease of 600 s obtained at
    5000 ms, T1 = 300 s, T2 = 525 s): BOUND. *)
Definition dhcpBound : World Dhcp.DhcpClientCtx :=
  dhcpReceive ackPlain dhcpRequesting.

(** The client after a DHCPACK with an infinite lease. *)
Definition dhcpBoundForever : World Dhcp.DhcpClientCtx :=
  dhcpReceive (dhcpReply (ackOptions 0xFFFFFFFF [])) dhcpRequesting.

(** T1 has passed: the tick at 305 s enters RENEWING. *)
Definition dhcpRenewing : World Dhcp.DhcpClientCtx :=
  dhcpTickAt 305000 dhcpBound.

(** The client in RENEWING at 600 s, after T2 (530 s). *)
Definition dhcpRenewingLate : World Dhcp.DhcpClientCtx :=
  atTime 600000 dhcpRenewing.

(** The client in REQUESTING after the four requests that
    DHCP_CLIENT_REQUEST_MAX_RC allows. *)
Definition dhcpRequestedFourTimes : World Dhcp.DhcpClientCtx :=
  mkWorld (Dhcp.set_retransmitCount 4 (ctx dhcpRequesting)) netif0
    (envAt 5000) 0 [].

(** Two ticks, long after the lease was obtained. *)
Definition lateSteps : list (NetInterface * Env) :=
  [(netif0, envAt 1000000000); (netif0, envAt 2000000000)].

(** *** DHCPv6: from the Advertise to the lease *)

Definition dhcpv6Receive (m : Dhcpv6Message)
    (w : World Dhcpv6.Dhcpv6ClientCtx) : World Dhcpv6.Dhcpv6ClientCtx :=
  exec (Dhcpv6.dhcpv6ClientProcessMessage dhcpv6Lib (Some m) (dhcpv6Length m))
    w.

(** A run of the client written with the calls of [Runs]: init, start,
    then a tick 100 s after boot. *)
Definition dhcpv6Run : World Dhcpv6.Dhcpv6ClientCtx :=
  exec (Runs.dhcpv6Call dhcpv6Lib Runs.Dhcpv6Tick)
    (surroundings netif0 (envAt 100000)
       (exec (Runs.dhcpv6Call dhcpv6Lib Runs.Dhcpv6Start)
          (exec (Dhcpv6.dhcpv6ClientInit dhcpv6Lib Ref (Some dhcpv6Settings))
             dhcpv6Blank))).

(** The server, by its DUID of 14 bytes. *)
Definition serverDuid : list byte := duidOfSize 14.

(** The client after the Advertise of the server came, and after the
    tick at 102 s that ends the wait for more: REQUEST. *)
Definition dhcpv6Requesting : World Dhcpv6.Dhcpv6ClientCtx :=
  dhcpv6TickAt 102000 (dhcpv6Receive (advertise serverDuid) dhcpv6FirstSolicit).

(** The next tick sends the Request. *)
Definition dhcpv6Requested : World Dhcpv6.Dhcpv6ClientCtx :=
  dhcpv6TickAt 102010 dhcpv6Requesting.

(** The bytes of an option. *)
Definition optionBytes (o : Dhcpv6Option) : list byte :=
  opt6_code o ++ opt6_length o ++ opt6_value o.

(** The Reply of the server to that Request: the address 2001:db8::1
    with T1 = 1800 s, T2 = 2880 s, a preferred lifetime of 3600 s and a
    valid lifetime of 7200 s. *)
Definition reply : Dhcpv6Message :=
  mkDhcpv6Message Dhcpv6.DHCPV6_MSG_TYPE_REPLY
    (STORE24BE (Dhcpv6.transactionId (ctx dhcpv6Requested)))
    (dhcpv6OptionBytes Dhcpv6.DHCPV6_OPTION_CLIENTID clientDuid
     ++ dhcpv6OptionBytes Dhcpv6.DHCPV6_OPTION_SERVERID serverDuid
     ++ optionBytes (iaNa 1800 2880 3600 7200)).

(** The client after the Reply, at 102500 ms: BOUND. *)
Definition dhcpv6Bound : World Dhcpv6.Dhcpv6ClientCtx :=
  dhcpv6Receive reply (atTime 102500 dhcpv6Requested).

(** *** DHCPv6: a client soliciting with rapid commit *)

Definition dhcpv6RapidSettings : Dhcpv6.Dhcpv6ClientSettings :=
  Dhcpv6.mkDhcpv6ClientSettings Ref true false 0 false false false.

(** The client set up with rapid commit, after its first Solicit. *)
Definition dhcpv6RapidSolicit : World Dhcpv6.Dhcpv6ClientCtx :=
  dhcpv6TickAt 101000
    (dhcpv6TickAt 100000
       (exec (Dhcpv6.dhcpv6ClientStart Ref)
          (exec (Dhcpv6.dhcpv6ClientInit dhcpv6Lib Ref
                   (Some dhcpv6RapidSettings))
             dhcpv6Blank))).

(** A Reply to that Solicit, with a Rapid Commit option and the given
    options after it. *)
Definition rapidReply (more : list byte) : Dhcpv6Message :=
  mkDhcpv6Message Dhcpv6.DHCPV6_MSG_TYPE_REPLY
    (STORE24BE (Dhcpv6.transactionId (ctx dhcpv6RapidSolicit)))
    (dhcpv6OptionBytes Dhcpv6.DHCPV6_OPTION_CLIENTID clientDuid
     ++ dhcpv6OptionBytes Dhcpv6.DHCPV6_OPTION_SERVERID serverDuid
     ++ dhcpv6OptionBytes Dhcpv6.DHCPV6_OPTION_RAPID_COMMIT []
     ++ more).

End Cases.

(* ================================================================== *)
(** * Part II: theorems                                                *)
(* ================================================================== *)

(** ** Machine integers *)

Lemma wrap32_range (z : Z) : 0 <= wrap32 z < 2 ^ 32.
Proof. unfold wrap32. apply Z.mod_pos_bound. lia. Qed.

Lemma wrap32_small (z : Z) : 0 <= z < 2 ^ 32 -> wrap32 z = z.
Proof. intros H. unfold wrap32. apply Z.mod_small. exact H. Qed.

Lemma u8_range (b : byte) : 0 <= u8 b <= 255.
Proof.
  unfold u8. pose proof (Byte.to_N_bounded b). lia.
Qed.

Lemma byteAt_range (p : list byte) (i : nat) : 0 <= byteAt p i <= 255.
Proof. unfold byteAt. apply u8_range. Qed.

Lemma LOAD16BE_range (p : list byte) : 0 <= LOAD16BE p < 2 ^ 16.
Proof.
  unfold LOAD16BE.
  pose proof (byteAt_range p 0). pose proof (byteAt_range p 1). lia.
Qed.

Lemma LOAD32BE_range (p : list byte) : 0 <= LOAD32BE p < 2 ^ 32.
Proof.
  unfold LOAD32BE.
  pose proof (byteAt_range p 0). pose proof (byteAt_range p 1).
  pose proof (byteAt_range p 2). pose proof (byteAt_range p 3). lia.
Qed.

Lemma u8_b8 (z : Z) : u8 (b8 z) = z mod 256.
Proof.
  unfold u8, b8.
  assert (Hr : 0 <= z mod 256 < 256) by (apply Z.mod_pos_bound; lia).
  destruct (Byte.of_N (Z.to_N (z mod 256))) as [b|] eqn:E.
  - apply Byte.to_of_N in E. rewrite E. lia.
  - exfalso.
    pose proof (Byte.to_of_N_option_map (Z.to_N (z mod 256))) as H.
    rewrite E in H. cbn in H.
    destruct (N.leb_spec (Z.to_N (z mod 256)) 255); [discriminate | lia].
Qed.

(** The two bytes [htons] writes read back, most significant first, as
    the value written. *)
Lemma ntohs_htons (v : Z) : 0 <= v < 2 ^ 16 -> ntohs (htons v) = v.
Proof.
  intros H. unfold ntohs, htons, LOAD16BE, STORE16BE, byteAt, wrap16.
  rewrite Z.mod_small by exact H. cbn [nth].
  rewrite !u8_b8.
  rewrite (Z.mod_small (v / 2 ^ 8)).
  - change (2 ^ 8) with 256. pose proof (Z.div_mod v 256). lia.
  - split; [apply Z.div_pos; lia | apply Z.div_lt_upper_bound; lia].
Qed.

(** ** Running the monad *)

Ltac unfold_monad :=
  unfold exec, eval, when, bind, ret, getCtx, getIf, modifyCtx, modifyIf,
    osAcquireMutex, osReleaseMutex, osGetSystemTime, emit.

(** Splits on the test of the first conditional left in the goal. *)
Ltac split_if :=
  match goal with
  | |- context [if ?b then _ else _] =>
      let E := fresh "E" in destruct b eqn:E
  end.

Ltac split_match :=
  match goal with
  | |- context [match ?x with Some _ => _ | None => _ end] =>
      let E := fresh "E" in destruct x eqn:E
  end.

(** ** Rules of the logic *)

Section Rules.

Context {C : Type}.

Lemma run_bind {A B} (m : M C A) (k : A -> M C B) (w : World C) :
  bind m k w = k (fst (m w)) (snd (m w)).
Proof. unfold bind. destruct (m w). reflexivity. Qed.

Lemma exec_bind {A B} (m : M C A) (k : A -> M C B) (w : World C) :
  exec (bind m k) w = exec (k (eval m w)) (exec m w).
Proof. unfold exec, eval. rewrite run_bind. reflexivity. Qed.

Lemma hoare_bind {A B} (P : World C -> Prop) (R : A -> World C -> Prop)
    (Q : B -> World C -> Prop) (m : M C A) (k : A -> M C B) :
  hoare P m R -> (forall a, hoare (R a) (k a) Q) -> hoare P (bind m k) Q.
Proof.
  intros Hm Hk w Hw. rewrite run_bind. apply Hk. apply Hm. exact Hw.
Qed.

Variable J : World C -> Prop.

Lemma stable_ret {A} (a : A) : stable J (ret a).
Proof. intros w Hw. exact Hw. Qed.

Lemma stable_bind {A B} (m : M C A) (k : A -> M C B) :
  stable J m -> (forall a, stable J (k a)) -> stable J (bind m k).
Proof. intros Hm Hk. eapply hoare_bind; [exact Hm | exact Hk]. Qed.

Lemma stable_if {A} (b : bool) (m1 m2 : M C A) :
  stable J m1 -> stable J m2 -> stable J (if b then m1 else m2).
Proof. destruct b; auto. Qed.

Lemma stable_when (b : bool) (m : M C unit) :
  stable J m -> stable J (when b m).
Proof. intros H. unfold when. apply stable_if; [exact H | apply stable_ret]. Qed.

Lemma stable_option {A X} (o : option X) (s : X -> M C A) (n : M C A) :
  (forall x, stable J (s x)) -> stable J n ->
  stable J (match o with Some x => s x | None => n end).
Proof. destruct o; auto. Qed.

Lemma stable_forUpTo (n : nat) (body : nat -> M C unit) :
  (forall k, stable J (body k)) -> stable J (forUpTo n body).
Proof.
  intros H. induction n as [|n IH]; cbn [forUpTo].
  - apply stable_ret.
  - apply stable_bind; [exact IH | intros; apply H].
Qed.

Lemma stable_getCtx : stable J getCtx.
Proof. intros w Hw. exact Hw. Qed.

Lemma stable_getIf : stable J getIf.
Proof. intros w Hw. exact Hw. Qed.

Lemma stable_osGetSystemTime : stable J osGetSystemTime.
Proof. intros w Hw. exact Hw. Qed.

Lemma stable_udpAllocBuffer : stable J udpAllocBuffer.
Proof. intros w Hw. exact Hw. Qed.

Lemma stable_modifyCtx (f : C -> C) :
  (forall w, J w ->
     J (mkWorld (f (ctx w)) (netif w) (env w) (randPos w) (out w))) ->
  stable J (modifyCtx f).
Proof. intros H w Hw. apply H. exact Hw. Qed.

Lemma stable_modifyIf (f : NetInterface -> NetInterface) :
  (forall w, J w ->
     J (mkWorld (ctx w) (f (netif w)) (env w) (randPos w) (out w))) ->
  stable J (modifyIf f).
Proof. intros H w Hw. apply H. exact Hw. Qed.

Lemma stable_emit (e : Event) :
  (forall w, J w ->
     J (mkWorld (ctx w) (netif w) (env w) (randPos w) (out w ++ [e]))) ->
  stable J (emit e).
Proof. intros H w Hw. apply H. exact Hw. Qed.

Lemma stable_netGetRand :
  (forall w, J w ->
     J (mkWorld (ctx w) (netif w) (env w) (S (randPos w)) (out w))) ->
  stable J netGetRand.
Proof. intros H w Hw. apply H. exact Hw. Qed.

End Rules.

(** One step of a proof of stability: the rule of the construct at the
    head of the computation.  The steps that change the world leave the
    proof that the change keeps the property. *)
Ltac stable_step :=
  lazymatch goal with
  | |- keeps _ _ => unfold keeps
  | |- stable _ (bind _ _) => apply stable_bind; [ | intros ? ]
  | |- stable _ (ret _) => apply stable_ret
  | |- stable _ (if _ then _ else _) => apply stable_if
  | |- stable _ (when _ _) => apply stable_when
  | |- stable _ (match _ with Some _ => _ | None => _ end) =>
      apply stable_option; [ intros ? | ]
  | |- stable _ (forUpTo _ _) => apply stable_forUpTo; intros ?
  | |- stable _ (let _ := _ in _) => cbv zeta
  | |- stable _ getCtx => apply stable_getCtx
  | |- stable _ getIf => apply stable_getIf
  | |- stable _ osGetSystemTime => apply stable_osGetSystemTime
  | |- stable _ udpAllocBuffer => apply stable_udpAllocBuffer
  | |- stable _ (modifyCtx _) => apply stable_modifyCtx
  | |- stable _ (modifyIf _) => apply stable_modifyIf
  | |- stable _ (emit _) => apply stable_emit
  | |- stable _ netGetRand => apply stable_netGetRand
  | |- stable _ osAcquireMutex => apply stable_emit
  | |- stable _ osReleaseMutex => apply stable_emit
  | |- stable _ ndpSendRouterSol => apply stable_emit
  | |- stable _ (ndpSendNeighborSol _ _) => apply stable_emit
  | |- stable _ (netGetRandRange _ _) => unfold netGetRandRange
  | |- stable _ (udpSendDatagramEx _ _ _ _ _) => unfold udpSendDatagramEx
  end.

Ltac stable_all := repeat stable_step.

(** The names of the states, for the proofs that a state set by the
    code is one of the declared set. *)
Create HintDb states.
#[export] Hint Unfold
  Dhcp.validState Dhcp.DHCP_STATE_INIT Dhcp.DHCP_STATE_SELECTING
  Dhcp.DHCP_STATE_REQUESTING Dhcp.DHCP_STATE_INIT_REBOOT
  Dhcp.DHCP_STATE_REBOOTING Dhcp.DHCP_STATE_BOUND Dhcp.DHCP_STATE_RENEWING
  Dhcp.DHCP_STATE_REBINDING
  Dhcpv6.validState Dhcpv6.DHCPV6_STATE_INIT Dhcpv6.DHCPV6_STATE_SOLICIT
  Dhcpv6.DHCPV6_STATE_REQUEST Dhcpv6.DHCPV6_STATE_INIT_CONFIRM
  Dhcpv6.DHCPV6_STATE_CONFIRM Dhcpv6.DHCPV6_STATE_BOUND
  Dhcpv6.DHCPV6_STATE_RENEW Dhcpv6.DHCPV6_STATE_REBIND
  Dhcpv6.DHCPV6_STATE_DECLINE
  Slaac.validState Slaac.SLAAC_STATE_INIT Slaac.SLAAC_STATE_LINK_LOCAL_ADDR_DAD
  Slaac.SLAAC_STATE_ROUTER_SOLICIT Slaac.SLAAC_STATE_GLOBAL_ADDR_DAD
  Slaac.SLAAC_STATE_CONFIGURED Slaac.SLAAC_STATE_NO_ROUTER
  Slaac.SLAAC_STATE_DAD_FAILURE : states.

(** The end of a proof that a property of the context alone is kept:
    either the step leaves the context as it is, or the property of the
    new context is a fact about the constants the code assigns. *)
Ltac ctx_kept :=
  let w := fresh "w" in
  let H := fresh "H" in
  intros w H; cbn in *; repeat split_if;
  first [ exact H
        | reflexivity
        | solve [ autounfold with states in *; lia ] ].

Lemma slaacTick_keeps_running b :
  keeps (fun c => Slaac.running c = b) Slaac.slaacTick.
Proof.
  unfold Slaac.slaacTick. stable_all; ctx_kept.
Qed.

Lemma slaacTick_keeps_validState :
  keeps (fun c => Slaac.validState (Slaac.state c)) Slaac.slaacTick.
Proof.
  unfold Slaac.slaacTick. stable_all; ctx_kept.
Qed.

Lemma slaacProcessRouterAdv_keeps_validState ndp m l :
  keeps (fun c => Slaac.validState (Slaac.state c))
    (Slaac.slaacProcessRouterAdv ndp m l).
Proof.
  unfold Slaac.slaacProcessRouterAdv. stable_all; ctx_kept.
Qed.

Lemma slaacProcessRouterAdv_keeps_running ndp m l b :
  keeps (fun c => Slaac.running c = b)
    (Slaac.slaacProcessRouterAdv ndp m l).
Proof.
  unfold Slaac.slaacProcessRouterAdv. stable_all; ctx_kept.
Qed.


Ltac unfold_dhcp :=
  unfold Dhcp.dhcpClientTick, Dhcp.dhcpClientProcessMessage,
    Dhcp.dhcpClientLinkChangeEvent,
    Dhcp.dhcpStateInit, Dhcp.dhcpStateSelecting, Dhcp.dhcpStateRequesting,
    Dhcp.dhcpStateInitReboot, Dhcp.dhcpStateRebooting, Dhcp.dhcpStateBound,
    Dhcp.dhcpStateRenewing, Dhcp.dhcpStateRebinding, Dhcp.requestOrGiveUp,
    Dhcp.renewRequest, Dhcp.armRetransmission, Dhcp.doubleRetransmitTimeout,
    Dhcp.dhcpParseOffer, Dhcp.dhcpParseAckNak, Dhcp.commitAck,
    Dhcp.dhcpChangeState, Dhcp.dhcpCheckTimeout, Dhcp.dhcpSendDiscover,
    Dhcp.dhcpSendRequest, Dhcp.dhcpSendDecline, Dhcp.dhcpComputeElapsedTime.

Lemma dhcpClientTick_keeps_validState lib :
  keeps (fun c => Dhcp.validState (Dhcp.state c)) (Dhcp.dhcpClientTick lib).
Proof.
  unfold_dhcp. stable_all; ctx_kept.
Qed.

Lemma dhcpClientTick_keeps_running lib b :
  keeps (fun c => Dhcp.running c = b) (Dhcp.dhcpClientTick lib).
Proof.
  unfold_dhcp. stable_all; ctx_kept.
Qed.

Lemma dhcpClientProcessMessage_keeps_validState lib m l :
  keeps (fun c => Dhcp.validState (Dhcp.state c))
    (Dhcp.dhcpClientProcessMessage lib m l).
Proof.
  unfold_dhcp. stable_all; ctx_kept.
Qed.

Lemma dhcpClientProcessMessage_keeps_running lib m l b :
  keeps (fun c => Dhcp.running c = b) (Dhcp.dhcpClientProcessMessage lib m l).
Proof.
  unfold_dhcp. stable_all; ctx_kept.
Qed.

Lemma dhcpClientLinkChangeEvent_keeps_running b :
  keeps (fun c => Dhcp.running c = b) Dhcp.dhcpClientLinkChangeEvent.
Proof.
  unfold_dhcp. stable_all; ctx_kept.
Qed.

Ltac unfold_dhcpv6 :=
  unfold Dhcpv6.dhcpv6ClientTick, Dhcpv6.dhcpv6ClientProcessMessage,
    Dhcpv6.dhcpv6ClientLinkChangeEvent,
    Dhcpv6.dhcpv6StateInit, Dhcpv6.dhcpv6StateSolicit,
    Dhcpv6.dhcpv6StateRequest, Dhcpv6.dhcpv6StateInitConfirm,
    Dhcpv6.dhcpv6StateConfirm, Dhcpv6.dhcpv6StateBound,
    Dhcpv6.dhcpv6StateRenew, Dhcpv6.dhcpv6StateRebind,
    Dhcpv6.dhcpv6StateDecline,
    Dhcpv6.dhcpv6ParseAdvertise, Dhcpv6.dhcpv6ParseReply,
    Dhcpv6.commitReply, Dhcpv6.recordServerId, Dhcpv6.dhcpv6ParseIaNaOption,
    Dhcpv6.dhcpv6ChangeState, Dhcpv6.dhcpv6CheckTimeout,
    Dhcpv6.dhcpv6SendSolicit, Dhcpv6.dhcpv6SendRequest,
    Dhcpv6.dhcpv6SendConfirm, Dhcpv6.dhcpv6SendRenew,
    Dhcpv6.dhcpv6SendRebind, Dhcpv6.dhcpv6SendDecline, Dhcpv6.sendMessage,
    Dhcpv6.dhcpv6ComputeElapsedTime, Dhcpv6.randomizeTimeout,
    Dhcpv6.dhcpv6Rand, Dhcpv6.dhcpv6RandRange, Dhcpv6.incRetransmitCount,
    Dhcpv6.doubleTimeout, Dhcpv6.newTransactionId.

Lemma iaNaLoop_keeps_validState lib fuel m l s i :
  keeps (fun c => Dhcpv6.validState (Dhcpv6.state c))
    (Dhcpv6.iaNaLoop lib fuel m l s i).
Proof.
  revert i. induction fuel as [|fuel IH]; intros i; cbn [Dhcpv6.iaNaLoop].
  - stable_all.
  - unfold_dhcpv6. stable_all; try apply IH; ctx_kept.
Qed.

Lemma iaNaLoop_keeps_running lib fuel m l s i b :
  keeps (fun c => Dhcpv6.running c = b) (Dhcpv6.iaNaLoop lib fuel m l s i).
Proof.
  revert i. induction fuel as [|fuel IH]; intros i; cbn [Dhcpv6.iaNaLoop].
  - stable_all.
  - unfold_dhcpv6. stable_all; try apply IH; ctx_kept.
Qed.

Lemma dhcpv6ClientTick_keeps_validState lib :
  keeps (fun c => Dhcpv6.validState (Dhcpv6.state c))
    (Dhcpv6.dhcpv6ClientTick lib).
Proof.
  unfold_dhcpv6. stable_all; ctx_kept.
Qed.

Lemma dhcpv6ClientTick_keeps_running lib b :
  keeps (fun c => Dhcpv6.running c = b) (Dhcpv6.dhcpv6ClientTick lib).
Proof.
  unfold_dhcpv6. stable_all; ctx_kept.
Qed.

Lemma dhcpv6ClientProcessMessage_keeps_validState lib m l :
  keeps (fun c => Dhcpv6.validState (Dhcpv6.state c))
    (Dhcpv6.dhcpv6ClientProcessMessage lib m l).
Proof.
  unfold_dhcpv6. stable_all;
    try apply iaNaLoop_keeps_validState; ctx_kept.
Qed.

Lemma dhcpv6ClientProcessMessage_keeps_running lib m l b :
  keeps (fun c => Dhcpv6.running c = b)
    (Dhcpv6.dhcpv6ClientProcessMessage lib m l).
Proof.
  unfold_dhcpv6. stable_all;
    try apply iaNaLoop_keeps_running; ctx_kept.
Qed.

(** ** The timers of a DHCPACK *)

(** The timers a committed DHCPACK leaves in the context. *)
Lemma commitAck_timers lib message length lease w :
  let c' := ctx (exec (Dhcp.commitAck lib message length lease) w) in
  Dhcp.state c' = Dhcp.DHCP_STATE_BOUND /\
  Dhcp.leaseTime c' = lease /\
  Dhcp.t1 c' =
    match Dhcp.timeOption lib message length Dhcp.DHCP_OPT_RENEWAL_TIME_VALUE with
    | Some v => v
    | None => if lease =? Dhcp.DHCP_INFINITE_TIME then Dhcp.DHCP_INFINITE_TIME
              else lease / 2
    end /\
  Dhcp.t2 c' =
    match Dhcp.timeOption lib message length Dhcp.DHCP_OPT_REBINDING_TIME_VALUE with
    | Some v => v
    | None => if lease =? Dhcp.DHCP_INFINITE_TIME then Dhcp.DHCP_INFINITE_TIME
              else wrap32 (lease * 7) / 8
    end.
Proof.
  cbv zeta. unfold Dhcp.commitAck.
  rewrite exec_bind. rewrite (exec_bind (match Dhcp.timeOption _ _ _ _ with Some _ => _ | None => _ end)).
  rewrite (exec_bind (match Dhcp.timeOption _ _ _ _ with Some _ => _ | None => _ end)).
  set (T1 := match Dhcp.timeOption lib message length Dhcp.DHCP_OPT_RENEWAL_TIME_VALUE with
    | Some v => v
    | None => if lease =? Dhcp.DHCP_INFINITE_TIME then Dhcp.DHCP_INFINITE_TIME
              else lease / 2
    end).
  set (T2 := match Dhcp.timeOption lib message length Dhcp.DHCP_OPT_REBINDING_TIME_VALUE with
    | Some v => v
    | None => if lease =? Dhcp.DHCP_INFINITE_TIME then Dhcp.DHCP_INFINITE_TIME
              else wrap32 (lease * 7) / 8
    end).
  lazymatch goal with
  | |- context [exec ?rest ?w1] =>
      assert (Hrest :
        hoare (fun w => Dhcp.leaseTime (ctx w) = lease /\ Dhcp.t1 (ctx w) = T1
                        /\ Dhcp.t2 (ctx w) = T2)
          rest
          (fun _ w => Dhcp.state (ctx w) = Dhcp.DHCP_STATE_BOUND /\
                      Dhcp.leaseTime (ctx w) = lease /\ Dhcp.t1 (ctx w) = T1
                      /\ Dhcp.t2 (ctx w) = T2));
      [ | apply (Hrest w1) ]
  end.
  - repeat lazymatch goal with
           | |- hoare ?J (bind _ _) _ =>
               apply hoare_bind with (R := fun _ => J);
               [ change (stable J) with (@stable _ unit J) || idtac | intros ? ]
           end.
    all: try (match goal with |- hoare ?J ?m (fun _ => ?J) => change (stable J m) end; stable_all; ctx_kept).
    intros w0 (HL & H1 & H2).
    unfold Dhcp.dhcpChangeState. unfold_monad. cbn.
    destruct (Dhcp.stateChangeEvent (Dhcp.settings (ctx w0))); cbn; auto.
  - clear Hrest. unfold_monad.
    subst T1 T2.
    destruct (Dhcp.timeOption lib message length Dhcp.DHCP_OPT_RENEWAL_TIME_VALUE);
    destruct (Dhcp.timeOption lib message length Dhcp.DHCP_OPT_REBINDING_TIME_VALUE);
    cbn; destruct (lease =? Dhcp.DHCP_INFINITE_TIME) eqn:E; cbn;
    rewrite ?E; cbn; auto.
Qed.


Lemma dhcpParseAckNak_commit lib w message length :
  let w' := exec (Dhcp.dhcpParseAckNak lib message length) w in
  Dhcp.state (ctx w) <> Dhcp.DHCP_STATE_BOUND ->
  Dhcp.state (ctx w') = Dhcp.DHCP_STATE_BOUND ->
  exists lease,
    0 <= lease < 2 ^ 32 /\
    ctx w' = ctx (exec (Dhcp.commitAck lib message length lease) w).
Proof.
  cbv zeta. intros Hs. unfold Dhcp.dhcpParseAckNak. unfold_monad.
  cbn -[Dhcp.commitAck].
  repeat first
    [ split_if; cbn -[Dhcp.commitAck]
    | split_match; cbn -[Dhcp.commitAck] ];
    try (intros Hb; exfalso; apply Hs; exact Hb).
  - unfold_monad. split_if; cbn; intros Hb; discriminate Hb.
  - intros _. eexists. split; [ apply LOAD32BE_range | reflexivity ].
Qed.

(** C1 (amended).  When dhcpParseAckNak, called in the REQUESTING,
    REBOOTING, RENEWING or REBINDING state, accepts a DHCPACK and
    enters BOUND: a Renewal (T1) or Rebinding (T2) Time Value option of
    4 bytes is recorded as the server sent it, with no test of its
    order against the other timer or the lease time; and when the
    message has neither option the timers derived from the lease time,
    T1 = leaseTime / 2 and T2 = leaseTime * 7 / 8 in 32-bit arithmetic,
    satisfy T1 <= T2 <= leaseTime as long as leaseTime * 7 fits 32
    bits, and T1 = T2 = 0xFFFFFFFF when leaseTime is 0xFFFFFFFF. *)
Theorem ack_timers lib w message length :
  let c' := ctx (exec (Dhcp.dhcpParseAckNak lib message length) w) in
  let T1 := Dhcp.timeOption lib message length Dhcp.DHCP_OPT_RENEWAL_TIME_VALUE in
  let T2 := Dhcp.timeOption lib message length Dhcp.DHCP_OPT_REBINDING_TIME_VALUE in
  In (Dhcp.state (ctx w)) ackStates ->
  Dhcp.state c' = Dhcp.DHCP_STATE_BOUND ->
  (forall v, T1 = Some v -> Dhcp.t1 c' = v) /\
  (forall v, T2 = Some v -> Dhcp.t2 c' = v) /\
  (T1 = None ->
   Dhcp.t1 c' = if Dhcp.leaseTime c' =? 0xFFFFFFFF then 0xFFFFFFFF
                else Dhcp.leaseTime c' / 2) /\
  (T2 = None ->
   Dhcp.t2 c' = if Dhcp.leaseTime c' =? 0xFFFFFFFF then 0xFFFFFFFF
                else wrap32 (Dhcp.leaseTime c' * 7) / 8) /\
  (T1 = None -> T2 = None ->
   Dhcp.leaseTime c' * 7 < 2 ^ 32 \/ Dhcp.leaseTime c' = 0xFFFFFFFF ->
   Dhcp.t1 c' <= Dhcp.t2 c' <= Dhcp.leaseTime c' \/
   Dhcp.leaseTime c' = 0xFFFFFFFF /\ Dhcp.t1 c' = 0xFFFFFFFF /\
   Dhcp.t2 c' = 0xFFFFFFFF).
Proof.
  cbv zeta. intros Hin Hb.
  destruct (dhcpParseAckNak_commit lib w message length) as (lease & Hl & Hc).
  { unfold ackStates in Hin. cbn in Hin. autounfold with states in *. lia. }
  { exact Hb. }
  rewrite Hc.
  destruct (commitAck_timers lib message length lease w) as (_ & HL & H1 & H2).
  rewrite HL, H1, H2. clear Hc HL H1 H2 Hb.
  split; [ | split; [ | split; [ | split ] ] ].
  - intros v E. rewrite E. reflexivity.
  - intros v E. rewrite E. reflexivity.
  - intros E. rewrite E. reflexivity.
  - intros E. rewrite E. reflexivity.
  - intros E1 E2 Hsmall. rewrite E1, E2.
    unfold Dhcp.DHCP_INFINITE_TIME.
    destruct (Z.eqb_spec lease 0xFFFFFFFF) as [Einf | Hfin].
    + right. auto.
    + left. destruct Hsmall as [Hsmall | Hinf]; [ | contradiction ].
      rewrite wrap32_small by lia.
      split.
      * apply Z.div_le_lower_bound; [lia | ].
        pose proof (Z.mul_div_le lease 2). lia.
      * apply Z.div_le_upper_bound; lia.
Qed.


(** ** The state field after a tick and after a message *)

(** A tick entered with a state out of the enumeration takes the
    default branch of the switch. *)
Lemma dhcpClientTick_resets lib w :
  ~ Dhcp.validState (Dhcp.state (ctx w)) ->
  Dhcp.state (ctx (exec (Dhcp.dhcpClientTick lib) w)) = Dhcp.DHCP_STATE_INIT.
Proof.
  intros H. unfold Dhcp.dhcpClientTick. unfold_monad. cbn [ctx fst snd].
  repeat match goal with
  | |- context [?a =? ?b] =>
      destruct (Z.eqb_spec a b) as [E|E];
      [ exfalso; apply H; autounfold with states in *; lia | clear E ]
  end.
  reflexivity.
Qed.

Lemma dhcpv6ClientTick_resets lib w :
  ~ Dhcpv6.validState (Dhcpv6.state (ctx w)) ->
  Dhcpv6.state (ctx (exec (Dhcpv6.dhcpv6ClientTick lib) w))
  = Dhcpv6.DHCPV6_STATE_INIT.
Proof.
  intros H. unfold Dhcpv6.dhcpv6ClientTick. unfold_monad. cbn [ctx fst snd].
  repeat match goal with
  | |- context [?a =? ?b] =>
      destruct (Z.eqb_spec a b) as [E|E];
      [ exfalso; apply H; autounfold with states in *; lia | clear E ]
  end.
  reflexivity.
Qed.

Lemma validState_dec4 s : Dhcp.validState s \/ ~ Dhcp.validState s.
Proof. unfold Dhcp.validState. lia. Qed.

Lemma validState_dec6 s : Dhcpv6.validState s \/ ~ Dhcpv6.validState s.
Proof. unfold Dhcpv6.validState. lia. Qed.

Lemma dhcpClientTick_validState lib w :
  Dhcp.validState (Dhcp.state (ctx (exec (Dhcp.dhcpClientTick lib) w))).
Proof.
  destruct (validState_dec4 (Dhcp.state (ctx w))) as [H|H].
  - exact (dhcpClientTick_keeps_validState lib w H).
  - rewrite (dhcpClientTick_resets lib w H). autounfold with states. lia.
Qed.

Lemma dhcpv6ClientTick_validState lib w :
  Dhcpv6.validState (Dhcpv6.state (ctx (exec (Dhcpv6.dhcpv6ClientTick lib) w))).
Proof.
  destruct (validState_dec6 (Dhcpv6.state (ctx w))) as [H|H].
  - exact (dhcpv6ClientTick_keeps_validState lib w H).
  - rewrite (dhcpv6ClientTick_resets lib w H). autounfold with states. lia.
Qed.

(** C2 (amended).  The ticks of the DHCPv4 and DHCPv6 clients return
    with the state field in the enumeration of the engine from any
    context, and reset a value out of the enumeration to INIT.  The
    tick of SLAAC and the receive path of each of the three engines,
    entered with a state of the enumeration, return with a state of
    the enumeration. *)
Theorem state_stays_declared
    (lib4 : Dhcp.Common) (lib6 : Dhcpv6.Common) (ndp : Slaac.Ndp)
    (w4 r4 : World Dhcp.DhcpClientCtx) (w6 r6 : World Dhcpv6.Dhcpv6ClientCtx)
    (ws rs : World Slaac.SlaacContext)
    (m4 : option DhcpMessage) (m6 : option Dhcpv6Message)
    (ra : NdpRouterAdvMessage) (l4 l6 lra : Z) :
  Slaac.validState (Slaac.state (ctx ws)) ->
  Dhcp.validState (Dhcp.state (ctx r4)) ->
  Dhcpv6.validState (Dhcpv6.state (ctx r6)) ->
  Slaac.validState (Slaac.state (ctx rs)) ->
  (Dhcp.validState (Dhcp.state (ctx (exec (Dhcp.dhcpClientTick lib4) w4))) /\
   (~ Dhcp.validState (Dhcp.state (ctx w4)) ->
    Dhcp.state (ctx (exec (Dhcp.dhcpClientTick lib4) w4))
    = Dhcp.DHCP_STATE_INIT)) /\
  (Dhcpv6.validState
     (Dhcpv6.state (ctx (exec (Dhcpv6.dhcpv6ClientTick lib6) w6))) /\
   (~ Dhcpv6.validState (Dhcpv6.state (ctx w6)) ->
    Dhcpv6.state (ctx (exec (Dhcpv6.dhcpv6ClientTick lib6) w6))
    = Dhcpv6.DHCPV6_STATE_INIT)) /\
  Slaac.validState (Slaac.state (ctx (exec Slaac.slaacTick ws))) /\
  Dhcp.validState
    (Dhcp.state (ctx (exec (Dhcp.dhcpClientProcessMessage lib4 m4 l4) r4))) /\
  Dhcpv6.validState
    (Dhcpv6.state
       (ctx (exec (Dhcpv6.dhcpv6ClientProcessMessage lib6 m6 l6) r6))) /\
  Slaac.validState
    (Slaac.state (ctx (exec (Slaac.slaacProcessRouterAdv ndp ra lra) rs))).
Proof.
  intros Hs H4 H6 Hr.
  split; [ split; [ apply dhcpClientTick_validState
                  | apply dhcpClientTick_resets ] | ].
  split; [ split; [ apply dhcpv6ClientTick_validState
                  | apply dhcpv6ClientTick_resets ] | ].
  split; [ exact (slaacTick_keeps_validState ws Hs) | ].
  split; [ exact (dhcpClientProcessMessage_keeps_validState
                    lib4 m4 l4 r4 H4) | ].
  split; [ exact (dhcpv6ClientProcessMessage_keeps_validState
                    lib6 m6 l6 r6 H6) | ].
  exact (slaacProcessRouterAdv_keeps_validState ndp ra lra rs Hr).
Qed.

(** The ticks of the two DHCP clients reset a state out of the
    enumeration to INIT. *)
Lemma state_stays_declared_witness :
  Dhcp.state (ctx (exec (Dhcp.dhcpClientTick Stock.dhcpLib)
                     Scenario.dhcpStray)) = Dhcp.DHCP_STATE_INIT /\
  Dhcpv6.state (ctx (exec (Dhcpv6.dhcpv6ClientTick Stock.dhcpv6Lib)
                       Scenario.dhcpv6Stray)) = Dhcpv6.DHCPV6_STATE_INIT /\
  Slaac.validState
    (Slaac.state (ctx (exec Slaac.slaacTick Scenario.slaacSoliciting))).
Proof.
  destruct (state_stays_declared Stock.dhcpLib Stock.dhcpv6Lib Stock.ndpLib
              Scenario.dhcpStray Scenario.dhcpRequesting
              Scenario.dhcpv6Stray Scenario.dhcpv6FirstSolicit
              Scenario.slaacSoliciting Scenario.slaacConfigured
              (Some Scenario.ackPlain)
              (Some (Scenario.advertise (Scenario.duidOfSize 14)))
              Scenario.routerAdv
              (Scenario.dhcpLength Scenario.ackPlain)
              (Scenario.dhcpv6Length
                 (Scenario.advertise (Scenario.duidOfSize 14)))
              Scenario.routerAdvLength)
    as ((_ & H4) & (_ & H6) & Hs & _).
  - vm_compute. split; discriminate.
  - vm_compute. split; discriminate.
  - vm_compute. split; discriminate.
  - vm_compute. split; discriminate.
  - split; [ | split ].
    + apply H4. vm_compute. intros [_ H]. apply H. reflexivity.
    + apply H6. vm_compute. intros [_ H]. apply H. reflexivity.
    + exact Hs.
Defined.

(** C2, as stated.  Entered with the value 99 in the state field, the
    tick of SLAAC, which has no default branch, and the receive path
    of each of the three engines return with 99 in the state field. *)
Lemma stray_state_survives :
  let s4 := Dhcp.state (ctx (exec (Dhcp.dhcpClientProcessMessage Stock.dhcpLib
                (Some Scenario.ackPlain)
                (Scenario.dhcpLength Scenario.ackPlain))
                Scenario.dhcpStray)) in
  let s6 := Dhcpv6.state (ctx (exec (Dhcpv6.dhcpv6ClientProcessMessage
                Stock.dhcpv6Lib
                (Some (Scenario.advertise (Scenario.duidOfSize 14)))
                (Scenario.dhcpv6Length
                   (Scenario.advertise (Scenario.duidOfSize 14))))
                Scenario.dhcpv6Stray)) in
  let ss := Slaac.state (ctx (exec (Slaac.slaacProcessRouterAdv Stock.ndpLib
                Scenario.routerAdv Scenario.routerAdvLength)
                Scenario.slaacStray)) in
  let st := Slaac.state (ctx (exec Slaac.slaacTick Scenario.slaacStray)) in
  (st = 99 /\ ~ Slaac.validState st) /\
  (s4 = 99 /\ ~ Dhcp.validState s4) /\
  (s6 = 99 /\ ~ Dhcpv6.validState s6) /\
  (ss = 99 /\ ~ Slaac.validState ss).
Proof.
  cbv zeta.
  repeat match goal with
  | |- _ /\ _ => split
  | |- _ = _ => vm_compute; reflexivity
  | |- ~ _ => vm_compute; intros [_ H]; apply H; reflexivity
  end.
Qed.

(** ** A stopped engine sends nothing *)

Lemma extendsQuietly_refl (o : list Event) : extendsQuietly o o.
Proof. exists []. split; [ symmetry; apply app_nil_r | constructor ]. Qed.

Lemma extendsQuietly_trans (o1 o2 o3 : list Event) :
  extendsQuietly o1 o2 -> extendsQuietly o2 o3 -> extendsQuietly o1 o3.
Proof.
  intros (e1 & -> & F1) (e2 & -> & F2). exists (e1 ++ e2). split.
  - symmetry. apply app_assoc.
  - apply Forall_app. split; assumption.
Qed.

Lemma extendsQuietly_mutex (o : list Event) :
  extendsQuietly o ((o ++ [EvAcquireMutex]) ++ [EvReleaseMutex]).
Proof.
  exists [EvAcquireMutex; EvReleaseMutex]. split.
  - rewrite <- app_assoc. reflexivity.
  - repeat constructor.
Qed.

Section DhcpStopped.

Variable lib : Dhcp.Common.

Lemma dhcpClientInit_atRest s w :
  eval (Dhcp.dhcpClientInit lib Ref (Some s)) w = NO_ERROR ->
  dhcpAtRest (ctx (exec (Dhcp.dhcpClientInit lib Ref (Some s)) w)).
Proof.
  unfold Dhcp.dhcpClientInit, Dhcp.osCreateMutex, Dhcp.udpAttachRxCallback,
    Dhcp.osDeleteMutex.
  unfold_monad. cbn.
  repeat (split_if; cbn); try discriminate; intros _ _; reflexivity.
Qed.

(** A tick of a stopped client at rest changes nothing but the trace,
    where it leaves the two calls on the mutex. *)
Lemma dhcpClientTick_stopped w :
  Dhcp.running (ctx w) = false ->
  Dhcp.state (ctx w) = Dhcp.DHCP_STATE_INIT ->
  exec (Dhcp.dhcpClientTick lib) w =
  mkWorld (ctx w) (netif w) (env w) (randPos w)
    ((out w ++ [EvAcquireMutex]) ++ [EvReleaseMutex]).
Proof.
  intros Hr Hs. unfold Dhcp.dhcpClientTick, Dhcp.dhcpStateInit.
  unfold_monad. cbn. rewrite Hs. cbn. rewrite Hr. reflexivity.
Qed.

Lemma dhcpCall_atRest c w :
  dhcpAtRest (ctx w) -> dhcpAtRest (ctx (exec (Runs.dhcpCall lib c) w)).
Proof.
  intros Hw. unfold dhcpAtRest.
  destruct c as [ | | | | | message length]; cbn [Runs.dhcpCall].
  - unfold Dhcp.dhcpClientStart. unfold_monad. cbn. discriminate.
  - unfold Dhcp.dhcpClientStop. unfold_monad. cbn. reflexivity.
  - unfold Dhcp.dhcpClientGetState. unfold_monad. cbn. exact Hw.
  - intros Hr.
    destruct (Dhcp.running (ctx w)) eqn:Hb.
    + pose proof (dhcpClientTick_keeps_running lib true w Hb) as Hk.
      unfold exec in Hr. cbv beta in Hk. congruence.
    + rewrite dhcpClientTick_stopped by auto. cbn. auto.
  - unfold Dhcp.dhcpClientLinkChangeEvent. unfold_monad. cbn.
    destruct (Dhcp.running (ctx w)) eqn:Hb; cbn.
    + repeat (split_if; cbn); rewrite ?Hb; discriminate.
    + rewrite (Hw Hb). cbn.
      repeat (split_if; cbn); reflexivity.
  - intros Hr.
    destruct (Dhcp.running (ctx w)) eqn:Hb.
    + pose proof (dhcpClientProcessMessage_keeps_running lib message length
                    true w Hb) as Hk.
      unfold exec in Hr. cbv beta in Hk. congruence.
    + clear Hr. unfold Dhcp.dhcpClientProcessMessage. unfold_monad.
      destruct (length <? Dhcp.sizeofDhcpMessage lib); [ auto | ].
      destruct (length >? Dhcp.DHCP_MAX_MSG_SIZE lib); [ auto | ].
      destruct message; [ | auto ].
      cbn. rewrite (Hw Hb). cbn. exact (Hw Hb).
Qed.

Lemma dhcpReachable_atRest w :
  Runs.dhcpReachable lib w -> dhcpAtRest (ctx w).
Proof.
  induction 1 as [w s Hinit | w c _ IH | w i e _ IH].
  - apply dhcpClientInit_atRest. exact Hinit.
  - apply dhcpCall_atRest. exact IH.
  - exact IH.
Qed.

Lemma dhcpTicks_stopped steps : forall w,
  Dhcp.running (ctx w) = false ->
  Dhcp.state (ctx w) = Dhcp.DHCP_STATE_INIT ->
  ctx (Runs.dhcpTicks lib steps w) = ctx w /\
  extendsQuietly (out w) (out (Runs.dhcpTicks lib steps w)).
Proof.
  induction steps as [|[i e] steps IH]; intros w Hr Hs; cbn [Runs.dhcpTicks].
  - split; [ reflexivity | apply extendsQuietly_refl ].
  - rewrite dhcpClientTick_stopped by assumption.
    destruct (IH (mkWorld (ctx w) i e (randPos w)
                    ((out w ++ [EvAcquireMutex]) ++ [EvReleaseMutex])))
      as [Hc Ho]; [ exact Hr | exact Hs | ].
    cbn in *. split; [ exact Hc | ].
    eapply extendsQuietly_trans; [ apply extendsQuietly_mutex | exact Ho ].
Qed.

End DhcpStopped.

Section Dhcpv6Stopped.

Variable lib : Dhcpv6.Common.

Lemma dhcpv6ClientInit_atRest s w :
  eval (Dhcpv6.dhcpv6ClientInit lib Ref (Some s)) w = NO_ERROR ->
  dhcpv6AtRest (ctx (exec (Dhcpv6.dhcpv6ClientInit lib Ref (Some s)) w)).
Proof.
  unfold Dhcpv6.dhcpv6ClientInit, Dhcpv6.osCreateMutex,
    Dhcpv6.udpAttachRxCallback, Dhcpv6.osDeleteMutex.
  unfold_monad. cbn.
  repeat (split_if; cbn); try discriminate; intros _ _; reflexivity.
Qed.

Lemma dhcpv6ClientTick_stopped w :
  Dhcpv6.running (ctx w) = false ->
  Dhcpv6.state (ctx w) = Dhcpv6.DHCPV6_STATE_INIT ->
  exec (Dhcpv6.dhcpv6ClientTick lib) w =
  mkWorld (ctx w) (netif w) (env w) (randPos w)
    ((out w ++ [EvAcquireMutex]) ++ [EvReleaseMutex]).
Proof.
  intros Hr Hs. unfold Dhcpv6.dhcpv6ClientTick, Dhcpv6.dhcpv6StateInit.
  unfold_monad. cbn. rewrite Hs. cbn. rewrite Hr. reflexivity.
Qed.

Lemma dhcpv6Call_atRest c w :
  dhcpv6AtRest (ctx w) -> dhcpv6AtRest (ctx (exec (Runs.dhcpv6Call lib c) w)).
Proof.
  intros Hw. unfold dhcpv6AtRest.
  destruct c as [ | | | | | message length]; cbn [Runs.dhcpv6Call].
  - unfold Dhcpv6.dhcpv6ClientStart. unfold_monad. cbn. discriminate.
  - unfold Dhcpv6.dhcpv6ClientStop. unfold_monad. cbn. reflexivity.
  - unfold Dhcpv6.dhcpv6ClientGetState. unfold_monad. cbn. exact Hw.
  - intros Hr.
    destruct (Dhcpv6.running (ctx w)) eqn:Hb.
    + pose proof (dhcpv6ClientTick_keeps_running lib true w Hb) as Hk.
      unfold exec in Hr. cbv beta in Hk. congruence.
    + rewrite dhcpv6ClientTick_stopped by auto. cbn. auto.
  - unfold Dhcpv6.dhcpv6ClientLinkChangeEvent. unfold_monad. cbn.
    destruct (Dhcpv6.running (ctx w)) eqn:Hb; cbn.
    + repeat (split_if; cbn); rewrite ?Hb; discriminate.
    + rewrite (Hw Hb). cbn.
      repeat (split_if; cbn); reflexivity.
  - intros Hr.
    destruct (Dhcpv6.running (ctx w)) eqn:Hb.
    + pose proof (dhcpv6ClientProcessMessage_keeps_running lib message length
                    true w Hb) as Hk.
      unfold exec in Hr. cbv beta in Hk. congruence.
    + clear Hr. unfold Dhcpv6.dhcpv6ClientProcessMessage. unfold_monad.
      destruct (length <? Dhcpv6.sizeofDhcpv6Message); [ auto | ].
      destruct message; [ | auto ].
      cbn. rewrite (Hw Hb). cbn. exact (Hw Hb).
Qed.

Lemma dhcpv6Reachable_atRest w :
  Runs.dhcpv6Reachable lib w -> dhcpv6AtRest (ctx w).
Proof.
  induction 1 as [w s Hinit | w c _ IH | w i e _ IH].
  - apply dhcpv6ClientInit_atRest. exact Hinit.
  - apply dhcpv6Call_atRest. exact IH.
  - exact IH.
Qed.

Lemma dhcpv6Ticks_stopped steps : forall w,
  Dhcpv6.running (ctx w) = false ->
  Dhcpv6.state (ctx w) = Dhcpv6.DHCPV6_STATE_INIT ->
  ctx (Runs.dhcpv6Ticks lib steps w) = ctx w /\
  extendsQuietly (out w) (out (Runs.dhcpv6Ticks lib steps w)).
Proof.
  induction steps as [|[i e] steps IH]; intros w Hr Hs; cbn [Runs.dhcpv6Ticks].
  - split; [ reflexivity | apply extendsQuietly_refl ].
  - rewrite dhcpv6ClientTick_stopped by assumption.
    destruct (IH (mkWorld (ctx w) i e (randPos w)
                    ((out w ++ [EvAcquireMutex]) ++ [EvReleaseMutex])))
      as [Hc Ho]; [ exact Hr | exact Hs | ].
    cbn in *. split; [ exact Hc | ].
    eapply extendsQuietly_trans; [ apply extendsQuietly_mutex | exact Ho ].
Qed.

End Dhcpv6Stopped.

Section SlaacStopped.

Variable ndp : Slaac.Ndp.

Lemma slaacInit_atRest s w :
  eval (Slaac.slaacInit Ref (Some s)) w = NO_ERROR ->
  slaacAtRest (ctx (exec (Slaac.slaacInit Ref (Some s)) w)).
Proof.
  unfold Slaac.slaacInit, Slaac.osCreateMutex.
  unfold_monad. cbn.
  repeat (split_if; cbn); try discriminate; intros _ _; reflexivity.
Qed.

Lemma slaacTick_stopped w :
  Slaac.running (ctx w) = false ->
  Slaac.state (ctx w) = Slaac.SLAAC_STATE_INIT ->
  exec Slaac.slaacTick w =
  mkWorld (ctx w) (netif w) (env w) (randPos w)
    ((out w ++ [EvAcquireMutex]) ++ [EvReleaseMutex]).
Proof.
  intros Hr Hs. unfold Slaac.slaacTick.
  unfold_monad. cbn. rewrite Hs. cbn. rewrite Hr. reflexivity.
Qed.

Lemma slaacCall_atRest c w :
  slaacAtRest (ctx w) -> slaacAtRest (ctx (exec (Runs.slaacCall ndp c) w)).
Proof.
  intros Hw. unfold slaacAtRest.
  destruct c as [ | | | | | message length]; cbn [Runs.slaacCall].
  - unfold Slaac.slaacStart. unfold_monad. cbn. discriminate.
  - unfold Slaac.slaacStop. unfold_monad. cbn. reflexivity.
  - unfold Slaac.slaacGetState. unfold_monad. cbn. exact Hw.
  - intros Hr.
    destruct (Slaac.running (ctx w)) eqn:Hb.
    + pose proof (slaacTick_keeps_running true w Hb) as Hk.
      unfold exec in Hr. cbv beta in Hk. congruence.
    + rewrite slaacTick_stopped by auto. cbn. auto.
  - unfold Slaac.slaacLinkChangeEvent. unfold_monad. cbn.
    intros _. split_if; reflexivity.
  - intros Hr.
    destruct (Slaac.running (ctx w)) eqn:Hb.
    + pose proof (slaacProcessRouterAdv_keeps_running ndp message length
                    true w Hb) as Hk.
      unfold exec in Hr. cbv beta in Hk. congruence.
    + clear Hr. unfold Slaac.slaacProcessRouterAdv. unfold_monad.
      cbn. split_if; cbn; rewrite (Hw Hb); cbn; exact (Hw Hb).
Qed.

Lemma slaacReachable_atRest w :
  Runs.slaacReachable ndp w -> slaacAtRest (ctx w).
Proof.
  induction 1 as [w s Hinit | w c _ IH | w i e _ IH].
  - apply slaacInit_atRest. exact Hinit.
  - apply slaacCall_atRest. exact IH.
  - exact IH.
Qed.

Lemma slaacTicks_stopped steps : forall w,
  Slaac.running (ctx w) = false ->
  Slaac.state (ctx w) = Slaac.SLAAC_STATE_INIT ->
  ctx (Runs.slaacTicks steps w) = ctx w /\
  extendsQuietly (out w) (out (Runs.slaacTicks steps w)).
Proof.
  induction steps as [|[i e] steps IH]; intros w Hr Hs; cbn [Runs.slaacTicks].
  - split; [ reflexivity | apply extendsQuietly_refl ].
  - rewrite slaacTick_stopped by assumption.
    destruct (IH (mkWorld (ctx w) i e (randPos w)
                    ((out w ++ [EvAcquireMutex]) ++ [EvReleaseMutex])))
      as [Hc Ho]; [ exact Hr | exact Hs | ].
    cbn in *. split; [ exact Hc | ].
    eapply extendsQuietly_trans; [ apply extendsQuietly_mutex | exact Ho ].
Qed.

End SlaacStopped.

(** C5.  A context reached by init and any sequence of calls and
    changes of the surroundings, whose running flag is false, is in the
    INIT state; from it no sequence of ticks, whatever the surroundings
    do in between, sends a datagram (a UDP datagram, a Router or a
    Neighbor Solicitation) or changes the context, on each of the three
    engines. *)
Theorem stopped_engine_sends_nothing
    (lib4 : Dhcp.Common) (lib6 : Dhcpv6.Common) (ndp : Slaac.Ndp)
    (w4 : World Dhcp.DhcpClientCtx) (w6 : World Dhcpv6.Dhcpv6ClientCtx)
    (ws : World Slaac.SlaacContext)
    (steps4 steps6 stepss : list (NetInterface * Env)) :
  Runs.dhcpReachable lib4 w4 -> Dhcp.running (ctx w4) = false ->
  Runs.dhcpv6Reachable lib6 w6 -> Dhcpv6.running (ctx w6) = false ->
  Runs.slaacReachable ndp ws -> Slaac.running (ctx ws) = false ->
  (Dhcp.state (ctx w4) = Dhcp.DHCP_STATE_INIT /\
   ctx (Runs.dhcpTicks lib4 steps4 w4) = ctx w4 /\
   extendsQuietly (out w4) (out (Runs.dhcpTicks lib4 steps4 w4))) /\
  (Dhcpv6.state (ctx w6) = Dhcpv6.DHCPV6_STATE_INIT /\
   ctx (Runs.dhcpv6Ticks lib6 steps6 w6) = ctx w6 /\
   extendsQuietly (out w6) (out (Runs.dhcpv6Ticks lib6 steps6 w6))) /\
  (Slaac.state (ctx ws) = Slaac.SLAAC_STATE_INIT /\
   ctx (Runs.slaacTicks stepss ws) = ctx ws /\
   extendsQuietly (out ws) (out (Runs.slaacTicks stepss ws))).
Proof.
  intros R4 H4 R6 H6 Rs Hs.
  pose proof (dhcpReachable_atRest lib4 w4 R4 H4) as I4.
  pose proof (dhcpv6Reachable_atRest lib6 w6 R6 H6) as I6.
  pose proof (slaacReachable_atRest ndp ws Rs Hs) as Is.
  split; [ | split ].
  - split; [ exact I4 | exact (dhcpTicks_stopped lib4 steps4 w4 H4 I4) ].
  - split; [ exact I6 | exact (dhcpv6Ticks_stopped lib6 steps6 w6 H6 I6) ].
  - split; [ exact Is | exact (slaacTicks_stopped stepss ws Hs Is) ].
Qed.

(** ** The IA_NA option *)

#[local] Arguments Dhcpv6.iaNa_iaId : simpl never.
#[local] Arguments Dhcpv6.iaNa_t1 : simpl never.
#[local] Arguments Dhcpv6.iaNa_t2 : simpl never.
#[local] Arguments Dhcpv6.iaNa_options : simpl never.
#[local] Arguments Dhcpv6.iaAddr_address : simpl never.
#[local] Arguments Dhcpv6.iaAddr_preferredLifetime : simpl never.
#[local] Arguments Dhcpv6.iaAddr_validLifetime : simpl never.
#[local] Arguments ntohl : simpl never.
#[local] Arguments ntohs : simpl never.
#[local] Arguments wrap32 : simpl never.
#[local] Arguments memeq : simpl never.

Section IaNa.

Variable lib : Dhcpv6.Common.

Lemma dhcpv6ParseIaNaOption_cases option w :
  let v := opt6_value option in
  let T1 := ntohl (Dhcpv6.iaNa_t1 v) in
  let T2 := ntohl (Dhcpv6.iaNa_t2 v) in
  let n := ntohs (opt6_length option) - Dhcpv6.sizeofDhcpv6IaNaOption in
  let r := Dhcpv6.dhcpv6ParseIaNaOption lib option w in
  r = (ERROR_INVALID_OPTION, w) \/
  (~ (T1 > T2 /\ T2 > 0) /\
   exists sub,
     Dhcpv6.dhcpv6GetOption lib (Dhcpv6.iaNa_options v) n
       Dhcpv6.DHCPV6_OPTION_IAADDR = Some sub /\
     let P := ntohl (Dhcpv6.iaAddr_preferredLifetime (opt6_value sub)) in
     let V := ntohl (Dhcpv6.iaAddr_validLifetime (opt6_value sub)) in
     P <= V /\
     r = (NO_ERROR,
          mkWorld
            (iaNaCommitted (ctx w) (Dhcpv6.iaAddr_address (opt6_value sub))
               T1 T2 P V)
            (netif w) (env w) (randPos w) (out w))).
Proof.
  cbv zeta. unfold Dhcpv6.dhcpv6ParseIaNaOption. unfold_monad. cbn.
  repeat first [ split_if; cbn | split_match; cbn ]; auto.
  all: right; split;
    [ match goal with
      | H : (_ >? _) && (_ >? _) = false |- _ => apply andb_false_iff in H
      end; lia
    | eexists; split; [ reflexivity | ]; split; [ lia | ] ].
  all: unfold iaNaCommitted; cbn;
    repeat match goal with
           | H : (?a =? ?b) = _ |- _ => rewrite H; clear H
           end;
    cbn; reflexivity.
Qed.


End IaNa.


(** ** The Advertise message *)

#[local] Arguments LOAD24BE : simpl never.

Section Advertise.

Variable lib : Dhcpv6.Common.

(** A message that is not a Reply is rejected by dhcpv6ParseReply
    before anything is written. *)
Lemma dhcpv6ParseReply_other_type message length w :
  msgType message <> Dhcpv6.DHCPV6_MSG_TYPE_REPLY ->
  Dhcpv6.dhcpv6ParseReply lib message length w = (ERROR_INVALID_MESSAGE, w).
Proof.
  intros H. unfold Dhcpv6.dhcpv6ParseReply. unfold_monad.
  destruct (length <? Dhcpv6.sizeofDhcpv6Message); [ reflexivity | ].
  destruct (Z.eqb_spec (msgType message) Dhcpv6.DHCPV6_MSG_TYPE_REPLY);
    [ contradiction | reflexivity ].
Qed.

(** The tests that dhcpv6ParseAdvertise makes on a message of type
    ADVERTISE, which dhcpv6ParseReply has left alone. *)
Lemma advertise_checks (w : World Dhcpv6.Dhcpv6ClientCtx)
    (message : Dhcpv6Message) (length : Z) :
  msgType message = Dhcpv6.DHCPV6_MSG_TYPE_ADVERTISE ->
  let c := ctx w in
  let n := wrap32 (length - Dhcpv6.sizeofDhcpv6Message) in
  let opts := dhcpv6_options message in
  let r := Dhcpv6.dhcpv6ParseAdvertise lib message length w in
  (fst r = NO_ERROR <->
   Dhcpv6.sizeofDhcpv6Message <= length /\
   LOAD24BE (transactionId6 message) = Dhcpv6.transactionId c /\
   (exists o,
      Dhcpv6.dhcpv6GetOption lib opts n Dhcpv6.DHCPV6_OPTION_CLIENTID = Some o /\
      ntohs (opt6_length o) = Dhcpv6.clientIdLength c /\
      memeq (opt6_value o) (Dhcpv6.clientId c)
        (Z.to_nat (Dhcpv6.clientIdLength c)) = true) /\
   (exists s,
      Dhcpv6.dhcpv6GetOption lib opts n Dhcpv6.DHCPV6_OPTION_SERVERID = Some s /\
      0 < ntohs (opt6_length s) < Dhcpv6.DHCPV6_MAX_DUID_SIZE lib) /\
   Dhcpv6.dhcpv6ParseStatusCodeOption lib opts n = NO_ERROR) /\
  (fst r <> NO_ERROR -> r = (ERROR_INVALID_MESSAGE, w)).
Proof.
  intros Htype. cbv zeta.
  unfold Dhcpv6.dhcpv6ParseAdvertise.
  rewrite run_bind. cbn [getCtx fst snd].
  rewrite run_bind.
  assert (Hreply :
    (if Dhcpv6.rapidCommit (Dhcpv6.settings (ctx w))
     then error <- Dhcpv6.dhcpv6ParseReply lib message length ;;
          ret (negb (is_error error))
     else ret false) w = (false, w)).
  { destruct (Dhcpv6.rapidCommit (Dhcpv6.settings (ctx w))); [ | reflexivity ].
    rewrite run_bind, dhcpv6ParseReply_other_type
      by (rewrite Htype; discriminate).
    reflexivity. }
  rewrite Hreply. cbn [fst snd]. clear Hreply.
  rewrite run_bind. cbn [getCtx fst snd].
  rewrite Htype. rewrite Z.eqb_refl. cbn [negb].
  pose proof (LOAD16BE_range) as Hrange.
  (* the length of the message *)
  destruct (Z.ltb_spec length Dhcpv6.sizeofDhcpv6Message) as [Hlen | Hlen].
  { split; [ split; [ discriminate | intros (H & _); lia ] | reflexivity ]. }
  (* the transaction id *)
  destruct (Z.eqb_spec (LOAD24BE (transactionId6 message))
              (Dhcpv6.transactionId (ctx w))) as [Hxid | Hxid]; cbn [negb].
  2: { split; [ split; [ discriminate | intros (_ & H & _); contradiction ]
              | reflexivity ]. }
  (* the Client Identifier option *)
  destruct (Dhcpv6.dhcpv6GetOption lib (dhcpv6_options message)
              (wrap32 (length - Dhcpv6.sizeofDhcpv6Message))
              Dhcpv6.DHCPV6_OPTION_CLIENTID) as [o | ] eqn:Eo.
  2: { split; [ split; [ discriminate
                       | intros (_ & _ & (o & Ho & _) & _); discriminate ]
              | reflexivity ]. }
  destruct (Z.eqb_spec (ntohs (opt6_length o)) (Dhcpv6.clientIdLength (ctx w)))
    as [Hol | Hol]; cbn [negb].
  2: { split; [ split; [ discriminate
                       | intros (_ & _ & (o' & Ho & Hl & _) & _);
                         inversion Ho; subst o'; contradiction ]
              | reflexivity ]. }
  destruct (memeq (opt6_value o) (Dhcpv6.clientId (ctx w))
              (Z.to_nat (Dhcpv6.clientIdLength (ctx w)))) eqn:Em; cbn [negb].
  2: { split; [ split; [ discriminate
                       | intros (_ & _ & (o' & Ho & _ & Hm) & _);
                         inversion Ho; subst o'; congruence ]
              | reflexivity ]. }
  (* the Server Identifier option *)
  destruct (Dhcpv6.dhcpv6GetOption lib (dhcpv6_options message)
              (wrap32 (length - Dhcpv6.sizeofDhcpv6Message))
              Dhcpv6.DHCPV6_OPTION_SERVERID) as [s | ] eqn:Es.
  2: { split; [ split; [ discriminate
                       | intros (_ & _ & _ & (s & Hs & _) & _); discriminate ]
              | reflexivity ]. }
  destruct (Z.eqb_spec (ntohs (opt6_length s)) 0) as [Hs0 | Hs0].
  { split; [ split; [ discriminate
                    | intros (_ & _ & _ & (s' & Hs & Hl) & _);
                      inversion Hs; subst s'; lia ]
           | reflexivity ]. }
  destruct (ntohs (opt6_length s) >=? Dhcpv6.DHCPV6_MAX_DUID_SIZE lib)
    eqn:Hmax; rewrite Z.geb_leb in Hmax.
  { apply Z.leb_le in Hmax.
    split; [ split; [ discriminate
                    | intros (_ & _ & _ & (s' & Hs & Hl) & _);
                      inversion Hs; subst s'; lia ]
           | reflexivity ]. }
  apply Z.leb_gt in Hmax.
  (* the Status Code option *)
  destruct (Dhcpv6.dhcpv6ParseStatusCodeOption lib (dhcpv6_options message)
              (wrap32 (length - Dhcpv6.sizeofDhcpv6Message))) eqn:Est;
    cbn [is_error].
  2-7: split; [ split; [ discriminate
                       | intros (_ & _ & _ & _ & H); discriminate ]
              | reflexivity ].
  (* the message is accepted *)
  rewrite !run_bind. cbn [ret fst snd].
  split; [ | intros H; contradiction ].
  split; [ intros _ | reflexivity ].
  split; [ lia | ]. split; [ exact Hxid | ].
  split; [ exists o; auto | ].
  split; [ exists s; split; [ reflexivity | ] | reflexivity ].
  unfold ntohs in *. pose proof (Hrange (opt6_length s)). lia.
Qed.

(** A message of another type is only accepted as the Reply to a
    Solicit with rapid commit; dropped, it leaves what
    dhcpv6ParseReply left. *)
Lemma dhcpv6ParseAdvertise_other_type (w : World Dhcpv6.Dhcpv6ClientCtx)
    (message : Dhcpv6Message) (length : Z) :
  msgType message <> Dhcpv6.DHCPV6_MSG_TYPE_ADVERTISE ->
  let reply := Dhcpv6.dhcpv6ParseReply lib message length w in
  Dhcpv6.dhcpv6ParseAdvertise lib message length w =
  (if Dhcpv6.rapidCommit (Dhcpv6.settings (ctx w))
   then (if is_error (fst reply) then ERROR_INVALID_MESSAGE else NO_ERROR,
         snd reply)
   else (ERROR_INVALID_MESSAGE, w)).
Proof.
  intros Htype. cbv zeta.
  unfold Dhcpv6.dhcpv6ParseAdvertise.
  rewrite run_bind. cbn [getCtx fst snd].
  rewrite run_bind.
  destruct (Dhcpv6.rapidCommit (Dhcpv6.settings (ctx w))).
  - rewrite run_bind.
    destruct (Dhcpv6.dhcpv6ParseReply lib message length w) as [e w1].
    cbn [ret fst snd].
    destruct (is_error e); cbn [negb]; [ | reflexivity ].
    rewrite run_bind. cbn [getCtx fst snd].
    destruct (length <? Dhcpv6.sizeofDhcpv6Message); [ reflexivity | ].
    destruct (Z.eqb_spec (msgType message) Dhcpv6.DHCPV6_MSG_TYPE_ADVERTISE);
      [ contradiction | reflexivity ].
  - cbn [ret fst snd]. rewrite run_bind. cbn [getCtx fst snd].
    destruct (length <? Dhcpv6.sizeofDhcpv6Message); [ reflexivity | ].
    destruct (Z.eqb_spec (msgType message) Dhcpv6.DHCPV6_MSG_TYPE_ADVERTISE);
      [ contradiction | reflexivity ].
Qed.

(** C4 (amended).  dhcpv6ParseAdvertise accepts a message as an
    Advertise exactly when its length is at least the 4 bytes of the
    header, its type is ADVERTISE, its transaction id is that of the
    context, it has a Client Identifier option of the length of the
    client DUID and equal to it byte for byte, it has a Server
    Identifier option whose length is above zero and strictly below
    DHCPV6_MAX_DUID_SIZE, and dhcpv6ParseStatusCodeOption reports no
    error.  The only other message it accepts is, with the rapid
    commit setting, one that dhcpv6ParseReply accepts, and the world
    is then the one dhcpv6ParseReply leaves.  Every other message is
    dropped with ERROR_INVALID_MESSAGE.  The drop changes nothing when
    rapid commit is off or the message is not of type REPLY; with
    rapid commit, it leaves what the call of dhcpv6ParseReply left. *)
Theorem advertise_validation (w : World Dhcpv6.Dhcpv6ClientCtx)
    (message : Dhcpv6Message) (length : Z) :
  let c := ctx w in
  let n := wrap32 (length - Dhcpv6.sizeofDhcpv6Message) in
  let opts := dhcpv6_options message in
  let r := Dhcpv6.dhcpv6ParseAdvertise lib message length w in
  let reply := Dhcpv6.dhcpv6ParseReply lib message length w in
  let rapid := Dhcpv6.rapidCommit (Dhcpv6.settings c) in
  let advertise :=
    Dhcpv6.sizeofDhcpv6Message <= length /\
    msgType message = Dhcpv6.DHCPV6_MSG_TYPE_ADVERTISE /\
    LOAD24BE (transactionId6 message) = Dhcpv6.transactionId c /\
    (exists o,
       Dhcpv6.dhcpv6GetOption lib opts n Dhcpv6.DHCPV6_OPTION_CLIENTID
         = Some o /\
       ntohs (opt6_length o) = Dhcpv6.clientIdLength c /\
       memeq (opt6_value o) (Dhcpv6.clientId c)
         (Z.to_nat (Dhcpv6.clientIdLength c)) = true) /\
    (exists s,
       Dhcpv6.dhcpv6GetOption lib opts n Dhcpv6.DHCPV6_OPTION_SERVERID
         = Some s /\
       0 < ntohs (opt6_length s) < Dhcpv6.DHCPV6_MAX_DUID_SIZE lib) /\
    Dhcpv6.dhcpv6ParseStatusCodeOption lib opts n = NO_ERROR in
  (fst r = NO_ERROR <->
   advertise \/ (rapid = true /\ fst reply = NO_ERROR)) /\
  (fst r <> NO_ERROR -> fst r = ERROR_INVALID_MESSAGE) /\
  (fst r <> NO_ERROR ->
   rapid = false \/ msgType message <> Dhcpv6.DHCPV6_MSG_TYPE_REPLY ->
   snd r = w) /\
  (rapid = true -> fst reply = NO_ERROR \/ fst r <> NO_ERROR ->
   snd r = snd reply).
Proof.
  cbv zeta.
  destruct (Z.eq_dec (msgType message) Dhcpv6.DHCPV6_MSG_TYPE_ADVERTISE)
    as [Htype | Htype].
  - (* an Advertise: dhcpv6ParseReply leaves it alone *)
    assert (Hreply : Dhcpv6.dhcpv6ParseReply lib message length w =
                     (ERROR_INVALID_MESSAGE, w)).
    { apply dhcpv6ParseReply_other_type. rewrite Htype. discriminate. }
    rewrite Hreply. cbn [fst snd].
    destruct (advertise_checks w message length Htype) as [Hiff Hdrop].
    cbv zeta in Hiff, Hdrop.
    split; [ | split; [ | split ] ].
    + split.
      * intros H. left. apply Hiff in H.
        destruct H as (H1 & H2 & H3 & H4 & H5).
        repeat split; assumption.
      * intros [(H1 & _ & H2 & H3 & H4 & H5) | [_ H]];
          [ | discriminate H ].
        apply Hiff. repeat split; assumption.
    + intros H. rewrite (Hdrop H). reflexivity.
    + intros H _. rewrite (Hdrop H). reflexivity.
    + intros _ [H | H]; [ discriminate H | ].
      rewrite (Hdrop H). reflexivity.
  - (* another type *)
    rewrite (dhcpv6ParseAdvertise_other_type w message length Htype).
    destruct (Dhcpv6.rapidCommit (Dhcpv6.settings (ctx w))) eqn:Hrapid.
    + destruct (Z.eq_dec (msgType message) Dhcpv6.DHCPV6_MSG_TYPE_REPLY)
        as [Hrep | Hrep].
      * destruct (Dhcpv6.dhcpv6ParseReply lib message length w) as [e w1].
        cbn [fst snd].
        destruct e; cbn [is_error fst snd].
        all: split;
          [ split;
            [ intros H; first [ right; split; reflexivity | discriminate H ]
            | intros [(_ & H & _) | [_ H]];
              first [ contradiction | reflexivity | discriminate H ] ]
          | ].
        all: split; [ intros H; first [ reflexivity | contradiction ] | ].
        all: split; [ intros H [H' | H'];
                      first [ discriminate H' | contradiction ] | ].
        all: intros _ _; reflexivity.
      * rewrite (dhcpv6ParseReply_other_type message length w Hrep).
        cbn [is_error fst snd].
        split; [ split; [ discriminate
                        | intros [(_ & H & _) | [_ H]];
                          [ contradiction | discriminate H ] ] | ].
        split; [ reflexivity | ].
        split; [ reflexivity | ].
        reflexivity.
    + cbn [fst snd].
      split; [ split; [ discriminate
                      | intros [(_ & H & _) | [H _]];
                        [ contradiction | discriminate H ] ] | ].
      split; [ reflexivity | ].
      split; [ reflexivity | ].
      intros H. discriminate H.
Qed.

End Advertise.

(** ** The DNS servers of the interface *)

#[local] Arguments ipv6CompPrefix : simpl never.
#[local] Arguments Slaac.macAddrToEui64 : simpl never.
#[local] Arguments Slaac.formGlobalAddr : simpl never.

Lemma length_setNth {A} (i : nat) (v : A) (l : list A) :
  length (setNth i v l) = length l.
Proof.
  revert i. induction l as [|h t IH]; intros [|i]; cbn; auto.
Qed.

Lemma nth_setNth_same {A} (i : nat) (v d : A) (l : list A) :
  (i < length l)%nat -> nth i (setNth i v l) d = v.
Proof.
  revert i. induction l as [|h t IH]; intros [|i] H; cbn in *; try lia; auto.
  apply IH. lia.
Qed.

Lemma nth_setNth_other {A} (i k : nat) (v d : A) (l : list A) :
  i <> k -> nth k (setNth i v l) d = nth k l d.
Proof.
  revert i k. induction l as [|h t IH]; intros [|i] [|k] H; cbn; auto.
  contradiction.
Qed.

Lemma forUpTo_modifyIf {C} (n : nat) (f : nat -> NetInterface -> NetInterface)
    (w : World C) :
  forUpTo n
    (fun k w0 =>
       (tt, mkWorld (ctx w0) (f k (netif w0)) (env w0) (randPos w0) (out w0)))
    w =
  (tt, mkWorld (ctx w) (writesUpTo n f (netif w)) (env w) (randPos w) (out w)).
Proof.
  induction n as [|n IH]; cbn [forUpTo writesUpTo].
  - destruct w; reflexivity.
  - rewrite run_bind, IH. reflexivity.
Qed.

(** The DNS servers of the interface after the first [n] addresses of
    [a] are recorded. *)
Lemma writesUpTo_dns (a : nat -> Ipv6Addr) (n : nat) (i : NetInterface) :
  let i' := writesUpTo n (fun k => ipv6SetDnsServer k (a k)) i in
  let c := ipv6Config i in
  let c' := ipv6Config i' in
  length (ipv6_dnsServer c') = length (ipv6_dnsServer c) /\
  (forall k d, (k < n)%nat -> (k < length (ipv6_dnsServer c))%nat ->
     nth k (ipv6_dnsServer c') d = a k) /\
  (forall k d, (n <= k)%nat ->
     nth k (ipv6_dnsServer c') d = nth k (ipv6_dnsServer c) d) /\
  prefix c' = prefix c /\ prefixLength c' = prefixLength c /\
  globalAddr c' = globalAddr c /\ globalAddrState c' = globalAddrState c /\
  linkLocalAddr c' = linkLocalAddr c /\
  linkLocalAddrState c' = linkLocalAddrState c /\
  macAddr i' = macAddr i.
Proof.
  cbv zeta. induction n as [|n IH]; cbn [writesUpTo].
  - repeat split; auto. intros; lia.
  - destruct IH as (Hl & Hlt & Hge & Hrest).
    unfold ipv6SetDnsServer at 1. unfold set_ipv6_dnsServer. cbn.
    split; [ rewrite length_setNth; exact Hl | ].
    split; [ | split; [ | exact Hrest ] ].
    + intros k d Hk Hlen.
      destruct (Nat.eq_dec n k) as [-> | Hne].
      * apply nth_setNth_same. rewrite Hl. exact Hlen.
      * rewrite nth_setNth_other by exact Hne. apply Hlt; lia.
    + intros k d Hk. rewrite nth_setNth_other by lia. apply Hge. lia.
Qed.

(** ** Router Advertisements *)

Section RouterAdv.

Variable ndp : Slaac.Ndp.

(** A Router Advertisement received in another state than
    ROUTER-SOLICIT and NO-ROUTER changes nothing but the trace. *)
Lemma slaacProcessRouterAdv_discard w message length :
  Slaac.state (ctx w) <> Slaac.SLAAC_STATE_ROUTER_SOLICIT ->
  Slaac.state (ctx w) <> Slaac.SLAAC_STATE_NO_ROUTER ->
  exec (Slaac.slaacProcessRouterAdv ndp message length) w =
  mkWorld (ctx w) (netif w) (env w) (randPos w)
    (afterCallback w message length).
Proof.
  intros H1 H2. unfold Slaac.slaacProcessRouterAdv, afterCallback.
  unfold_monad. cbn.
  destruct (Slaac.parseRouterAdvCallback (Slaac.settings (ctx w))); cbn.
  all: destruct (Z.eqb_spec (Slaac.state (ctx w))
                   Slaac.SLAAC_STATE_ROUTER_SOLICIT); [ contradiction | ].
  all: destruct (Z.eqb_spec (Slaac.state (ctx w))
                   Slaac.SLAAC_STATE_NO_ROUTER); [ contradiction | ].
  all: cbn; try reflexivity.
  destruct w; reflexivity.
Qed.

Lemma slaacProcessRouterAdv_adopt w message length p :
  let n := wrap32 (length - Slaac.sizeofNdpRouterAdvMessage ndp) in
  let o := Slaac.asPrefixInfoOption ndp p in
  Slaac.state (ctx w) = Slaac.SLAAC_STATE_ROUTER_SOLICIT \/
  Slaac.state (ctx w) = Slaac.SLAAC_STATE_NO_ROUTER ->
  Slaac.ndpGetOption ndp (ra_options message) n
    Slaac.NDP_OPT_PREFIX_INFORMATION = Some p ->
  pio_length o = 4 ->
  pio_a o = true ->
  pio_prefixLength o = 64 ->
  ipv6CompPrefix (pio_prefix o) IPV6_LINK_LOCAL_ADDR_PREFIX 64 = false ->
  ntohl (pio_validLifetime o) > 0 ->
  ntohl (pio_preferredLifetime o) <= ntohl (pio_validLifetime o) ->
  exec (Slaac.slaacProcessRouterAdv ndp message length) w =
  mkWorld
    (Slaac.set_state Slaac.SLAAC_STATE_GLOBAL_ADDR_DAD
       (Slaac.set_retransmitCount 0
          (Slaac.set_timeout 0
             (Slaac.set_timestamp (wrap32 (env_time (env w))) (ctx w)))))
    (withRdnss ndp (ctx w) message n
       (ipv6SetGlobalAddrEx
          (Slaac.formGlobalAddr (pio_prefix o)
             (Slaac.macAddrToEui64 (macAddr (netif w))))
          ADDR_STATE_TENTATIVE
          (ipv6SetPrefix (pio_prefix o) 64 (netif w))))
    (env w) (randPos w) (afterCallback w message length).
Proof.
  cbv zeta. intros Hst Hp Hlen Ha Hpl Hll Hv Hpv.
  unfold Slaac.slaacProcessRouterAdv, afterCallback, withRdnss.
  unfold exec. rewrite run_bind. cbn [getCtx fst snd].
  rewrite run_bind.
  assert (Hstate :
    negb (Slaac.state (ctx w) =? Slaac.SLAAC_STATE_ROUTER_SOLICIT) &&
    negb (Slaac.state (ctx w) =? Slaac.SLAAC_STATE_NO_ROUTER) = false).
  { destruct Hst as [-> | ->]; reflexivity. }
  destruct (Slaac.parseRouterAdvCallback (Slaac.settings (ctx w)));
    unfold when at 1; unfold_monad; cbn [fst snd ctx netif env randPos out].
  all: rewrite Hstate, Hp, Hlen, Ha, Hpl, Hll; cbn [negb Z.eqb Pos.eqb].
  all: destruct (Z.eqb_spec (ntohl (pio_validLifetime
                   (Slaac.asPrefixInfoOption ndp p))) 0); [ lia | ].
  all: destruct (Z.gtb_spec (ntohl (pio_preferredLifetime
                   (Slaac.asPrefixInfoOption ndp p)))
                   (ntohl (pio_validLifetime
                   (Slaac.asPrefixInfoOption ndp p)))); [ lia | ].
  all: cbn [fst snd ctx netif env randPos out].
  all: destruct (Slaac.manualDnsConfig (Slaac.settings (ctx w)));
         cbn [negb fst snd ctx netif env randPos out]; try reflexivity.
  all: destruct (Slaac.ndpGetOption ndp (ra_options message)
                   (wrap32 (length - Slaac.sizeofNdpRouterAdvMessage ndp))
                   Slaac.NDP_OPT_RECURSIVE_DNS_SERVER);
         cbn [fst snd ctx netif env randPos out]; try reflexivity.
  all: destruct (rdnss_length (Slaac.asRdnssOption ndp l) >=? 1);
         cbn [fst snd ctx netif env randPos out]; try reflexivity.
  all: rewrite (forUpTo_modifyIf _
         (fun k => ipv6SetDnsServer k
                     (nth k (rdnss_address (Slaac.asRdnssOption ndp l))
                        IPV6_UNSPECIFIED_ADDR))); reflexivity.
Qed.

(** A Router Advertisement without a Prefix Information option that
    passes the tests changes nothing but the trace. *)
Lemma slaacProcessRouterAdv_ignore w message length :
  let n := wrap32 (length - Slaac.sizeofNdpRouterAdvMessage ndp) in
  match Slaac.ndpGetOption ndp (ra_options message) n
          Slaac.NDP_OPT_PREFIX_INFORMATION with
  | Some p => adoptable (Slaac.asPrefixInfoOption ndp p) = false
  | None => True
  end ->
  exec (Slaac.slaacProcessRouterAdv ndp message length) w =
  mkWorld (ctx w) (netif w) (env w) (randPos w)
    (afterCallback w message length).
Proof.
  cbv zeta. intros H.
  unfold Slaac.slaacProcessRouterAdv, afterCallback.
  unfold exec. rewrite run_bind. cbn [getCtx fst snd].
  rewrite run_bind.
  destruct (Slaac.parseRouterAdvCallback (Slaac.settings (ctx w)));
    unfold when at 1; unfold_monad; cbn [fst snd ctx netif env randPos out].
  all: destruct (negb (Slaac.state (ctx w) =? Slaac.SLAAC_STATE_ROUTER_SOLICIT) &&
                 negb (Slaac.state (ctx w) =? Slaac.SLAAC_STATE_NO_ROUTER));
         [ try reflexivity; destruct w; reflexivity | ].
  all: destruct (Slaac.ndpGetOption ndp (ra_options message)
                   (wrap32 (length - Slaac.sizeofNdpRouterAdvMessage ndp))
                   Slaac.NDP_OPT_PREFIX_INFORMATION) as [p|];
         [ | try reflexivity; destruct w; reflexivity ].
  all: unfold adoptable in H.
  all: destruct (pio_length (Slaac.asPrefixInfoOption ndp p) =? 4);
         [ | try reflexivity; destruct w; reflexivity ].
  all: destruct (pio_a (Slaac.asPrefixInfoOption ndp p));
         [ | try reflexivity; destruct w; reflexivity ].
  all: destruct (ipv6CompPrefix (pio_prefix (Slaac.asPrefixInfoOption ndp p))
                   IPV6_LINK_LOCAL_ADDR_PREFIX 64);
         [ try reflexivity; destruct w; reflexivity | ].
  all: destruct (ntohl (pio_validLifetime (Slaac.asPrefixInfoOption ndp p)) =? 0);
         [ try reflexivity; destruct w; reflexivity | ].
  all: rewrite Z.gtb_ltb, Z.ltb_antisym.
  all: destruct (ntohl (pio_preferredLifetime (Slaac.asPrefixInfoOption ndp p)) <=?
                 ntohl (pio_validLifetime (Slaac.asPrefixInfoOption ndp p)));
         [ | try reflexivity; destruct w; reflexivity ].
  all: destruct (pio_prefixLength (Slaac.asPrefixInfoOption ndp p) =? 64);
         [ discriminate H | try reflexivity; destruct w; reflexivity ].
Qed.

(** Recording the DNS servers leaves the rest of the interface as it
    is. *)
Lemma withRdnss_frame c message n i :
  let i' := withRdnss ndp c message n i in
  prefix (ipv6Config i') = prefix (ipv6Config i) /\
  prefixLength (ipv6Config i') = prefixLength (ipv6Config i) /\
  globalAddr (ipv6Config i') = globalAddr (ipv6Config i) /\
  globalAddrState (ipv6Config i') = globalAddrState (ipv6Config i) /\
  linkLocalAddr (ipv6Config i') = linkLocalAddr (ipv6Config i) /\
  linkLocalAddrState (ipv6Config i') = linkLocalAddrState (ipv6Config i) /\
  macAddr i' = macAddr i.
Proof.
  cbv zeta. unfold withRdnss.
  destruct (Slaac.manualDnsConfig (Slaac.settings c)); [ tauto | ].
  destruct (Slaac.ndpGetOption ndp (ra_options message) n
              Slaac.NDP_OPT_RECURSIVE_DNS_SERVER) as [r|]; [ | tauto ].
  cbv zeta.
  destruct (rdnss_length (Slaac.asRdnssOption ndp r) >=? 1); [ | tauto ].
  pose proof (writesUpTo_dns
    (fun k => nth k (rdnss_address (Slaac.asRdnssOption ndp r))
                IPV6_UNSPECIFIED_ADDR)
    (Z.to_nat ((rdnss_length (Slaac.asRdnssOption ndp r) - 1) / 2)) i) as H.
  cbv zeta in H. tauto.
Qed.

(** The DNS servers after an RDNSS option with [n] addresses is
    recorded: the first [n] entries of the interface hold them. *)
Lemma withRdnss_dns c message n i r :
  let o := Slaac.asRdnssOption ndp r in
  let i' := withRdnss ndp c message n i in
  Slaac.manualDnsConfig (Slaac.settings c) = false ->
  Slaac.ndpGetOption ndp (ra_options message) n
    Slaac.NDP_OPT_RECURSIVE_DNS_SERVER = Some r ->
  rdnss_length o >= 1 ->
  forall k d,
    (k < Z.to_nat ((rdnss_length o - 1) / 2))%nat ->
    (k < length (ipv6_dnsServer (ipv6Config i)))%nat ->
    nth k (ipv6_dnsServer (ipv6Config i')) d =
    nth k (rdnss_address o) IPV6_UNSPECIFIED_ADDR.
Proof.
  cbv zeta. intros Hm Hr Hl k d Hk Hlen. unfold withRdnss.
  rewrite Hm, Hr. cbv zeta.
  destruct (Z.geb_spec (rdnss_length (Slaac.asRdnssOption ndp r)) 1);
    [ | lia ].
  pose proof (writesUpTo_dns
    (fun k => nth k (rdnss_address (Slaac.asRdnssOption ndp r))
                IPV6_UNSPECIFIED_ADDR)
    (Z.to_nat ((rdnss_length (Slaac.asRdnssOption ndp r) - 1) / 2)) i) as Hw.
  cbv zeta in Hw. destruct Hw as (_ & Hw & _). apply Hw; assumption.
Qed.

Lemma withRdnss_manual c message n i :
  Slaac.manualDnsConfig (Slaac.settings c) = true ->
  withRdnss ndp c message n i = i.
Proof. intros H. unfold withRdnss. rewrite H. reflexivity. Qed.

Lemma adoptable_inv o :
  adoptable o = true ->
  pio_length o = 4 /\ pio_a o = true /\ pio_prefixLength o = 64 /\
  ipv6CompPrefix (pio_prefix o) IPV6_LINK_LOCAL_ADDR_PREFIX 64 = false /\
  ntohl (pio_validLifetime o) > 0 /\
  ntohl (pio_preferredLifetime o) <= ntohl (pio_validLifetime o).
Proof.
  unfold adoptable. intros H.
  repeat (apply andb_prop in H; let H' := fresh "H" in destruct H as [H H']).
  pose proof (LOAD32BE_range (pio_validLifetime o)) as Hr.
  fold (ntohl (pio_validLifetime o)) in Hr.
  repeat match goal with
  | E : negb _ = true |- _ => apply negb_true_iff in E
  | E : (_ =? _) = true |- _ => apply Z.eqb_eq in E
  | E : (_ =? _) = false |- _ => apply Z.eqb_neq in E
  | E : (_ <=? _) = true |- _ => apply Z.leb_le in E
  end.
  repeat split; auto. lia.
Qed.

(** The trace of slaacProcessRouterAdv holds the callback and nothing
    else, whatever becomes of the message. *)
Lemma slaacProcessRouterAdv_out w message length :
  out (exec (Slaac.slaacProcessRouterAdv ndp message length) w) =
  afterCallback w message length.
Proof.
  destruct (Z.eq_dec (Slaac.state (ctx w)) Slaac.SLAAC_STATE_ROUTER_SOLICIT)
    as [H1 | H1];
  [ | destruct (Z.eq_dec (Slaac.state (ctx w)) Slaac.SLAAC_STATE_NO_ROUTER)
        as [H2 | H2] ].
  3: rewrite slaacProcessRouterAdv_discard by assumption; reflexivity.
  all: assert (Hs : Slaac.state (ctx w) = Slaac.SLAAC_STATE_ROUTER_SOLICIT \/
                    Slaac.state (ctx w) = Slaac.SLAAC_STATE_NO_ROUTER)
         by tauto.
  all: destruct (Slaac.ndpGetOption ndp (ra_options message)
                   (wrap32 (length - Slaac.sizeofNdpRouterAdvMessage ndp))
                   Slaac.NDP_OPT_PREFIX_INFORMATION) as [p|] eqn:Hp.
  all: try (rewrite slaacProcessRouterAdv_ignore
              by (cbv zeta; rewrite Hp; exact I); reflexivity).
  all: destruct (adoptable (Slaac.asPrefixInfoOption ndp p)) eqn:Ha.
  all: try (rewrite slaacProcessRouterAdv_ignore
              by (cbv zeta; rewrite Hp; exact Ha); reflexivity).
  all: apply adoptable_inv in Ha;
       destruct Ha as (A1 & A2 & A3 & A4 & A5 & A6).
  all: rewrite (slaacProcessRouterAdv_adopt w message length p Hs Hp
                  A1 A2 A3 A4 A5 A6); reflexivity.
Qed.

End RouterAdv.

(** C7 (amended).  slaacProcessRouterAdv examines one Prefix
    Information option, the one ndpGetOption returns.  In the
    ROUTER-SOLICIT and NO-ROUTER states, when that option has a length
    field of 4, the Autonomous flag, a prefix length of 64, a prefix
    other than the link-local one, a valid lifetime above zero and a
    preferred lifetime not above the valid one, the engine stores the
    prefix, assigns prefix || interface identifier as the global
    address in the Tentative state, records the addresses of the RDNSS
    option unless manual DNS is set, restarts its timer and enters
    GLOBAL-ADDR-DAD.  When no option is found or the option found
    fails one of the tests, and in every other state, the context and
    the interface are left as they are. *)
Theorem router_adv_adoption (ndp : Slaac.Ndp) (w : World Slaac.SlaacContext)
    (message : NdpRouterAdvMessage) (length : Z) :
  let n := wrap32 (length - Slaac.sizeofNdpRouterAdvMessage ndp) in
  let found := Slaac.ndpGetOption ndp (ra_options message) n
                 Slaac.NDP_OPT_PREFIX_INFORMATION in
  let w' := exec (Slaac.slaacProcessRouterAdv ndp message length) w in
  let soliciting :=
    Slaac.state (ctx w) = Slaac.SLAAC_STATE_ROUTER_SOLICIT \/
    Slaac.state (ctx w) = Slaac.SLAAC_STATE_NO_ROUTER in
  (soliciting ->
   forall p, found = Some p ->
     let o := Slaac.asPrefixInfoOption ndp p in
     pio_length o = 4 ->
     pio_a o = true ->
     pio_prefixLength o = 64 ->
     ipv6CompPrefix (pio_prefix o) IPV6_LINK_LOCAL_ADDR_PREFIX 64 = false ->
     ntohl (pio_validLifetime o) > 0 ->
     ntohl (pio_preferredLifetime o) <= ntohl (pio_validLifetime o) ->
     Slaac.state (ctx w') = Slaac.SLAAC_STATE_GLOBAL_ADDR_DAD /\
     Slaac.timestamp (ctx w') = wrap32 (env_time (env w)) /\
     Slaac.timeout (ctx w') = 0 /\
     Slaac.retransmitCount (ctx w') = 0 /\
     Slaac.running (ctx w') = Slaac.running (ctx w) /\
     Slaac.settings (ctx w') = Slaac.settings (ctx w) /\
     prefix (ipv6Config (netif w')) = pio_prefix o /\
     prefixLength (ipv6Config (netif w')) = 64 /\
     globalAddr (ipv6Config (netif w')) =
       Slaac.formGlobalAddr (pio_prefix o)
         (Slaac.macAddrToEui64 (macAddr (netif w))) /\
     globalAddrState (ipv6Config (netif w')) = ADDR_STATE_TENTATIVE /\
     (Slaac.manualDnsConfig (Slaac.settings (ctx w)) = true ->
      ipv6_dnsServer (ipv6Config (netif w')) =
      ipv6_dnsServer (ipv6Config (netif w))) /\
     (Slaac.manualDnsConfig (Slaac.settings (ctx w)) = false ->
      forall r,
        Slaac.ndpGetOption ndp (ra_options message) n
          Slaac.NDP_OPT_RECURSIVE_DNS_SERVER = Some r ->
        let d := Slaac.asRdnssOption ndp r in
        rdnss_length d >= 1 ->
        forall k e,
          (k < Z.to_nat ((rdnss_length d - 1) / 2))%nat ->
          (k < List.length (ipv6_dnsServer (ipv6Config (netif w))))%nat ->
          nth k (ipv6_dnsServer (ipv6Config (netif w'))) e =
          nth k (rdnss_address d) IPV6_UNSPECIFIED_ADDR)) /\
  (soliciting ->
   match found with
   | Some p => adoptable (Slaac.asPrefixInfoOption ndp p) = false
   | None => True
   end ->
   ctx w' = ctx w /\ netif w' = netif w) /\
  (~ soliciting -> ctx w' = ctx w /\ netif w' = netif w).
Proof.
  cbv zeta. split; [ | split ].
  - intros Hs p Hp A1 A2 A3 A4 A5 A6.
    rewrite (slaacProcessRouterAdv_adopt ndp w message length p Hs Hp
               A1 A2 A3 A4 A5 A6).
    cbn [ctx netif].
    set (n := wrap32 (length - Slaac.sizeofNdpRouterAdvMessage ndp)).
    set (i := ipv6SetGlobalAddrEx _ _ _).
    destruct (withRdnss_frame ndp (ctx w) message n i)
      as (F1 & F2 & F3 & F4 & _).
    rewrite F1, F2, F3, F4.
    repeat (split; [ reflexivity | ]).
    split.
    + intros Hm. rewrite withRdnss_manual by exact Hm. reflexivity.
    + intros Hm r Hr Hl k e Hk Hlen.
      apply (withRdnss_dns ndp (ctx w) message n i r Hm Hr Hl k e Hk).
      exact Hlen.
  - intros _ H.
    rewrite (slaacProcessRouterAdv_ignore ndp w message length H).
    split; reflexivity.
  - intros H.
    rewrite slaacProcessRouterAdv_discard by tauto.
    split; reflexivity.
Qed.

(** The Router Advertisement of the scenario, received while
    soliciting, is adopted. *)
Lemma router_adv_adoption_witness :
  let w' := exec (Slaac.slaacProcessRouterAdv Stock.ndpLib Scenario.routerAdv
                    Scenario.routerAdvLength) Scenario.slaacSoliciting in
  Slaac.state (ctx w') = Slaac.SLAAC_STATE_GLOBAL_ADDR_DAD /\
  prefix (ipv6Config (netif w')) = Scenario.prefix2001 /\
  globalAddrState (ipv6Config (netif w')) = ADDR_STATE_TENTATIVE.
Proof.
  cbv zeta.
  destruct (router_adv_adoption Stock.ndpLib Scenario.slaacSoliciting
              Scenario.routerAdv Scenario.routerAdvLength) as (H & _ & _).
  assert (Hs : Slaac.state (ctx Scenario.slaacSoliciting) =
               Slaac.SLAAC_STATE_ROUTER_SOLICIT \/
               Slaac.state (ctx Scenario.slaacSoliciting) =
               Slaac.SLAAC_STATE_NO_ROUTER) by (left; reflexivity).
  specialize (H Hs Scenario.prefixInfo).
  cbv zeta in H.
  assert (Hf : Slaac.ndpGetOption Stock.ndpLib (ra_options Scenario.routerAdv)
                 (wrap32 (Scenario.routerAdvLength -
                          Slaac.sizeofNdpRouterAdvMessage Stock.ndpLib))
                 Slaac.NDP_OPT_PREFIX_INFORMATION = Some Scenario.prefixInfo)
    by (vm_compute; reflexivity).
  assert (A1 : pio_length (Slaac.asPrefixInfoOption Stock.ndpLib
                             Scenario.prefixInfo) = 4)
    by (vm_compute; reflexivity).
  assert (A2 : pio_a (Slaac.asPrefixInfoOption Stock.ndpLib
                        Scenario.prefixInfo) = true)
    by (vm_compute; reflexivity).
  assert (A3 : pio_prefixLength (Slaac.asPrefixInfoOption Stock.ndpLib
                                   Scenario.prefixInfo) = 64)
    by (vm_compute; reflexivity).
  assert (A4 : ipv6CompPrefix
                 (pio_prefix (Slaac.asPrefixInfoOption Stock.ndpLib
                                Scenario.prefixInfo))
                 IPV6_LINK_LOCAL_ADDR_PREFIX 64 = false)
    by (vm_compute; reflexivity).
  assert (A5 : ntohl (pio_validLifetime
                        (Slaac.asPrefixInfoOption Stock.ndpLib
                           Scenario.prefixInfo)) > 0)
    by (vm_compute; reflexivity).
  assert (A6 : ntohl (pio_preferredLifetime
                        (Slaac.asPrefixInfoOption Stock.ndpLib
                           Scenario.prefixInfo)) <=
               ntohl (pio_validLifetime
                        (Slaac.asPrefixInfoOption Stock.ndpLib
                           Scenario.prefixInfo)))
    by (vm_compute; discriminate).
  destruct (H Hf A1 A2 A3 A4 A5 A6)
    as (R1 & _ & _ & _ & _ & _ & R2 & _ & _ & R3 & _).
  split; [ exact R1 | split; [ exact R2 | exact R3 ] ].
Defined.

(** C7, as stated.  A Router Advertisement whose second Prefix
    Information option passes every test of the claim, received while
    soliciting, is not adopted when the option before it has the
    Autonomous flag clear: the engine stays in ROUTER-SOLICIT and the
    interface keeps its configuration. *)
Lemma router_adv_second_prefix_not_adopted :
  let w := Scenario.slaacSoliciting in
  let w' := exec (Slaac.slaacProcessRouterAdv Stock.ndpLib
                    Scenario.routerAdvTwoPrefixes
                    Scenario.routerAdvTwoPrefixesLength) w in
  let second := Stock.asPrefixInfoOption Scenario.prefixInfo in
  ra_options Scenario.routerAdvTwoPrefixes =
    Scenario.prefixInfoManaged ++ Scenario.prefixInfo /\
  Slaac.state (ctx w) = Slaac.SLAAC_STATE_ROUTER_SOLICIT /\
  pio_type second = Slaac.NDP_OPT_PREFIX_INFORMATION /\
  pio_a second = true /\
  pio_prefixLength second = 64 /\
  ipv6CompPrefix (pio_prefix second) IPV6_LINK_LOCAL_ADDR_PREFIX 64 = false /\
  ntohl (pio_validLifetime second) > 0 /\
  ntohl (pio_preferredLifetime second) <= ntohl (pio_validLifetime second) /\
  Slaac.state (ctx w') = Slaac.SLAAC_STATE_ROUTER_SOLICIT /\
  netif w' = netif w.
Proof.
  cbv zeta. repeat split; try (vm_compute; reflexivity).
  vm_compute; discriminate.
Qed.

(** C10.  slaacProcessRouterAdv calls the configured callback with the
    message and the length it received before it looks at the state or
    at the message: the call is the one event of its trace in every
    state and for every message, and in a state other than
    ROUTER-SOLICIT and NO-ROUTER the message is then discarded, the
    context and the interface being left as they are. *)
Theorem router_adv_callback_first (ndp : Slaac.Ndp)
    (w : World Slaac.SlaacContext) (message : NdpRouterAdvMessage)
    (length : Z) :
  let w' := exec (Slaac.slaacProcessRouterAdv ndp message length) w in
  (Slaac.parseRouterAdvCallback (Slaac.settings (ctx w)) = true ->
   out w' = out w ++ [EvParseRouterAdvCallback message length]) /\
  (Slaac.parseRouterAdvCallback (Slaac.settings (ctx w)) = false ->
   out w' = out w) /\
  (Slaac.state (ctx w) <> Slaac.SLAAC_STATE_ROUTER_SOLICIT ->
   Slaac.state (ctx w) <> Slaac.SLAAC_STATE_NO_ROUTER ->
   ctx w' = ctx w /\ netif w' = netif w).
Proof.
  cbv zeta. split; [ | split ].
  - intros H. rewrite slaacProcessRouterAdv_out. unfold afterCallback.
    rewrite H. reflexivity.
  - intros H. rewrite slaacProcessRouterAdv_out. unfold afterCallback.
    rewrite H. reflexivity.
  - intros H1 H2. rewrite slaacProcessRouterAdv_discard by assumption.
    split; reflexivity.
Qed.

(** In the CONFIGURED state the callback fires and the Router
    Advertisement of the scenario is discarded. *)
Lemma router_adv_callback_first_witness :
  let w := Scenario.slaacConfigured in
  let w' := exec (Slaac.slaacProcessRouterAdv Stock.ndpLib Scenario.routerAdv
                    Scenario.routerAdvLength) w in
  out w' = [EvParseRouterAdvCallback Scenario.routerAdv
              Scenario.routerAdvLength] /\
  ctx w' = ctx w /\ netif w' = netif w.
Proof.
  cbv zeta.
  destruct (router_adv_callback_first Stock.ndpLib Scenario.slaacConfigured
              Scenario.routerAdv Scenario.routerAdvLength) as (H1 & _ & H2).
  split.
  - apply H1. reflexivity.
  - apply H2; vm_compute; discriminate.
Defined.

(** ** The engines on the messages of the scenarios *)

(** The plain DHCPACK of the scenario: neither T1 nor T2, a lease of
    600 s; the timers derived are ordered. *)
Lemma ack_timers_witness :
  let c' := ctx (exec (Dhcp.dhcpParseAckNak Stock.dhcpLib Scenario.ackPlain
                         (Scenario.dhcpLength Scenario.ackPlain))
                   Scenario.dhcpRequesting) in
  Dhcp.t1 c' <= Dhcp.t2 c' <= Dhcp.leaseTime c' \/
  Dhcp.leaseTime c' = 0xFFFFFFFF /\ Dhcp.t1 c' = 0xFFFFFFFF /\
  Dhcp.t2 c' = 0xFFFFFFFF.
Proof.
  cbv zeta.
  destruct (ack_timers Stock.dhcpLib Scenario.dhcpRequesting Scenario.ackPlain
              (Scenario.dhcpLength Scenario.ackPlain)) as (_ & _ & _ & _ & H).
  - left. reflexivity.
  - vm_compute. reflexivity.
  - apply H.
    + vm_compute. reflexivity.
    + vm_compute. reflexivity.
    + left. vm_compute. reflexivity.
Defined.

(** C1, as stated.  A DHCPACK with a lease of 100 s, T1 = 500 s and
    T2 = 50 s is accepted in the REQUESTING state: the client enters
    BOUND with the timers of the server. *)
Lemma ack_unordered_timers_accepted :
  let w := Scenario.dhcpRequesting in
  let c' := ctx (exec (Dhcp.dhcpClientProcessMessage Stock.dhcpLib
                         (Some Scenario.ackUnordered)
                         (Scenario.dhcpLength Scenario.ackUnordered)) w) in
  Dhcp.state (ctx w) = Dhcp.DHCP_STATE_REQUESTING /\
  Dhcp.state c' = Dhcp.DHCP_STATE_BOUND /\
  Dhcp.leaseTime c' = 100 /\ Dhcp.t1 c' = 500 /\ Dhcp.t2 c' = 50 /\
  ~ (Dhcp.t1 c' <= Dhcp.t2 c' <= Dhcp.leaseTime c' \/
     Dhcp.leaseTime c' = 0xFFFFFFFF /\ Dhcp.t1 c' = 0xFFFFFFFF /\
     Dhcp.t2 c' = 0xFFFFFFFF).
Proof.
  cbv zeta.
  repeat split; try (vm_compute; reflexivity).
  vm_compute. intros [[H _] | [H _]]; [ apply H; reflexivity | discriminate H ].
Qed.



(** An Advertise with a server DUID of 129 bytes is accepted.  With
    rapid commit, a Reply with a Rapid Commit option and an address is
    accepted too, and one without any address is dropped after its
    server DUID of 14 bytes has been written to the context. *)
Lemma advertise_validation_witness :
  let lib := Stock.dhcpv6Lib in
  let parse m w :=
    Dhcpv6.dhcpv6ParseAdvertise lib m (Scenario.dhcpv6Length m) w in
  let w := Cases.dhcpv6RapidSolicit in
  let dropped := parse (Cases.rapidReply []) w in
  fst (parse (Scenario.advertise (Scenario.duidOfSize 129))
         Scenario.dhcpv6FirstSolicit) = NO_ERROR /\
  fst (parse (Cases.rapidReply
                (Cases.optionBytes (Scenario.iaNa 1800 2880 3600 7200))) w)
    = NO_ERROR /\
  fst dropped = ERROR_INVALID_MESSAGE /\
  snd dropped =
    snd (Dhcpv6.dhcpv6ParseReply lib (Cases.rapidReply [])
           (Scenario.dhcpv6Length (Cases.rapidReply [])) w) /\
  Dhcpv6.serverIdLength (ctx w) = 0 /\
  Dhcpv6.serverIdLength (ctx (snd dropped)) = 14.
Proof.
  cbv zeta.
  split.
  { apply (advertise_validation Stock.dhcpv6Lib Scenario.dhcpv6FirstSolicit
             (Scenario.advertise (Scenario.duidOfSize 129))
             (Scenario.dhcpv6Length
                (Scenario.advertise (Scenario.duidOfSize 129)))).
    left.
    split; [ vm_compute; discriminate | ].
    split; [ reflexivity | ].
    split; [ vm_compute; reflexivity | ].
    split; [ eexists; split; [ vm_compute; reflexivity | ];
             split; vm_compute; reflexivity | ].
    split; [ eexists; split; [ vm_compute; reflexivity | ];
             split; vm_compute; reflexivity | ].
    vm_compute; reflexivity. }
  split.
  { apply (advertise_validation Stock.dhcpv6Lib Cases.dhcpv6RapidSolicit
             (Cases.rapidReply
                (Cases.optionBytes (Scenario.iaNa 1800 2880 3600 7200)))
             (Scenario.dhcpv6Length
                (Cases.rapidReply
                   (Cases.optionBytes (Scenario.iaNa 1800 2880 3600 7200))))).
    right. split; vm_compute; reflexivity. }
  destruct (advertise_validation Stock.dhcpv6Lib Cases.dhcpv6RapidSolicit
              (Cases.rapidReply [])
              (Scenario.dhcpv6Length (Cases.rapidReply [])))
    as (_ & Herr & _ & Hreply).
  split; [ apply Herr; vm_compute; discriminate | ].
  split; [ apply Hreply; [ reflexivity | right; vm_compute; discriminate ] | ].
  split; vm_compute; reflexivity.
Defined.

(** C4, as stated.  An Advertise of 4 bytes and more, of type
    ADVERTISE, with the transaction id and the client DUID of the
    context, no Status Code option and a server DUID of
    DHCPV6_MAX_DUID_SIZE bytes, is dropped: the length of the server
    DUID has to be below DHCPV6_MAX_DUID_SIZE. *)
Lemma advertise_with_longest_duid_dropped :
  let lib := Stock.dhcpv6Lib in
  let w := Scenario.dhcpv6FirstSolicit in
  let m := Scenario.advertise
             (Scenario.duidOfSize
                (Z.to_nat (Dhcpv6.DHCPV6_MAX_DUID_SIZE Stock.dhcpv6Lib))) in
  let length := Scenario.dhcpv6Length m in
  let n := wrap32 (length - Dhcpv6.sizeofDhcpv6Message) in
  Dhcpv6.sizeofDhcpv6Message <= length /\
  msgType m = Dhcpv6.DHCPV6_MSG_TYPE_ADVERTISE /\
  LOAD24BE (transactionId6 m) = Dhcpv6.transactionId (ctx w) /\
  (exists o,
     Dhcpv6.dhcpv6GetOption lib (dhcpv6_options m) n
       Dhcpv6.DHCPV6_OPTION_CLIENTID = Some o /\
     ntohs (opt6_length o) = Dhcpv6.clientIdLength (ctx w) /\
     memeq (opt6_value o) (Dhcpv6.clientId (ctx w))
       (Z.to_nat (Dhcpv6.clientIdLength (ctx w))) = true) /\
  (exists s,
     Dhcpv6.dhcpv6GetOption lib (dhcpv6_options m) n
       Dhcpv6.DHCPV6_OPTION_SERVERID = Some s /\
     ntohs (opt6_length s) = Dhcpv6.DHCPV6_MAX_DUID_SIZE lib) /\
  Dhcpv6.dhcpv6GetOption lib (dhcpv6_options m) n
    Dhcpv6.DHCPV6_OPTION_STATUS_CODE = None /\
  Dhcpv6.dhcpv6ParseAdvertise lib m length w = (ERROR_INVALID_MESSAGE, w).
Proof.
  cbv zeta.
  split; [ vm_compute; discriminate | ].
  split; [ reflexivity | ].
  split; [ vm_compute; reflexivity | ].
  split; [ eexists; split; [ vm_compute; reflexivity | ];
           split; vm_compute; reflexivity | ].
  split; [ eexists; split; vm_compute; reflexivity | ].
  split; vm_compute; reflexivity.
Qed.

(** Three engines initialized and not started: a tick sends nothing. *)
Lemma stopped_engine_sends_nothing_witness :
  let w4 := exec (Dhcp.dhcpClientInit Stock.dhcpLib Ref
                    (Some Scenario.dhcpSettings)) Scenario.dhcpBlank in
  let w6 := exec (Dhcpv6.dhcpv6ClientInit Stock.dhcpv6Lib Ref
                    (Some Scenario.dhcpv6Settings)) Scenario.dhcpv6Blank in
  let ws := exec (Slaac.slaacInit Ref (Some Scenario.slaacSettings))
              Scenario.slaacBlank in
  let steps := [(Stock.netif0, Stock.envAt 1000)] in
  extendsQuietly (out w4) (out (Runs.dhcpTicks Stock.dhcpLib steps w4)) /\
  extendsQuietly (out w6) (out (Runs.dhcpv6Ticks Stock.dhcpv6Lib steps w6)) /\
  extendsQuietly (out ws) (out (Runs.slaacTicks steps ws)).
Proof.
  cbv zeta.
  destruct (stopped_engine_sends_nothing Stock.dhcpLib Stock.dhcpv6Lib
              Stock.ndpLib
              (exec (Dhcp.dhcpClientInit Stock.dhcpLib Ref
                       (Some Scenario.dhcpSettings)) Scenario.dhcpBlank)
              (exec (Dhcpv6.dhcpv6ClientInit Stock.dhcpv6Lib Ref
                       (Some Scenario.dhcpv6Settings)) Scenario.dhcpv6Blank)
              (exec (Slaac.slaacInit Ref (Some Scenario.slaacSettings))
                 Scenario.slaacBlank)
              [(Stock.netif0, Stock.envAt 1000)]
              [(Stock.netif0, Stock.envAt 1000)]
              [(Stock.netif0, Stock.envAt 1000)])
    as ((_ & _ & Q4) & (_ & _ & Q6) & (_ & _ & Qs)).
  - apply Runs.dhcpReachInit. vm_compute. reflexivity.
  - vm_compute. reflexivity.
  - apply Runs.dhcpv6ReachInit. vm_compute. reflexivity.
  - vm_compute. reflexivity.
  - apply Runs.slaacReachInit. vm_compute. reflexivity.
  - vm_compute. reflexivity.
  - split; [ exact Q4 | split; [ exact Q6 | exact Qs ] ].
Defined.

(** C6, at the failing input.  A client started 100 s after boot sends
    its first Solicit at 101000 ms and, no Advertise having come,
    sends it again at 102000 ms.  The Elapsed Time option of the
    second message holds 10200, the time since boot, where one second
    has passed since the first message: exchangeStartTime, which
    dhcpv6ComputeElapsedTime subtracts, is still the zero of
    dhcpv6ClientInit, the CONFIRM state being the only one that
    records it. *)
Theorem solicit_retransmission_elapsed_time :
  Dhcpv6.state (ctx Scenario.dhcpv6FirstSolicit) =
    Dhcpv6.DHCPV6_STATE_SOLICIT /\
  Dhcpv6.timestamp (ctx Scenario.dhcpv6FirstSolicit) = 101000 /\
  Dhcpv6.retransmitCount (ctx Scenario.dhcpv6FirstSolicit) = 1 /\
  Dhcpv6.exchangeStartTime (ctx Scenario.dhcpv6FirstSolicit) = 0 /\
  Scenario.elapsedTimes (out Scenario.dhcpv6FirstSolicit) = [Some 0] /\
  env_time (env Scenario.dhcpv6SecondSolicit) = 102000 /\
  Scenario.elapsedTimes (out Scenario.dhcpv6SecondSolicit) =
    [Some 0; Some 10200].
Proof. repeat split; vm_compute; reflexivity. Qed.

(** ** NULL parameters *)

(** C8 (amended).  With a NULL context, init, start and stop of each
    engine return ERROR_INVALID_PARAMETER and leave the world as it
    is; so does init with NULL settings or with settings whose
    interface is NULL. *)
Theorem null_parameter_rejected
    (lib4 : Dhcp.Common) (lib6 : Dhcpv6.Common)
    (w4 : World Dhcp.DhcpClientCtx) (w6 : World Dhcpv6.Dhcpv6ClientCtx)
    (ws : World Slaac.SlaacContext) :
  ((forall s, Dhcp.dhcpClientInit lib4 NULL s w4
              = (ERROR_INVALID_PARAMETER, w4)) /\
   (forall c, Dhcp.dhcpClientInit lib4 c None w4
              = (ERROR_INVALID_PARAMETER, w4)) /\
   (forall c s, Dhcp.interface s = NULL ->
                Dhcp.dhcpClientInit lib4 c (Some s) w4
                = (ERROR_INVALID_PARAMETER, w4)) /\
   Dhcp.dhcpClientStart NULL w4 = (ERROR_INVALID_PARAMETER, w4) /\
   Dhcp.dhcpClientStop NULL w4 = (ERROR_INVALID_PARAMETER, w4)) /\
  ((forall s, Dhcpv6.dhcpv6ClientInit lib6 NULL s w6
              = (ERROR_INVALID_PARAMETER, w6)) /\
   (forall c, Dhcpv6.dhcpv6ClientInit lib6 c None w6
              = (ERROR_INVALID_PARAMETER, w6)) /\
   (forall c s, Dhcpv6.interface s = NULL ->
                Dhcpv6.dhcpv6ClientInit lib6 c (Some s) w6
                = (ERROR_INVALID_PARAMETER, w6)) /\
   Dhcpv6.dhcpv6ClientStart NULL w6 = (ERROR_INVALID_PARAMETER, w6) /\
   Dhcpv6.dhcpv6ClientStop NULL w6 = (ERROR_INVALID_PARAMETER, w6)) /\
  ((forall s, Slaac.slaacInit NULL s ws = (ERROR_INVALID_PARAMETER, ws)) /\
   (forall c, Slaac.slaacInit c None ws = (ERROR_INVALID_PARAMETER, ws)) /\
   (forall c s, Slaac.interface s = NULL ->
                Slaac.slaacInit c (Some s) ws
                = (ERROR_INVALID_PARAMETER, ws)) /\
   Slaac.slaacStart NULL ws = (ERROR_INVALID_PARAMETER, ws) /\
   Slaac.slaacStop NULL ws = (ERROR_INVALID_PARAMETER, ws)).
Proof.
  repeat match goal with
  | |- _ /\ _ => split
  | |- forall _, _ => intro
  | c : pointer _ |- _ => destruct c
  | s : option _ |- _ => destruct s
  | H : _ = NULL |- _ => cbn; rewrite H; clear H
  end; reflexivity.
Qed.

(** Init of each engine with settings whose interface is NULL. *)
Lemma null_parameter_rejected_witness :
  let s4 := Dhcp.mkDhcpClientSettings NULL [] false false 0 false false
              false in
  let s6 := Dhcpv6.mkDhcpv6ClientSettings NULL false false 0 false false
              false in
  let ss := Slaac.mkSlaacSettings NULL 0 1000 4000 3 1 false true in
  Dhcp.dhcpClientInit Stock.dhcpLib Ref (Some s4) Scenario.dhcpBlank
    = (ERROR_INVALID_PARAMETER, Scenario.dhcpBlank) /\
  Dhcpv6.dhcpv6ClientInit Stock.dhcpv6Lib Ref (Some s6) Scenario.dhcpv6Blank
    = (ERROR_INVALID_PARAMETER, Scenario.dhcpv6Blank) /\
  Slaac.slaacInit Ref (Some ss) Scenario.slaacBlank
    = (ERROR_INVALID_PARAMETER, Scenario.slaacBlank).
Proof.
  cbv zeta.
  destruct (null_parameter_rejected Stock.dhcpLib Stock.dhcpv6Lib
              Scenario.dhcpBlank Scenario.dhcpv6Blank Scenario.slaacBlank)
    as ((_ & _ & H4 & _) & (_ & _ & H6 & _) & (_ & _ & Hs & _)).
  split; [ | split ].
  - apply H4. reflexivity.
  - apply H6. reflexivity.
  - apply Hs. reflexivity.
Defined.

(** C8, as stated.  getState of each engine has no test of its
    argument and no error code to return: with a NULL context it reads
    through the NULL pointer. *)
Lemma getState_reads_through_null :
  eval (Dhcp.dhcpClientGetState NULL) Scenario.dhcpStarted = NullDereference /\
  eval (Dhcpv6.dhcpv6ClientGetState NULL) Scenario.dhcpv6Started
    = NullDereference /\
  eval (Slaac.slaacGetState NULL) Scenario.slaacStarted = NullDereference.
Proof. repeat split. Qed.

(** ** Stop *)

(** C9.  Stop of each engine clears the running flag and puts INIT in
    the state field; every other field of the context, the interface
    and the surroundings are as before, and the trace grows by the
    acquisition and the release of the mutex. *)
Theorem stop_frame (w4 : World Dhcp.DhcpClientCtx)
    (w6 : World Dhcpv6.Dhcpv6ClientCtx) (ws : World Slaac.SlaacContext) :
  (let c := ctx w4 in
   Dhcp.dhcpClientStop Ref w4 =
   (NO_ERROR,
    mkWorld
      (Dhcp.mkDhcpClientCtx (Dhcp.settings c) false Dhcp.DHCP_STATE_INIT
         (Dhcp.timeoutEventDone c) (Dhcp.timestamp c) (Dhcp.timeout c)
         (Dhcp.retransmitTimeout c) (Dhcp.retransmitCount c)
         (Dhcp.serverIpAddr c) (Dhcp.requestedIpAddr c)
         (Dhcp.transactionId c) (Dhcp.configStartTime c)
         (Dhcp.leaseStartTime c) (Dhcp.leaseTime c) (Dhcp.t1 c) (Dhcp.t2 c))
      (netif w4) (env w4) (randPos w4)
      (out w4 ++ [EvAcquireMutex; EvReleaseMutex]))) /\
  (let c := ctx w6 in
   Dhcpv6.dhcpv6ClientStop Ref w6 =
   (NO_ERROR,
    mkWorld
      (Dhcpv6.mkDhcpv6ClientCtx (Dhcpv6.settings c) false
         Dhcpv6.DHCPV6_STATE_INIT (Dhcpv6.timeoutEventDone c)
         (Dhcpv6.timestamp c) (Dhcpv6.timeout c) (Dhcpv6.retransmitCount c)
         (Dhcpv6.clientId c) (Dhcpv6.clientIdLength c) (Dhcpv6.clientFqdn c)
         (Dhcpv6.clientFqdnLength c) (Dhcpv6.clientAddr c)
         (Dhcpv6.serverId c) (Dhcpv6.serverIdLength c)
         (Dhcpv6.serverPreference c) (Dhcpv6.transactionId c)
         (Dhcpv6.configStartTime c) (Dhcpv6.exchangeStartTime c)
         (Dhcpv6.leaseStartTime c) (Dhcpv6.t1 c) (Dhcpv6.t2 c)
         (Dhcpv6.preferredLifetime c) (Dhcpv6.validLifetime c))
      (netif w6) (env w6) (randPos w6)
      (out w6 ++ [EvAcquireMutex; EvReleaseMutex]))) /\
  (let c := ctx ws in
   Slaac.slaacStop Ref ws =
   (NO_ERROR,
    mkWorld
      (Slaac.mkSlaacContext (Slaac.settings c) false Slaac.SLAAC_STATE_INIT
         (Slaac.timestamp c) (Slaac.timeout c) (Slaac.retransmitCount c))
      (netif ws) (env ws) (randPos ws)
      (out ws ++ [EvAcquireMutex; EvReleaseMutex]))).
Proof.
  cbv zeta. split; [ | split ].
  - unfold Dhcp.dhcpClientStop. unfold_monad. cbn.
    rewrite <- app_assoc. reflexivity.
  - unfold Dhcpv6.dhcpv6ClientStop. unfold_monad. cbn.
    rewrite <- app_assoc. reflexivity.
  - unfold Slaac.slaacStop. unfold_monad. cbn.
    rewrite <- app_assoc. reflexivity.
Qed.

(* ------------------------------------------------------------------ *)
(** ** The rest of the SLAAC engine                                    *)
(* ------------------------------------------------------------------ *)

(** ** The interface identifier *)

Lemma flip_local_bit_twice (b : byte) :
  b8 (Z.lxor (u8 (b8 (Z.lxor (u8 b) Slaac.MAC_ADDR_FLAG_LOCAL)))
        Slaac.MAC_ADDR_FLAG_LOCAL) = b.
Proof. destruct b; reflexivity. Qed.

Lemma flip_local_bit_testbit (b : byte) :
  Z.testbit (u8 (b8 (Z.lxor (u8 b) Slaac.MAC_ADDR_FLAG_LOCAL))) 1 =
  negb (Z.testbit (u8 b) 1).
Proof. destruct b; reflexivity. Qed.

(** X1.  macAddrToEui64 maps a 6-byte MAC address to an 8-byte
    identifier whose bytes 3 and 4 are FF FE, whose first byte is that
    of the MAC address with the Universal/Local bit inverted and whose
    other bytes are those of the MAC address; two MAC addresses with
    the same identifier are equal. *)
Theorem macAddrToEui64_injective (a b : MacAddr) :
  length a = 6%nat -> length b = 6%nat ->
  let e := Slaac.macAddrToEui64 a in
  length e = 8%nat /\
  nth 3 e x00 = xff /\ nth 4 e x00 = xfe /\
  Z.testbit (byteAt e 0) 1 = negb (Z.testbit (byteAt a 0) 1) /\
  [nth 1 e x00; nth 2 e x00; nth 5 e x00; nth 6 e x00; nth 7 e x00] =
  [nth 1 a x00; nth 2 a x00; nth 3 a x00; nth 4 a x00; nth 5 a x00] /\
  (Slaac.macAddrToEui64 a = Slaac.macAddrToEui64 b -> a = b).
Proof.
  intros Ha Hb. cbv zeta.
  do 7 (destruct a as [|? a]; try discriminate Ha).
  do 7 (destruct b as [|? b]; try discriminate Hb).
  unfold Slaac.macAddrToEui64, byteAt. cbn [nth length].
  repeat split; try reflexivity.
  - apply flip_local_bit_testbit.
  - intros H. injection H as H0 H1 H2 H3 H4 H5. subst.
    f_equal.
    rewrite <- (flip_local_bit_twice b0), <- (flip_local_bit_twice b6).
    rewrite H0. reflexivity.
Qed.

(** The identifier of 00-11-22-33-44-55 is 02-11-22-FF-FE-33-44-55. *)
Lemma macAddrToEui64_injective_witness :
  Slaac.macAddrToEui64 Stock.mac0 =
    [x02; x11; x22; xff; xfe; x33; x44; x55] /\
  (Slaac.macAddrToEui64 Stock.mac0 =
   Slaac.macAddrToEui64 [x00; x11; x22; x33; x44; x55] ->
   Stock.mac0 = [x00; x11; x22; x33; x44; x55]).
Proof.
  split; [ reflexivity | ].
  apply (macAddrToEui64_injective Stock.mac0 [x00; x11; x22; x33; x44; x55]);
    reflexivity.
Defined.

(** ** The tick of SLAAC *)

Lemma afterMutex_out {C} (w : World C) :
  mkWorld (ctx w) (netif w) (env w) (randPos w)
    ((out w ++ [EvAcquireMutex]) ++ [EvReleaseMutex]) = afterMutex w.
Proof. unfold afterMutex. rewrite <- app_assoc. reflexivity. Qed.

(** X2.  The tick never makes an address Preferred while its duplicate
    flag is raised; in a DAD state, when the timer has expired and the
    flag of the address under test is raised, the address is withdrawn
    (unspecified, Invalid), the engine enters DAD-FAILURE and no
    Neighbor Solicitation is sent. *)
Theorem slaacTick_duplicate_address (w : World Slaac.SlaacContext) :
  let w' := exec Slaac.slaacTick w in
  let c := ctx w in
  let expired :=
    timeCompare (wrap32 (env_time (env w)))
      (wrap32 (Slaac.timestamp c + Slaac.timeout c)) >= 0 in
  (linkLocalAddrDup (ipv6Config (netif w)) = true ->
   linkLocalAddrState (ipv6Config (netif w')) = ADDR_STATE_PREFERRED ->
   linkLocalAddrState (ipv6Config (netif w)) = ADDR_STATE_PREFERRED) /\
  (globalAddrDup (ipv6Config (netif w)) = true ->
   globalAddrState (ipv6Config (netif w')) = ADDR_STATE_PREFERRED ->
   globalAddrState (ipv6Config (netif w)) = ADDR_STATE_PREFERRED) /\
  (Slaac.state c = Slaac.SLAAC_STATE_LINK_LOCAL_ADDR_DAD -> expired ->
   linkLocalAddrDup (ipv6Config (netif w)) = true ->
   Slaac.state (ctx w') = Slaac.SLAAC_STATE_DAD_FAILURE /\
   linkLocalAddr (ipv6Config (netif w')) = IPV6_UNSPECIFIED_ADDR /\
   linkLocalAddrState (ipv6Config (netif w')) = ADDR_STATE_INVALID /\
   out w' = out w ++ [EvAcquireMutex; EvReleaseMutex]) /\
  (Slaac.state c = Slaac.SLAAC_STATE_GLOBAL_ADDR_DAD -> expired ->
   globalAddrDup (ipv6Config (netif w)) = true ->
   Slaac.state (ctx w') = Slaac.SLAAC_STATE_DAD_FAILURE /\
   globalAddr (ipv6Config (netif w')) = IPV6_UNSPECIFIED_ADDR /\
   globalAddrState (ipv6Config (netif w')) = ADDR_STATE_INVALID /\
   out w' = out w ++ [EvAcquireMutex; EvReleaseMutex]).
Proof.
  cbv zeta. unfold Slaac.slaacTick, netGetRandRange, ndpSendNeighborSol,
    ndpSendRouterSol. unfold_monad.
  cbn [fst snd ctx netif env randPos out].
  split; [ | split; [ | split ] ].
  - intros Hd. rewrite Hd.
    repeat (split_if; cbn [fst snd ctx netif env randPos out]);
      cbn; auto; discriminate.
  - intros Hd. rewrite Hd.
    repeat (split_if; cbn [fst snd ctx netif env randPos out]);
      cbn; auto; discriminate.
  - intros Hs He Hd. rewrite Hs, Hd. cbn [Z.eqb Pos.eqb].
    destruct (Z.geb_spec
                (timeCompare (wrap32 (env_time (env w)))
                   (wrap32 (Slaac.timestamp (ctx w) + Slaac.timeout (ctx w))))
                0) as [_ | Hlt]; [ | lia ].
    cbn. rewrite <- app_assoc. repeat split.
  - intros Hs He Hd. rewrite Hs, Hd. cbn [Z.eqb Pos.eqb].
    destruct (Z.geb_spec
                (timeCompare (wrap32 (env_time (env w)))
                   (wrap32 (Slaac.timestamp (ctx w) + Slaac.timeout (ctx w))))
                0) as [_ | Hlt]; [ | lia ].
    cbn. rewrite <- app_assoc. repeat split.
Qed.

(** In the CONFIGURED, NO-ROUTER and DAD-FAILURE states no branch of
    the tick is taken. *)
Lemma slaacTick_idle (w : World Slaac.SlaacContext) :
  Slaac.state (ctx w) = Slaac.SLAAC_STATE_CONFIGURED \/
  Slaac.state (ctx w) = Slaac.SLAAC_STATE_NO_ROUTER \/
  Slaac.state (ctx w) = Slaac.SLAAC_STATE_DAD_FAILURE ->
  exec Slaac.slaacTick w = afterMutex w.
Proof.
  unfold Slaac.slaacTick. unfold_monad.
  cbn [fst snd ctx netif env randPos out].
  intros [Hs | [Hs | Hs]]; rewrite Hs; cbn; apply afterMutex_out.
Qed.

(** X3.  Before the timer expires, in the states that wait for it, and
    at any time in the CONFIGURED, NO-ROUTER and DAD-FAILURE states,
    the tick takes and releases the mutex and does nothing else. *)
Theorem slaacTick_waits (w : World Slaac.SlaacContext) :
  let c := ctx w in
  let s := Slaac.state c in
  (s = Slaac.SLAAC_STATE_LINK_LOCAL_ADDR_DAD \/
   s = Slaac.SLAAC_STATE_ROUTER_SOLICIT \/
   s = Slaac.SLAAC_STATE_GLOBAL_ADDR_DAD ->
   timeCompare (wrap32 (env_time (env w)))
     (wrap32 (Slaac.timestamp c + Slaac.timeout c)) < 0 ->
   exec Slaac.slaacTick w = afterMutex w) /\
  (s = Slaac.SLAAC_STATE_CONFIGURED \/ s = Slaac.SLAAC_STATE_NO_ROUTER \/
   s = Slaac.SLAAC_STATE_DAD_FAILURE ->
   exec Slaac.slaacTick w = afterMutex w).
Proof.
  cbv zeta. unfold Slaac.slaacTick. unfold_monad.
  cbn [fst snd ctx netif env randPos out].
  split.
  - intros Hs Ht.
    destruct (Z.geb_spec
                (timeCompare (wrap32 (env_time (env w)))
                   (wrap32 (Slaac.timestamp (ctx w) + Slaac.timeout (ctx w))))
                0) as [Hge | _]; [ lia | ].
    destruct Hs as [Hs | [Hs | Hs]]; rewrite Hs; cbn;
      apply afterMutex_out.
  - intros Hs. revert Hs. unfold Slaac.slaacTick. unfold_monad.
    cbn [fst snd ctx netif env randPos out].
    intros [Hs | [Hs | Hs]]; rewrite Hs; cbn; apply afterMutex_out.
Qed.

(** X4.  In the INIT state the tick waits for the engine to be started
    and the link to be up; then it forms the link-local address
    fe80::/64 followed by the interface identifier of the MAC address,
    assigns it as Tentative, restarts the timer and enters
    LINK-LOCAL-ADDR-DAD, without sending anything. *)
Theorem slaacTick_from_init (w : World Slaac.SlaacContext) :
  Slaac.state (ctx w) = Slaac.SLAAC_STATE_INIT ->
  let w' := exec Slaac.slaacTick w in
  (Slaac.running (ctx w) = true -> linkState (netif w) = true ->
   Slaac.state (ctx w') = Slaac.SLAAC_STATE_LINK_LOCAL_ADDR_DAD /\
   Slaac.timestamp (ctx w') = wrap32 (env_time (env w)) /\
   Slaac.timeout (ctx w') = 0 /\
   Slaac.retransmitCount (ctx w') = 0 /\
   linkLocalAddr (ipv6Config (netif w')) =
     [xfe; x80; x00; x00; x00; x00; x00; x00] ++
     Slaac.macAddrToEui64 (macAddr (netif w)) /\
   linkLocalAddrState (ipv6Config (netif w')) = ADDR_STATE_TENTATIVE /\
   globalAddr (ipv6Config (netif w')) = globalAddr (ipv6Config (netif w)) /\
   out w' = out w ++ [EvAcquireMutex; EvReleaseMutex]) /\
  (Slaac.running (ctx w) = false \/ linkState (netif w) = false ->
   w' = afterMutex w).
Proof.
  intros Hs. cbv zeta. unfold Slaac.slaacTick. unfold_monad.
  cbn [fst snd ctx netif env randPos out]. rewrite Hs. cbn [Z.eqb].
  split.
  - intros Hr Hl. rewrite Hr, Hl. cbn. rewrite <- app_assoc.
    repeat split.
  - intros [H | H]; rewrite H; rewrite ?andb_false_r; cbn;
      apply afterMutex_out.
Qed.

(** X5.  Duplicate Address Detection, when the timer has expired and no
    duplicate was seen: while fewer than dupAddrDetectTransmits probes
    were sent, the tick sends one multicast Neighbor Solicitation for
    the address under test and waits for retransTimer; after that the
    address becomes Preferred, and the engine goes on to ROUTER-SOLICIT
    (link-local address) or CONFIGURED (global address) without
    sending. *)
Theorem slaacTick_dad_progress (w : World Slaac.SlaacContext) :
  let c := ctx w in
  let i := ipv6Config (netif w) in
  let w' := exec Slaac.slaacTick w in
  let n := Slaac.dupAddrDetectTransmits (Slaac.settings c) in
  timeCompare (wrap32 (env_time (env w)))
    (wrap32 (Slaac.timestamp c + Slaac.timeout c)) >= 0 ->
  (Slaac.state c = Slaac.SLAAC_STATE_LINK_LOCAL_ADDR_DAD ->
   linkLocalAddrDup i = false ->
   (Slaac.retransmitCount c < n ->
    out w' = out w ++ [EvAcquireMutex;
                       EvNdpSendNeighborSol (linkLocalAddr i) true;
                       EvReleaseMutex] /\
    Slaac.state (ctx w') = Slaac.SLAAC_STATE_LINK_LOCAL_ADDR_DAD /\
    Slaac.retransmitCount (ctx w') = wrap32 (Slaac.retransmitCount c + 1) /\
    Slaac.timeout (ctx w') = retransTimer i /\
    netif w' = netif w) /\
   (n <= Slaac.retransmitCount c ->
    out w' = out w ++ [EvAcquireMutex; EvReleaseMutex] /\
    Slaac.state (ctx w') = Slaac.SLAAC_STATE_ROUTER_SOLICIT /\
    Slaac.retransmitCount (ctx w') = 0 /\
    linkLocalAddrState (ipv6Config (netif w')) = ADDR_STATE_PREFERRED /\
    linkLocalAddr (ipv6Config (netif w')) = linkLocalAddr i)) /\
  (Slaac.state c = Slaac.SLAAC_STATE_GLOBAL_ADDR_DAD ->
   globalAddrDup i = false ->
   (Slaac.retransmitCount c < n ->
    out w' = out w ++ [EvAcquireMutex;
                       EvNdpSendNeighborSol (globalAddr i) true;
                       EvReleaseMutex] /\
    Slaac.state (ctx w') = Slaac.SLAAC_STATE_GLOBAL_ADDR_DAD /\
    Slaac.retransmitCount (ctx w') = wrap32 (Slaac.retransmitCount c + 1) /\
    Slaac.timeout (ctx w') = retransTimer i /\
    netif w' = netif w) /\
   (n <= Slaac.retransmitCount c ->
    out w' = out w ++ [EvAcquireMutex; EvReleaseMutex] /\
    Slaac.state (ctx w') = Slaac.SLAAC_STATE_CONFIGURED /\
    globalAddrState (ipv6Config (netif w')) = ADDR_STATE_PREFERRED /\
    globalAddr (ipv6Config (netif w')) = globalAddr i)).
Proof.
  cbv zeta. intros He.
  unfold Slaac.slaacTick, netGetRandRange, ndpSendNeighborSol. unfold_monad.
  cbn [fst snd ctx netif env randPos out].
  destruct (Z.geb_spec
              (timeCompare (wrap32 (env_time (env w)))
                 (wrap32 (Slaac.timestamp (ctx w) + Slaac.timeout (ctx w))))
              0) as [_ | Hlt]; [ | lia ].
  split; intros Hs Hd; rewrite Hs, Hd; cbn [Z.eqb Pos.eqb]; split; intros Hn.
  - destruct (Z.ltb_spec (Slaac.retransmitCount (ctx w))
                (Slaac.dupAddrDetectTransmits (Slaac.settings (ctx w))));
      [ | lia ].
    cbn. rewrite <- !app_assoc, ?Hs. repeat split.
  - destruct (Z.ltb_spec (Slaac.retransmitCount (ctx w))
                (Slaac.dupAddrDetectTransmits (Slaac.settings (ctx w))));
      [ lia | ].
    cbn. rewrite <- !app_assoc. repeat split.
  - destruct (Z.ltb_spec (Slaac.retransmitCount (ctx w))
                (Slaac.dupAddrDetectTransmits (Slaac.settings (ctx w))));
      [ | lia ].
    cbn. rewrite <- !app_assoc, ?Hs. repeat split.
  - destruct (Z.ltb_spec (Slaac.retransmitCount (ctx w))
                (Slaac.dupAddrDetectTransmits (Slaac.settings (ctx w))));
      [ lia | ].
    cbn. rewrite <- !app_assoc. repeat split.
Qed.

(** ** Router Solicitations *)

Lemma routerSols_app (l1 l2 : list Event) :
  routerSols (l1 ++ l2) = (routerSols l1 + routerSols l2)%nat.
Proof.
  induction l1 as [|e l1 IH]; cbn [app routerSols]; [ reflexivity | ].
  destruct e; cbn; rewrite IH; reflexivity.
Qed.

(** The solicitations a soliciting engine may still send. *)
Lemma slaacTick_router_solicit_step (w : World Slaac.SlaacContext) :
  let c := ctx w in
  let m := Slaac.maxRtrSolicitations (Slaac.settings c) in
  let w' := exec Slaac.slaacTick w in
  Slaac.state c = Slaac.SLAAC_STATE_ROUTER_SOLICIT ->
  0 <= Slaac.retransmitCount c <= m -> m < 2 ^ 32 ->
  Slaac.settings (ctx w') = Slaac.settings c /\
  (Slaac.state (ctx w') = Slaac.SLAAC_STATE_ROUTER_SOLICIT /\
   Slaac.retransmitCount c <= Slaac.retransmitCount (ctx w') <= m /\
   (routerSols (out w') + Z.to_nat (m - Slaac.retransmitCount (ctx w')) =
    routerSols (out w) + Z.to_nat (m - Slaac.retransmitCount c))%nat
   \/
   Slaac.state (ctx w') = Slaac.SLAAC_STATE_NO_ROUTER /\
   routerSols (out w') = routerSols (out w)).
Proof.
  cbv zeta. intros Hs Hc Hm.
  unfold Slaac.slaacTick, ndpSendRouterSol. unfold_monad.
  cbn [fst snd ctx netif env randPos out]. rewrite Hs. cbn [Z.eqb Pos.eqb].
  destruct (timeCompare (wrap32 (env_time (env w)))
              (wrap32 (Slaac.timestamp (ctx w) + Slaac.timeout (ctx w)))
            >=? 0).
  - destruct (Z.ltb_spec (Slaac.retransmitCount (ctx w))
                (Slaac.maxRtrSolicitations (Slaac.settings (ctx w)))).
    + cbn. rewrite Hs. split; [ reflexivity | ]. left.
      rewrite wrap32_small by lia.
      split; [ reflexivity | ]. split; [ lia | ].
      rewrite !routerSols_app. cbn. lia.
    + cbn. split; [ reflexivity | ]. right. split; [ reflexivity | ].
      rewrite !routerSols_app. cbn. lia.
  - cbn. rewrite Hs. split; [ reflexivity | ]. left.
    split; [ reflexivity | ]. split; [ lia | ].
    rewrite !routerSols_app. cbn. lia.
Qed.

Lemma slaacTicks_no_router (steps : list (NetInterface * Env)) :
  forall w, Slaac.state (ctx w) = Slaac.SLAAC_STATE_NO_ROUTER ->
  Slaac.state (ctx (Runs.slaacTicks steps w)) = Slaac.SLAAC_STATE_NO_ROUTER /\
  routerSols (out (Runs.slaacTicks steps w)) = routerSols (out w).
Proof.
  induction steps as [|[i e] steps IH]; intros w Hs; cbn [Runs.slaacTicks].
  - split; [ exact Hs | reflexivity ].
  - rewrite (slaacTick_idle (surroundings i e w))
      by (right; left; exact Hs).
    destruct (IH (afterMutex (surroundings i e w)) Hs) as [H1 H2].
    split; [ exact H1 | ]. rewrite H2. cbn [afterMutex out surroundings].
    rewrite routerSols_app. cbn. lia.
Qed.

(** X6.  From the ROUTER-SOLICIT state with [k] solicitations already
    counted, ticks alone, whatever the clock and the interface do in
    between, send at most maxRtrSolicitations - k Router
    Solicitations, and leave the engine in ROUTER-SOLICIT or
    NO-ROUTER. *)
Theorem router_solicitations_bounded (steps : list (NetInterface * Env)) :
  forall w : World Slaac.SlaacContext,
  let c := ctx w in
  let m := Slaac.maxRtrSolicitations (Slaac.settings c) in
  let w' := Runs.slaacTicks steps w in
  Slaac.state c = Slaac.SLAAC_STATE_ROUTER_SOLICIT ->
  0 <= Slaac.retransmitCount c <= m -> m < 2 ^ 32 ->
  (routerSols (out w') <=
   routerSols (out w) + Z.to_nat (m - Slaac.retransmitCount c))%nat /\
  (Slaac.state (ctx w') = Slaac.SLAAC_STATE_ROUTER_SOLICIT \/
   Slaac.state (ctx w') = Slaac.SLAAC_STATE_NO_ROUTER).
Proof.
  induction steps as [|[i e] steps IH]; intros w; cbv zeta;
    intros Hs Hc Hm; cbn [Runs.slaacTicks].
  - split; [ lia | left; exact Hs ].
  - destruct (slaacTick_router_solicit_step (surroundings i e w) Hs Hc Hm)
      as (Hset & [(Hs' & Hc' & Hn) | (Hs' & Hn)]).
    + cbn [surroundings ctx out] in *.
      destruct (IH (exec Slaac.slaacTick (surroundings i e w))) as [Hb Hst].
      * exact Hs'.
      * rewrite Hset. lia.
      * rewrite Hset. exact Hm.
      * cbv zeta in Hb. rewrite Hset in Hb. split; [ lia | exact Hst ].
    + cbn [surroundings ctx out] in *.
      destruct (slaacTicks_no_router steps
                  (exec Slaac.slaacTick (surroundings i e w)) Hs')
        as [H1 H2].
      split; [ rewrite H2, Hn; lia | right; exact H1 ].
Qed.

(** X7.  A link change brings the engine back to INIT whatever its
    state; when it is running, the link-local address, the global
    address and the prefix of the interface are withdrawn; nothing is
    sent and the running flag is kept. *)
Theorem slaacLinkChangeEvent_resets (w : World Slaac.SlaacContext) :
  let w' := exec Slaac.slaacLinkChangeEvent w in
  let i' := ipv6Config (netif w') in
  Slaac.state (ctx w') = Slaac.SLAAC_STATE_INIT /\
  Slaac.running (ctx w') = Slaac.running (ctx w) /\
  Slaac.settings (ctx w') = Slaac.settings (ctx w) /\
  out w' = out w ++ [EvAcquireMutex; EvReleaseMutex] /\
  (Slaac.running (ctx w) = true ->
   linkLocalAddr i' = IPV6_UNSPECIFIED_ADDR /\
   linkLocalAddrState i' = ADDR_STATE_INVALID /\
   globalAddr i' = IPV6_UNSPECIFIED_ADDR /\
   globalAddrState i' = ADDR_STATE_INVALID /\
   prefix i' = IPV6_UNSPECIFIED_ADDR /\ prefixLength i' = 0) /\
  (Slaac.running (ctx w) = false -> netif w' = netif w).
Proof.
  cbv zeta. unfold Slaac.slaacLinkChangeEvent. unfold_monad.
  cbn [fst snd ctx netif env randPos out].
  destruct (Slaac.running (ctx w)) eqn:Hr; cbn; rewrite <- app_assoc, ?Hr;
    repeat split; discriminate.
Qed.

(* ------------------------------------------------------------------ *)
(** ** The rest of the DHCPv4 client                                   *)
(* ------------------------------------------------------------------ *)

Section DhcpMessages.

Variable lib : Dhcp.Common.

(** dhcpChangeState restarts the timer, and calls the state-change
    callback, when there is one, with the mutex released. *)
Lemma dhcpChangeState_run (newState delay : Z) (w : World Dhcp.DhcpClientCtx) :
  Dhcp.dhcpChangeState newState delay w =
  (tt,
   mkWorld
     (Dhcp.set_state newState
        (Dhcp.set_retransmitCount 0
           (Dhcp.set_timeout (wrap32 delay)
              (Dhcp.set_timestamp (wrap32 (env_time (env w))) (ctx w)))))
     (netif w) (env w) (randPos w)
     (out w ++ stateChangeCalls (Dhcp.stateChangeEvent (Dhcp.settings (ctx w)))
                 newState)).
Proof.
  unfold Dhcp.dhcpChangeState, stateChangeCalls. unfold_monad. cbn.
  destruct (Dhcp.stateChangeEvent (Dhcp.settings (ctx w))); cbn.
  - rewrite <- !app_assoc. reflexivity.
  - rewrite app_nil_r. reflexivity.
Qed.

(** X8.  dhcpParseOffer accepts a message exactly when it is a
    BOOTREPLY for Ethernet with the transaction id of the client and
    its MAC address, offers an address other than 0.0.0.0, has the
    magic cookie, a one-byte Message Type option holding DHCPOFFER and
    a four-byte Server Identifier option.  It then records the server
    and the offered address and enters REQUESTING with the timer
    restarted; any other message leaves the world as it is. *)
Theorem offer_acceptance (w : World Dhcp.DhcpClientCtx)
    (message : DhcpMessage) (length : Z) :
  let c := ctx w in
  let w' := exec (Dhcp.dhcpParseOffer lib message length) w in
  let header :=
    op message = Dhcp.DHCP_OPCODE_BOOTREPLY /\
    htype message = Dhcp.DHCP_HARDWARE_TYPE_ETH /\
    hlen message = 6 /\
    ntohl (xid message) = Dhcp.transactionId c /\
    yiaddr message <> IPV4_UNSPECIFIED_ADDR /\
    macCompAddr (chaddr message) (macAddr (netif w)) = true /\
    memeq (magicCookie message) (htonl Dhcp.DHCP_MAGIC_COOKIE) 4 = true in
  let isOffer :=
    exists t,
      Dhcp.dhcpGetOption lib message length Dhcp.DHCP_OPT_DHCP_MESSAGE_TYPE
        = Some t /\
      opt_length t = 1 /\
      byteAt (opt_value t) 0 = Dhcp.DHCP_MESSAGE_TYPE_OFFER in
  let server (s : DhcpOption) :=
    Dhcp.dhcpGetOption lib message length Dhcp.DHCP_OPT_SERVER_IDENTIFIER
      = Some s /\ opt_length s = 4 in
  (forall s, header -> isOffer -> server s ->
   w' = mkWorld
          (Dhcp.set_state Dhcp.DHCP_STATE_REQUESTING
             (Dhcp.set_retransmitCount 0
                (Dhcp.set_timeout 0
                   (Dhcp.set_timestamp (wrap32 (env_time (env w)))
                      (Dhcp.set_requestedIpAddr (yiaddr message)
                         (Dhcp.set_serverIpAddr (LOAD32BE (opt_value s))
                            c))))))
          (netif w) (env w) (randPos w)
          (out w ++ stateChangeCalls
                      (Dhcp.stateChangeEvent (Dhcp.settings c))
                      Dhcp.DHCP_STATE_REQUESTING)) /\
  (~ (header /\ isOffer /\ exists s, server s) -> w' = w).
Proof.
  cbv zeta. unfold Dhcp.dhcpParseOffer, Dhcp.headerMismatch, exec.
  rewrite run_bind. cbn [getCtx fst snd]. rewrite run_bind.
  cbn [getIf fst snd].
  split.
  - intros s (H1 & H2 & H3 & H4 & H5 & H6 & H7) (t & Ht & Ht1 & Ht2)
      (Hs & Hs4).
    rewrite H1, H2, H3, H4, H6, H7, Ht, Ht1, Ht2, Hs, Hs4.
    rewrite !Z.eqb_refl. cbn [negb orb].
    destruct (Z.eqb_spec (yiaddr message) IPV4_UNSPECIFIED_ADDR);
      [ contradiction | ].
    unfold Dhcp.sizeofMacAddr. cbn [Z.eqb Pos.eqb negb orb].
    rewrite !run_bind. cbn [modifyCtx fst snd].
    rewrite dhcpChangeState_run. reflexivity.
  - intros Hn.
    destruct (Z.eqb_spec (op message) Dhcp.DHCP_OPCODE_BOOTREPLY) as [H1|];
      [ | reflexivity ].
    destruct (Z.eqb_spec (htype message) Dhcp.DHCP_HARDWARE_TYPE_ETH)
      as [H2|]; [ | reflexivity ].
    destruct (Z.eqb_spec (hlen message) Dhcp.sizeofMacAddr) as [H3|];
      [ | reflexivity ].
    destruct (Z.eqb_spec (ntohl (xid message)) (Dhcp.transactionId (ctx w)))
      as [H4|]; [ | reflexivity ].
    cbn [negb orb].
    destruct (Z.eqb_spec (yiaddr message) IPV4_UNSPECIFIED_ADDR) as [|H5];
      [ reflexivity | ].
    destruct (macCompAddr (chaddr message) (macAddr (netif w))) eqn:H6;
      [ | reflexivity ].
    destruct (memeq (magicCookie message) (htonl Dhcp.DHCP_MAGIC_COOKIE) 4)
      eqn:H7; [ | reflexivity ].
    cbn [negb].
    destruct (Dhcp.dhcpGetOption lib message length
                Dhcp.DHCP_OPT_DHCP_MESSAGE_TYPE) as [t|] eqn:Ht;
      [ | reflexivity ].
    destruct (Z.eqb_spec (opt_length t) 1) as [Ht1|]; [ | reflexivity ].
    destruct (Z.eqb_spec (byteAt (opt_value t) 0)
                Dhcp.DHCP_MESSAGE_TYPE_OFFER) as [Ht2|]; [ | reflexivity ].
    cbn [negb].
    destruct (Dhcp.dhcpGetOption lib message length
                Dhcp.DHCP_OPT_SERVER_IDENTIFIER) as [s|] eqn:Hs;
      [ | reflexivity ].
    destruct (Z.eqb_spec (opt_length s) 4) as [Hs4|]; [ | reflexivity ].
    exfalso. apply Hn.
    split; [ repeat split; assumption | ].
    split; [ exists t; repeat split; assumption | ].
    exists s. split; [ reflexivity | assumption ].
Qed.


(** X9.  dhcpParseAckNak, on a DHCPNAK that passes the tests of the
    header (BOOTREPLY, Ethernet, transaction id, MAC address, magic
    cookie), withdraws the host address (0.0.0.0, Invalid) and the
    subnet mask and goes back to INIT with the timer restarted; the
    Server Identifier of the message is not looked at and nothing is
    sent. *)
Theorem nak_restarts (w : World Dhcp.DhcpClientCtx)
    (message : DhcpMessage) (length : Z) (t : DhcpOption) :
  let c := ctx w in
  let w' := exec (Dhcp.dhcpParseAckNak lib message length) w in
  op message = Dhcp.DHCP_OPCODE_BOOTREPLY ->
  htype message = Dhcp.DHCP_HARDWARE_TYPE_ETH ->
  hlen message = 6 ->
  ntohl (xid message) = Dhcp.transactionId c ->
  macCompAddr (chaddr message) (macAddr (netif w)) = true ->
  memeq (magicCookie message) (htonl Dhcp.DHCP_MAGIC_COOKIE) 4 = true ->
  Dhcp.dhcpGetOption lib message length Dhcp.DHCP_OPT_DHCP_MESSAGE_TYPE
    = Some t ->
  opt_length t = 1 ->
  byteAt (opt_value t) 0 = Dhcp.DHCP_MESSAGE_TYPE_NAK ->
  Dhcp.state (ctx w') = Dhcp.DHCP_STATE_INIT /\
  Dhcp.retransmitCount (ctx w') = 0 /\
  Dhcp.timeout (ctx w') = 0 /\
  Dhcp.timestamp (ctx w') = wrap32 (env_time (env w)) /\
  Dhcp.running (ctx w') = Dhcp.running c /\
  ipv4_addr (ipv4Config (netif w')) = IPV4_UNSPECIFIED_ADDR /\
  ipv4_addrState (ipv4Config (netif w')) = ADDR_STATE_INVALID /\
  ipv4_subnetMask (ipv4Config (netif w')) = IPV4_UNSPECIFIED_ADDR /\
  out w' = out w ++ stateChangeCalls
                      (Dhcp.stateChangeEvent (Dhcp.settings c))
                      Dhcp.DHCP_STATE_INIT.
Proof.
  cbv zeta. intros H1 H2 H3 H4 H6 H7 Ht Ht1 Ht2.
  unfold Dhcp.dhcpParseAckNak, Dhcp.headerMismatch, exec.
  rewrite run_bind. cbn [getCtx fst snd]. rewrite run_bind.
  cbn [getIf fst snd].
  rewrite H1, H2, H3, H4, H6, H7, Ht, Ht1, Ht2.
  rewrite !Z.eqb_refl. unfold Dhcp.sizeofMacAddr.
  cbn [Z.eqb Pos.eqb negb orb].
  rewrite !run_bind. cbn [modifyIf fst snd].
  rewrite dhcpChangeState_run. cbn. repeat split.
Qed.

(** A message is foreign to the client when it fails one of the tests
    that dhcpParseOffer and dhcpParseAckNak share. *)
Lemma dhcpParseOffer_foreign (w : World Dhcp.DhcpClientCtx)
    (message : DhcpMessage) (length : Z) :
  foreignReply (ctx w) (netif w) message = true ->
  Dhcp.dhcpParseOffer lib message length w = (tt, w).
Proof.
  unfold foreignReply, Dhcp.dhcpParseOffer. intros H.
  rewrite run_bind. cbn [getCtx fst snd]. rewrite run_bind.
  cbn [getIf fst snd].
  destruct (Dhcp.headerMismatch (ctx w) message); [ reflexivity | ].
  destruct (yiaddr message =? IPV4_UNSPECIFIED_ADDR); [ reflexivity | ].
  cbn [orb] in H.
  destruct (macCompAddr (chaddr message) (macAddr (netif w)));
    [ | reflexivity ].
  cbn [negb orb] in H. rewrite H. reflexivity.
Qed.

Lemma dhcpParseAckNak_foreign (w : World Dhcp.DhcpClientCtx)
    (message : DhcpMessage) (length : Z) :
  foreignReply (ctx w) (netif w) message = true ->
  Dhcp.dhcpParseAckNak lib message length w = (tt, w).
Proof.
  unfold foreignReply, Dhcp.dhcpParseAckNak. intros H.
  rewrite run_bind. cbn [getCtx fst snd]. rewrite run_bind.
  cbn [getIf fst snd].
  destruct (Dhcp.headerMismatch (ctx w) message); [ reflexivity | ].
  cbn [orb] in H.
  destruct (macCompAddr (chaddr message) (macAddr (netif w)));
    [ | reflexivity ].
  cbn [negb orb] in H. rewrite H. reflexivity.
Qed.

(** X10.  dhcpClientProcessMessage drops a message shorter than the
    header or longer than DHCP_MAX_MSG_SIZE, or a missing buffer,
    before it takes the mutex; and in every state a message that is
    not a BOOTREPLY for Ethernet, or carries another transaction id,
    another MAC address or no magic cookie, changes nothing: the
    mutex is taken and released, that is all. *)
Theorem foreign_reply_ignored (w : World Dhcp.DhcpClientCtx)
    (message : DhcpMessage) (length : Z) :
  let c := ctx w in
  (length < Dhcp.sizeofDhcpMessage lib \/ length > Dhcp.DHCP_MAX_MSG_SIZE lib ->
   forall m, exec (Dhcp.dhcpClientProcessMessage lib m length) w = w) /\
  exec (Dhcp.dhcpClientProcessMessage lib None length) w = w /\
  (Dhcp.sizeofDhcpMessage lib <= length <= Dhcp.DHCP_MAX_MSG_SIZE lib ->
   op message <> Dhcp.DHCP_OPCODE_BOOTREPLY \/
   htype message <> Dhcp.DHCP_HARDWARE_TYPE_ETH \/
   hlen message <> 6 \/
   ntohl (xid message) <> Dhcp.transactionId c \/
   macCompAddr (chaddr message) (macAddr (netif w)) = false \/
   memeq (magicCookie message) (htonl Dhcp.DHCP_MAGIC_COOKIE) 4 = false ->
   exec (Dhcp.dhcpClientProcessMessage lib (Some message) length) w =
   afterMutex w).
Proof.
  cbv zeta. unfold Dhcp.dhcpClientProcessMessage.
  split; [ | split ].
  - intros H m.
    destruct (Z.ltb_spec length (Dhcp.sizeofDhcpMessage lib));
      [ reflexivity | ].
    destruct (Z.gtb_spec length (Dhcp.DHCP_MAX_MSG_SIZE lib));
      [ reflexivity | lia ].
  - destruct (length <? Dhcp.sizeofDhcpMessage lib); [ reflexivity | ].
    destruct (length >? Dhcp.DHCP_MAX_MSG_SIZE lib); reflexivity.
  - intros Hl Hf.
    destruct (Z.ltb_spec length (Dhcp.sizeofDhcpMessage lib)); [ lia | ].
    destruct (Z.gtb_spec length (Dhcp.DHCP_MAX_MSG_SIZE lib)); [ lia | ].
    assert (F : foreignReply
                  (ctx (mkWorld (ctx w) (netif w) (env w) (randPos w)
                          (out w ++ [EvAcquireMutex])))
                  (netif w) message = true).
    { unfold foreignReply, Dhcp.headerMismatch, Dhcp.sizeofMacAddr.
      cbn [ctx].
      destruct Hf as [Hf | [Hf | [Hf | [Hf | [Hf | Hf]]]]].
      - apply Z.eqb_neq in Hf. rewrite Hf. reflexivity.
      - apply Z.eqb_neq in Hf. rewrite Hf. rewrite !orb_true_r. reflexivity.
      - apply Z.eqb_neq in Hf. rewrite Hf. rewrite !orb_true_r. reflexivity.
      - apply Z.eqb_neq in Hf. rewrite Hf. rewrite !orb_true_r. reflexivity.
      - rewrite Hf. rewrite !orb_true_r. reflexivity.
      - rewrite Hf. rewrite !orb_true_r. reflexivity. }
    unfold exec. rewrite run_bind. unfold osAcquireMutex at 1.
    cbn [emit fst snd]. rewrite run_bind. cbn [getCtx fst snd ctx].
    rewrite run_bind.
    set (w1 := mkWorld (ctx w) (netif w) (env w) (randPos w)
                 (out w ++ [EvAcquireMutex])) in *.
    assert (E : (if Dhcp.state (ctx w) =? Dhcp.DHCP_STATE_SELECTING
                 then Dhcp.dhcpParseOffer lib message length
                 else if (Dhcp.state (ctx w) =? Dhcp.DHCP_STATE_REQUESTING)
                         || (Dhcp.state (ctx w) =? Dhcp.DHCP_STATE_REBOOTING)
                         || (Dhcp.state (ctx w) =? Dhcp.DHCP_STATE_RENEWING)
                         || (Dhcp.state (ctx w) =? Dhcp.DHCP_STATE_REBINDING)
                 then Dhcp.dhcpParseAckNak lib message length
                 else ret tt) w1 = (tt, w1)).
    { destruct (Dhcp.state (ctx w) =? Dhcp.DHCP_STATE_SELECTING).
      - apply dhcpParseOffer_foreign. exact F.
      - destruct ((Dhcp.state (ctx w) =? Dhcp.DHCP_STATE_REQUESTING)
                  || (Dhcp.state (ctx w) =? Dhcp.DHCP_STATE_REBOOTING)
                  || (Dhcp.state (ctx w) =? Dhcp.DHCP_STATE_RENEWING)
                  || (Dhcp.state (ctx w) =? Dhcp.DHCP_STATE_REBINDING)).
        + apply dhcpParseAckNak_foreign. exact F.
        + reflexivity. }
    rewrite E. cbn [fst snd]. unfold osReleaseMutex, emit, w1. cbn.
    apply afterMutex_out.
Qed.

(** ** The lease *)





Ltac dhcp_dispatch Hs :=
  unfold Dhcp.dhcpClientTick; unfold_monad;
  cbn -[Dhcp.dhcpStateInit Dhcp.dhcpStateSelecting Dhcp.dhcpStateRequesting
        Dhcp.dhcpStateInitReboot Dhcp.dhcpStateRebooting Dhcp.dhcpStateBound
        Dhcp.dhcpStateRenewing Dhcp.dhcpStateRebinding];
  rewrite Hs; reflexivity.

Lemma dhcpClientTick_renewing (w : World Dhcp.DhcpClientCtx) :
  Dhcp.state (ctx w) = Dhcp.DHCP_STATE_RENEWING ->
  exec (Dhcp.dhcpClientTick lib) w =
  exec (osAcquireMutex ;; Dhcp.dhcpStateRenewing lib ;; osReleaseMutex) w.
Proof. intros Hs. dhcp_dispatch Hs. Qed.

Lemma dhcpClientTick_rebinding (w : World Dhcp.DhcpClientCtx) :
  Dhcp.state (ctx w) = Dhcp.DHCP_STATE_REBINDING ->
  exec (Dhcp.dhcpClientTick lib) w =
  exec (osAcquireMutex ;; Dhcp.dhcpStateRebinding lib ;; osReleaseMutex) w.
Proof. intros Hs. dhcp_dispatch Hs. Qed.

Lemma dhcpClientTick_requesting (w : World Dhcp.DhcpClientCtx) :
  Dhcp.state (ctx w) = Dhcp.DHCP_STATE_REQUESTING \/
  Dhcp.state (ctx w) = Dhcp.DHCP_STATE_REBOOTING ->
  exec (Dhcp.dhcpClientTick lib) w =
  exec (osAcquireMutex ;; Dhcp.requestOrGiveUp lib ;; osReleaseMutex) w.
Proof. intros [Hs | Hs]; dhcp_dispatch Hs. Qed.

Lemma dhcpClientTick_selecting (w : World Dhcp.DhcpClientCtx) :
  Dhcp.state (ctx w) = Dhcp.DHCP_STATE_SELECTING ->
  exec (Dhcp.dhcpClientTick lib) w =
  exec (osAcquireMutex ;; Dhcp.dhcpStateSelecting lib ;; osReleaseMutex) w.
Proof. intros Hs. dhcp_dispatch Hs. Qed.

(** X12.  The end of a lease.  In RENEWING, when the retransmission
    timer has expired and T2 seconds have passed since the lease was
    obtained, the client enters REBINDING and keeps its address.  In
    REBINDING, when the timer has expired and the lease time has
    passed, the host address (0.0.0.0, Invalid) and the subnet mask
    are withdrawn and the client goes back to INIT.  Neither tick
    sends a datagram. *)
Theorem lease_deadlines (w : World Dhcp.DhcpClientCtx) :
  let c := ctx w in
  let now := wrap32 (env_time (env w)) in
  let w' := exec (Dhcp.dhcpClientTick lib) w in
  timeCompare now (wrap32 (Dhcp.timestamp c + Dhcp.timeout c)) >= 0 ->
  (Dhcp.state c = Dhcp.DHCP_STATE_RENEWING ->
   timeCompare now
     (wrap32 (Dhcp.leaseStartTime c + wrap32 (Dhcp.t2 c * 1000))) >= 0 ->
   Dhcp.state (ctx w') = Dhcp.DHCP_STATE_REBINDING /\
   Dhcp.retransmitCount (ctx w') = 0 /\
   Dhcp.timestamp (ctx w') = now /\ Dhcp.timeout (ctx w') = 0 /\
   netif w' = netif w /\
   out w' = out w ++ [EvAcquireMutex] ++
            stateChangeCalls (Dhcp.stateChangeEvent (Dhcp.settings c))
              Dhcp.DHCP_STATE_REBINDING ++ [EvReleaseMutex]) /\
  (Dhcp.state c = Dhcp.DHCP_STATE_REBINDING ->
   timeCompare now
     (wrap32 (Dhcp.leaseStartTime c + wrap32 (Dhcp.leaseTime c * 1000)))
     >= 0 ->
   Dhcp.state (ctx w') = Dhcp.DHCP_STATE_INIT /\
   Dhcp.retransmitCount (ctx w') = 0 /\
   Dhcp.running (ctx w') = Dhcp.running c /\
   ipv4_addr (ipv4Config (netif w')) = IPV4_UNSPECIFIED_ADDR /\
   ipv4_addrState (ipv4Config (netif w')) = ADDR_STATE_INVALID /\
   ipv4_subnetMask (ipv4Config (netif w')) = IPV4_UNSPECIFIED_ADDR /\
   out w' = out w ++ [EvAcquireMutex] ++
            stateChangeCalls (Dhcp.stateChangeEvent (Dhcp.settings c))
              Dhcp.DHCP_STATE_INIT ++ [EvReleaseMutex]).
Proof.
  cbv zeta. intros He. split; intros Hs Hd.
  - rewrite dhcpClientTick_renewing by exact Hs.
    unfold Dhcp.dhcpStateRenewing. unfold_monad.
    cbn -[Dhcp.dhcpChangeState Dhcp.renewRequest].
    destruct (Z.geb_spec
                (timeCompare (wrap32 (env_time (env w)))
                   (wrap32 (Dhcp.timestamp (ctx w) + Dhcp.timeout (ctx w))))
                0); [ | lia ].
    cbn -[Dhcp.dhcpChangeState Dhcp.renewRequest].
    destruct (Z.ltb_spec
                (timeCompare (wrap32 (env_time (env w)))
                   (wrap32 (Dhcp.leaseStartTime (ctx w) +
                            wrap32 (Dhcp.t2 (ctx w) * 1000)))) 0);
      [ lia | ].
    rewrite dhcpChangeState_run. cbn. rewrite <- !app_assoc. repeat split.
  - rewrite dhcpClientTick_rebinding by exact Hs.
    unfold Dhcp.dhcpStateRebinding. unfold_monad.
    cbn -[Dhcp.dhcpChangeState Dhcp.renewRequest].
    destruct (Z.geb_spec
                (timeCompare (wrap32 (env_time (env w)))
                   (wrap32 (Dhcp.timestamp (ctx w) + Dhcp.timeout (ctx w))))
                0); [ | lia ].
    cbn -[Dhcp.dhcpChangeState Dhcp.renewRequest].
    destruct (Z.ltb_spec
                (timeCompare (wrap32 (env_time (env w)))
                   (wrap32 (Dhcp.leaseStartTime (ctx w) +
                            wrap32 (Dhcp.leaseTime (ctx w) * 1000)))) 0);
      [ lia | ].
    cbn -[Dhcp.dhcpChangeState Dhcp.renewRequest].
    rewrite dhcpChangeState_run. cbn. rewrite <- !app_assoc. repeat split.
Qed.

(** X13.  Renewal.  In RENEWING (before T2) and in REBINDING (before
    the end of the lease), when the retransmission timer has expired
    and a buffer is available, the tick sends one datagram from port
    68 to port 67, a DHCPREQUEST: a BOOTREQUEST with the address of
    the client as ciaddr, the flags zero, the seconds elapsed since
    the start of the configuration (at most 0xFFFF), and as options
    the message type DHCPREQUEST, the host name when one is set and
    the parameter request list, without Server Identifier nor
    Requested IP Address.  Its transaction id is that of the context,
    drawn anew before the first transmission.  It goes to the server
    that granted the lease in RENEWING, to the broadcast address in
    REBINDING.  The next retransmission is set to half of the time
    that remains until the limit when more than twice
    DHCP_CLIENT_REQUEST_MIN_DELAY remains, and to all of it otherwise:
    never beyond the limit. *)
Theorem renewal_requests (w : World Dhcp.DhcpClientCtx) :
  let c := ctx w in
  let now := wrap32 (env_time (env w)) in
  let w' := exec (Dhcp.dhcpClientTick lib) w in
  let xid :=
    if Dhcp.retransmitCount c =? 0
    then wrap32 (env_rand (env w) (randPos w))
    else Dhcp.transactionId c in
  let elapsed := wrap32 (now - Dhcp.configStartTime c) / 1000 in
  let header :=
    Dhcp.formatMessage lib (htonl xid)
      (htons (if elapsed >? 0xFFFF then 0xFFFF else elapsed)) (htons 0)
      (ipv4_addr (ipv4Config (netif w))) (macAddr (netif w)) in
  let request :=
    Dhcp.dhcpAddOption lib
      (Dhcp.addOptionIf lib (len (Dhcp.hostname (Dhcp.settings c)) >? 0)
         Dhcp.DHCP_OPT_HOST_NAME (Dhcp.hostname (Dhcp.settings c))
         (Dhcp.dhcpAddOption lib header Dhcp.DHCP_OPT_DHCP_MESSAGE_TYPE
            [b8 Dhcp.DHCP_MESSAGE_TYPE_REQUEST]))
      Dhcp.DHCP_OPT_PARAM_REQUEST_LIST Dhcp.optionList in
  let sent (dest : Ipv4Addr) :=
    out w' = out w ++ [EvAcquireMutex;
                       EvUdpSendDatagram Dhcp.DHCP_CLIENT_PORT (IpAddr4 dest)
                         Dhcp.DHCP_SERVER_PORT (PayloadDhcp request)
                         (Dhcp.IPV4_DEFAULT_TTL lib);
                       EvReleaseMutex] /\
    Dhcp.transactionId (ctx w') = xid in
  let armed (limit : Z) :=
    let remaining := wrap32 (Dhcp.leaseStartTime c + limit - now) in
    Dhcp.timestamp (ctx w') = now /\
    Dhcp.timeout (ctx w') =
      (if remaining >? 2 * Dhcp.DHCP_CLIENT_REQUEST_MIN_DELAY lib
       then remaining / 2 else remaining) /\
    0 <= Dhcp.timeout (ctx w') <= remaining /\
    Dhcp.retransmitCount (ctx w') = wrap32 (Dhcp.retransmitCount c + 1) /\
    Dhcp.state (ctx w') = Dhcp.state c /\
    netif w' = netif w in
  timeCompare now (wrap32 (Dhcp.timestamp c + Dhcp.timeout c)) >= 0 ->
  env_alloc (env w) = true ->
  (Dhcp.state c = Dhcp.DHCP_STATE_RENEWING ->
   timeCompare now
     (wrap32 (Dhcp.leaseStartTime c + wrap32 (Dhcp.t2 c * 1000))) < 0 ->
   sent (Dhcp.serverIpAddr c) /\ armed (wrap32 (Dhcp.t2 c * 1000))) /\
  (Dhcp.state c = Dhcp.DHCP_STATE_REBINDING ->
   timeCompare now
     (wrap32 (Dhcp.leaseStartTime c + wrap32 (Dhcp.leaseTime c * 1000))) < 0 ->
   sent IPV4_BROADCAST_ADDR /\ armed (wrap32 (Dhcp.leaseTime c * 1000))).
Proof.
  cbv zeta. intros He Ha.
  remember (2 * Dhcp.DHCP_CLIENT_REQUEST_MIN_DELAY lib) as twice eqn:Etwice.
  assert (Hhalf : forall r,
            0 <= (if wrap32 r >? twice then wrap32 r / 2 else wrap32 r)
              <= wrap32 r).
  { intros r. pose proof (wrap32_range r) as Hr.
    destruct (wrap32 r >? twice).
    - split; [ apply Z.div_pos; lia | apply Z.div_le_upper_bound; lia ].
    - lia. }
  split; intros Hs Hd.
  - rewrite dhcpClientTick_renewing by exact Hs.
    unfold Dhcp.dhcpStateRenewing, Dhcp.renewRequest, Dhcp.dhcpSendRequest,
      Dhcp.dhcpComputeElapsedTime, udpSendDatagramEx, udpAllocBuffer,
      netGetRand.
    rewrite <- Etwice.
    unfold_monad. cbn [fst snd ctx netif env randPos out].
    destruct (Z.geb_spec
                (timeCompare (wrap32 (env_time (env w)))
                   (wrap32 (Dhcp.timestamp (ctx w) + Dhcp.timeout (ctx w))))
                0); [ | lia ].
    destruct (Z.ltb_spec
                (timeCompare (wrap32 (env_time (env w)))
                   (wrap32 (Dhcp.leaseStartTime (ctx w) +
                            wrap32 (Dhcp.t2 (ctx w) * 1000)))) 0);
      [ | lia ].
    cbn [fst snd ctx netif env randPos out].
    specialize (Hhalf (Dhcp.leaseStartTime (ctx w) +
                       wrap32 (Dhcp.t2 (ctx w) * 1000) -
                       wrap32 (env_time (env w)))).
    destruct (Dhcp.retransmitCount (ctx w) =? 0);
      cbn [fst snd ctx netif env randPos out]; rewrite ?Ha;
      cbn [negb fst snd ctx netif env randPos out Dhcp.state
           Dhcp.set_transactionId];
      rewrite ?Hs; cbn -[Z.mul Z.div wrap32]; rewrite <- !app_assoc.
    all: destruct (wrap32 (Dhcp.leaseStartTime (ctx w) +
                           wrap32 (Dhcp.t2 (ctx w) * 1000) -
                           wrap32 (env_time (env w))) >? twice);
           cbn -[Z.mul Z.div wrap32].
    all: (split; [ split; reflexivity | ]).
    all: repeat (split; [ reflexivity | ]).
    all: split; [ exact Hhalf | split; [ reflexivity | ] ].
    all: split; [ exact Hs | reflexivity ].
  - rewrite dhcpClientTick_rebinding by exact Hs.
    unfold Dhcp.dhcpStateRebinding, Dhcp.renewRequest, Dhcp.dhcpSendRequest,
      Dhcp.dhcpComputeElapsedTime, udpSendDatagramEx, udpAllocBuffer,
      netGetRand.
    rewrite <- Etwice.
    unfold_monad. cbn [fst snd ctx netif env randPos out].
    destruct (Z.geb_spec
                (timeCompare (wrap32 (env_time (env w)))
                   (wrap32 (Dhcp.timestamp (ctx w) + Dhcp.timeout (ctx w))))
                0); [ | lia ].
    destruct (Z.ltb_spec
                (timeCompare (wrap32 (env_time (env w)))
                   (wrap32 (Dhcp.leaseStartTime (ctx w) +
                            wrap32 (Dhcp.leaseTime (ctx w) * 1000)))) 0);
      [ | lia ].
    cbn [fst snd ctx netif env randPos out].
    specialize (Hhalf (Dhcp.leaseStartTime (ctx w) +
                       wrap32 (Dhcp.leaseTime (ctx w) * 1000) -
                       wrap32 (env_time (env w)))).
    destruct (Dhcp.retransmitCount (ctx w) =? 0);
      cbn [fst snd ctx netif env randPos out]; rewrite ?Ha;
      cbn [negb fst snd ctx netif env randPos out Dhcp.state
           Dhcp.set_transactionId];
      rewrite ?Hs; cbn -[Z.mul Z.div wrap32]; rewrite <- !app_assoc.
    all: destruct (wrap32 (Dhcp.leaseStartTime (ctx w) +
                           wrap32 (Dhcp.leaseTime (ctx w) * 1000) -
                           wrap32 (env_time (env w))) >? twice);
           cbn -[Z.mul Z.div wrap32].
    all: (split; [ split; reflexivity | ]).
    all: repeat (split; [ reflexivity | ]).
    all: split; [ exact Hhalf | split; [ reflexivity | ] ].
    all: split; [ exact Hs | reflexivity ].
Qed.

(** ** Retransmission of requests *)

(** dhcpCheckTimeout calls the timeout callback, with the mutex
    released, when one is configured, the configuration timeout has
    passed and the call was not made yet. *)
Lemma dhcpCheckTimeout_run (w : World Dhcp.DhcpClientCtx) :
  let c := ctx w in
  let fires :=
    Dhcp.timeoutEvent (Dhcp.settings c)
    && (timeCompare (wrap32 (env_time (env w)))
          (wrap32 (Dhcp.configStartTime c +
                   Dhcp.settings_timeout (Dhcp.settings c))) >=? 0)
    && negb (Dhcp.timeoutEventDone c) in
  Dhcp.dhcpCheckTimeout w =
  (tt,
   if fires
   then mkWorld (Dhcp.set_timeoutEventDone true c) (netif w) (env w)
          (randPos w)
          (out w ++ [EvReleaseMutex; EvTimeoutEvent; EvAcquireMutex])
   else w).
Proof.
  cbv zeta. unfold Dhcp.dhcpCheckTimeout. unfold_monad. cbn.
  destruct (Dhcp.timeoutEvent (Dhcp.settings (ctx w))); [ | reflexivity ].
  destruct (timeCompare (wrap32 (env_time (env w)))
              (wrap32 (Dhcp.configStartTime (ctx w) +
                       Dhcp.settings_timeout (Dhcp.settings (ctx w)))) >=? 0);
    [ | reflexivity ].
  destruct (Dhcp.timeoutEventDone (ctx w)); [ reflexivity | ].
  cbn. rewrite <- !app_assoc. reflexivity.
Qed.

Lemma dhcpCheckTimeout_quiet (w : World Dhcp.DhcpClientCtx) :
  let w' := exec Dhcp.dhcpCheckTimeout w in
  Dhcp.state (ctx w') = Dhcp.state (ctx w) /\
  Dhcp.retransmitCount (ctx w') = Dhcp.retransmitCount (ctx w) /\
  Dhcp.retransmitTimeout (ctx w') = Dhcp.retransmitTimeout (ctx w) /\
  Dhcp.running (ctx w') = Dhcp.running (ctx w) /\
  netif w' = netif w /\
  extendsQuietly (out w) (out w').
Proof.
  cbv zeta. unfold exec. rewrite dhcpCheckTimeout_run. cbn [snd].
  match goal with |- context [if ?b then _ else _] => destruct b end.
  - cbn. repeat split.
    exists [EvReleaseMutex; EvTimeoutEvent; EvAcquireMutex].
    split; [ reflexivity | repeat constructor ].
  - repeat split. apply extendsQuietly_refl.
Qed.

Lemma extendsQuietly_app (o evs : list Event) :
  Forall (fun e => is_send e = false) evs -> extendsQuietly o (o ++ evs).
Proof. intros H. exists evs. split; [ reflexivity | exact H ]. Qed.

Lemma stateChangeCalls_quiet (b : bool) (s : Z) :
  Forall (fun e => is_send e = false) (stateChangeCalls b s).
Proof. destruct b; repeat constructor. Qed.

(** X14.  In REQUESTING and in REBOOTING, when the retransmission
    timer has expired and DHCP_CLIENT_REQUEST_MAX_RC requests were
    sent, the client gives up: it goes back to INIT (also from
    REBOOTING) with the timer restarted, keeps the interface as it is
    and sends nothing. *)
Theorem request_gives_up (w : World Dhcp.DhcpClientCtx) :
  let c := ctx w in
  let w' := exec (Dhcp.dhcpClientTick lib) w in
  Dhcp.state c = Dhcp.DHCP_STATE_REQUESTING \/
  Dhcp.state c = Dhcp.DHCP_STATE_REBOOTING ->
  timeCompare (wrap32 (env_time (env w)))
    (wrap32 (Dhcp.timestamp c + Dhcp.timeout c)) >= 0 ->
  Dhcp.retransmitCount c <> 0 ->
  Dhcp.DHCP_CLIENT_REQUEST_MAX_RC lib <= Dhcp.retransmitCount c ->
  Dhcp.state (ctx w') = Dhcp.DHCP_STATE_INIT /\
  Dhcp.retransmitCount (ctx w') = 0 /\
  Dhcp.running (ctx w') = Dhcp.running c /\
  netif w' = netif w /\
  extendsQuietly (out w) (out w').
Proof.
  cbv zeta. intros Hs He H0 Hm.
  rewrite dhcpClientTick_requesting by exact Hs.
  unfold Dhcp.requestOrGiveUp. unfold_monad.
  cbn -[Dhcp.dhcpChangeState Dhcp.dhcpCheckTimeout Dhcp.dhcpSendRequest
        Dhcp.armRetransmission Dhcp.doubleRetransmitTimeout netGetRand].
  destruct (Z.geb_spec
              (timeCompare (wrap32 (env_time (env w)))
                 (wrap32 (Dhcp.timestamp (ctx w) + Dhcp.timeout (ctx w)))) 0);
    [ | lia ].
  destruct (Z.eqb_spec (Dhcp.retransmitCount (ctx w)) 0); [ contradiction | ].
  destruct (Z.ltb_spec (Dhcp.retransmitCount (ctx w))
              (Dhcp.DHCP_CLIENT_REQUEST_MAX_RC lib)); [ lia | ].
  rewrite dhcpChangeState_run.
  cbn -[Dhcp.dhcpCheckTimeout].
  match goal with
  | |- context [Dhcp.dhcpCheckTimeout ?x] =>
      destruct (dhcpCheckTimeout_quiet x) as (Q1 & Q2 & _ & Q4 & Q5 & Q6);
      unfold exec in Q1, Q2, Q4, Q5, Q6;
      cbn [ctx netif out] in Q1, Q2, Q4, Q5, Q6;
      destruct (Dhcp.dhcpCheckTimeout x) as [[] w2]
  end.
  cbn [fst snd ctx netif out] in *.
  rewrite Q1, Q2, Q4, Q5. cbn.
  repeat split.
  eapply extendsQuietly_trans; [ | apply extendsQuietly_app; repeat constructor ].
  eapply extendsQuietly_trans; [ | exact Q6 ].
  rewrite <- app_assoc. apply extendsQuietly_app.
  constructor; [ reflexivity | apply stateChangeCalls_quiet ].
Qed.

(** ** What the client puts on the wire *)

Ltac traffic_kept :=
  let w := fresh "w" in
  let H := fresh "H" in
  intros w H; cbn [out ctx netif env randPos] in *;
  first [ exact H
        | apply Forall_app; split;
          [ exact H | constructor; [ cbn; auto | constructor ] ] ].

Lemma dhcpClientTick_traffic :
  stable (fun w => Forall dhcpTraffic (out w)) (Dhcp.dhcpClientTick lib).
Proof. unfold_dhcp. stable_all; traffic_kept. Qed.

Lemma dhcpClientProcessMessage_traffic m l :
  stable (fun w => Forall dhcpTraffic (out w))
    (Dhcp.dhcpClientProcessMessage lib m l).
Proof. unfold_dhcp. stable_all; traffic_kept. Qed.

(** X15.  Whatever the DHCPv4 client is asked to do (start, stop,
    getState, tick, link change, incoming message), what it sends is
    a DHCP message from UDP port 68 to UDP port 67 of an IPv4
    address: a trace that holds nothing else before the call holds
    nothing else after it. *)
Theorem dhcp_traffic (call : Runs.DhcpCall) (w : World Dhcp.DhcpClientCtx) :
  Forall dhcpTraffic (out w) ->
  Forall dhcpTraffic (out (exec (Runs.dhcpCall lib call) w)).
Proof.
  revert w.
  change (stable (fun w => Forall dhcpTraffic (out w))
            (Runs.dhcpCall lib call)).
  destruct call; cbn [Runs.dhcpCall].
  - unfold Dhcp.dhcpClientStart. stable_all; traffic_kept.
  - unfold Dhcp.dhcpClientStop. stable_all; traffic_kept.
  - unfold Dhcp.dhcpClientGetState. stable_all; traffic_kept.
  - apply dhcpClientTick_traffic.
  - unfold_dhcp. stable_all; traffic_kept.
  - apply dhcpClientProcessMessage_traffic.
Qed.

(** ** Initialization and link changes *)

(** X16.  dhcpClientInit with valid pointers.  When the mutex cannot
    be created it returns ERROR_OUT_OF_RESOURCES before the receive
    callback is registered; when the registration fails it deletes
    the mutex and returns the error of the registration; in both
    cases the interface is not touched.  When both succeed it returns
    NO_ERROR with the client stopped in INIT, the settings saved, the
    callback registered for port 68 and the context attached to the
    interface.  A host name left empty in the settings is replaced by
    that of the interface, cut to DHCP_CLIENT_MAX_HOSTNAME_LEN bytes.
    The default settings, whose interface is NULL, are refused. *)
Theorem dhcpClientInit_outcomes (w : World Dhcp.DhcpClientCtx)
    (s : Dhcp.DhcpClientSettings) :
  let r := Dhcp.dhcpClientInit lib Ref (Some s) w in
  let w' := snd r in
  Dhcp.interface s = Ref ->
  (env_createMutex (env w) = false ->
   fst r = ERROR_OUT_OF_RESOURCES /\
   out w' = out w ++ [EvCreateMutex] /\ netif w' = netif w) /\
  (env_createMutex (env w) = true -> env_attach (env w) <> NO_ERROR ->
   fst r = env_attach (env w) /\
   out w' = out w ++ [EvCreateMutex;
                      EvUdpAttachRxCallback Dhcp.DHCP_CLIENT_PORT;
                      EvDeleteMutex] /\
   netif w' = netif w) /\
  (env_createMutex (env w) = true -> env_attach (env w) = NO_ERROR ->
   fst r = NO_ERROR /\
   Dhcp.running (ctx w') = false /\
   Dhcp.state (ctx w') = Dhcp.DHCP_STATE_INIT /\
   Dhcp.leaseTime (ctx w') = 0 /\
   Dhcp.rapidCommit (Dhcp.settings (ctx w')) = Dhcp.rapidCommit s /\
   Dhcp.manualDnsConfig (Dhcp.settings (ctx w')) = Dhcp.manualDnsConfig s /\
   Dhcp.settings_timeout (Dhcp.settings (ctx w')) = Dhcp.settings_timeout s /\
   (Dhcp.hostname s <> [] ->
    Dhcp.hostname (Dhcp.settings (ctx w')) = Dhcp.hostname s) /\
   (Dhcp.hostname s = [] -> 0 <= Dhcp.DHCP_CLIENT_MAX_HOSTNAME_LEN lib ->
    Dhcp.hostname (Dhcp.settings (ctx w')) =
      firstn (Z.to_nat (Dhcp.DHCP_CLIENT_MAX_HOSTNAME_LEN lib))
        (if_hostname (netif w)) /\
    len (Dhcp.hostname (Dhcp.settings (ctx w'))) <=
      Dhcp.DHCP_CLIENT_MAX_HOSTNAME_LEN lib) /\
   dhcpClientContext (netif w') = true /\
   ipv4Config (netif w') = ipv4Config (netif w) /\
   out w' = out w ++ [EvCreateMutex;
                      EvUdpAttachRxCallback Dhcp.DHCP_CLIENT_PORT]) /\
  (forall c, Dhcp.dhcpClientInit lib c
               (Some Dhcp.dhcpClientGetDefaultSettings) w
             = (ERROR_INVALID_PARAMETER, w)).
Proof.
  cbv zeta. intros Hi.
  unfold Dhcp.dhcpClientInit, Dhcp.osCreateMutex, Dhcp.udpAttachRxCallback,
    Dhcp.osDeleteMutex.
  rewrite Hi. cbn [isNull].
  split; [ | split; [ | split ] ].
  - intros Hm. unfold_monad. cbn [fst snd ctx netif env randPos out].
    destruct (len (Dhcp.hostname s) =? 0);
      cbn [fst snd ctx netif env randPos out]; rewrite Hm; cbn;
      repeat split.
  - intros Hm Ha. unfold_monad. cbn [fst snd ctx netif env randPos out].
    destruct (len (Dhcp.hostname s) =? 0);
      cbn [fst snd ctx netif env randPos out]; rewrite Hm;
      cbn [negb fst snd ctx netif env randPos out];
      (destruct (env_attach (env w)) eqn:E; [ contradiction | .. ]);
      cbn; rewrite <- ?app_assoc; repeat split.
  - intros Hm Ha. unfold_monad. cbn [fst snd ctx netif env randPos out].
    destruct (Dhcp.hostname s) as [|h0 hs] eqn:Eh.
    + cbn [len length Z.of_nat Z.eqb fst snd ctx netif env randPos out].
      rewrite Hm. cbn [negb fst snd ctx netif env randPos out].
      rewrite Ha. cbn. rewrite <- ?app_assoc.
      repeat (split; [ reflexivity | ]).
      split; [ intros H; contradiction | ].
      split; [ | repeat split ].
      intros _ Hmax.
      assert (Hf : firstn
                     (Z.to_nat (MIN (len (if_hostname (netif w)))
                                  (Dhcp.DHCP_CLIENT_MAX_HOSTNAME_LEN lib)))
                     (if_hostname (netif w)) =
                   firstn (Z.to_nat (Dhcp.DHCP_CLIENT_MAX_HOSTNAME_LEN lib))
                     (if_hostname (netif w))).
      { unfold MIN, len.
        destruct (Z.ltb_spec (Z.of_nat (length (if_hostname (netif w))))
                    (Dhcp.DHCP_CLIENT_MAX_HOSTNAME_LEN lib)).
        - rewrite Nat2Z.id. rewrite firstn_all.
          symmetry. apply firstn_all2. lia.
        - reflexivity. }
      rewrite Hf. split; [ reflexivity | ].
      unfold len. rewrite length_firstn. lia.
    + assert (El : (len (h0 :: hs) =? 0) = false).
      { apply Z.eqb_neq. unfold len. cbn [length]. lia. }
      rewrite El. cbn [fst snd ctx netif env randPos out].
      rewrite Hm. cbn [negb fst snd ctx netif env randPos out].
      rewrite Ha. cbn. rewrite <- ?app_assoc, Eh.
      repeat (split; [ reflexivity | ]).
      split; [ intros H; discriminate H | repeat split ].
  - intros [|]; reflexivity.
Qed.

(** X17.  A link change puts the DHCPv4 client in INIT when its state
    was below INIT-REBOOT, and in INIT-REBOOT otherwise: a client
    that had entered any later state, BOUND among them, restarts
    from INIT-REBOOT.  A running client loses its host address
    (0.0.0.0, Invalid) and its subnet mask.  The link-change callback,
    when there is one, is called after the mutex is released, with
    the link state of the interface; nothing is sent. *)
Theorem dhcpClientLinkChangeEvent_resets (w : World Dhcp.DhcpClientCtx) :
  let c := ctx w in
  let w' := exec Dhcp.dhcpClientLinkChangeEvent w in
  Dhcp.state (ctx w') =
    (if Dhcp.state c >=? Dhcp.DHCP_STATE_INIT_REBOOT
     then Dhcp.DHCP_STATE_INIT_REBOOT else Dhcp.DHCP_STATE_INIT) /\
  Dhcp.running (ctx w') = Dhcp.running c /\
  Dhcp.leaseTime (ctx w') = Dhcp.leaseTime c /\
  Dhcp.requestedIpAddr (ctx w') = Dhcp.requestedIpAddr c /\
  out w' = out w ++ [EvAcquireMutex; EvReleaseMutex] ++
           (if Dhcp.linkChangeEvent (Dhcp.settings c)
            then [EvLinkChangeEvent (linkState (netif w))] else []) /\
  (Dhcp.running c = true ->
   ipv4_addr (ipv4Config (netif w')) = IPV4_UNSPECIFIED_ADDR /\
   ipv4_addrState (ipv4Config (netif w')) = ADDR_STATE_INVALID /\
   ipv4_subnetMask (ipv4Config (netif w')) = IPV4_UNSPECIFIED_ADDR) /\
  (Dhcp.running c = false -> netif w' = netif w).
Proof.
  cbv zeta. unfold Dhcp.dhcpClientLinkChangeEvent. unfold_monad.
  cbn [fst snd ctx netif env randPos out].
  destruct (Dhcp.running (ctx w)) eqn:Hr;
    destruct (Dhcp.state (ctx w) >=? Dhcp.DHCP_STATE_INIT_REBOOT);
    destruct (Dhcp.linkChangeEvent (Dhcp.settings (ctx w))) eqn:Hl;
    cbn; rewrite ?Hl, ?Hr; cbn; rewrite <- ?app_assoc, ?app_nil_r;
    repeat split; try discriminate.
Qed.

End DhcpMessages.

(* ------------------------------------------------------------------ *)
(** ** The rest of the DHCPv6 client                                   *)
(* ------------------------------------------------------------------ *)

Section Dhcpv6Rest.

Variable lib : Dhcpv6.Common.

(** *** The DECLINE state *)

Lemma iaNaLoop_keeps_below_decline fuel m l s i :
  keeps (fun c => 0 <= Dhcpv6.state c <= 7)
    (Dhcpv6.iaNaLoop lib fuel m l s i).
Proof.
  revert i. induction fuel as [|fuel IH]; intros i; cbn [Dhcpv6.iaNaLoop].
  - stable_all.
  - unfold_dhcpv6. stable_all; try apply IH; ctx_kept.
Qed.

Lemma dhcpv6Call_keeps_below_decline (call : Runs.Dhcpv6Call) :
  keeps (fun c => 0 <= Dhcpv6.state c <= 7) (Runs.dhcpv6Call lib call).
Proof.
  destruct call; cbn [Runs.dhcpv6Call].
  - unfold Dhcpv6.dhcpv6ClientStart. stable_all; ctx_kept.
  - unfold Dhcpv6.dhcpv6ClientStop. stable_all; ctx_kept.
  - unfold Dhcpv6.dhcpv6ClientGetState. stable_all; ctx_kept.
  - unfold_dhcpv6. stable_all; ctx_kept.
  - unfold_dhcpv6. stable_all; ctx_kept.
  - unfold_dhcpv6. stable_all;
      try apply iaNaLoop_keeps_below_decline; ctx_kept.
Qed.

Lemma dhcpv6ClientInit_state s w :
  eval (Dhcpv6.dhcpv6ClientInit lib Ref (Some s)) w = NO_ERROR ->
  Dhcpv6.state (ctx (exec (Dhcpv6.dhcpv6ClientInit lib Ref (Some s)) w)) =
  Dhcpv6.DHCPV6_STATE_INIT.
Proof.
  unfold Dhcpv6.dhcpv6ClientInit, Dhcpv6.osCreateMutex,
    Dhcpv6.udpAttachRxCallback, Dhcpv6.osDeleteMutex.
  unfold_monad. cbn.
  repeat (split_if; cbn); try discriminate; intros _; reflexivity.
Qed.

(** X18.  No code path assigns the DECLINE state: a context reached
    from a successful init by any sequence of calls (start, stop,
    getState, tick, link change, incoming message) and of changes of
    the surroundings has a state between INIT and REBIND, never
    DECLINE. *)
Theorem decline_state_unreachable (w : World Dhcpv6.Dhcpv6ClientCtx) :
  Runs.dhcpv6Reachable lib w ->
  Dhcpv6.DHCPV6_STATE_INIT <= Dhcpv6.state (ctx w)
    <= Dhcpv6.DHCPV6_STATE_REBIND /\
  Dhcpv6.state (ctx w) <> Dhcpv6.DHCPV6_STATE_DECLINE.
Proof.
  intros H.
  assert (I : 0 <= Dhcpv6.state (ctx w) <= 7).
  { induction H as [w s Hinit | w c _ IH | w i e _ IH].
    - rewrite dhcpv6ClientInit_state by exact Hinit.
      autounfold with states. lia.
    - exact (dhcpv6Call_keeps_below_decline c w IH).
    - exact IH. }
  autounfold with states. lia.
Qed.

(** *** What the client puts on the wire *)

Ltac traffic6_kept :=
  let w := fresh "w" in
  let H := fresh "H" in
  intros w H; cbn [out ctx netif env randPos] in *;
  first [ exact H
        | apply Forall_app; split;
          [ exact H
          | constructor; [ cbn; repeat split | constructor ] ] ].

Lemma iaNaLoop_traffic fuel m l s i :
  stable (fun w => Forall dhcpv6Traffic (out w))
    (Dhcpv6.iaNaLoop lib fuel m l s i).
Proof.
  revert i. induction fuel as [|fuel IH]; intros i; cbn [Dhcpv6.iaNaLoop].
  - stable_all.
  - unfold_dhcpv6. stable_all; try apply IH; traffic6_kept.
Qed.

(** X19.  Whatever the DHCPv6 client is asked to do (start, stop,
    getState, tick, link change, incoming message), what it sends is
    a Router Solicitation or a DHCPv6 message from UDP port 546 to
    UDP port 547 of the All_DHCP_Relay_Agents_and_Servers address
    ff02::1:2: a trace that holds nothing else before the call holds
    nothing else after it.  The client never sends to a unicast
    address. *)
Theorem dhcpv6_traffic (call : Runs.Dhcpv6Call)
    (w : World Dhcpv6.Dhcpv6ClientCtx) :
  Forall dhcpv6Traffic (out w) ->
  Forall dhcpv6Traffic (out (exec (Runs.dhcpv6Call lib call) w)).
Proof.
  revert w.
  change (stable (fun w => Forall dhcpv6Traffic (out w))
            (Runs.dhcpv6Call lib call)).
  destruct call; cbn [Runs.dhcpv6Call].
  - unfold Dhcpv6.dhcpv6ClientStart. stable_all; traffic6_kept.
  - unfold Dhcpv6.dhcpv6ClientStop. stable_all; traffic6_kept.
  - unfold Dhcpv6.dhcpv6ClientGetState. stable_all; traffic6_kept.
  - unfold_dhcpv6. stable_all; traffic6_kept.
  - unfold_dhcpv6. stable_all; traffic6_kept.
  - unfold_dhcpv6. stable_all; try apply iaNaLoop_traffic; traffic6_kept.
Qed.

(** *** Advertise messages *)

Lemma dhcpv6ChangeState_run (newState delay : Z)
    (w : World Dhcpv6.Dhcpv6ClientCtx) :
  Dhcpv6.dhcpv6ChangeState newState delay w =
  (tt,
   mkWorld
     (Dhcpv6.set_state newState
        (Dhcpv6.set_retransmitCount 0
           (Dhcpv6.set_timeout (wrap32 delay)
              (Dhcpv6.set_timestamp (wrap32 (env_time (env w))) (ctx w)))))
     (netif w) (env w) (randPos w)
     (out w ++ stateChangeCalls
                 (Dhcpv6.stateChangeEvent (Dhcpv6.settings (ctx w)))
                 newState)).
Proof.
  unfold Dhcpv6.dhcpv6ChangeState, stateChangeCalls. unfold_monad. cbn.
  destruct (Dhcpv6.stateChangeEvent (Dhcpv6.settings (ctx w))); cbn.
  - rewrite <- !app_assoc. reflexivity.
  - rewrite app_nil_r. reflexivity.
Qed.

Lemma dhcpv6ParseReply_not_reply message length w :
  msgType message <> Dhcpv6.DHCPV6_MSG_TYPE_REPLY ->
  Dhcpv6.dhcpv6ParseReply lib message length w = (ERROR_INVALID_MESSAGE, w).
Proof.
  intros H. unfold Dhcpv6.dhcpv6ParseReply. unfold_monad.
  destruct (length <? Dhcpv6.sizeofDhcpv6Message); [ reflexivity | ].
  destruct (Z.eqb_spec (msgType message) Dhcpv6.DHCPV6_MSG_TYPE_REPLY);
    [ contradiction | reflexivity ].
Qed.

(** X20.  An Advertise that passes the tests of dhcpv6ParseAdvertise
    is weighed by its Preference option (one byte; 0 when the option
    is missing or of another size).  The server is recorded only when
    its preference is strictly above the one recorded so far, so the
    context keeps the highest preference seen and, among equals, the
    first server.  The client goes on to REQUEST at once when the
    preference is 255 or when more than one Solicit was sent; it
    stays in its state otherwise.  Nothing is sent and the interface
    is not touched. *)
Theorem advertise_preference (w : World Dhcpv6.Dhcpv6ClientCtx)
    (message : Dhcpv6Message) (length : Z) (o s : Dhcpv6Option) :
  let c := ctx w in
  let n := wrap32 (length - Dhcpv6.sizeofDhcpv6Message) in
  let opts := dhcpv6_options message in
  let r := Dhcpv6.dhcpv6ParseAdvertise lib message length w in
  let c' := ctx (snd r) in
  let pref := advertisedPreference lib message length in
  msgType message = Dhcpv6.DHCPV6_MSG_TYPE_ADVERTISE ->
  Dhcpv6.sizeofDhcpv6Message <= length ->
  LOAD24BE (transactionId6 message) = Dhcpv6.transactionId c ->
  Dhcpv6.dhcpv6GetOption lib opts n Dhcpv6.DHCPV6_OPTION_CLIENTID = Some o ->
  ntohs (opt6_length o) = Dhcpv6.clientIdLength c ->
  memeq (opt6_value o) (Dhcpv6.clientId c)
    (Z.to_nat (Dhcpv6.clientIdLength c)) = true ->
  Dhcpv6.dhcpv6GetOption lib opts n Dhcpv6.DHCPV6_OPTION_SERVERID = Some s ->
  0 < ntohs (opt6_length s) < Dhcpv6.DHCPV6_MAX_DUID_SIZE lib ->
  Dhcpv6.dhcpv6ParseStatusCodeOption lib opts n = NO_ERROR ->
  fst r = NO_ERROR /\
  0 <= pref <= 255 /\
  Dhcpv6.serverPreference c' = Z.max (Dhcpv6.serverPreference c) pref /\
  (pref > Dhcpv6.serverPreference c ->
   Dhcpv6.serverIdLength c' = ntohs (opt6_length s) /\
   Dhcpv6.serverId c' =
     Dhcpv6.memcpy (Dhcpv6.serverId c) (opt6_value s)
       (ntohs (opt6_length s))) /\
  (pref <= Dhcpv6.serverPreference c ->
   Dhcpv6.serverIdLength c' = Dhcpv6.serverIdLength c /\
   Dhcpv6.serverId c' = Dhcpv6.serverId c) /\
  (pref = Dhcpv6.DHCPV6_MAX_SERVER_PREFERENCE \/
   Dhcpv6.retransmitCount c > 1 ->
   Dhcpv6.state c' = Dhcpv6.DHCPV6_STATE_REQUEST /\
   Dhcpv6.retransmitCount c' = 0 /\ Dhcpv6.timeout c' = 0) /\
  (pref <> Dhcpv6.DHCPV6_MAX_SERVER_PREFERENCE ->
   Dhcpv6.retransmitCount c <= 1 ->
   Dhcpv6.state c' = Dhcpv6.state c /\
   Dhcpv6.retransmitCount c' = Dhcpv6.retransmitCount c /\
   Dhcpv6.timeout c' = Dhcpv6.timeout c) /\
  netif (snd r) = netif w /\
  extendsQuietly (out w) (out (snd r)).
Proof.
  cbv zeta. intros Htype Hlen Hxid Ho Hol Hom Hs Hsl Hst.
  assert (Hpref : 0 <= advertisedPreference lib message length <= 255).
  { unfold advertisedPreference.
    destruct (Dhcpv6.dhcpv6GetOption lib (dhcpv6_options message)
                (wrap32 (length - Dhcpv6.sizeofDhcpv6Message))
                Dhcpv6.DHCPV6_OPTION_PREFERENCE) as [p|]; [ | lia ].
    destruct (ntohs (opt6_length p) =? Dhcpv6.sizeofDhcpv6PreferenceOption);
      [ apply byteAt_range | lia ]. }
  unfold Dhcpv6.dhcpv6ParseAdvertise.
  rewrite run_bind. cbn [getCtx fst snd].
  rewrite run_bind.
  assert (Hreply :
    (if Dhcpv6.rapidCommit (Dhcpv6.settings (ctx w))
     then error <- Dhcpv6.dhcpv6ParseReply lib message length ;;
          ret (negb (is_error error))
     else ret false) w = (false, w)).
  { destruct (Dhcpv6.rapidCommit (Dhcpv6.settings (ctx w))); [ | reflexivity ].
    rewrite run_bind, dhcpv6ParseReply_not_reply
      by (rewrite Htype; discriminate).
    reflexivity. }
  rewrite Hreply. cbn [fst snd]. clear Hreply.
  rewrite run_bind. cbn [getCtx fst snd].
  rewrite Htype, Hxid, Ho, Hol, Hom, Hs, Hst. rewrite !Z.eqb_refl.
  cbn [negb is_error].
  destruct (Z.ltb_spec length Dhcpv6.sizeofDhcpv6Message); [ lia | ].
  destruct (Z.eqb_spec (ntohs (opt6_length s)) 0); [ lia | ].
  destruct (Z.geb_spec (ntohs (opt6_length s))
              (Dhcpv6.DHCPV6_MAX_DUID_SIZE lib)); [ lia | ].
  fold (advertisedPreference lib message length).
  set (pref := advertisedPreference lib message length) in *.
  unfold Dhcpv6.recordServerId. unfold_monad.
  cbn -[Dhcpv6.dhcpv6ChangeState Z.max].
  destruct (Z.gtb_spec pref (Dhcpv6.serverPreference (ctx w))) as [Hgt|Hle];
    destruct (Z.eqb_spec pref Dhcpv6.DHCPV6_MAX_SERVER_PREFERENCE)
      as [Hmax|Hmax];
    try destruct (Z.gtb_spec (Dhcpv6.retransmitCount (ctx w)) 1)
      as [Hrc|Hrc];
    cbn -[Dhcpv6.dhcpv6ChangeState Z.max];
    rewrite ?dhcpv6ChangeState_run; cbn -[Z.max].
  all: split; [ reflexivity | ].
  all: split; [ exact Hpref | ].
  all: split; [ lia | ].
  all: split; [ intros; first [ lia | split; reflexivity ] | ].
  all: split; [ intros; first [ lia | split; reflexivity ] | ].
  all: split; [ intros;
                first [ repeat split; reflexivity
                      | unfold Dhcpv6.DHCPV6_MAX_SERVER_PREFERENCE in *; lia ]
              | ].
  all: split; [ intros; first [ lia | repeat split; reflexivity ] | ].
  all: split; [ reflexivity | ].
  all: first [ apply extendsQuietly_refl
             | apply extendsQuietly_app; apply stateChangeCalls_quiet ].
Qed.

(** *** Randomization *)

Lemma int32_id (z : Z) : - 2 ^ 31 <= z < 2 ^ 31 -> int32 z = z.
Proof.
  intros H. unfold int32, wrap32.
  destruct (Z_lt_le_dec z 0) as [Hneg | Hpos].
  - replace (z mod 2 ^ 32) with (z + 2 ^ 32)
      by (apply (Z.mod_unique z (2 ^ 32) (-1) (z + 2 ^ 32)); lia).
    destruct (Z.ltb_spec (z + 2 ^ 32) (2 ^ 31)); lia.
  - rewrite Z.mod_small by lia.
    destruct (Z.ltb_spec z (2 ^ 31)); lia.
Qed.

Lemma dhcpv6RandRange_bounds (min max : Z) (w : World Dhcpv6.Dhcpv6ClientCtx) :
  - 2 ^ 31 <= min -> min <= max -> max < 2 ^ 31 -> max - min + 1 < 2 ^ 32 ->
  min <= fst (Dhcpv6.dhcpv6RandRange min max w) <= max.
Proof.
  intros H1 H2 H3 H4. unfold Dhcpv6.dhcpv6RandRange, netGetRand. unfold_monad.
  cbn [fst snd].
  rewrite (wrap32_small (max - min + 1)) by lia.
  pose proof (Z.mod_pos_bound (wrap32 (env_rand (env w) (randPos w)))
                (max - min + 1)) as Hm.
  rewrite int32_id; lia.
Qed.

Lemma dhcpv6Rand_bounds (value : Z) (w : World Dhcpv6.Dhcpv6ClientCtx) :
  0 <= value <= 21474836 ->
  - (value / 10) <= fst (Dhcpv6.dhcpv6Rand value w) <= value / 10.
Proof.
  intros Hv. unfold Dhcpv6.dhcpv6Rand. rewrite run_bind.
  pose proof (dhcpv6RandRange_bounds (-100) 100 w) as Hr.
  set (r := fst (Dhcpv6.dhcpv6RandRange (-100) 100 w)) in *.
  cbn [ret fst].
  assert (Hr' : -100 <= r <= 100) by (apply Hr; lia). clear Hr.
  assert (Hp : - (100 * value) <= value * r <= 100 * value) by nia.
  rewrite int32_id by lia.
  assert (Hten : 100 * value / 1000 = value / 10).
  { replace (100 * value) with (value * 100) by lia.
    change 1000 with (10 * 100).
    rewrite Z.div_mul_cancel_r by lia. reflexivity. }
  destruct (Z_lt_le_dec (value * r) 0) as [Hneg | Hpos].
  - replace (value * r) with (- (- (value * r))) by lia.
    rewrite Z.quot_opp_l by lia.
    rewrite Z.quot_div_nonneg by lia.
    assert (- (value * r) / 1000 <= 100 * value / 1000)
      by (apply Z.div_le_mono; lia).
    assert (0 <= - (value * r) / 1000) by (apply Z.div_pos; lia).
    lia.
  - rewrite Z.quot_div_nonneg by lia.
    assert (value * r / 1000 <= 100 * value / 1000)
      by (apply Z.div_le_mono; lia).
    assert (0 <= value * r / 1000) by (apply Z.div_pos; lia).
    lia.
Qed.

Lemma randomizeTimeout_run (w : World Dhcpv6.Dhcpv6ClientCtx) :
  let t := Dhcpv6.timeout (ctx w) in
  0 <= t <= 21474836 ->
  exists t',
    t - t / 10 <= t' <= t + t / 10 /\
    Dhcpv6.randomizeTimeout w =
    (tt, mkWorld (Dhcpv6.set_timeout t' (ctx w)) (netif w) (env w)
           (S (randPos w)) (out w)).
Proof.
  cbv zeta. intros Ht.
  pose proof (dhcpv6Rand_bounds (Dhcpv6.timeout (ctx w)) w Ht) as Hb.
  assert (Hd : 0 <= Dhcpv6.timeout (ctx w) / 10 <= 2147484).
  { split; [ apply Z.div_pos; lia | ].
    apply Z.div_le_upper_bound; lia. }
  assert (Hq : Dhcpv6.timeout (ctx w) / 10 <= Dhcpv6.timeout (ctx w)).
  { apply Z.div_le_upper_bound; lia. }
  exists (Dhcpv6.timeout (ctx w) +
          fst (Dhcpv6.dhcpv6Rand (Dhcpv6.timeout (ctx w)) w)).
  split; [ lia | ].
  unfold Dhcpv6.randomizeTimeout.
  rewrite run_bind. cbn [getCtx fst snd]. rewrite run_bind.
  rewrite (int32_id (Dhcpv6.timeout (ctx w))) by lia.
  assert (Hw : snd (Dhcpv6.dhcpv6Rand (Dhcpv6.timeout (ctx w)) w) =
               mkWorld (ctx w) (netif w) (env w) (S (randPos w)) (out w)).
  { unfold Dhcpv6.dhcpv6Rand, Dhcpv6.dhcpv6RandRange, netGetRand.
    unfold_monad. reflexivity. }
  rewrite Hw. unfold modifyCtx. cbn [ctx netif env randPos out].
  rewrite wrap32_small by lia. reflexivity.
Qed.

(** X21.  The randomization of a retransmission timeout.
    dhcpv6RandRange draws a value between its bounds; dhcpv6Rand of a
    timeout of at most 21474836 ms, for which the product by 100 fits
    an int32_t, is at most a tenth of it in absolute value; so
    [timeout += dhcpv6Rand(timeout)] leaves the timeout within 10 % of
    its value, takes one value from the random source and changes
    nothing else. *)
Theorem randomization_within_tenth (w : World Dhcpv6.Dhcpv6ClientCtx) :
  let t := Dhcpv6.timeout (ctx w) in
  let w' := exec Dhcpv6.randomizeTimeout w in
  0 <= t <= 21474836 ->
  t - t / 10 <= Dhcpv6.timeout (ctx w') <= t + t / 10 /\
  Dhcpv6.state (ctx w') = Dhcpv6.state (ctx w) /\
  Dhcpv6.retransmitCount (ctx w') = Dhcpv6.retransmitCount (ctx w) /\
  Dhcpv6.timestamp (ctx w') = Dhcpv6.timestamp (ctx w) /\
  randPos w' = S (randPos w) /\
  netif w' = netif w /\ out w' = out w.
Proof.
  cbv zeta. intros Ht.
  destruct (randomizeTimeout_run w Ht) as (t' & Hb & E).
  unfold exec. rewrite E. cbn. repeat split; lia.
Qed.

(** *** Reply messages *)

Lemma writesUpTo_dns_frame (a : nat -> Ipv6Addr) (n : nat) (i : NetInterface) :
  let i' := writesUpTo n (fun k => set_ipv6_dnsServer k (a k)) i in
  linkLocalAddr (ipv6Config i') = linkLocalAddr (ipv6Config i).
Proof.
  induction n as [|n IH]; cbn [writesUpTo]; [ reflexivity | ].
  cbv zeta in IH. rewrite <- IH. reflexivity.
Qed.

Lemma dnsServers_run (option : option Dhcpv6Option)
    (w : World Dhcpv6.Dhcpv6ClientCtx) :
  exists i',
    linkLocalAddr (ipv6Config i') = linkLocalAddr (ipv6Config (netif w)) /\
    match option with
    | Some option =>
        when (ntohs (opt6_length option) mod Dhcpv6.sizeofIpv6Addr =? 0)
          (let n := ntohs (opt6_length option) / Dhcpv6.sizeofIpv6Addr in
           let n := MIN n (Dhcpv6.IPV6_MAX_DNS_SERVERS lib) in
           forUpTo (Z.to_nat n)
             (fun j =>
                modifyIf
                  (set_ipv6_dnsServer j
                     (firstn 16 (skipn (j * 16) (opt6_value option))))))
    | None => ret tt
    end w = (tt, mkWorld (ctx w) i' (env w) (randPos w) (out w)).
Proof.
  destruct option as [o|]; [ | exists (netif w); destruct w; split; reflexivity ].
  unfold when.
  destruct (ntohs (opt6_length o) mod Dhcpv6.sizeofIpv6Addr =? 0);
    [ | exists (netif w); destruct w; split; reflexivity ].
  cbv zeta. unfold modifyIf.
  exists (writesUpTo
            (Z.to_nat (MIN (ntohs (opt6_length o) / Dhcpv6.sizeofIpv6Addr)
                         (Dhcpv6.IPV6_MAX_DNS_SERVERS lib)))
            (fun k => set_ipv6_dnsServer k
                        (firstn 16 (skipn (k * 16) (opt6_value o))))
            (netif w)).
  split.
  - apply (writesUpTo_dns_frame
             (fun k => firstn 16 (skipn (k * 16) (opt6_value o)))).
  - apply (forUpTo_modifyIf _
             (fun k => set_ipv6_dnsServer k
                         (firstn 16 (skipn (k * 16) (opt6_value o))))).
Qed.

Lemma commitReply_bound message length s w :
  Dhcpv6.preferredLifetime (ctx w) <= Dhcpv6.validLifetime (ctx w) ->
  boundBy s w (snd (Dhcpv6.commitReply lib message length s w)).
Proof.
  intros Hpv. unfold Dhcpv6.commitReply, Dhcpv6.recordServerId.
  rewrite !run_bind.
  match goal with
  | |- context [match ?o with Some _ => _ | None => _ end ?w0] =>
      destruct (dnsServers_run o w0) as (i' & Hll & E)
  end.
  cbv zeta in E. rewrite E. clear E.
  rewrite dhcpv6ChangeState_run. unfold_monad.
  cbn [fst snd ctx netif env randPos out] in *.
  unfold boundBy. cbn.
  repeat split; try reflexivity; try assumption.
  apply extendsQuietly_app, stateChangeCalls_quiet.
Qed.

Lemma iaNaLoop_outcome fuel message length s : forall i w,
  let r := Dhcpv6.iaNaLoop lib fuel message length s i w in
  (fst r = NO_ERROR -> boundBy s w (snd r)) /\
  (fst r <> NO_ERROR -> snd r = w).
Proof.
  cbv zeta.
  induction fuel as [|fuel IH]; intros i w; cbn [Dhcpv6.iaNaLoop].
  - split; [ discriminate | reflexivity ].
  - destruct (i <? length); [ | split; [ discriminate | reflexivity ] ].
    match goal with
    | |- context [match ?o with Some _ => _ | None => _ end] =>
        destruct o as [option|]
    end; [ | split; [ discriminate | reflexivity ] ].
    rewrite run_bind.
    destruct (dhcpv6ParseIaNaOption_cases lib option w)
      as [E | (_ & sub & _ & Hpv & E)];
      cbv zeta in E; rewrite E; cbn [fst snd is_error].
    + apply IH.
    + rewrite run_bind. cbn [ret fst snd].
      split; [ intros _ | intros H; contradiction H; reflexivity ].
      match goal with
      | |- boundBy _ _ (snd (Dhcpv6.commitReply _ _ _ _ ?w1)) =>
          pose proof (commitReply_bound message length s w1) as Hb
      end.
      cbv zeta in Hpv.
      unfold boundBy in *. cbn [ctx netif env out] in Hb. apply Hb.
      unfold iaNaCommitted. cbn. exact Hpv.
Qed.

Lemma reply_continue message n s w :
  let r :=
    (let error :=
       Dhcpv6.dhcpv6ParseStatusCodeOption lib (dhcpv6_options message) n in
     if is_error error then ret error
     else Dhcpv6.iaNaLoop lib (Z.to_nat n) message n s 0) w in
  (fst r = NO_ERROR -> boundBy s w (snd r)) /\
  (fst r <> NO_ERROR -> snd r = w).
Proof.
  cbv zeta.
  destruct (is_error (Dhcpv6.dhcpv6ParseStatusCodeOption lib
                        (dhcpv6_options message) n)) eqn:E.
  - cbn [ret fst snd]. split; [ | reflexivity ].
    intros H. rewrite H in E. discriminate.
  - apply iaNaLoop_outcome.
Qed.

Ltac reject :=
  repeat split; intros; try discriminate; try reflexivity; try congruence.

(** X22.  What dhcpv6ParseReply does with a message.  When it returns
    NO_ERROR the client is BOUND: the address of the IA Address
    option is the global address of the interface, in the VALID
    state, the length of the Server Identifier option is recorded,
    the lease starts at the time of the call, the preferred lifetime
    does not exceed the valid lifetime, the link-local address is not
    touched and nothing is sent.  When it returns an error in a state
    other than SOLICIT, nothing at all has changed.  In the SOLICIT
    state without the rapid commit setting, every message is rejected
    with ERROR_INVALID_MESSAGE and nothing changes. *)
Theorem reply_outcome (w : World Dhcpv6.Dhcpv6ClientCtx)
    (message : Dhcpv6Message) (length : Z) :
  let r := Dhcpv6.dhcpv6ParseReply lib message length w in
  (fst r = NO_ERROR ->
   exists s,
     Dhcpv6.dhcpv6GetOption lib (dhcpv6_options message)
       (wrap32 (length - Dhcpv6.sizeofDhcpv6Message))
       Dhcpv6.DHCPV6_OPTION_SERVERID = Some s /\
     boundBy s w (snd r)) /\
  (fst r <> NO_ERROR ->
   Dhcpv6.state (ctx w) <> Dhcpv6.DHCPV6_STATE_SOLICIT ->
   snd r = w) /\
  (Dhcpv6.state (ctx w) = Dhcpv6.DHCPV6_STATE_SOLICIT ->
   Dhcpv6.rapidCommit (Dhcpv6.settings (ctx w)) = false ->
   r = (ERROR_INVALID_MESSAGE, w)).
Proof.
  cbv zeta. unfold Dhcpv6.dhcpv6ParseReply.
  rewrite run_bind. cbn [getCtx fst snd].
  destruct (length <? Dhcpv6.sizeofDhcpv6Message); [ reject | ].
  destruct (negb (msgType message =? Dhcpv6.DHCPV6_MSG_TYPE_REPLY));
    [ reject | ].
  destruct (negb (LOAD24BE (transactionId6 message) =?
                  Dhcpv6.transactionId (ctx w))); [ reject | ].
  destruct (Dhcpv6.dhcpv6GetOption lib (dhcpv6_options message)
              (wrap32 (length - Dhcpv6.sizeofDhcpv6Message))
              Dhcpv6.DHCPV6_OPTION_CLIENTID) as [o|]; [ | reject ].
  destruct (negb (ntohs (opt6_length o) =? Dhcpv6.clientIdLength (ctx w)));
    [ reject | ].
  destruct (negb (memeq (opt6_value o) (Dhcpv6.clientId (ctx w))
                    (Z.to_nat (Dhcpv6.clientIdLength (ctx w)))));
    [ reject | ].
  destruct (Dhcpv6.dhcpv6GetOption lib (dhcpv6_options message)
              (wrap32 (length - Dhcpv6.sizeofDhcpv6Message))
              Dhcpv6.DHCPV6_OPTION_SERVERID) as [s|]; [ | reject ].
  destruct (ntohs (opt6_length s) =? 0); [ reject | ].
  destruct (ntohs (opt6_length s) >=? Dhcpv6.DHCPV6_MAX_DUID_SIZE lib);
    [ reject | ].
  pose proof (fun w1 => reply_continue message
                          (wrap32 (length - Dhcpv6.sizeofDhcpv6Message)) s w1)
    as Hc.
  cbv zeta in Hc.
  destruct (Z.eqb_spec (Dhcpv6.state (ctx w)) Dhcpv6.DHCPV6_STATE_SOLICIT)
    as [Hs|Hs].
  - destruct (Dhcpv6.rapidCommit (Dhcpv6.settings (ctx w))) eqn:Hrc;
      cbn [negb]; [ | reject ].
    destruct (Dhcpv6.dhcpv6GetOption lib (dhcpv6_options message)
                (wrap32 (length - Dhcpv6.sizeofDhcpv6Message))
                Dhcpv6.DHCPV6_OPTION_RAPID_COMMIT) as [rc|]; [ | reject ].
    destruct (negb (ntohs (opt6_length rc) =? 0)); [ reject | ].
    rewrite run_bind.
    split; [ | split; [ intros _ H; contradiction | discriminate ] ].
    intros H. exists s. split; [ reflexivity | ].
    apply Hc in H. unfold Dhcpv6.recordServerId in *.
    unfold boundBy in *. revert H. unfold_monad.
    cbn [fst snd ctx netif env randPos out]. exact (fun H => H).
  - split; [ | split; [ | intros H; contradiction ] ].
    + intros H. exists s. split; [ reflexivity | ]. revert H.
      destruct ((Dhcpv6.state (ctx w) =? Dhcpv6.DHCPV6_STATE_REQUEST)
                || (Dhcpv6.state (ctx w) =? Dhcpv6.DHCPV6_STATE_RENEW));
        [ | apply Hc ].
      destruct (negb (ntohs (opt6_length s) =?
                      Dhcpv6.serverIdLength (ctx w))); [ discriminate | ].
      destruct (negb (memeq (opt6_value s) (Dhcpv6.serverId (ctx w))
                        (Z.to_nat (Dhcpv6.serverIdLength (ctx w)))));
        [ discriminate | ].
      apply Hc.
    + intros H _. revert H.
      destruct ((Dhcpv6.state (ctx w) =? Dhcpv6.DHCPV6_STATE_REQUEST)
                || (Dhcpv6.state (ctx w) =? Dhcpv6.DHCPV6_STATE_RENEW));
        [ | apply Hc ].
      destruct (negb (ntohs (opt6_length s) =?
                      Dhcpv6.serverIdLength (ctx w))); [ reflexivity | ].
      destruct (negb (memeq (opt6_value s) (Dhcpv6.serverId (ctx w))
                        (Z.to_nat (Dhcpv6.serverIdLength (ctx w)))));
        [ reflexivity | ].
      apply Hc.
Qed.

(** *** The state machine *)

Ltac dhcpv6_dispatch Hs :=
  unfold Dhcpv6.dhcpv6ClientTick; unfold_monad;
  cbn -[Dhcpv6.dhcpv6StateInit Dhcpv6.dhcpv6StateSolicit
        Dhcpv6.dhcpv6StateRequest Dhcpv6.dhcpv6StateInitConfirm
        Dhcpv6.dhcpv6StateConfirm Dhcpv6.dhcpv6StateBound
        Dhcpv6.dhcpv6StateRenew Dhcpv6.dhcpv6StateRebind];
  rewrite Hs; reflexivity.

Lemma dhcpv6ClientTick_init (w : World Dhcpv6.Dhcpv6ClientCtx) :
  Dhcpv6.state (ctx w) = Dhcpv6.DHCPV6_STATE_INIT ->
  exec (Dhcpv6.dhcpv6ClientTick lib) w =
  exec (osAcquireMutex ;; Dhcpv6.dhcpv6StateInit ;; osReleaseMutex) w.
Proof. intros Hs. dhcpv6_dispatch Hs. Qed.

Lemma dhcpv6ClientTick_initConfirm (w : World Dhcpv6.Dhcpv6ClientCtx) :
  Dhcpv6.state (ctx w) = Dhcpv6.DHCPV6_STATE_INIT_CONFIRM ->
  exec (Dhcpv6.dhcpv6ClientTick lib) w =
  exec (osAcquireMutex ;; Dhcpv6.dhcpv6StateInitConfirm ;; osReleaseMutex) w.
Proof. intros Hs. dhcpv6_dispatch Hs. Qed.

Lemma dhcpv6ClientTick_request (w : World Dhcpv6.Dhcpv6ClientCtx) :
  Dhcpv6.state (ctx w) = Dhcpv6.DHCPV6_STATE_REQUEST ->
  exec (Dhcpv6.dhcpv6ClientTick lib) w =
  exec (osAcquireMutex ;; Dhcpv6.dhcpv6StateRequest lib ;; osReleaseMutex) w.
Proof. intros Hs. dhcpv6_dispatch Hs. Qed.




Lemma dhcpv6ClientTick_starts (w : World Dhcpv6.Dhcpv6ClientCtx) :
  let c := ctx w in
  let w' := exec (Dhcpv6.dhcpv6ClientTick lib) w in
  let c' := ctx w' in
  Dhcpv6.state c = Dhcpv6.DHCPV6_STATE_INIT \/
  Dhcpv6.state c = Dhcpv6.DHCPV6_STATE_INIT_CONFIRM ->
  Dhcpv6.running c = true -> linkState (netif w) = true ->
  Dhcpv6.state c' = Dhcpv6.state c + 1 /\
  0 <= Dhcpv6.timeout c' <= 1000 /\
  Dhcpv6.timestamp c' = wrap32 (env_time (env w)) /\
  Dhcpv6.retransmitCount c' = 0 /\
  Dhcpv6.configStartTime c' = wrap32 (env_time (env w)) /\
  Dhcpv6.timeoutEventDone c' = false /\
  netif w' = netif w /\
  out w' = out w ++ [EvAcquireMutex] ++
           stateChangeCalls (Dhcpv6.stateChangeEvent (Dhcpv6.settings c))
             (Dhcpv6.state c + 1) ++ [EvReleaseMutex].
Proof.
  cbv zeta. intros Hs Hr Hl.
  assert (Hd : forall w0 : World Dhcpv6.Dhcpv6ClientCtx,
             0 <= fst (Dhcpv6.dhcpv6RandRange 0 1000 w0) <= 1000).
  { intros w0. apply dhcpv6RandRange_bounds; lia. }
  assert (Hw : forall w0 : World Dhcpv6.Dhcpv6ClientCtx,
             snd (Dhcpv6.dhcpv6RandRange 0 1000 w0) =
             mkWorld (ctx w0) (netif w0) (env w0) (S (randPos w0)) (out w0)).
  { intros w0. reflexivity. }
  destruct Hs as [Hs | Hs];
    [ rewrite dhcpv6ClientTick_init by exact Hs
    | rewrite dhcpv6ClientTick_initConfirm by exact Hs ];
    rewrite Hs;
    unfold Dhcpv6.dhcpv6StateInit, Dhcpv6.dhcpv6StateInitConfirm,
      Dhcpv6.DHCPV6_CLIENT_SOL_MAX_DELAY, Dhcpv6.DHCPV6_CLIENT_CNF_MAX_DELAY;
    unfold_monad;
    cbn -[Dhcpv6.dhcpv6ChangeState Dhcpv6.dhcpv6RandRange];
    rewrite Hr, Hl;
    cbn -[Dhcpv6.dhcpv6ChangeState Dhcpv6.dhcpv6RandRange];
    match goal with
    | |- context [Dhcpv6.dhcpv6RandRange 0 1000 ?w0] =>
        pose proof (Hd w0) as Hb; pose proof (Hw w0) as Hw0;
        destruct (Dhcpv6.dhcpv6RandRange 0 1000 w0) as [a w1]
    end;
    cbn [fst snd ctx netif env randPos out] in Hb, Hw0; subst w1;
    rewrite dhcpv6ChangeState_run; cbn;
    rewrite <- !app_assoc;
    rewrite wrap32_small by lia;
    repeat split; try reflexivity; try lia.
Qed.

(** X23.  Starting a configuration.  In INIT and in INIT-CONFIRM, a
    tick of a running client whose link is up moves to SOLICIT,
    respectively CONFIRM, and arms the timer with a random delay of 0
    to 1000 ms (SOL_MAX_DELAY, CNF_MAX_DELAY); it records the start of
    the configuration, re-arms the timeout event and sends nothing.
    When the client is stopped or the link is down the tick does
    nothing. *)
Theorem first_message_delay (w : World Dhcpv6.Dhcpv6ClientCtx) :
  let c := ctx w in
  let w' := exec (Dhcpv6.dhcpv6ClientTick lib) w in
  let c' := ctx w' in
  Dhcpv6.state c = Dhcpv6.DHCPV6_STATE_INIT \/
  Dhcpv6.state c = Dhcpv6.DHCPV6_STATE_INIT_CONFIRM ->
  (Dhcpv6.running c = true -> linkState (netif w) = true ->
   Dhcpv6.state c' = Dhcpv6.state c + 1 /\
   0 <= Dhcpv6.timeout c' <= 1000 /\
   Dhcpv6.timestamp c' = wrap32 (env_time (env w)) /\
   Dhcpv6.retransmitCount c' = 0 /\
   Dhcpv6.configStartTime c' = wrap32 (env_time (env w)) /\
   Dhcpv6.timeoutEventDone c' = false /\
   netif w' = netif w /\
   out w' = out w ++ [EvAcquireMutex] ++
            stateChangeCalls (Dhcpv6.stateChangeEvent (Dhcpv6.settings c))
              (Dhcpv6.state c + 1) ++ [EvReleaseMutex]) /\
  (Dhcpv6.running c = false \/ linkState (netif w) = false ->
   w' = afterMutex w).
Proof.
  cbv zeta. intros Hs. split.
  - intros Hr Hl. exact (dhcpv6ClientTick_starts w Hs Hr Hl).
  - intros Hidle.
    destruct Hs as [Hs | Hs];
      [ rewrite dhcpv6ClientTick_init by exact Hs
      | rewrite dhcpv6ClientTick_initConfirm by exact Hs ];
      unfold Dhcpv6.dhcpv6StateInit, Dhcpv6.dhcpv6StateInitConfirm;
      unfold_monad;
      cbn -[Dhcpv6.dhcpv6ChangeState Dhcpv6.dhcpv6RandRange];
      destruct Hidle as [Hr | Hl]; rewrite ?Hr, ?Hl;
      destruct (Dhcpv6.running (ctx w)); cbn; apply afterMutex_out.
Qed.

(** *** Retransmission of requests *)

Lemma sends_app (o evs : list Event) : sends (o ++ evs) = (sends o + sends evs)%nat.
Proof. unfold sends. rewrite filter_app, length_app. reflexivity. Qed.

Lemma sends_stateChangeCalls (b : bool) (s : Z) :
  sends (stateChangeCalls b s) = 0%nat.
Proof. destruct b; reflexivity. Qed.

Lemma dhcpv6CheckTimeout_run (w : World Dhcpv6.Dhcpv6ClientCtx) :
  let c := ctx w in
  let fires :=
    Dhcpv6.timeoutEvent (Dhcpv6.settings c)
    && (timeCompare (wrap32 (env_time (env w)))
          (wrap32 (Dhcpv6.configStartTime c +
                   Dhcpv6.settings_timeout (Dhcpv6.settings c))) >=? 0)
    && negb (Dhcpv6.timeoutEventDone c) in
  Dhcpv6.dhcpv6CheckTimeout w =
  (tt,
   mkWorld (if fires then Dhcpv6.set_timeoutEventDone true c else c)
     (netif w) (env w) (randPos w)
     (out w ++ if fires
               then [EvReleaseMutex; EvTimeoutEvent; EvAcquireMutex]
               else [])).
Proof.
  cbv zeta. unfold Dhcpv6.dhcpv6CheckTimeout. unfold_monad. cbn.
  destruct (Dhcpv6.timeoutEvent (Dhcpv6.settings (ctx w)));
    [ | cbn; rewrite app_nil_r; destruct w; reflexivity ].
  destruct (timeCompare (wrap32 (env_time (env w)))
              (wrap32 (Dhcpv6.configStartTime (ctx w) +
                       Dhcpv6.settings_timeout (Dhcpv6.settings (ctx w))))
            >=? 0);
    [ | cbn; rewrite app_nil_r; destruct w; reflexivity ].
  destruct (Dhcpv6.timeoutEventDone (ctx w));
    [ cbn; rewrite app_nil_r; destruct w; reflexivity | ].
  cbn. rewrite <- !app_assoc. reflexivity.
Qed.

Lemma newTransactionId_run (w : World Dhcpv6.Dhcpv6ClientCtx) :
  exists xid,
    0 <= xid < 2 ^ 24 /\
    Dhcpv6.newTransactionId w =
    (tt, mkWorld (Dhcpv6.set_transactionId xid (ctx w)) (netif w) (env w)
           (S (randPos w)) (out w)).
Proof.
  exists (Z.land (wrap32 (env_rand (env w) (randPos w))) 0x00FFFFFF).
  split; [ | reflexivity ].
  change 0x00FFFFFF with (Z.ones 24).
  rewrite Z.land_ones by lia. apply Z.mod_pos_bound. lia.
Qed.

Lemma newTransactionId_exact (w : World Dhcpv6.Dhcpv6ClientCtx) :
  Dhcpv6.newTransactionId w =
  (tt, mkWorld
         (Dhcpv6.set_transactionId
            (Z.land (wrap32 (env_rand (env w) (randPos w))) 0x00FFFFFF)
            (ctx w))
         (netif w) (env w) (S (randPos w)) (out w)).
Proof. reflexivity. Qed.

Lemma transactionId_range (z : Z) : 0 <= Z.land z 0x00FFFFFF < 2 ^ 24.
Proof.
  change 0x00FFFFFF with (Z.ones 24).
  rewrite Z.land_ones by lia. apply Z.mod_pos_bound. lia.
Qed.

Lemma dhcpv6SendRequest_run (w : World Dhcpv6.Dhcpv6ClientCtx) :
  let c := ctx w in
  let hundredths :=
    wrap32 (wrap32 (env_time (env w)) - Dhcpv6.exchangeStartTime c) / 10 in
  let elapsed :=
    if Dhcpv6.retransmitCount c >? 0
    then htons (if hundredths >? 0xFFFF then 0xFFFF else hundredths)
    else htons 0 in
  let request :=
    Dhcpv6.addFqdn lib c
      (Dhcpv6.addElapsedTime lib elapsed
         (Dhcpv6.addOro lib
            (Dhcpv6.addIaNa lib (netif w)
               (Dhcpv6.addServerId lib c
                  (Dhcpv6.addClientId lib c
                     (mkDhcpv6Message Dhcpv6.DHCPV6_MSG_TYPE_REQUEST
                        (STORE24BE (Dhcpv6.transactionId c)) [])))))) in
  Dhcpv6.dhcpv6SendRequest lib w =
  (if env_alloc (env w) then NO_ERROR else ERROR_OUT_OF_MEMORY,
   mkWorld (ctx w) (netif w) (env w) (randPos w)
     (out w ++
      if env_alloc (env w)
      then [EvUdpSendDatagram Dhcpv6.DHCPV6_CLIENT_PORT
              (IpAddr6 DHCPV6_ALL_RELAY_AGENTS_AND_SERVERS_ADDR)
              Dhcpv6.DHCPV6_SERVER_PORT (PayloadDhcpv6 request) 0]
      else [])).
Proof.
  cbv zeta.
  unfold Dhcpv6.dhcpv6SendRequest, Dhcpv6.sendMessage, udpSendDatagramEx,
    udpAllocBuffer, Dhcpv6.dhcpv6ComputeElapsedTime.
  unfold_monad. cbn.
  destruct (env_alloc (env w)); cbn.
  - destruct (Dhcpv6.retransmitCount (ctx w) >? 0); reflexivity.
  - rewrite app_nil_r. destruct w; reflexivity.
Qed.

Lemma MIN_wrap32_bound (z cap : Z) :
  0 <= cap -> 0 <= MIN (wrap32 z) cap <= cap.
Proof.
  intros H. pose proof (wrap32_range z). unfold MIN.
  destruct (Z.ltb_spec (wrap32 z) cap); lia.
Qed.

Ltac run_request :=
  match goal with
  | |- context [Dhcpv6.newTransactionId ?w0] =>
      rewrite (newTransactionId_exact w0)
  | |- context [Dhcpv6.dhcpv6SendRequest lib ?w0] =>
      let E := fresh "E" in
      pose proof (dhcpv6SendRequest_run w0) as E; cbv zeta in E;
      rewrite E; clear E
  | |- context [Dhcpv6.randomizeTimeout ?w0] =>
      let t' := fresh "t'" in
      let Ht := fresh "Ht" in
      let E := fresh "E" in
      destruct (randomizeTimeout_run w0) as (t' & Ht & E);
      [ | rewrite E; clear E ]
  | |- context [Dhcpv6.dhcpv6CheckTimeout ?w0] =>
      rewrite (dhcpv6CheckTimeout_run w0)
  | |- context [Dhcpv6.dhcpv6ChangeState ?s ?d ?w0] =>
      rewrite (dhcpv6ChangeState_run s d w0)
  end;
  cbn -[Dhcpv6.newTransactionId Dhcpv6.dhcpv6SendRequest
        Dhcpv6.randomizeTimeout Dhcpv6.dhcpv6CheckTimeout
        Dhcpv6.dhcpv6ChangeState Z.mul Z.div Z.pow Z.add Z.sub Z.opp
        Z.land sends].

(** What is left once the tick has run: the fields of the context,
    read through the updates, and the count of the datagrams. *)
Ltac finish_request :=
  match goal with
  | |- context [if ?b then Dhcpv6.set_timeoutEventDone true _ else _] =>
      destruct b
  end;
  cbn [ctx netif env randPos out Dhcpv6.state Dhcpv6.retransmitCount
       Dhcpv6.timestamp Dhcpv6.timeout Dhcpv6.transactionId
       Dhcpv6.exchangeStartTime Dhcpv6.serverPreference
       Dhcpv6.set_timeoutEventDone Dhcpv6.set_retransmitCount
       Dhcpv6.set_timeout Dhcpv6.set_timestamp Dhcpv6.set_transactionId
       Dhcpv6.set_serverPreference Dhcpv6.set_state] in *;
  rewrite ?sends_app, ?sends_stateChangeCalls;
  change (sends [EvAcquireMutex]) with 0%nat;
  change (sends [EvReleaseMutex]) with 0%nat;
  change (sends [EvReleaseMutex; EvTimeoutEvent; EvAcquireMutex]) with 0%nat;
  change (sends [EvNdpSendRouterSol]) with 1%nat;
  change (sends []) with 0%nat;
  rewrite ?wrap32_small by lia;
  repeat split; intros; try reflexivity; try apply transactionId_range;
  try lia; try (Z.div_mod_to_equations; lia);
  try (destruct (env_alloc _); cbn; lia).

(** The trace of a tick that sends: the datagram, if a buffer was
    there, then the timeout callback, if it is due. *)
Ltac trace_of_tick := rewrite ?app_nil_r, <- ?app_assoc; reflexivity.

(** X24.  Retransmission of the Request.  In the REQUEST state, when
    the timer has expired: while fewer than 10 (REQ_MAX_RC)
    transmissions were made the client makes one more, stays in
    REQUEST, counts it and restarts the timer.  What it sends, from
    port 546 to port 547 of All_DHCP_Relay_Agents_and_Servers, is a
    message of type REQUEST with the transaction identifier of the
    context, the Client Identifier, the Server Identifier recorded,
    an IA_NA, the Option Request, the Elapsed Time and the FQDN
    options.  The first transmission takes a fresh 24-bit transaction
    identifier, reports no elapsed time and sets the retransmission
    timeout RT to 1000 ms (REQ_TIMEOUT); the next ones keep the
    identifier and set RT to twice the previous timeout, at most
    30000 ms (REQ_MAX_RT).  The timer is set to RT within 10 %.  The
    outcome of the send is not looked at: when no buffer can be
    allocated nothing is sent, and the transmission is counted all the
    same.  After 10 transmissions the client sends nothing and goes
    back to INIT. *)
Theorem request_retransmission (w : World Dhcpv6.Dhcpv6ClientCtx) :
  let c := ctx w in
  let now := wrap32 (env_time (env w)) in
  let w' := exec (Dhcpv6.dhcpv6ClientTick lib) w in
  let c' := ctx w' in
  let first := Dhcpv6.retransmitCount c =? 0 in
  let xid :=
    if first
    then Z.land (wrap32 (env_rand (env w) (randPos w))) 0x00FFFFFF
    else Dhcpv6.transactionId c in
  let rt :=
    if first then Dhcpv6.DHCPV6_CLIENT_REQ_TIMEOUT
    else MIN (wrap32 (Dhcpv6.timeout c * 2))
           Dhcpv6.DHCPV6_CLIENT_REQ_MAX_RT in
  let hundredths := wrap32 (now - Dhcpv6.exchangeStartTime c) / 10 in
  let elapsed :=
    if first then htons 0
    else htons (if hundredths >? 0xFFFF then 0xFFFF else hundredths) in
  let request :=
    Dhcpv6.addFqdn lib c
      (Dhcpv6.addElapsedTime lib elapsed
         (Dhcpv6.addOro lib
            (Dhcpv6.addIaNa lib (netif w)
               (Dhcpv6.addServerId lib c
                  (Dhcpv6.addClientId lib c
                     (mkDhcpv6Message Dhcpv6.DHCPV6_MSG_TYPE_REQUEST
                        (STORE24BE xid) [])))))) in
  let due :=
    Dhcpv6.timeoutEvent (Dhcpv6.settings c)
    && (timeCompare now
          (wrap32 (Dhcpv6.configStartTime c +
                   Dhcpv6.settings_timeout (Dhcpv6.settings c))) >=? 0)
    && negb (Dhcpv6.timeoutEventDone c) in
  let callback :=
    if due then [EvReleaseMutex; EvTimeoutEvent; EvAcquireMutex] else [] in
  Dhcpv6.state c = Dhcpv6.DHCPV6_STATE_REQUEST ->
  timeCompare now (wrap32 (Dhcpv6.timestamp c + Dhcpv6.timeout c)) >= 0 ->
  0 <= Dhcpv6.retransmitCount c ->
  (Dhcpv6.retransmitCount c < Dhcpv6.DHCPV6_CLIENT_REQ_MAX_RC ->
   Dhcpv6.state c' = Dhcpv6.DHCPV6_STATE_REQUEST /\
   Dhcpv6.retransmitCount c' = Dhcpv6.retransmitCount c + 1 /\
   Dhcpv6.timestamp c' = now /\
   Dhcpv6.transactionId c' = xid /\
   rt - rt / 10 <= Dhcpv6.timeout c' <= rt + rt / 10 /\
   (Dhcpv6.retransmitCount c = 0 ->
    900 <= Dhcpv6.timeout c' <= 1100 /\
    0 <= Dhcpv6.transactionId c' < 2 ^ 24) /\
   (Dhcpv6.retransmitCount c <> 0 ->
    0 <= Dhcpv6.timeout c' <= 33000 /\
    Dhcpv6.transactionId c' = Dhcpv6.transactionId c) /\
   sends (out w') =
     (sends (out w) + if env_alloc (env w) then 1 else 0)%nat /\
   out w' = out w ++ [EvAcquireMutex] ++
            (if env_alloc (env w)
             then [EvUdpSendDatagram Dhcpv6.DHCPV6_CLIENT_PORT
                     (IpAddr6 DHCPV6_ALL_RELAY_AGENTS_AND_SERVERS_ADDR)
                     Dhcpv6.DHCPV6_SERVER_PORT (PayloadDhcpv6 request) 0]
             else []) ++ callback ++ [EvReleaseMutex]) /\
  (Dhcpv6.DHCPV6_CLIENT_REQ_MAX_RC <= Dhcpv6.retransmitCount c ->
   Dhcpv6.state c' = Dhcpv6.DHCPV6_STATE_INIT /\
   Dhcpv6.retransmitCount c' = 0 /\
   Dhcpv6.timeout c' = 0 /\
   sends (out w') = sends (out w)) /\
  netif w' = netif w.
Proof.
  cbv zeta. intros Hs He H0.
  rewrite dhcpv6ClientTick_request by exact Hs.
  unfold Dhcpv6.dhcpv6StateRequest, Dhcpv6.incRetransmitCount,
    Dhcpv6.doubleTimeout, Dhcpv6.DHCPV6_CLIENT_REQ_MAX_RC,
    Dhcpv6.DHCPV6_CLIENT_REQ_TIMEOUT, Dhcpv6.DHCPV6_CLIENT_REQ_MAX_RT.
  unfold_monad.
  cbn -[Dhcpv6.newTransactionId Dhcpv6.dhcpv6SendRequest
        Dhcpv6.randomizeTimeout Dhcpv6.dhcpv6CheckTimeout
        Dhcpv6.dhcpv6ChangeState Z.mul Z.div Z.pow Z.add Z.sub Z.opp
        Z.land sends].
  destruct (Z.geb_spec
              (timeCompare (wrap32 (env_time (env w)))
                 (wrap32 (Dhcpv6.timestamp (ctx w) +
                          Dhcpv6.timeout (ctx w)))) 0); [ | lia ].
  destruct (Z.eqb_spec (Dhcpv6.retransmitCount (ctx w)) 0) as [Hz|Hz].
  - repeat run_request; [ lia | ].
    rewrite Hz. change (0 >? 0) with false. cbv iota.
    finish_request; trace_of_tick.
  - destruct (Z.ltb_spec (Dhcpv6.retransmitCount (ctx w)) 10).
    + repeat run_request;
        pose proof (MIN_wrap32_bound (Dhcpv6.timeout (ctx w) * 2) 30000)
          as Hm;
        [ lia | ].
      set (m := MIN (wrap32 (Dhcpv6.timeout (ctx w) * 2)) 30000) in *.
      destruct (Z.gtb_spec (Dhcpv6.retransmitCount (ctx w)) 0); [ | lia ].
      finish_request; trace_of_tick.
    + repeat run_request. finish_request.
Qed.

(** *** Retransmission of solicitations *)

Lemma dhcpv6SendSolicit_run (w : World Dhcpv6.Dhcpv6ClientCtx) :
  let c := ctx w in
  let hundredths :=
    wrap32 (wrap32 (env_time (env w)) - Dhcpv6.exchangeStartTime c) / 10 in
  let elapsed :=
    if Dhcpv6.retransmitCount c >? 0
    then htons (if hundredths >? 0xFFFF then 0xFFFF else hundredths)
    else htons 0 in
  let options :=
    Dhcpv6.addElapsedTime lib elapsed
      (Dhcpv6.addOro lib
         (Dhcpv6.addIaNa lib (netif w)
            (Dhcpv6.addClientId lib c
               (mkDhcpv6Message Dhcpv6.DHCPV6_MSG_TYPE_SOLICIT
                  (STORE24BE (Dhcpv6.transactionId c)) [])))) in
  let solicit :=
    Dhcpv6.addFqdn lib c
      (if Dhcpv6.rapidCommit (Dhcpv6.settings c)
       then Dhcpv6.dhcpv6AddOption lib options
              Dhcpv6.DHCPV6_OPTION_RAPID_COMMIT []
       else options) in
  Dhcpv6.dhcpv6SendSolicit lib w =
  (if env_alloc (env w) then NO_ERROR else ERROR_OUT_OF_MEMORY,
   mkWorld (ctx w) (netif w) (env w) (randPos w)
     (out w ++
      if env_alloc (env w)
      then [EvUdpSendDatagram Dhcpv6.DHCPV6_CLIENT_PORT
              (IpAddr6 DHCPV6_ALL_RELAY_AGENTS_AND_SERVERS_ADDR)
              Dhcpv6.DHCPV6_SERVER_PORT (PayloadDhcpv6 solicit) 0]
      else [])).
Proof.
  cbv zeta.
  unfold Dhcpv6.dhcpv6SendSolicit, Dhcpv6.sendMessage, udpSendDatagramEx,
    udpAllocBuffer, Dhcpv6.dhcpv6ComputeElapsedTime.
  unfold_monad. cbn.
  destruct (env_alloc (env w)); cbn.
  - destruct (Dhcpv6.retransmitCount (ctx w) >? 0); reflexivity.
  - rewrite app_nil_r. destruct w; reflexivity.
Qed.

Ltac run_solicit :=
  match goal with
  | |- context [Dhcpv6.newTransactionId ?w0] =>
      rewrite (newTransactionId_exact w0)
  | |- context [Dhcpv6.dhcpv6SendSolicit lib ?w0] =>
      let E := fresh "E" in
      pose proof (dhcpv6SendSolicit_run w0) as E; cbv zeta in E;
      rewrite E; clear E
  | |- context [Dhcpv6.randomizeTimeout ?w0] =>
      let t' := fresh "t'" in
      let Ht := fresh "Ht" in
      let E := fresh "E" in
      destruct (randomizeTimeout_run w0) as (t' & Ht & E);
      [ | rewrite E; clear E ]
  | |- context [Dhcpv6.dhcpv6CheckTimeout ?w0] =>
      rewrite (dhcpv6CheckTimeout_run w0)
  | |- context [Dhcpv6.dhcpv6ChangeState ?s ?d ?w0] =>
      rewrite (dhcpv6ChangeState_run s d w0)
  end;
  cbn -[Dhcpv6.newTransactionId Dhcpv6.dhcpv6SendSolicit
        Dhcpv6.randomizeTimeout Dhcpv6.dhcpv6CheckTimeout
        Dhcpv6.dhcpv6ChangeState Z.mul Z.div Z.pow Z.add Z.sub Z.opp
        Z.land sends].

Lemma dhcpv6ClientTick_solicit (w : World Dhcpv6.Dhcpv6ClientCtx) :
  Dhcpv6.state (ctx w) = Dhcpv6.DHCPV6_STATE_SOLICIT ->
  exec (Dhcpv6.dhcpv6ClientTick lib) w =
  exec (osAcquireMutex ;; Dhcpv6.dhcpv6StateSolicit lib ;; osReleaseMutex) w.
Proof. intros Hs. dhcpv6_dispatch Hs. Qed.

(** X30.  The Solicit exchange.  In SOLICIT, when the timer has
    expired: the first tick sends a Router Solicitation, forgets the
    server recorded before (preference -1), takes a fresh 24-bit
    transaction id, sends the Solicit and sets the retransmission
    timeout RT to 1000 ms (SOL_TIMEOUT).  On the later ticks, a client
    that has recorded a server goes on to REQUEST without sending,
    keeping the server; one that has not sends the Solicit again,
    with the same transaction id, and sets RT to twice the previous
    timeout, at most 120000 ms (SOL_MAX_RT): it never gives up.  The
    timer is set to RT within 10 %.  The Solicit goes from port 546 to
    port 547 of All_DHCP_Relay_Agents_and_Servers: a message of type
    SOLICIT with the transaction id of the context, the Client
    Identifier, an IA_NA, the Option Request, the Elapsed Time (zero
    in the first), Rapid Commit when it is enabled, and the FQDN
    options.  When no buffer can be allocated the Solicit is not sent
    and is counted all the same. *)
Theorem solicit_retransmission (w : World Dhcpv6.Dhcpv6ClientCtx) :
  let c := ctx w in
  let now := wrap32 (env_time (env w)) in
  let w' := exec (Dhcpv6.dhcpv6ClientTick lib) w in
  let c' := ctx w' in
  let sent := if env_alloc (env w) then 1%nat else 0%nat in
  let first := Dhcpv6.retransmitCount c =? 0 in
  let xid :=
    if first
    then Z.land (wrap32 (env_rand (env w) (randPos w))) 0x00FFFFFF
    else Dhcpv6.transactionId c in
  let rt :=
    if first then Dhcpv6.DHCPV6_CLIENT_SOL_TIMEOUT
    else MIN (wrap32 (Dhcpv6.timeout c * 2))
           Dhcpv6.DHCPV6_CLIENT_SOL_MAX_RT in
  let hundredths := wrap32 (now - Dhcpv6.exchangeStartTime c) / 10 in
  let elapsed :=
    if first then htons 0
    else htons (if hundredths >? 0xFFFF then 0xFFFF else hundredths) in
  let options :=
    Dhcpv6.addElapsedTime lib elapsed
      (Dhcpv6.addOro lib
         (Dhcpv6.addIaNa lib (netif w)
            (Dhcpv6.addClientId lib c
               (mkDhcpv6Message Dhcpv6.DHCPV6_MSG_TYPE_SOLICIT
                  (STORE24BE xid) [])))) in
  let solicit :=
    Dhcpv6.addFqdn lib c
      (if Dhcpv6.rapidCommit (Dhcpv6.settings c)
       then Dhcpv6.dhcpv6AddOption lib options
              Dhcpv6.DHCPV6_OPTION_RAPID_COMMIT []
       else options) in
  let datagram :=
    if env_alloc (env w)
    then [EvUdpSendDatagram Dhcpv6.DHCPV6_CLIENT_PORT
            (IpAddr6 DHCPV6_ALL_RELAY_AGENTS_AND_SERVERS_ADDR)
            Dhcpv6.DHCPV6_SERVER_PORT (PayloadDhcpv6 solicit) 0]
    else [] in
  let due :=
    Dhcpv6.timeoutEvent (Dhcpv6.settings c)
    && (timeCompare now
          (wrap32 (Dhcpv6.configStartTime c +
                   Dhcpv6.settings_timeout (Dhcpv6.settings c))) >=? 0)
    && negb (Dhcpv6.timeoutEventDone c) in
  let callback :=
    if due then [EvReleaseMutex; EvTimeoutEvent; EvAcquireMutex] else [] in
  Dhcpv6.state c = Dhcpv6.DHCPV6_STATE_SOLICIT ->
  timeCompare now (wrap32 (Dhcpv6.timestamp c + Dhcpv6.timeout c)) >= 0 ->
  0 <= Dhcpv6.retransmitCount c < 2 ^ 32 - 1 ->
  (Dhcpv6.retransmitCount c = 0 ->
   Dhcpv6.state c' = Dhcpv6.DHCPV6_STATE_SOLICIT /\
   Dhcpv6.retransmitCount c' = 1 /\
   Dhcpv6.timestamp c' = now /\
   900 <= Dhcpv6.timeout c' <= 1100 /\
   0 <= Dhcpv6.transactionId c' < 2 ^ 24 /\
   Dhcpv6.serverPreference c' = -1 /\
   sends (out w') = (sends (out w) + 1 + sent)%nat /\
   Dhcpv6.transactionId c' = xid /\
   rt - rt / 10 <= Dhcpv6.timeout c' <= rt + rt / 10 /\
   out w' = out w ++ [EvAcquireMutex; EvNdpSendRouterSol] ++
            datagram ++ callback ++ [EvReleaseMutex]) /\
  (Dhcpv6.retransmitCount c <> 0 -> Dhcpv6.serverPreference c >= 0 ->
   Dhcpv6.state c' = Dhcpv6.DHCPV6_STATE_REQUEST /\
   Dhcpv6.retransmitCount c' = 0 /\
   Dhcpv6.timeout c' = 0 /\
   Dhcpv6.serverId c' = Dhcpv6.serverId c /\
   Dhcpv6.serverIdLength c' = Dhcpv6.serverIdLength c /\
   sends (out w') = sends (out w)) /\
  (Dhcpv6.retransmitCount c <> 0 -> Dhcpv6.serverPreference c < 0 ->
   Dhcpv6.state c' = Dhcpv6.DHCPV6_STATE_SOLICIT /\
   Dhcpv6.retransmitCount c' = Dhcpv6.retransmitCount c + 1 /\
   Dhcpv6.timestamp c' = now /\
   0 <= Dhcpv6.timeout c' <= 132000 /\
   Dhcpv6.transactionId c' = Dhcpv6.transactionId c /\
   sends (out w') = (sends (out w) + sent)%nat /\
   Dhcpv6.serverPreference c' = Dhcpv6.serverPreference c /\
   rt - rt / 10 <= Dhcpv6.timeout c' <= rt + rt / 10 /\
   out w' = out w ++ [EvAcquireMutex] ++
            datagram ++ callback ++ [EvReleaseMutex]) /\
  netif w' = netif w.
Proof.
  cbv zeta. intros Hs He H0.
  rewrite dhcpv6ClientTick_solicit by exact Hs.
  unfold Dhcpv6.dhcpv6StateSolicit, Dhcpv6.incRetransmitCount,
    Dhcpv6.doubleTimeout, Dhcpv6.DHCPV6_CLIENT_SOL_TIMEOUT,
    Dhcpv6.DHCPV6_CLIENT_SOL_MAX_RT, ndpSendRouterSol.
  unfold_monad.
  cbn -[Dhcpv6.newTransactionId Dhcpv6.dhcpv6SendSolicit
        Dhcpv6.randomizeTimeout Dhcpv6.dhcpv6CheckTimeout
        Dhcpv6.dhcpv6ChangeState Z.mul Z.div Z.pow Z.add Z.sub Z.opp
        Z.land sends].
  destruct (Z.geb_spec
              (timeCompare (wrap32 (env_time (env w)))
                 (wrap32 (Dhcpv6.timestamp (ctx w) +
                          Dhcpv6.timeout (ctx w)))) 0); [ | lia ].
  destruct (Z.eqb_spec (Dhcpv6.retransmitCount (ctx w)) 0) as [Hz|Hz].
  - repeat run_solicit; [ lia | ].
    rewrite Hz. change (0 >? 0) with false. cbv iota.
    finish_request; trace_of_tick.
  - destruct (Z.geb_spec (Dhcpv6.serverPreference (ctx w)) 0).
    + repeat run_solicit. finish_request.
    + repeat run_solicit;
        pose proof (MIN_wrap32_bound (Dhcpv6.timeout (ctx w) * 2) 120000)
          as Hm;
        [ lia | ].
      set (m := MIN (wrap32 (Dhcpv6.timeout (ctx w) * 2)) 120000) in *.
      destruct (Z.gtb_spec (Dhcpv6.retransmitCount (ctx w)) 0); [ | lia ].
      finish_request; trace_of_tick.
Qed.

(** *** The lease *)



(** *** Link changes *)

(** X26.  A link change puts the DHCPv6 client in INIT when its state
    was below INIT-CONFIRM and in INIT-CONFIRM otherwise; a running
    client loses its global address (unspecified, INVALID) and keeps
    its link-local address and the address it was assigned.  The
    link-change callback, when there is one, is called after the
    mutex is released; nothing is sent.  The next tick of a running
    client whose link is up therefore starts a Confirm exchange when
    the client had reached INIT-CONFIRM or a later state, and a
    Solicit exchange otherwise, after a random delay of at most
    1000 ms. *)
Theorem dhcpv6_link_change (w : World Dhcpv6.Dhcpv6ClientCtx) :
  let c := ctx w in
  let w1 := exec Dhcpv6.dhcpv6ClientLinkChangeEvent w in
  let w2 := exec (Dhcpv6.dhcpv6ClientTick lib) w1 in
  let held := Dhcpv6.state c >=? Dhcpv6.DHCPV6_STATE_INIT_CONFIRM in
  Dhcpv6.state (ctx w1) =
    (if held then Dhcpv6.DHCPV6_STATE_INIT_CONFIRM
     else Dhcpv6.DHCPV6_STATE_INIT) /\
  Dhcpv6.running (ctx w1) = Dhcpv6.running c /\
  Dhcpv6.clientAddr (ctx w1) = Dhcpv6.clientAddr c /\
  out w1 = out w ++ [EvAcquireMutex; EvReleaseMutex] ++
           (if Dhcpv6.linkChangeEvent (Dhcpv6.settings c)
            then [EvLinkChangeEvent (linkState (netif w))] else []) /\
  linkLocalAddr (ipv6Config (netif w1)) =
    linkLocalAddr (ipv6Config (netif w)) /\
  (Dhcpv6.running c = true ->
   globalAddr (ipv6Config (netif w1)) = IPV6_UNSPECIFIED_ADDR /\
   globalAddrState (ipv6Config (netif w1)) = ADDR_STATE_INVALID) /\
  (Dhcpv6.running c = false -> netif w1 = netif w) /\
  (Dhcpv6.running c = true -> linkState (netif w) = true ->
   Dhcpv6.state (ctx w2) =
     (if held then Dhcpv6.DHCPV6_STATE_CONFIRM
      else Dhcpv6.DHCPV6_STATE_SOLICIT) /\
   0 <= Dhcpv6.timeout (ctx w2) <= 1000 /\
   Dhcpv6.retransmitCount (ctx w2) = 0 /\
   sends (out w2) = sends (out w)).
Proof.
  cbv zeta.
  assert (H1 :
    let w1 := exec Dhcpv6.dhcpv6ClientLinkChangeEvent w in
    Dhcpv6.state (ctx w1) =
      (if Dhcpv6.state (ctx w) >=? Dhcpv6.DHCPV6_STATE_INIT_CONFIRM
       then Dhcpv6.DHCPV6_STATE_INIT_CONFIRM
       else Dhcpv6.DHCPV6_STATE_INIT) /\
    Dhcpv6.running (ctx w1) = Dhcpv6.running (ctx w) /\
    Dhcpv6.clientAddr (ctx w1) = Dhcpv6.clientAddr (ctx w) /\
    Dhcpv6.settings (ctx w1) = Dhcpv6.settings (ctx w) /\
    linkState (netif w1) = linkState (netif w) /\
    out w1 = out w ++ [EvAcquireMutex; EvReleaseMutex] ++
             (if Dhcpv6.linkChangeEvent (Dhcpv6.settings (ctx w))
              then [EvLinkChangeEvent (linkState (netif w))] else []) /\
    linkLocalAddr (ipv6Config (netif w1)) =
      linkLocalAddr (ipv6Config (netif w)) /\
    (Dhcpv6.running (ctx w) = true ->
     globalAddr (ipv6Config (netif w1)) = IPV6_UNSPECIFIED_ADDR /\
     globalAddrState (ipv6Config (netif w1)) = ADDR_STATE_INVALID) /\
    (Dhcpv6.running (ctx w) = false -> netif w1 = netif w)).
  { cbv zeta. unfold Dhcpv6.dhcpv6ClientLinkChangeEvent. unfold_monad.
    cbn [fst snd ctx netif env randPos out].
    destruct (Dhcpv6.running (ctx w)) eqn:Hr;
      destruct (Dhcpv6.state (ctx w) >=? Dhcpv6.DHCPV6_STATE_INIT_CONFIRM);
      destruct (Dhcpv6.linkChangeEvent (Dhcpv6.settings (ctx w))) eqn:Hl;
      cbn; rewrite ?Hl, ?Hr; cbn; rewrite <- ?app_assoc, ?app_nil_r;
      repeat split; try discriminate. }
  cbv zeta in H1.
  destruct H1 as (Hs & Hr & Ha & Hset & Hlink & Ho & Hll & Hg & Hn).
  repeat (split; [ assumption | ]).
  intros Hrun Hup.
  set (w1 := exec Dhcpv6.dhcpv6ClientLinkChangeEvent w) in *.
  assert (Hst : Dhcpv6.state (ctx w1) = Dhcpv6.DHCPV6_STATE_INIT \/
                Dhcpv6.state (ctx w1) = Dhcpv6.DHCPV6_STATE_INIT_CONFIRM).
  { rewrite Hs.
    destruct (Dhcpv6.state (ctx w) >=? Dhcpv6.DHCPV6_STATE_INIT_CONFIRM);
      [ right | left ]; reflexivity. }
  destruct (dhcpv6ClientTick_starts w1 Hst) as (G1 & G2 & _ & G4 & _ & _ & _ & G8);
    [ rewrite Hr; exact Hrun | rewrite Hlink; exact Hup | ].
  rewrite G1, Hs, G8, Ho.
  split; [ | split; [ exact G2 | split; [ exact G4 | ] ] ].
  - destruct (Dhcpv6.state (ctx w) >=? Dhcpv6.DHCPV6_STATE_INIT_CONFIRM);
      reflexivity.
  - rewrite !sends_app, sends_stateChangeCalls.
    destruct (Dhcpv6.linkChangeEvent (Dhcpv6.settings (ctx w)));
      cbn; lia.
Qed.

(** *** Identifiers *)

Lemma LOAD24BE_STORE24BE (v : Z) :
  0 <= v < 2 ^ 24 -> LOAD24BE (STORE24BE v) = v.
Proof.
  intros H. unfold LOAD24BE, STORE24BE, byteAt. cbn [nth].
  rewrite !u8_b8.
  change (2 ^ 16) with 65536. change (2 ^ 8) with 256.
  change (2 ^ 24) with 16777216 in H.
  Z.div_mod_to_equations. lia.
Qed.

(** X27.  dhcpv6ClientInit with valid pointers.  When the mutex cannot
    be created it returns ERROR_OUT_OF_RESOURCES before the receive
    callback is registered; when the registration fails it deletes
    the mutex and returns the error of the registration; in both
    cases the interface is not touched.  When both succeed it returns
    NO_ERROR with the client stopped in INIT, the settings saved, the
    callback registered for port 546 and the context attached to the
    interface.  The client identifier is a DUID-LL of 10 bytes: type
    3, hardware type 1 (Ethernet), then the MAC address of the
    interface.  The default settings, whose interface is NULL, are
    refused. *)
Theorem dhcpv6ClientInit_outcomes (w : World Dhcpv6.Dhcpv6ClientCtx)
    (s : Dhcpv6.Dhcpv6ClientSettings) :
  let r := Dhcpv6.dhcpv6ClientInit lib Ref (Some s) w in
  let w' := snd r in
  let c' := ctx w' in
  Dhcpv6.interface s = Ref ->
  (env_createMutex (env w) = false ->
   fst r = ERROR_OUT_OF_RESOURCES /\
   out w' = out w ++ [EvCreateMutex] /\ netif w' = netif w) /\
  (env_createMutex (env w) = true -> env_attach (env w) <> NO_ERROR ->
   fst r = env_attach (env w) /\
   out w' = out w ++ [EvCreateMutex;
                      EvUdpAttachRxCallback Dhcpv6.DHCPV6_CLIENT_PORT;
                      EvDeleteMutex] /\
   netif w' = netif w) /\
  (env_createMutex (env w) = true -> env_attach (env w) = NO_ERROR ->
   fst r = NO_ERROR /\
   Dhcpv6.running c' = false /\
   Dhcpv6.state c' = Dhcpv6.DHCPV6_STATE_INIT /\
   Dhcpv6.settings c' = s /\
   Dhcpv6.clientIdLength c' = 10 /\
   (length (macAddr (netif w)) = 6%nat ->
    10 <= Dhcpv6.DHCPV6_MAX_DUID_SIZE lib ->
    firstn 10 (Dhcpv6.clientId c') =
      [x00; x03; x00; x01] ++ macAddr (netif w) /\
    len (Dhcpv6.clientId c') = Dhcpv6.DHCPV6_MAX_DUID_SIZE lib) /\
   Dhcpv6.clientFqdnLength c' =
     len (Dhcpv6.dnsEncodeName lib (if_hostname (netif w))) /\
   dhcpv6ClientContext (netif w') = true /\
   ipv6Config (netif w') = ipv6Config (netif w) /\
   out w' = out w ++ [EvCreateMutex;
                      EvUdpAttachRxCallback Dhcpv6.DHCPV6_CLIENT_PORT]) /\
  (forall c, Dhcpv6.dhcpv6ClientInit lib c
               (Some Dhcpv6.dhcpv6ClientGetDefaultSettings) w
             = (ERROR_INVALID_PARAMETER, w)).
Proof.
  cbv zeta. intros Hi.
  unfold Dhcpv6.dhcpv6ClientInit, Dhcpv6.osCreateMutex,
    Dhcpv6.udpAttachRxCallback, Dhcpv6.osDeleteMutex.
  rewrite Hi. cbn [isNull].
  split; [ | split; [ | split ] ].
  - intros Hm. unfold_monad. cbn [fst snd ctx netif env randPos out].
    rewrite Hm. cbn. repeat split.
  - intros Hm Ha. unfold_monad. cbn [fst snd ctx netif env randPos out].
    rewrite Hm. cbn [negb fst snd ctx netif env randPos out].
    destruct (env_attach (env w)) eqn:E; [ contradiction | .. ];
      cbn; rewrite <- ?app_assoc; repeat split.
  - intros Hm Ha. unfold_monad. cbn [fst snd ctx netif env randPos out].
    rewrite Hm. cbn [negb fst snd ctx netif env randPos out].
    rewrite Ha. cbn -[Dhcpv6.memcpy htons firstn]. rewrite <- ?app_assoc.
    repeat (split; [ reflexivity | ]).
    split; [ | repeat split ].
    intros Hmac Hmax.
    destruct (macAddr (netif w)) as [|m0 [|m1 [|m2 [|m3 [|m4 [|m5 [|m6 ms]]]]]]];
      try discriminate Hmac.
    unfold Dhcpv6.memcpy, Dhcpv6.sizeofDhcpv6DuidLl.
    change (htons Dhcpv6.DHCPV6_DUID_LL) with [x00; x03].
    change (htons Dhcpv6.DHCPV6_HARDWARE_TYPE_ETH) with [x00; x01].
    cbn [firstn app Z.to_nat Pos.to_nat Pos.iter_op Nat.add].
    split; [ reflexivity | ].
    unfold len. change (Pos.to_nat 10) with 10%nat. cbn [firstn].
    rewrite length_app, length_skipn, repeat_length. cbn [length]. lia.
  - intros [|]; reflexivity.
Qed.

(** X28.  The transaction identifier.  The identifier drawn for a new
    exchange lies below 2^24; written into the three bytes of the
    header of a message and read back the way dhcpv6ParseAdvertise and
    dhcpv6ParseReply read it, it is the identifier of the context, so
    the comparison they make accepts the answer to the message of the
    client as far as the transaction identifier goes.  Drawing the
    identifier takes one value from the random source and changes
    nothing else. *)
Theorem transaction_id_round_trip (w : World Dhcpv6.Dhcpv6ClientCtx)
    (type : Z) :
  let w' := exec Dhcpv6.newTransactionId w in
  let xid := Dhcpv6.transactionId (ctx w') in
  0 <= xid < 2 ^ 24 /\
  LOAD24BE (transactionId6 (Dhcpv6.formatMessage type (ctx w'))) = xid /\
  msgType (Dhcpv6.formatMessage type (ctx w')) = type /\
  Dhcpv6.state (ctx w') = Dhcpv6.state (ctx w) /\
  Dhcpv6.clientId (ctx w') = Dhcpv6.clientId (ctx w) /\
  randPos w' = S (randPos w) /\
  netif w' = netif w /\ out w' = out w.
Proof.
  cbv zeta. destruct (newTransactionId_run w) as (xid & Hx & E).
  unfold exec. rewrite E. cbn -[LOAD24BE STORE24BE Z.pow].
  split; [ exact Hx | ].
  split; [ apply LOAD24BE_STORE24BE; exact Hx | repeat split ].
Qed.
End Dhcpv6Rest.

(* ------------------------------------------------------------------ *)
(** ** Discovery                                                        *)
(* ------------------------------------------------------------------ *)

Section DhcpDiscovery.

Variable lib : Dhcp.Common.

Lemma dhcpStateSelecting_stays :
  keeps (fun c => Dhcp.state c = Dhcp.DHCP_STATE_SELECTING)
    (osAcquireMutex ;; Dhcp.dhcpStateSelecting lib ;; osReleaseMutex).
Proof.
  unfold Dhcp.dhcpStateSelecting, Dhcp.armRetransmission,
    Dhcp.doubleRetransmitTimeout, Dhcp.dhcpCheckTimeout,
    Dhcp.dhcpSendDiscover, Dhcp.dhcpComputeElapsedTime.
  stable_all; ctx_kept.
Qed.

Lemma dhcpTicks_selecting (steps : list (NetInterface * Env)) :
  forall w : World Dhcp.DhcpClientCtx,
  Dhcp.state (ctx w) = Dhcp.DHCP_STATE_SELECTING ->
  Dhcp.state (ctx (Runs.dhcpTicks lib steps w)) = Dhcp.DHCP_STATE_SELECTING.
Proof.
  induction steps as [|[i e] steps IH]; intros w Hs; cbn [Runs.dhcpTicks].
  - exact Hs.
  - apply IH.
    rewrite (dhcpClientTick_selecting lib) by exact Hs.
    apply (dhcpStateSelecting_stays (surroundings i e w)). exact Hs.
Qed.

Lemma dhcpSendDiscover_run (w : World Dhcp.DhcpClientCtx) :
  let c := ctx w in
  let elapsed :=
    wrap32 (wrap32 (env_time (env w)) - Dhcp.configStartTime c) / 1000 in
  let header :=
    Dhcp.formatMessage lib (htonl (Dhcp.transactionId c))
      (htons (if elapsed >? 0xFFFF then 0xFFFF else elapsed))
      (htons Dhcp.DHCP_FLAG_BROADCAST) IPV4_UNSPECIFIED_ADDR
      (macAddr (netif w)) in
  let discover :=
    Dhcp.addOptionIf lib (Dhcp.rapidCommit (Dhcp.settings c))
      Dhcp.DHCP_OPT_RAPID_COMMIT []
      (Dhcp.addOptionIf lib (len (Dhcp.hostname (Dhcp.settings c)) >? 0)
         Dhcp.DHCP_OPT_HOST_NAME (Dhcp.hostname (Dhcp.settings c))
         (Dhcp.dhcpAddOption lib header Dhcp.DHCP_OPT_DHCP_MESSAGE_TYPE
            [b8 Dhcp.DHCP_MESSAGE_TYPE_DISCOVER])) in
  Dhcp.dhcpSendDiscover lib w =
  (if env_alloc (env w) then NO_ERROR else ERROR_OUT_OF_MEMORY,
   mkWorld (ctx w) (netif w) (env w) (randPos w)
     (out w ++
      if env_alloc (env w)
      then [EvUdpSendDatagram Dhcp.DHCP_CLIENT_PORT
              (IpAddr4 IPV4_BROADCAST_ADDR) Dhcp.DHCP_SERVER_PORT
              (PayloadDhcp discover) (Dhcp.IPV4_DEFAULT_TTL lib)]
      else [])).
Proof.
  cbv zeta.
  unfold Dhcp.dhcpSendDiscover, udpSendDatagramEx, udpAllocBuffer,
    Dhcp.dhcpComputeElapsedTime.
  unfold_monad. cbn.
  destruct (env_alloc (env w)); cbn.
  - reflexivity.
  - rewrite app_nil_r. destruct w; reflexivity.
Qed.

Lemma netGetRandRange_run (lo hi : Z) (w : World Dhcp.DhcpClientCtx) :
  lo <= hi ->
  exists r,
    lo <= r <= hi /\
    netGetRandRange lo hi w =
    (r, mkWorld (ctx w) (netif w) (env w) (S (randPos w)) (out w)).
Proof.
  intros H. exists (lo + wrap32 (env_rand (env w) (randPos w)) mod (hi - lo + 1)).
  split; [ | reflexivity ].
  pose proof (Z.mod_pos_bound (wrap32 (env_rand (env w) (randPos w)))
                (hi - lo + 1)).
  lia.
Qed.

Ltac run_discover :=
  match goal with
  | |- context [Dhcp.dhcpSendDiscover lib ?w0] =>
      let E := fresh "E" in
      pose proof (dhcpSendDiscover_run w0) as E; cbv zeta in E;
      rewrite E; clear E
  | |- context [netGetRandRange ?lo ?hi ?w0] =>
      let r := fresh "r" in
      let Hr := fresh "Hr" in
      let E := fresh "E" in
      destruct (netGetRandRange_run lo hi w0) as (r & Hr & E);
      [ lia | rewrite E; clear E ]
  | |- context [Dhcp.dhcpCheckTimeout ?w0] =>
      rewrite (dhcpCheckTimeout_run w0)
  end;
  cbn -[Dhcp.dhcpSendDiscover netGetRandRange Dhcp.dhcpCheckTimeout
        Z.mul Z.min sends].

Ltac split_timeout :=
  match goal with
  | |- context [if ?a && ?b && negb ?c then _ else _] =>
      destruct (a && b && negb c)
  end;
  cbn -[Z.mul Z.min sends].

(** X29.  Discovery.  In SELECTING the client never gives up: ticks
    alone, whatever the clock and the interface do in between, leave
    it in SELECTING.  On a tick where the timer has expired it
    broadcasts one datagram from port 68 to port 67, a DHCPDISCOVER: a
    BOOTREQUEST with the broadcast flag, no client address, the
    seconds elapsed since the start of the configuration (at most
    0xFFFF), and as options the message type DHCPDISCOVER, the host
    name when one is set and Rapid Commit when it is enabled.  Its
    transaction id is that of the context, drawn anew before the
    first transmission.  Nothing is sent when no buffer can be
    allocated: the outcome of the send is not looked at and the
    transmission is counted all the same.  The retransmission timeout
    is DHCP_CLIENT_DISCOVER_INIT_RT after the first message, then
    twice the previous one, never above DHCP_CLIENT_DISCOVER_MAX_RT,
    and the timer is set to it plus a random value of at most
    DHCP_CLIENT_RAND_FACTOR either way.  Before the timer expires
    nothing is sent and the retransmission parameters are kept. *)
Theorem discover_backoff (w : World Dhcp.DhcpClientCtx)
    (steps : list (NetInterface * Env)) :
  let c := ctx w in
  let now := wrap32 (env_time (env w)) in
  let w' := exec (Dhcp.dhcpClientTick lib) w in
  let c' := ctx w' in
  let xid :=
    if Dhcp.retransmitCount c =? 0
    then wrap32 (env_rand (env w) (randPos w))
    else Dhcp.transactionId c in
  let elapsed := wrap32 (now - Dhcp.configStartTime c) / 1000 in
  let header :=
    Dhcp.formatMessage lib (htonl xid)
      (htons (if elapsed >? 0xFFFF then 0xFFFF else elapsed))
      (htons Dhcp.DHCP_FLAG_BROADCAST) IPV4_UNSPECIFIED_ADDR
      (macAddr (netif w)) in
  let discover :=
    Dhcp.addOptionIf lib (Dhcp.rapidCommit (Dhcp.settings c))
      Dhcp.DHCP_OPT_RAPID_COMMIT []
      (Dhcp.addOptionIf lib (len (Dhcp.hostname (Dhcp.settings c)) >? 0)
         Dhcp.DHCP_OPT_HOST_NAME (Dhcp.hostname (Dhcp.settings c))
         (Dhcp.dhcpAddOption lib header Dhcp.DHCP_OPT_DHCP_MESSAGE_TYPE
            [b8 Dhcp.DHCP_MESSAGE_TYPE_DISCOVER])) in
  let due :=
    Dhcp.timeoutEvent (Dhcp.settings c)
    && (timeCompare now
          (wrap32 (Dhcp.configStartTime c +
                   Dhcp.settings_timeout (Dhcp.settings c))) >=? 0)
    && negb (Dhcp.timeoutEventDone c) in
  let callback :=
    if due then [EvReleaseMutex; EvTimeoutEvent; EvAcquireMutex] else [] in
  Dhcp.state c = Dhcp.DHCP_STATE_SELECTING ->
  0 <= Dhcp.DHCP_CLIENT_RAND_FACTOR lib ->
  Dhcp.state (ctx (Runs.dhcpTicks lib steps w)) = Dhcp.DHCP_STATE_SELECTING /\
  (timeCompare now (wrap32 (Dhcp.timestamp c + Dhcp.timeout c)) >= 0 ->
   Dhcp.retransmitCount c' = wrap32 (Dhcp.retransmitCount c + 1) /\
   Dhcp.timestamp c' = now /\
   (Dhcp.retransmitCount c = 0 ->
    Dhcp.retransmitTimeout c' = Dhcp.DHCP_CLIENT_DISCOVER_INIT_RT lib) /\
   (Dhcp.retransmitCount c <> 0 ->
    Dhcp.retransmitTimeout c' =
      Z.min (wrap32 (Dhcp.retransmitTimeout c * 2))
        (Dhcp.DHCP_CLIENT_DISCOVER_MAX_RT lib) /\
    Dhcp.transactionId c' = Dhcp.transactionId c) /\
   (exists r,
      - Dhcp.DHCP_CLIENT_RAND_FACTOR lib <= r
        <= Dhcp.DHCP_CLIENT_RAND_FACTOR lib /\
      Dhcp.timeout c' = wrap32 (Dhcp.retransmitTimeout c' + r)) /\
   netif w' = netif w /\
   Dhcp.transactionId c' = xid /\
   out w' = out w ++ [EvAcquireMutex] ++
            (if env_alloc (env w)
             then [EvUdpSendDatagram Dhcp.DHCP_CLIENT_PORT
                     (IpAddr4 IPV4_BROADCAST_ADDR) Dhcp.DHCP_SERVER_PORT
                     (PayloadDhcp discover) (Dhcp.IPV4_DEFAULT_TTL lib)]
             else []) ++ callback ++ [EvReleaseMutex]) /\
  (timeCompare now (wrap32 (Dhcp.timestamp c + Dhcp.timeout c)) < 0 ->
   Dhcp.retransmitCount c' = Dhcp.retransmitCount c /\
   Dhcp.retransmitTimeout c' = Dhcp.retransmitTimeout c /\
   Dhcp.timestamp c' = Dhcp.timestamp c /\
   Dhcp.timeout c' = Dhcp.timeout c /\
   netif w' = netif w /\
   sends (out w') = sends (out w)).
Proof.
  cbv zeta. intros Hs Hf.
  split; [ apply dhcpTicks_selecting; exact Hs | ].
  rewrite (dhcpClientTick_selecting lib) by exact Hs.
  unfold Dhcp.dhcpStateSelecting, Dhcp.armRetransmission,
    Dhcp.doubleRetransmitTimeout.
  unfold_monad.
  cbn -[Dhcp.dhcpSendDiscover netGetRandRange Dhcp.dhcpCheckTimeout
        Z.mul Z.min sends].
  destruct (Z.geb_spec
              (timeCompare (wrap32 (env_time (env w)))
                 (wrap32 (Dhcp.timestamp (ctx w) + Dhcp.timeout (ctx w)))) 0)
    as [He | He].
  - split; [ intros _ | intros H; lia ].
    destruct (Z.eqb_spec (Dhcp.retransmitCount (ctx w)) 0) as [Hz | Hz].
    + unfold netGetRand.
      cbn -[Dhcp.dhcpSendDiscover netGetRandRange Dhcp.dhcpCheckTimeout
            Z.mul Z.min sends].
      repeat run_discover.
      split_timeout.
      all: split; [ reflexivity | ].
      all: split; [ reflexivity | ].
      all: split; [ reflexivity | ].
      all: split; [ intros H; contradiction | ].
      all: split; [ exists r; split; [ exact Hr | reflexivity ] | ].
      all: split; [ reflexivity | ].
      all: split; [ reflexivity | ].
      all: rewrite ?app_nil_r, <- ?app_assoc; reflexivity.
    + repeat run_discover.
      assert (Hmin :
        (if wrap32 (Dhcp.retransmitTimeout (ctx w) * 2) >?
            Dhcp.DHCP_CLIENT_DISCOVER_MAX_RT lib
         then Dhcp.DHCP_CLIENT_DISCOVER_MAX_RT lib
         else wrap32 (Dhcp.retransmitTimeout (ctx w) * 2)) =
        Z.min (wrap32 (Dhcp.retransmitTimeout (ctx w) * 2))
          (Dhcp.DHCP_CLIENT_DISCOVER_MAX_RT lib)).
      { destruct (Z.gtb_spec (wrap32 (Dhcp.retransmitTimeout (ctx w) * 2))
                    (Dhcp.DHCP_CLIENT_DISCOVER_MAX_RT lib));
          [ rewrite Z.min_r by lia | rewrite Z.min_l by lia ];
          reflexivity. }
      rewrite <- Hmin.
      destruct (wrap32 (Dhcp.retransmitTimeout (ctx w) * 2) >?
                Dhcp.DHCP_CLIENT_DISCOVER_MAX_RT lib);
        cbn -[Z.mul Z.min sends].
      all: split_timeout.
      all: split; [ reflexivity | ].
      all: split; [ reflexivity | ].
      all: split; [ intros H; contradiction | ].
      all: split; [ intros _; split; reflexivity | ].
      all: split; [ exists r; split; [ exact Hr | reflexivity ] | ].
      all: split; [ reflexivity | ].
      all: split; [ reflexivity | ].
      all: rewrite ?app_nil_r, <- ?app_assoc; reflexivity.
  - split; [ intros H; lia | intros _ ].
    repeat run_discover.
    split_timeout; rewrite ?sends_app; repeat split; cbn; lia.
Qed.

End DhcpDiscovery.

(* ------------------------------------------------------------------ *)
(** ** The rest of the code on the scenarios                           *)
(* ------------------------------------------------------------------ *)

(** *** SLAAC *)

(** The started engine on its first tick: the link-local address
    fe80::211:22ff:fe33:4455 is formed, tentative. *)
Lemma slaacTick_from_init_witness :
  let w' := exec Slaac.slaacTick Cases.slaacFresh in
  Slaac.state (ctx w') = Slaac.SLAAC_STATE_LINK_LOCAL_ADDR_DAD /\
  linkLocalAddr (ipv6Config (netif w')) =
    [xfe; x80; x00; x00; x00; x00; x00; x00;
     x02; x11; x22; xff; xfe; x33; x44; x55] /\
  linkLocalAddrState (ipv6Config (netif w')) = ADDR_STATE_TENTATIVE.
Proof.
  cbv zeta.
  destruct (slaacTick_from_init Cases.slaacFresh) as [H _];
    [ vm_compute; reflexivity | ].
  destruct H as (H1 & _ & _ & _ & H5 & H6 & _);
    [ vm_compute; reflexivity | vm_compute; reflexivity | ].
  split; [ exact H1 | split; [ exact H5 | exact H6 ] ].
Defined.

(** The next tick probes the tentative address with one multicast
    Neighbor Solicitation. *)
Lemma slaacTick_dad_progress_witness :
  let w := Cases.slaacProbing in
  let w' := exec Slaac.slaacTick w in
  out w' = out w ++ [EvAcquireMutex;
                     EvNdpSendNeighborSol
                       [xfe; x80; x00; x00; x00; x00; x00; x00;
                        x02; x11; x22; xff; xfe; x33; x44; x55] true;
                     EvReleaseMutex] /\
  Slaac.state (ctx w') = Slaac.SLAAC_STATE_LINK_LOCAL_ADDR_DAD.
Proof.
  cbv zeta.
  destruct (slaacTick_dad_progress Cases.slaacProbing) as [H _];
    [ vm_compute; discriminate | ].
  destruct H as [H _]; [ vm_compute; reflexivity | vm_compute; reflexivity | ].
  destruct H as (H1 & H2 & _); [ vm_compute; reflexivity | ].
  split; [ exact H1 | exact H2 ].
Defined.

(** Five ticks of an engine that solicits routers, with
    MAX_RTR_SOLICITATIONS = 3: at most three solicitations. *)
Lemma router_solicitations_bounded_witness :
  let w' := Runs.slaacTicks Cases.solicitSteps Scenario.slaacSoliciting in
  (routerSols (out w') <= 3)%nat /\
  (Slaac.state (ctx w') = Slaac.SLAAC_STATE_ROUTER_SOLICIT \/
   Slaac.state (ctx w') = Slaac.SLAAC_STATE_NO_ROUTER).
Proof.
  cbv zeta.
  apply (router_solicitations_bounded Cases.solicitSteps
           Scenario.slaacSoliciting).
  - vm_compute. reflexivity.
  - vm_compute. split; discriminate.
  - vm_compute. reflexivity.
Defined.

(** A duplicate of the tentative address: DAD-FAILURE, the address
    withdrawn. *)
Lemma slaacTick_duplicate_address_witness :
  let w' := exec Slaac.slaacTick Cases.slaacDuplicate in
  Slaac.state (ctx w') = Slaac.SLAAC_STATE_DAD_FAILURE /\
  linkLocalAddr (ipv6Config (netif w')) = IPV6_UNSPECIFIED_ADDR /\
  linkLocalAddrState (ipv6Config (netif w')) = ADDR_STATE_INVALID.
Proof.
  cbv zeta.
  destruct (slaacTick_duplicate_address Cases.slaacDuplicate)
    as (_ & _ & H & _).
  destruct H as (H1 & H2 & H3 & _);
    [ vm_compute; reflexivity | vm_compute; discriminate
    | vm_compute; reflexivity | ].
  split; [ exact H1 | split; [ exact H2 | exact H3 ] ].
Defined.

(** The engine that solicits routers, one second after a
    solicitation whose interval is 4 s: the tick waits. *)
Lemma slaacTick_waits_witness :
  let w := Stock.atTime 6000
             (exec Slaac.slaacTick Scenario.slaacSoliciting) in
  exec Slaac.slaacTick w = afterMutex w.
Proof.
  cbv zeta.
  destruct (slaacTick_waits
              (Stock.atTime 6000
                 (exec Slaac.slaacTick Scenario.slaacSoliciting)))
    as [H _].
  apply H.
  - right. left. vm_compute. reflexivity.
  - vm_compute. reflexivity.
Defined.

(** *** DHCPv4 *)

(** The DHCPOFFER of the server in SELECTING: REQUESTING, for the
    address offered by the server 192.0.2.1. *)
Lemma offer_acceptance_witness :
  let w' := exec (Dhcp.dhcpParseOffer Stock.dhcpLib Cases.offer
                    (Scenario.dhcpLength Cases.offer)) Cases.dhcpSelecting in
  Dhcp.state (ctx w') = Dhcp.DHCP_STATE_REQUESTING /\
  Dhcp.serverIpAddr (ctx w') = Scenario.serverAddr /\
  Dhcp.requestedIpAddr (ctx w') = Scenario.offeredAddr.
Proof.
  cbv zeta.
  destruct (offer_acceptance Stock.dhcpLib Cases.dhcpSelecting Cases.offer
              (Scenario.dhcpLength Cases.offer)) as [H _].
  assert (E : exists s,
             Dhcp.dhcpGetOption Stock.dhcpLib Cases.offer
               (Scenario.dhcpLength Cases.offer)
               Dhcp.DHCP_OPT_SERVER_IDENTIFIER = Some s /\
             opt_length s = 4 /\
             LOAD32BE (opt_value s) = Scenario.serverAddr).
  { eexists. repeat split; vm_compute; reflexivity. }
  destruct E as (s & E1 & E2 & E3).
  rewrite (H s).
  - split; [ reflexivity | ]. split; [ exact E3 | reflexivity ].
  - repeat split; vm_compute; first [ reflexivity | discriminate ].
  - eexists. repeat split; vm_compute; reflexivity.
  - split; [ exact E1 | exact E2 ].
Defined.

(** An offer to another transaction is dropped. *)
Lemma foreign_reply_ignored_witness :
  let w := Cases.dhcpSelecting in
  exec (Dhcp.dhcpClientProcessMessage Stock.dhcpLib
          (Some Cases.offerToAnother)
          (Scenario.dhcpLength Cases.offerToAnother)) w = afterMutex w.
Proof.
  cbv zeta.
  destruct (foreign_reply_ignored Stock.dhcpLib Cases.dhcpSelecting
              Cases.offerToAnother
              (Scenario.dhcpLength Cases.offerToAnother)) as (_ & _ & H).
  apply H.
  - vm_compute. split; discriminate.
  - right. right. right. left. vm_compute. discriminate.
Defined.

(** A DHCPNAK in REQUESTING: back to INIT. *)
Lemma nak_restarts_witness :
  let w' := exec (Dhcp.dhcpParseAckNak Stock.dhcpLib Cases.nak
                    (Scenario.dhcpLength Cases.nak))
              Scenario.dhcpRequesting in
  Dhcp.state (ctx w') = Dhcp.DHCP_STATE_INIT /\
  ipv4_addrState (ipv4Config (netif w')) = ADDR_STATE_INVALID.
Proof.
  cbv zeta.
  edestruct (nak_restarts Stock.dhcpLib Scenario.dhcpRequesting Cases.nak
               (Scenario.dhcpLength Cases.nak))
    as (H1 & _ & _ & _ & _ & _ & H7 & _);
    [ vm_compute; reflexivity .. | ].
  split; [ exact H1 | exact H7 ].
Defined.


(** In RENEWING at 600 s, T2 (530 s) having passed: REBINDING. *)
Lemma lease_deadlines_witness :
  let w' := exec (Dhcp.dhcpClientTick Stock.dhcpLib) Cases.dhcpRenewingLate in
  Dhcp.state (ctx w') = Dhcp.DHCP_STATE_REBINDING /\
  netif w' = netif Cases.dhcpRenewingLate.
Proof.
  cbv zeta.
  destruct (lease_deadlines Stock.dhcpLib Cases.dhcpRenewingLate) as [H _];
    [ vm_compute; discriminate | ].
  destruct H as (H1 & _ & _ & _ & H5 & _);
    [ vm_compute; reflexivity | vm_compute; discriminate | ].
  split; [ exact H1 | exact H5 ].
Defined.

(** In RENEWING at 305 s the request goes to the server, 192.0.2.1:
    its option 53 reads DHCPREQUEST, it has no Server Identifier
    option, and its ciaddr is the address of the client.  The timer is
    set to half of the 225 s left before T2. *)
Lemma renewal_requests_witness :
  let w := Stock.atTime 305000 Cases.dhcpRenewing in
  let w' := exec (Dhcp.dhcpClientTick Stock.dhcpLib) w in
  (exists m,
     out w' = out w ++ [EvAcquireMutex;
                        EvUdpSendDatagram 68 (IpAddr4 Scenario.serverAddr) 67
                          (PayloadDhcp m) 64;
                        EvReleaseMutex] /\
     option_map opt_value
       (Stock.dhcpGetOption 240 m 300 Dhcp.DHCP_OPT_DHCP_MESSAGE_TYPE)
       = Some [b8 Dhcp.DHCP_MESSAGE_TYPE_REQUEST] /\
     Stock.dhcpGetOption 240 m 300 Dhcp.DHCP_OPT_SERVER_IDENTIFIER = None /\
     ciaddr m = Scenario.offeredAddr /\
     xid m = htonl (Dhcp.transactionId (ctx w'))) /\
  Dhcp.timeout (ctx w') = 112500.
Proof.
  cbv zeta.
  destruct (renewal_requests Stock.dhcpLib
              (Stock.atTime 305000 Cases.dhcpRenewing)) as [H _];
    [ vm_compute; discriminate | vm_compute; reflexivity | ].
  destruct H as ((H1 & _) & _ & H3 & _);
    [ vm_compute; reflexivity | vm_compute; reflexivity | ].
  split; [ | exact H3 ].
  eexists. split; [ exact H1 | ].
  split; [ vm_compute; reflexivity | ].
  split; [ vm_compute; reflexivity | ].
  split; vm_compute; reflexivity.
Defined.

(** After four requests without an answer the client gives up. *)
Lemma request_gives_up_witness :
  let w := Cases.dhcpRequestedFourTimes in
  let w' := exec (Dhcp.dhcpClientTick Stock.dhcpLib) w in
  Dhcp.state (ctx w') = Dhcp.DHCP_STATE_INIT /\
  extendsQuietly (out w) (out w').
Proof.
  cbv zeta.
  destruct (request_gives_up Stock.dhcpLib Cases.dhcpRequestedFourTimes)
    as (H1 & _ & _ & _ & H5).
  - left. vm_compute. reflexivity.
  - vm_compute. discriminate.
  - vm_compute. discriminate.
  - vm_compute. discriminate.
  - split; [ exact H1 | exact H5 ].
Defined.

(** The tick that sends the renewal request keeps to DHCP traffic. *)
Lemma dhcp_traffic_witness :
  Forall dhcpTraffic
    (out (exec (Runs.dhcpCall Stock.dhcpLib Runs.DhcpTick)
            (Stock.atTime 305000 Cases.dhcpRenewing))).
Proof.
  apply (dhcp_traffic Stock.dhcpLib Runs.DhcpTick
           (Stock.atTime 305000 Cases.dhcpRenewing)).
  vm_compute. repeat constructor.
Defined.

(** The init of the scenario: the host name of the interface is
    taken, the client is stopped in INIT. *)
Lemma dhcpClientInit_outcomes_witness :
  let r := Dhcp.dhcpClientInit Stock.dhcpLib Ref (Some Scenario.dhcpSettings)
             Scenario.dhcpBlank in
  fst r = NO_ERROR /\
  Dhcp.running (ctx (snd r)) = false /\
  Dhcp.state (ctx (snd r)) = Dhcp.DHCP_STATE_INIT /\
  dhcpClientContext (netif (snd r)) = true.
Proof.
  cbv zeta.
  destruct (dhcpClientInit_outcomes Stock.dhcpLib Scenario.dhcpBlank
              Scenario.dhcpSettings) as (_ & _ & H & _);
    [ reflexivity | ].
  destruct H as (H1 & H2 & H3 & _ & _ & _ & _ & _ & _ & H10 & _);
    [ reflexivity | reflexivity | ].
  split; [ exact H1 | split; [ exact H2 | split; [ exact H3 | exact H10 ] ] ].
Defined.

(** In a scenario every test of a statement has a value: [settle H]
    computes each one and reduces the conditional. *)
Ltac settle H :=
  repeat match type of H with
         | context [if ?b then _ else _] =>
             let E := fresh "E" in
             first [ assert (E : b = true) by (vm_compute; reflexivity)
                   | assert (E : b = false) by (vm_compute; reflexivity) ];
             rewrite E in H; clear E; cbv iota in H
         end.

(** The retransmission timeout RT of a statement [RT - RT / 10 <= t
    <= RT + RT / 10], computed. *)
Ltac with_rt H value :=
  match type of H with
  | ?rt - _ <= _ <= _ =>
      let E := fresh "E" in
      assert (E : rt = value) by (vm_compute; reflexivity);
      rewrite E in H; clear E
  end.

(** The first DHCPDISCOVER: a retransmission timeout of 4000 ms; and
    the client is still in SELECTING long after.  The second one, at
    10 s: a broadcast whose option 53 reads DHCPDISCOVER, with the
    transaction id of the first, and a timeout of 8000 ms. *)
Lemma discover_backoff_witness :
  let w := Stock.atTime 1000 Cases.dhcpDiscovering in
  let w' := exec (Dhcp.dhcpClientTick Stock.dhcpLib) w in
  let w2 := Stock.atTime 10000 w' in
  let w2' := exec (Dhcp.dhcpClientTick Stock.dhcpLib) w2 in
  Dhcp.state (ctx (Runs.dhcpTicks Stock.dhcpLib Cases.lateSteps w)) =
    Dhcp.DHCP_STATE_SELECTING /\
  Dhcp.retransmitTimeout (ctx w') = 4000 /\
  Dhcp.retransmitCount (ctx w') = 1 /\
  Dhcp.retransmitTimeout (ctx w2') = 8000 /\
  Dhcp.retransmitCount (ctx w2') = 2 /\
  exists m evs,
    out w2' = out w2 ++ [EvAcquireMutex] ++
              [EvUdpSendDatagram 68 (IpAddr4 IPV4_BROADCAST_ADDR) 67
                 (PayloadDhcp m) 64] ++ evs ++ [EvReleaseMutex] /\
    option_map opt_value
      (Stock.dhcpGetOption 240 m 300 Dhcp.DHCP_OPT_DHCP_MESSAGE_TYPE)
      = Some [b8 Dhcp.DHCP_MESSAGE_TYPE_DISCOVER] /\
    xid m = htonl (Dhcp.transactionId (ctx w')).
Proof.
  cbv zeta.
  destruct (discover_backoff Stock.dhcpLib
              (Stock.atTime 1000 Cases.dhcpDiscovering) Cases.lateSteps)
    as (H1 & H2 & _);
    [ vm_compute; reflexivity | vm_compute; discriminate | ].
  destruct H2 as (A & _ & C & _); [ vm_compute; discriminate | ].
  split; [ exact H1 | ].
  split; [ apply C; vm_compute; reflexivity | ].
  split; [ exact A | ].
  destruct (discover_backoff Stock.dhcpLib
              (Stock.atTime 10000
                 (exec (Dhcp.dhcpClientTick Stock.dhcpLib)
                    (Stock.atTime 1000 Cases.dhcpDiscovering))) [])
    as (_ & H3 & _);
    [ vm_compute; reflexivity | vm_compute; discriminate | ].
  destruct H3 as (A2 & _ & _ & C2 & _ & _ & _ & Hout);
    [ vm_compute; discriminate | ].
  split; [ rewrite (proj1 (C2 ltac:(vm_compute; discriminate)));
           vm_compute; reflexivity | ].
  split; [ rewrite A2; vm_compute; reflexivity | ].
  settle Hout.
  eexists. eexists.
  split; [ exact Hout | ].
  split; vm_compute; reflexivity.
Defined.

(** *** DHCPv6 *)

(** The client after init, start and a tick is in SOLICIT, not in
    DECLINE. *)
Lemma decline_state_unreachable_witness :
  Dhcpv6.state (ctx Cases.dhcpv6Run) = Dhcpv6.DHCPV6_STATE_SOLICIT /\
  Dhcpv6.state (ctx Cases.dhcpv6Run) <> Dhcpv6.DHCPV6_STATE_DECLINE.
Proof.
  split; [ vm_compute; reflexivity | ].
  apply (decline_state_unreachable Stock.dhcpv6Lib Cases.dhcpv6Run).
  unfold Cases.dhcpv6Run.
  apply Runs.dhcpv6ReachCall, Runs.dhcpv6ReachSurroundings,
    Runs.dhcpv6ReachCall, Runs.dhcpv6ReachInit.
  vm_compute. reflexivity.
Defined.

(** The tick that sends the first Solicit, after a Router
    Solicitation, keeps to DHCPv6 traffic. *)
Lemma dhcpv6_traffic_witness :
  Forall dhcpv6Traffic
    (out (exec (Runs.dhcpv6Call Stock.dhcpv6Lib Runs.Dhcpv6Tick)
            (Stock.atTime 101000 Scenario.dhcpv6Soliciting))).
Proof.
  apply (dhcpv6_traffic Stock.dhcpv6Lib Runs.Dhcpv6Tick
           (Stock.atTime 101000 Scenario.dhcpv6Soliciting)).
  vm_compute. repeat constructor.
Defined.

(** The Advertise of the server, which has no Preference option, after
    the first Solicit: the server is recorded with preference 0 and
    the client stays in SOLICIT. *)
Lemma advertise_preference_witness :
  let m := Scenario.advertise Cases.serverDuid in
  let r := Dhcpv6.dhcpv6ParseAdvertise Stock.dhcpv6Lib m
             (Scenario.dhcpv6Length m) Scenario.dhcpv6FirstSolicit in
  fst r = NO_ERROR /\
  Dhcpv6.serverPreference (ctx (snd r)) = 0 /\
  Dhcpv6.serverIdLength (ctx (snd r)) = 14 /\
  Dhcpv6.state (ctx (snd r)) = Dhcpv6.DHCPV6_STATE_SOLICIT.
Proof.
  cbv zeta.
  edestruct (advertise_preference Stock.dhcpv6Lib Scenario.dhcpv6FirstSolicit
               (Scenario.advertise Cases.serverDuid)
               (Scenario.dhcpv6Length (Scenario.advertise Cases.serverDuid)))
    as (H1 & _ & H3 & H4 & _ & _ & H7 & _);
    [ vm_compute; first [ reflexivity | split; reflexivity
                        | intros H; discriminate H ] .. | ].
  destruct H4 as [H4 _]; [ vm_compute; reflexivity | ].
  destruct H7 as [H7 _];
    [ vm_compute; discriminate | vm_compute; discriminate | ].
  split; [ exact H1 | split; [ exact H3 | split; [ exact H4 | exact H7 ] ] ].
Defined.

(** The timeout of the first Solicit, 1000 ms less the 100 ms that the
    random source of the scenario gives, randomized once more. *)
Lemma randomization_within_tenth_witness :
  let w := Scenario.dhcpv6FirstSolicit in
  let w' := exec Dhcpv6.randomizeTimeout w in
  Dhcpv6.timeout (ctx w) = 900 /\
  810 <= Dhcpv6.timeout (ctx w') <= 990.
Proof.
  cbv zeta. split; [ vm_compute; reflexivity | ].
  destruct (randomization_within_tenth Scenario.dhcpv6FirstSolicit)
    as (H & _).
  - vm_compute. split; discriminate.
  - exact H.
Defined.

(** The started client, 100 s after boot: SOLICIT, after a delay of
    at most 1000 ms. *)
Lemma first_message_delay_witness :
  let w := Stock.atTime 100000 Scenario.dhcpv6Started in
  let w' := exec (Dhcpv6.dhcpv6ClientTick Stock.dhcpv6Lib) w in
  Dhcpv6.state (ctx w') = Dhcpv6.DHCPV6_STATE_SOLICIT /\
  0 <= Dhcpv6.timeout (ctx w') <= 1000.
Proof.
  cbv zeta.
  destruct (first_message_delay Stock.dhcpv6Lib
              (Stock.atTime 100000 Scenario.dhcpv6Started)) as [H _];
    [ left; vm_compute; reflexivity | ].
  destruct H as (H1 & H2 & _);
    [ vm_compute; reflexivity | vm_compute; reflexivity | ].
  split; [ exact H1 | exact H2 ].
Defined.

(** The first Solicit follows a Router Solicitation.  One second
    later, without an Advertise, the Solicit is sent again: the
    timeout was 900 ms, the new one is 1800 ms within 10 %, and the
    message is of type SOLICIT with the transaction id kept.  With the
    Advertise of the server recorded the client goes on to REQUEST. *)
Lemma solicit_retransmission_witness :
  let u := Stock.atTime 101000 Scenario.dhcpv6Soliciting in
  let w := Stock.atTime 102000 Scenario.dhcpv6FirstSolicit in
  let v := Stock.atTime 102000
             (Cases.dhcpv6Receive (Scenario.advertise Cases.serverDuid)
                Scenario.dhcpv6FirstSolicit) in
  let u' := exec (Dhcpv6.dhcpv6ClientTick Stock.dhcpv6Lib) u in
  let w' := exec (Dhcpv6.dhcpv6ClientTick Stock.dhcpv6Lib) w in
  let v' := exec (Dhcpv6.dhcpv6ClientTick Stock.dhcpv6Lib) v in
  (exists m evs,
     out u' = out u ++ [EvAcquireMutex; EvNdpSendRouterSol] ++
              [EvUdpSendDatagram 546
                 (IpAddr6 DHCPV6_ALL_RELAY_AGENTS_AND_SERVERS_ADDR) 547
                 (PayloadDhcpv6 m) 0] ++ evs ++ [EvReleaseMutex] /\
     msgType m = Dhcpv6.DHCPV6_MSG_TYPE_SOLICIT) /\
  (Dhcpv6.timeout (ctx w) = 900 /\
   Dhcpv6.state (ctx w') = Dhcpv6.DHCPV6_STATE_SOLICIT /\
   Dhcpv6.retransmitCount (ctx w') = 2 /\
   1620 <= Dhcpv6.timeout (ctx w') <= 1980 /\
   sends (out w') = (sends (out w) + 1)%nat /\
   exists m evs,
     out w' = out w ++ [EvAcquireMutex] ++
              [EvUdpSendDatagram 546
                 (IpAddr6 DHCPV6_ALL_RELAY_AGENTS_AND_SERVERS_ADDR) 547
                 (PayloadDhcpv6 m) 0] ++ evs ++ [EvReleaseMutex] /\
     msgType m = Dhcpv6.DHCPV6_MSG_TYPE_SOLICIT /\
     transactionId6 m = STORE24BE (Dhcpv6.transactionId (ctx w))) /\
  (Dhcpv6.state (ctx v') = Dhcpv6.DHCPV6_STATE_REQUEST /\
   sends (out v') = sends (out v)).
Proof.
  cbv zeta.
  split; [ | split ].
  - destruct (solicit_retransmission Stock.dhcpv6Lib
                (Stock.atTime 101000 Scenario.dhcpv6Soliciting))
      as (H & _).
    + vm_compute. reflexivity.
    + vm_compute. discriminate.
    + vm_compute. split; [ discriminate | reflexivity ].
    + destruct H as (_ & _ & _ & _ & _ & _ & _ & _ & _ & Hout);
        [ vm_compute; reflexivity | ].
      settle Hout.
      eexists. eexists. split; [ exact Hout | reflexivity ].
  - destruct (solicit_retransmission Stock.dhcpv6Lib
                (Stock.atTime 102000 Scenario.dhcpv6FirstSolicit))
      as (_ & _ & H & _).
    + vm_compute. reflexivity.
    + vm_compute. discriminate.
    + vm_compute. split; [ discriminate | reflexivity ].
    + destruct H as (H1 & H2 & _ & _ & _ & H6 & _ & H8 & Hout);
        [ vm_compute; discriminate | vm_compute; reflexivity | ].
      split; [ vm_compute; reflexivity | ].
      split; [ exact H1 | ].
      split; [ exact H2 | ].
      split; [ with_rt H8 1800; exact H8 | ].
      split; [ exact H6 | ].
      settle Hout.
      eexists. eexists.
      split; [ exact Hout | split; vm_compute; reflexivity ].
  - destruct (solicit_retransmission Stock.dhcpv6Lib
                (Stock.atTime 102000
                   (Cases.dhcpv6Receive (Scenario.advertise Cases.serverDuid)
                      Scenario.dhcpv6FirstSolicit)))
      as (_ & H & _ & _).
    + vm_compute. reflexivity.
    + vm_compute. discriminate.
    + vm_compute. split; [ discriminate | reflexivity ].
    + destruct H as (H1 & _ & _ & _ & _ & H6);
        [ vm_compute; discriminate | vm_compute; discriminate | ].
      split; [ exact H1 | exact H6 ].
Defined.

(** The first Request: one datagram, a timeout of 1000 ms within
    10 %, one transmission counted.  The second, at 103 s: the
    timeout was 900 ms, the new one is 1800 ms within 10 %, and the
    message is of type REQUEST, with the transaction id kept and the
    DUID of the server. *)
Lemma request_retransmission_witness :
  let w := Stock.atTime 102010 Cases.dhcpv6Requesting in
  let w' := exec (Dhcpv6.dhcpv6ClientTick Stock.dhcpv6Lib) w in
  let v := Stock.atTime 103000 Cases.dhcpv6Requested in
  let v' := exec (Dhcpv6.dhcpv6ClientTick Stock.dhcpv6Lib) v in
  (Dhcpv6.state (ctx w') = Dhcpv6.DHCPV6_STATE_REQUEST /\
   Dhcpv6.retransmitCount (ctx w') = 1 /\
   900 <= Dhcpv6.timeout (ctx w') <= 1100 /\
   sends (out w') = (sends (out w) + 1)%nat) /\
  (Dhcpv6.timeout (ctx v) = 900 /\
   Dhcpv6.retransmitCount (ctx v') = 2 /\
   1620 <= Dhcpv6.timeout (ctx v') <= 1980 /\
   exists m evs,
     out v' = out v ++ [EvAcquireMutex] ++
              [EvUdpSendDatagram 546
                 (IpAddr6 DHCPV6_ALL_RELAY_AGENTS_AND_SERVERS_ADDR) 547
                 (PayloadDhcpv6 m) 0] ++ evs ++ [EvReleaseMutex] /\
     msgType m = Dhcpv6.DHCPV6_MSG_TYPE_REQUEST /\
     transactionId6 m = STORE24BE (Dhcpv6.transactionId (ctx v)) /\
     option_map opt6_value
       (Stock.dhcpv6GetOption (dhcpv6_options m) (len (dhcpv6_options m))
          Dhcpv6.DHCPV6_OPTION_SERVERID) = Some Cases.serverDuid).
Proof.
  cbv zeta.
  split.
  - destruct (request_retransmission Stock.dhcpv6Lib
                (Stock.atTime 102010 Cases.dhcpv6Requesting))
      as (H & _ & _).
    + vm_compute. reflexivity.
    + vm_compute. discriminate.
    + vm_compute. discriminate.
    + destruct H as (H1 & H2 & _ & _ & _ & H6 & _ & H8 & _);
        [ vm_compute; reflexivity | ].
      destruct H6 as [H6 _]; [ vm_compute; reflexivity | ].
      split; [ exact H1 | split; [ exact H2 | split; [ exact H6 | exact H8 ] ] ].
  - destruct (request_retransmission Stock.dhcpv6Lib
                (Stock.atTime 103000 Cases.dhcpv6Requested))
      as (H & _ & _).
    + vm_compute. reflexivity.
    + vm_compute. discriminate.
    + vm_compute. discriminate.
    + destruct H as (_ & H2 & _ & _ & H5 & _ & _ & _ & Hout);
        [ vm_compute; reflexivity | ].
      split; [ vm_compute; reflexivity | ].
      split; [ rewrite H2; vm_compute; reflexivity | ].
      split; [ with_rt H5 1800; exact H5 | ].
      settle Hout.
      eexists. eexists.
      split; [ exact Hout | ].
      split; [ reflexivity | ].
      split; vm_compute; reflexivity.
Defined.

(** The init of the scenario: the DUID-LL of the interface
    00-11-22-33-44-55, in a buffer of 130 bytes. *)
Lemma dhcpv6ClientInit_outcomes_witness :
  let r := Dhcpv6.dhcpv6ClientInit Stock.dhcpv6Lib Ref
             (Some Scenario.dhcpv6Settings) Scenario.dhcpv6Blank in
  fst r = NO_ERROR /\
  Dhcpv6.state (ctx (snd r)) = Dhcpv6.DHCPV6_STATE_INIT /\
  firstn 10 (Dhcpv6.clientId (ctx (snd r))) =
    [x00; x03; x00; x01; x00; x11; x22; x33; x44; x55] /\
  len (Dhcpv6.clientId (ctx (snd r))) = 130.
Proof.
  cbv zeta.
  destruct (dhcpv6ClientInit_outcomes Stock.dhcpv6Lib Scenario.dhcpv6Blank
              Scenario.dhcpv6Settings) as (_ & _ & H & _);
    [ reflexivity | ].
  destruct H as (H1 & _ & H3 & _ & _ & H6 & _);
    [ reflexivity | reflexivity | ].
  destruct H6 as [H6 H7]; [ reflexivity | vm_compute; discriminate | ].
  split; [ exact H1 | split; [ exact H3 | split; [ exact H6 | exact H7 ] ] ].
Defined.

(** The Reply of the server to the Request: the client is BOUND to
    2001:db8::1. *)
Lemma reply_outcome_witness :
  let w := Stock.atTime 102500 Cases.dhcpv6Requested in
  let r := Dhcpv6.dhcpv6ParseReply Stock.dhcpv6Lib Cases.reply
             (Scenario.dhcpv6Length Cases.reply) w in
  fst r = NO_ERROR /\
  exists s, boundBy s w (snd r) /\
  globalAddr (ipv6Config (netif (snd r))) =
    [x20; x01; x0d; xb8] ++ repeat x00 11 ++ [x01].
Proof.
  cbv zeta. split; [ vm_compute; reflexivity | ].
  destruct (reply_outcome Stock.dhcpv6Lib
              (Stock.atTime 102500 Cases.dhcpv6Requested) Cases.reply
              (Scenario.dhcpv6Length Cases.reply)) as [H _].
  destruct H as (s & _ & H); [ vm_compute; reflexivity | ].
  exists s. split; [ exact H | vm_compute; reflexivity ].
Defined.


(** The worlds of the scenarios are in the states their names say. *)
Lemma cases_states :
  Dhcp.state (ctx Cases.dhcpDiscovering) = Dhcp.DHCP_STATE_SELECTING /\
  Slaac.state (ctx Cases.slaacProbing) = Slaac.SLAAC_STATE_LINK_LOCAL_ADDR_DAD /\
  Dhcp.state (ctx Cases.dhcpBound) = Dhcp.DHCP_STATE_BOUND /\
  Dhcp.state (ctx Cases.dhcpBoundForever) = Dhcp.DHCP_STATE_BOUND /\
  Dhcp.t1 (ctx Cases.dhcpBoundForever) = 0xFFFFFFFF /\
  Dhcp.state (ctx Cases.dhcpRenewing) = Dhcp.DHCP_STATE_RENEWING /\
  Dhcpv6.state (ctx Cases.dhcpv6Requesting) = Dhcpv6.DHCPV6_STATE_REQUEST /\
  Dhcpv6.state (ctx Cases.dhcpv6Requested) = Dhcpv6.DHCPV6_STATE_REQUEST /\
  Dhcpv6.retransmitCount (ctx Cases.dhcpv6Requested) = 1 /\
  Dhcpv6.state (ctx Cases.dhcpv6Bound) = Dhcpv6.DHCPV6_STATE_BOUND.
Proof. repeat split; vm_compute; reflexivity. Qed.
